(** * terraform-provider-docker: the compose resource, the convergence loop,
      the Read operations and the provider configuration

    A shallow embedding of the parts of the provider that carry logic of
    their own:
    - [ComposeResource] (internal/provider, compose resource): service
      ordering, Create and Delete;
    - [ServiceResource.waitForConvergence];
    - the [Read] operation of every resource;
    - [dockerhub.NewClient] and [DockerProvider.Configure];
    - [parseDuration] of the container resource;
    - [Create], [Update], [Delete] and [ImportState] of the Docker Hub
      resources, and the paged Docker Hub data sources;
    - [Read] and [Update] of the compose resource and the conversion of
      a compose file ([parseService], [parseNetwork], [parseVolume]).

    Conventions.  A Go [map] is a [gmap]; a [map[string]bool] that only ever
    stores [true] is a [gset].  A Go [error] is the text of [err.Error()].
    [(T, error)] results are [Error + T].  A [types.String] of the plugin
    framework is an [option string] ([None] is null).  The Docker daemon and
    the Docker Hub service are outside the repository: the provider code is
    written against an interface of the calls it makes, and every call is
    recorded in a trace. *)

From Stdlib Require Import ZArith Lia Ascii DecimalString.
From stdpp Require Import gmap strings list sorting fin_maps.

Open Scope string_scope.
Open Scope list_scope.

(** ** Go basics *)

Definition Error := string.
Definition Result (A : Type) : Type := (Error + A)%type.

(** [types.String]: [None] is the null value. *)
Definition IsNull {A} (v : option A) : bool :=
  match v with None => true | Some _ => false end.
Definition ValueString (v : option string) : string := default "" v.
Definition ValueBool (v : option bool) : bool := default false v.

(** [strings.Contains] *)
Fixpoint Contains (s substr : string) : bool :=
  if String.prefix substr s then true
  else match s with
       | EmptyString => false
       | String _ s' => Contains s' substr
       end.

(** [strings.TrimPrefix] *)
Definition TrimPrefix (s prefix : string) : string :=
  if String.prefix prefix s
  then String.substring (String.length prefix)
         (String.length s - String.length prefix) s
  else s.

(** [strings.Split] on a one-byte separator. *)
Fixpoint Split (s : string) (sep : ascii) : list string :=
  match s with
  | EmptyString => [EmptyString]
  | String c s' =>
      if Ascii.eqb c sep then EmptyString :: Split s' sep
      else match Split s' sep with
           | h :: t => String c h :: t
           | [] => [String c EmptyString]
           end
  end.

(** [fmt.Sprintf("%d", n)] *)
Definition decimal (n : Z) : string := NilZero.string_of_int (Z.to_int n).

(** ** compose-go types, as far as the resource uses them *)

Module composetypes.

(** [types.ServiceDependency]; the resource only ever stores its zero value. *)
Record ServiceDependency := {
  Condition : string;
  Restart : bool;
  Required : bool
}.

Record ServiceVolumeConfig := {
  vType : string;
  Source : string;
  Target : string;
  ReadOnly : bool
}.

Record ServiceConfig := {
  Name : string;
  Image : string;
  Command : list string;
  Entrypoint : list string;
  Hostname : string;
  WorkingDir : string;
  User : string;
  Privileged : bool;
  RestartPolicy : string;
  Volumes : list ServiceVolumeConfig;
  Networks : gset string;
  DependsOn : gmap string ServiceDependency
}.

Record NetworkConfig := { nDriver : string; nExternal : bool }.
Record VolumeConfig := { vDriver : string; vExternal : bool }.

Record Project := {
  pName : string;
  pServices : gmap string ServiceConfig;
  pNetworks : gmap string NetworkConfig;
  pVolumes : gmap string VolumeConfig
}.

(** The zero value Go returns for a missing key of [project.Services]. *)
Definition zeroServiceConfig : ServiceConfig :=
  {| Name := ""; Image := ""; Command := []; Entrypoint := [];
     Hostname := ""; WorkingDir := ""; User := ""; Privileged := false;
     RestartPolicy := ""; Volumes := []; Networks := ∅; DependsOn := ∅ |}.

Definition zeroServiceDependency : ServiceDependency :=
  {| Condition := ""; Restart := false; Required := false |}.

End composetypes.

Import composetypes.

(** [project.Services[name]] *)
Definition serviceOf (project : Project) (name : string) : ServiceConfig :=
  default zeroServiceConfig (pServices project !! name).

(** The key set of [service.DependsOn] for [project.Services[name]]. *)
Definition dependsOn (project : Project) (name : string) : list string :=
  elements (dom (DependsOn (serviceOf project name))).

(** [sort.Strings]: ascending byte-wise order. *)
Definition string_le (a b : string) : Prop := String.leb a b = true.

Global Instance string_le_dec : RelDecision string_le.
Proof. intros a b. unfold string_le. apply _. Defined.

Definition sortStrings (l : list string) : list string :=
  merge_sort string_le l.

(** ** ComposeResource.getServiceOrder

    [for dep := range service.DependsOn] ranges over a Go map, whose
    iteration order is unspecified.  [mapRange name keys] is the order in
    which the loop in [visit name] yields the keys; [visit] runs that loop
    at most once per name, so one order per name is fully general.
    [mapRangeServices] is the order of [for name := range project.Services]. *)

Record visitState := {
  visited : gset string;
  order : list string
}.

Definition visitStep (v : string -> visitState -> option visitState)
    (acc : option visitState) (name : string) : option visitState :=
  match acc with
  | Some s => v name s
  | None => None
  end.

Section getServiceOrder.

Variable mapRange : string -> list string -> list string.
Variable mapRangeServices : list string -> list string.
Variable project : Project.

(** The closure [visit]; [fuel] bounds the recursion depth. *)
Fixpoint visit (fuel : nat) (name : string) (st : visitState)
  : option visitState :=
  match fuel with
  | O => None
  | S fuel' =>
      if decide (name ∈ visited st) then Some st
      else
        let st1 := {| visited := {[ name ]} ∪ visited st; order := order st |} in
        match
          foldl (visitStep (visit fuel')) (Some st1)
                (mapRange name (dependsOn project name))
        with
        | Some st2 => Some {| visited := visited st2; order := order st2 ++ [name] |}
        | None => None
        end
  end.

(** Every name [visit] can be called with: the service names and the
    names some service depends on. *)
Definition universe : gset string :=
  dom (pServices project) ∪
  ⋃ ((fun p => dom (DependsOn p.2)) <$> map_to_list (pServices project)).

Definition serviceNames : list string :=
  sortStrings (mapRangeServices (elements (dom (pServices project)))).

Definition getServiceOrder_fuel (fuel : nat) : option (list string) :=
  order <$> foldl (visitStep (visit fuel))
                  (Some {| visited := ∅; order := [] |}) serviceNames.

(** The recursion of [visit] is never deeper than the number of distinct
    names, so this much fuel is always enough ([getServiceOrder_total]). *)
Definition getServiceOrder : list string :=
  default [] (getServiceOrder_fuel (S (size universe))).

End getServiceOrder.

(** Two admissible iteration orders. *)
Definition rangeInOrder (_ : string) (keys : list string) : list string := keys.
Definition rangeReversed (_ : string) (keys : list string) : list string := reverse keys.
Definition rangeServicesInOrder (keys : list string) : list string := keys.

Definition mkService (name : string) (deps : list string) : ServiceConfig :=
  {| Name := name; Image := name; Command := []; Entrypoint := [];
     Hostname := ""; WorkingDir := ""; User := ""; Privileged := false;
     RestartPolicy := ""; Volumes := []; Networks := ∅;
     DependsOn := list_to_map ((fun d => (d, zeroServiceDependency)) <$> deps) |}.

Definition mkProject (name : string) (svcs : list (string * list string)) : Project :=
  {| pName := name;
     pServices := list_to_map ((fun p => (p.1, mkService p.1 p.2)) <$> svcs);
     pNetworks := ∅; pVolumes := ∅ |}.

(** [app] needs [db] and [cache]; sorted, [app] is visited first. *)
Definition app_db_cache : Project :=
  mkProject "shop" [("app", ["db"; "cache"]); ("db", []); ("cache", [])].



(** ** Plugin-framework diagnostics *)

Inductive Severity := SeverityError | SeverityWarning.

Record Diagnostic := {
  dSeverity : Severity;
  dSummary : string;
  dDetail : string
}.

Definition Diagnostics := list Diagnostic.

Definition isError (d : Diagnostic) : bool :=
  match dSeverity d with SeverityError => true | SeverityWarning => false end.

Definition HasError (ds : Diagnostics) : bool := existsb isError ds.

Definition AddError (ds : Diagnostics) (summary detail : string) : Diagnostics :=
  ds ++ [{| dSeverity := SeverityError; dSummary := summary; dDetail := detail |}].

Definition AddWarning (ds : Diagnostics) (summary detail : string) : Diagnostics :=
  ds ++ [{| dSeverity := SeverityWarning; dSummary := summary; dDetail := detail |}].

(** What [req.Plan.Get], [req.State.Get] or [req.Config.Get] hand back: the
    diagnostics of the conversion and the decoded struct. *)
Record Got (A : Type) := {
  gotDiags : Diagnostics;
  gotData : A
}.
Arguments gotDiags {A} _.
Arguments gotData {A} _.

(** ** The Docker Engine API, as the provider calls it *)

Module dockerapi.

Definition Labels := gmap string string.

(** [filters.Args]: the (key, value) pairs given to [filters.NewArgs]. *)
Definition Args := list (string * string).

(** [container.ListOptions] *)
Record ListOptions := {
  All : bool;
  Filters : Args
}.

(** An entry of the result of [ContainerList]. *)
Record ContainerSummary := {
  cID : string;
  cLabels : Labels;
  cState : string
}.

(** [types.ContainerJSON], the result of [ContainerInspect];
    [jNetwork] is [None] for nil [NetworkSettings], [jExitCode] for a
    nil [State]. *)
Record ContainerJSON := {
  jID : string;
  jName : string;
  jImage : string;
  jNetwork : option (string * string);
  jExitCode : option Z
}.

(** [network.Inspect], also the entry type of [NetworkList]. *)
Record NetworkSummary := {
  nID : string;
  nName : string;
  nDriver' : string;
  nScope : string;
  nInternal : bool;
  nAttachable : bool;
  nIngress : bool;
  nEnableIPv6 : bool;
  nOptions : gmap string string;
  nLabels : Labels
}.

(** [volume.Volume] *)
Record VolumeSummary := {
  vName : string;
  volDriver : string;
  volMountpoint : string;
  volOptions : gmap string string;
  vLabels : Labels
}.

(** [image.InspectResponse] *)
Record ImageInspect := {
  iID : string;
  iRepoDigests : list string
}.

(** [swarm.Secret] and [swarm.Config] *)
Record Secret := {
  secName : string;
  secLabels : Labels
}.

Record Config := {
  cfgName : string;
  cfgData : string;
  cfgLabels : Labels
}.

Inductive MountType := TypeVolume | TypeBind | TypeNone.

Record Mount := {
  mType : MountType;
  mSource : string;
  mTarget : string;
  mReadOnly : bool
}.

(** The arguments of [ContainerCreate]: [container.Config],
    [container.HostConfig] and [network.NetworkingConfig], without the
    environment and the port maps (they are computed from the service
    alone and decide no call). *)
Record ContainerSpec := {
  sImage : string;
  sLabels : Labels;
  sCmd : list string;
  sEntrypoint : list string;
  sHostname : string;
  sWorkingDir : string;
  sUser : string;
  sPrivileged : bool;
  sRestartPolicy : string;
  sMounts : list Mount;
  sEndpoints : gset string
}.

(** [swarm.UpdateStatus] of an inspected service. *)
Inductive UpdateState :=
| UpdateStateUpdating
| UpdateStatePaused
| UpdateStateCompleted
| UpdateStateRollbackStarted
| UpdateStateRollbackPaused
| UpdateStateRollbackCompleted.

Record UpdateStatus := {
  usState : UpdateState;
  usMessage : string
}.

(** [swarm.Service]; [svcUpdateStatus] is [None] for a nil
    [UpdateStatus], [svcGlobal] tells whether [Spec.Mode.Global] is set,
    [svcReplicas] is [None] when [Spec.Mode.Replicated] or its
    [Replicas] is nil. *)
Record Service := {
  svcID : string;
  svcName : string;
  svcLabels : Labels;
  svcGlobal : bool;
  svcReplicas : option Z;
  svcUpdateStatus : option UpdateStatus
}.

Inductive Request :=
| ContainerList (opts : ListOptions)
| ContainerInspect (name : string)
| ContainerCreate (name : string) (spec : ContainerSpec)
| ContainerStart (id : string)
| ContainerStop (id : string) (timeout : option Z)
| ContainerRemove (id : string) (force : bool)
| NetworkList (filters : Args)
| NetworkInspect (name : string)
| NetworkCreate (name driver : string) (labels : Labels)
| NetworkRemove (id : string)
| VolumeList (filters : Args)
| VolumeInspect (name : string)
| VolumeCreate (name driver : string) (labels : Labels)
| VolumeRemove (name : string) (force : bool)
| ServiceInspectWithRaw (id : string)
| ImageInspectWithRaw (name : string)
| SecretInspectWithRaw (id : string)
| ConfigInspectWithRaw (id : string).

(** The Go type of the value each call returns. *)
Definition Response (r : Request) : Type :=
  match r with
  | ContainerList _ => Result (list ContainerSummary)
  | ContainerInspect _ => Result ContainerJSON
  | ContainerCreate _ _ => Result string
  | ContainerStart _ => option Error
  | ContainerStop _ _ => option Error
  | ContainerRemove _ _ => option Error
  | NetworkList _ => Result (list NetworkSummary)
  | NetworkInspect _ => Result NetworkSummary
  | NetworkCreate _ _ _ => Result string
  | NetworkRemove _ => option Error
  | VolumeList _ => Result (list VolumeSummary)
  | VolumeInspect _ => Result VolumeSummary
  | VolumeCreate _ _ _ => Result VolumeSummary
  | VolumeRemove _ _ => option Error
  | ServiceInspectWithRaw _ => Result Service
  | ImageInspectWithRaw _ => Result ImageInspect
  | SecretInspectWithRaw _ => Result Secret
  | ConfigInspectWithRaw _ => Result Config
  end.


End dockerapi.

Import dockerapi.

(** ** Sequential calls against a remote service

    [W] is the state of the world the service lives in.  The provider code
    runs in a state monad: every request is answered before the next
    statement runs, and is appended to the trace of requests sent. *)

Record SysOf (E W : Type) := {
  world : W;
  trace : list E
}.
Arguments world {E W} _.
Arguments trace {E W} _.
Arguments Build_SysOf {E W} _ _.

Definition MOf (E W A : Type) : Type := SysOf E W -> A * SysOf E W.

Definition ret {E W A} (a : A) : MOf E W A := fun s => (a, s).

Definition bind {E W A B} (m : MOf E W A) (k : A -> MOf E W B) : MOf E W B :=
  fun s => let (a, s') := m s in k a s'.

Notation "'let*' x := m 'in' k" := (bind m (fun x => k))
  (at level 10, x name, m at level 100, k at level 200, only parsing).

(** Calls against the Docker daemon: [serve] is its answer to one request. *)
Abbreviation Sys := (SysOf Request).
Abbreviation M := (MOf Request).

Definition Daemon (W : Type) : Type :=
  forall r : Request, W -> Response r * W.

Definition call {W} (serve : Daemon W) (r : Request) : M W (Response r) :=
  fun s =>
    let (a, w') := serve r (world s) in
    (a, {| world := w'; trace := trace s ++ [r] |}).

(** [for _, x := range xs { if err := f(x); err != nil { ...; return } }]:
    runs [f] on the elements in turn and stops at the first error,
    returning the element it failed on. *)
Fixpoint forEachUntilError {E W A} (f : A -> MOf E W (option Error)) (xs : list A)
  : MOf E W (option (A * Error)) :=
  match xs with
  | [] => ret None
  | x :: xs' =>
      let* e := f x in
      match e with
      | Some err => ret (Some (x, err))
      | None => forEachUntilError f xs'
      end
  end.

(** [for _, x := range xs { f(x) }] *)
Fixpoint forEach {E W A} (f : A -> MOf E W unit) (xs : list A) : MOf E W unit :=
  match xs with
  | [] => ret tt
  | x :: xs' => let* _ := f x in forEach f xs'
  end.

(** ** ComposeResource *)

Record ComposeResourceModel := {
  ID : option string;
  ProjectName : option string;
  ComposeFile : option string;
  ComposeContent : option string;
  RemoveOrphans : option bool;
  RemoveVolumes : option bool;
  ForceRecreate : option bool;
  ContentHash : option string;
  Services : option (list string);
  RunningServices : option Z
}.

Definition withContentHash (data : ComposeResourceModel) (h : string) :=
  {| ID := ID data; ProjectName := ProjectName data;
     ComposeFile := ComposeFile data; ComposeContent := ComposeContent data;
     RemoveOrphans := RemoveOrphans data; RemoveVolumes := RemoveVolumes data;
     ForceRecreate := ForceRecreate data; ContentHash := Some h;
     Services := Services data; RunningServices := RunningServices data |}.

Definition withID (data : ComposeResourceModel) (id : string) :=
  {| ID := Some id; ProjectName := ProjectName data;
     ComposeFile := ComposeFile data; ComposeContent := ComposeContent data;
     RemoveOrphans := RemoveOrphans data; RemoveVolumes := RemoveVolumes data;
     ForceRecreate := ForceRecreate data; ContentHash := ContentHash data;
     Services := Services data; RunningServices := RunningServices data |}.

Definition withRunningServices (data : ComposeResourceModel) (n : Z) :=
  {| ID := ID data; ProjectName := ProjectName data;
     ComposeFile := ComposeFile data; ComposeContent := ComposeContent data;
     RemoveOrphans := RemoveOrphans data; RemoveVolumes := RemoveVolumes data;
     ForceRecreate := ForceRecreate data; ContentHash := ContentHash data;
     Services := Services data; RunningServices := Some n |}.

Definition withServices (data : ComposeResourceModel) (l : list string) :=
  {| ID := ID data; ProjectName := ProjectName data;
     ComposeFile := ComposeFile data; ComposeContent := ComposeContent data;
     RemoveOrphans := RemoveOrphans data; RemoveVolumes := RemoveVolumes data;
     ForceRecreate := ForceRecreate data; ContentHash := ContentHash data;
     Services := Some l; RunningServices := RunningServices data |}.

(** The request of a lifecycle call: what [req.Plan.Get] (Create, Update)
    or [req.State.Get] (Read, Delete) yields, and the state the framework
    has put into the response beforehand. *)
Record ResourceRequest (Model : Type) := {
  reqGet : Got Model;
  reqPriorState : option Model
}.
Arguments reqGet {Model} _.
Arguments reqPriorState {Model} _.

(** The response: diagnostics and state; [None] is a removed (or not yet
    written) resource. *)
Record ResourceResponse (Model : Type) := {
  respDiagnostics : Diagnostics;
  respState : option Model
}.
Arguments respDiagnostics {Model} _.
Arguments respState {Model} _.
Arguments Build_ResourceResponse {Model} _ _.

Definition projectLabel : string := "com.docker.compose.project".

(** [filters.NewArgs(filters.Arg("label", "com.docker.compose.project=<name>"))] *)
Definition projectFilter (projectName : string) : Args :=
  [("label", projectLabel +:+ "=" +:+ projectName)].

Section ComposeResource.

Context {W : Type}.
Variable serve : Daemon W.

(** [os.ReadFile] *)
Variable ReadFile : string -> Result string.
(** [yaml.Unmarshal] followed by the conversion of the raw map into a
    [Project] named after the first argument ([parseService],
    [parseNetwork], [parseVolume]); the YAML library is outside the
    repository. *)
Variable loadProject : string -> string -> Result Project.
(** [fmt.Sprintf("%x", sha256.Sum256(content))] *)
Variable Sum256 : string -> string.
(** Iteration orders of the map ranges. *)
Variable mapRange : string -> list string -> list string.
Variable mapRangeServices : list string -> list string.
Variable mapRangeNetworks : list string -> list string.
Variable mapRangeVolumes : list string -> list string.

Definition parseComposeFile (data : ComposeResourceModel) : Result Project :=
  let content : Result string :=
    if negb (IsNull (ComposeFile data)) then
      match ReadFile (ValueString (ComposeFile data)) with
      | inl err => inl ("failed to read compose file: " +:+ err)
      | inr c => inr c
      end
    else if negb (IsNull (ComposeContent data)) then
      inr (ValueString (ComposeContent data))
    else inl "no compose file or content specified" in
  match content with
  | inl err => inl err
  | inr c => loadProject (ValueString (ProjectName data)) c
  end.

Definition calculateContentHash (data : ComposeResourceModel) : string :=
  let content :=
    if negb (IsNull (ComposeFile data)) then
      match ReadFile (ValueString (ComposeFile data)) with
      | inr c => c
      | inl _ => ""
      end
    else if negb (IsNull (ComposeContent data)) then
      ValueString (ComposeContent data)
    else "" in
  Sum256 content.

Definition createNetwork (projectName name : string) (config : NetworkConfig)
  : M W (option Error) :=
  if nExternal config then ret None
  else
    let networkName := projectName +:+ "_" +:+ name in
    let* r := call serve (NetworkInspect networkName) in
    match r with
    | inr _ => ret None
    | inl _ =>
        let driver := if decide (nDriver config = "") then "bridge"
                      else nDriver config in
        let* c := call serve (NetworkCreate networkName driver
                    {[ projectLabel := projectName;
                       "com.docker.compose.network" := name ]}) in
        match c with
        | inl err => ret (Some err)
        | inr _ => ret None
        end
    end.

Definition createVolume (projectName name : string) (config : VolumeConfig)
  : M W (option Error) :=
  if vExternal config then ret None
  else
    let volumeName := projectName +:+ "_" +:+ name in
    let* r := call serve (VolumeInspect volumeName) in
    match r with
    | inr _ => ret None
    | inl _ =>
        let driver := if decide (vDriver config = "") then "local"
                      else vDriver config in
        let* c := call serve (VolumeCreate volumeName driver
                    {[ projectLabel := projectName;
                       "com.docker.compose.volume" := name ]}) in
        match c with
        | inl err => ret (Some err)
        | inr _ => ret None
        end
    end.

Definition containerName (projectName serviceName : string) : string :=
  projectName +:+ "-" +:+ serviceName +:+ "-1".

Definition restartPolicy (restart : string) : string :=
  if decide (restart = "always") then "always"
  else if decide (restart = "unless-stopped") then "unless-stopped"
  else if decide (restart = "on-failure") then "on-failure"
  else "".

Definition mountOf (projectName : string) (project : Project)
    (v : ServiceVolumeConfig) : Mount :=
  if decide (vType v = "volume" \/ vType v = "") then
    let source :=
      match pVolumes project !! Source v with
      | Some _ => projectName +:+ "_" +:+ Source v
      | None => Source v
      end in
    {| mType := TypeVolume; mSource := source; mTarget := Target v;
       mReadOnly := ReadOnly v |}
  else if decide (vType v = "bind") then
    {| mType := TypeBind; mSource := Source v; mTarget := Target v;
       mReadOnly := ReadOnly v |}
  else {| mType := TypeNone; mSource := ""; mTarget := ""; mReadOnly := false |}.

Definition containerSpec (projectName serviceName : string)
    (service : ServiceConfig) (project : Project) : ContainerSpec :=
  {| sImage := Image service;
     sLabels := {[ projectLabel := projectName;
                   "com.docker.compose.service" := serviceName ]};
     sCmd := Command service;
     sEntrypoint := Entrypoint service;
     sHostname := Hostname service;
     sWorkingDir := WorkingDir service;
     sUser := User service;
     sPrivileged := Privileged service;
     sRestartPolicy := restartPolicy (RestartPolicy service);
     sMounts := filter (fun m => mTarget m <> "")
                       (mountOf projectName project <$> Volumes service);
     sEndpoints :=
       if decide (Networks service = ∅)
       then {[ projectName +:+ "_default" ]}
       else set_map (fun netName => projectName +:+ "_" +:+ netName)
                    (Networks service) |}.

Definition createService (projectName serviceName : string)
    (service : ServiceConfig) (project : Project) : M W (option Error) :=
  let name := containerName projectName serviceName in
  let* r := call serve (ContainerInspect name) in
  match r with
  | inr _ => call serve (ContainerStart name)
  | inl _ =>
      let* c := call serve (ContainerCreate name
                  (containerSpec projectName serviceName service project)) in
      match c with
      | inl err => ret (Some ("failed to create container: " +:+ err))
      | inr id =>
          let* e := call serve (ContainerStart id) in
          match e with
          | Some err => ret (Some ("failed to start container: " +:+ err))
          | None => ret None
          end
      end
  end.

Definition removeProjectContainers (projectName : string) : M W unit :=
  let* r := call serve (ContainerList
              {| All := true; Filters := projectFilter projectName |}) in
  match r with
  | inl _ => ret tt
  | inr containers =>
      forEach (fun c =>
                 let* _ := call serve (ContainerStop (cID c) (Some 10%Z)) in
                 let* _ := call serve (ContainerRemove (cID c) true) in
                 ret tt) containers
  end.

Definition removeProjectNetworks (projectName : string) : M W unit :=
  let* r := call serve (NetworkList (projectFilter projectName)) in
  match r with
  | inl _ => ret tt
  | inr networks =>
      forEach (fun n => let* _ := call serve (NetworkRemove (nID n)) in ret tt)
              networks
  end.

Definition removeProjectVolumes (projectName : string) : M W unit :=
  let* r := call serve (VolumeList (projectFilter projectName)) in
  match r with
  | inl _ => ret tt
  | inr volumes =>
      forEach (fun v => let* _ := call serve (VolumeRemove (vName v) true) in ret tt)
              volumes
  end.

Definition removeOrphanContainers (projectName : string) (project : Project)
  : M W unit :=
  let* r := call serve (ContainerList
              {| All := true; Filters := projectFilter projectName |}) in
  match r with
  | inl _ => ret tt
  | inr containers =>
      forEach (fun c =>
                 let serviceName :=
                   default "" (cLabels c !! "com.docker.compose.service") in
                 match pServices project !! serviceName with
                 | Some _ => ret tt
                 | None =>
                     let* _ := call serve (ContainerStop (cID c) (Some 10%Z)) in
                     let* _ := call serve (ContainerRemove (cID c) true) in
                     ret tt
                 end) containers
  end.

(** [project] is [None] for a nil [*Project]. *)
Definition refreshStackInfo (data : ComposeResourceModel)
    (project : option Project) : M W ComposeResourceModel :=
  let projectName := ValueString (ProjectName data) in
  let* r := call serve (ContainerList
              {| All := false;
                 Filters := projectFilter projectName ++ [("status", "running")] |}) in
  let data1 :=
    match r with
    | inr containers => withRunningServices data (Z.of_nat (length containers))
    | inl _ => data
    end in
  match project with
  | Some p => ret (withServices data1 (serviceNames mapRangeServices p))
  | None => ret data1
  end.

(** The network, volume and service loops of [Create]; the first error
    ends the call with its diagnostic. *)
Definition createNetworks (projectName : string) (project : Project)
  : M W (option (string * Error)) :=
  forEachUntilError
    (fun name =>
       match pNetworks project !! name with
       | Some cfg => createNetwork projectName name cfg
       | None => ret None
       end)
    (mapRangeNetworks (elements (dom (pNetworks project)))).

Definition createVolumes (projectName : string) (project : Project)
  : M W (option (string * Error)) :=
  forEachUntilError
    (fun name =>
       match pVolumes project !! name with
       | Some cfg => createVolume projectName name cfg
       | None => ret None
       end)
    (mapRangeVolumes (elements (dom (pVolumes project)))).

Definition createServices (projectName : string) (project : Project)
  : M W (option (string * Error)) :=
  let serviceOrder := getServiceOrder mapRange mapRangeServices project in
  forEachUntilError
    (fun serviceName =>
       createService projectName serviceName (serviceOf project serviceName) project)
    serviceOrder.

Definition Create (req : ResourceRequest ComposeResourceModel)
  : M W (ResourceResponse ComposeResourceModel) :=
  let diags := gotDiags (reqGet req) in
  let state := reqPriorState req in
  let data := gotData (reqGet req) in
  if HasError diags then ret (Build_ResourceResponse diags state)
  else if IsNull (ComposeFile data) && IsNull (ComposeContent data) then
    ret (Build_ResourceResponse
           (AddError diags "Missing Compose Configuration"
              "Either compose_file or compose_content must be specified.")
           state)
  else
    let projectName := ValueString (ProjectName data) in
    match parseComposeFile data with
    | inl err =>
        ret (Build_ResourceResponse
               (AddError diags "Compose Parse Error"
                  ("Failed to parse compose file: " +:+ err)) state)
    | inr project =>
        let data := withContentHash data (calculateContentHash data) in
        let* n := createNetworks projectName project in
        match n with
        | Some (name, err) =>
            ret (Build_ResourceResponse
                   (AddError diags "Network Create Error"
                      ("Failed to create network " +:+ name +:+ ": " +:+ err))
                   state)
        | None =>
        let* v := createVolumes projectName project in
        match v with
        | Some (name, err) =>
            ret (Build_ResourceResponse
                   (AddError diags "Volume Create Error"
                      ("Failed to create volume " +:+ name +:+ ": " +:+ err))
                   state)
        | None =>
        let* s := createServices projectName project in
        match s with
        | Some (serviceName, err) =>
            ret (Build_ResourceResponse
                   (AddError diags "Service Create Error"
                      ("Failed to create service " +:+ serviceName +:+ ": " +:+ err))
                   state)
        | None =>
            let data := withID data projectName in
            let* data := refreshStackInfo data (Some project) in
            ret (Build_ResourceResponse diags (Some data))
        end end end
    end.

Definition Read (req : ResourceRequest ComposeResourceModel)
  : M W (ResourceResponse ComposeResourceModel) :=
  let diags := gotDiags (reqGet req) in
  let state := reqPriorState req in
  let data := gotData (reqGet req) in
  if HasError diags then ret (Build_ResourceResponse diags state)
  else
    let project :=
      match parseComposeFile data with
      | inr p => Some p
      | inl _ => None
      end in
    let data := withContentHash data (calculateContentHash data) in
    let* data := refreshStackInfo data project in
    ret (Build_ResourceResponse diags (Some data)).

Definition Update (req : ResourceRequest ComposeResourceModel)
  : M W (ResourceResponse ComposeResourceModel) :=
  let diags := gotDiags (reqGet req) in
  let state := reqPriorState req in
  let data := gotData (reqGet req) in
  if HasError diags then ret (Build_ResourceResponse diags state)
  else
    let projectName := ValueString (ProjectName data) in
    match parseComposeFile data with
    | inl err =>
        ret (Build_ResourceResponse
               (AddError diags "Compose Parse Error"
                  ("Failed to parse compose file: " +:+ err)) state)
    | inr project =>
        let data := withContentHash data (calculateContentHash data) in
        let* _ := forEach
                    (fun name =>
                       match pNetworks project !! name with
                       | Some cfg => let* _ := createNetwork projectName name cfg in ret tt
                       | None => ret tt
                       end)
                    (mapRangeNetworks (elements (dom (pNetworks project)))) in
        let* _ := forEach
                    (fun name =>
                       match pVolumes project !! name with
                       | Some cfg => let* _ := createVolume projectName name cfg in ret tt
                       | None => ret tt
                       end)
                    (mapRangeVolumes (elements (dom (pVolumes project)))) in
        let* s :=
          if ValueBool (ForceRecreate data) then
            let* _ := removeProjectContainers projectName in
            createServices projectName project
          else ret None in
        match s with
        | Some (serviceName, err) =>
            ret (Build_ResourceResponse
                   (AddError diags "Service Create Error"
                      ("Failed to recreate service " +:+ serviceName +:+ ": " +:+ err))
                   state)
        | None =>
            let* _ := if ValueBool (RemoveOrphans data)
                      then removeOrphanContainers projectName project
                      else ret tt in
            let* data := refreshStackInfo data (Some project) in
            ret (Build_ResourceResponse diags (Some data))
        end
    end.

Definition Delete (req : ResourceRequest ComposeResourceModel)
  : M W (ResourceResponse ComposeResourceModel) :=
  let diags := gotDiags (reqGet req) in
  let state := reqPriorState req in
  let data := gotData (reqGet req) in
  if HasError diags then ret (Build_ResourceResponse diags state)
  else
    let projectName := ValueString (ProjectName data) in
    let* _ := removeProjectContainers projectName in
    let* _ := removeProjectNetworks projectName in
    let* _ := if ValueBool (RemoveVolumes data)
              then removeProjectVolumes projectName
              else ret tt in
    ret (Build_ResourceResponse diags state).

End ComposeResource.

(** ** ServiceResource.waitForConvergence

    Time is the reading of a clock that belongs to the world: [Now] is
    [time.Now()] in nanoseconds, [Sleep d] is [time.Sleep(d)].  Durations
    and instants are unbounded integers (the wrap-around of [int64]
    nanoseconds, some 292 years, is not modelled). *)

(** An element of the [converge_config] block. *)
Record ConvergeConfigModel := {
  Delay : option string;
  Timeout : option string
}.

(** A [tftypes.List] of such blocks: [None] is null; otherwise the elements
    and the diagnostics [ElementsAs] reports when decoding them. *)
Definition ConvergeConfigList := option (Got (list ConvergeConfigModel)).

Section waitForConvergence.

Context {W : Type}.
Variable serve : Daemon W.
Variable Now : W -> Z.
Variable Sleep : Z -> W -> W.
(** [time.ParseDuration], in nanoseconds. *)
Variable ParseDuration : string -> Result Z.

Definition timeNow : M W Z := fun s => (Now (world s), s).

Definition timeSleep (d : Z) : M W unit :=
  fun s => (tt, {| world := Sleep d (world s); trace := trace s |}).

(** [d, _ := time.ParseDuration(s)]: the error is dropped, [d] is then 0. *)
Definition parsedDuration (v : option string) : Z :=
  match ParseDuration (ValueString v) with
  | inr d => d
  | inl _ => 0%Z
  end.

(** The [for time.Now().Before(deadline)] loop; [None] when [fuel]
    iterations did not end it. *)
Fixpoint convergeLoop (fuel : nat) (serviceID : string) (delay deadline : Z)
    (diagnostics : Diagnostics) : M W (option Diagnostics) :=
  match fuel with
  | O => ret None
  | S fuel' =>
      let* now := timeNow in
      if (now <? deadline)%Z then
        let* r := call serve (ServiceInspectWithRaw serviceID) in
        match r with
        | inl _ =>
            let* _ := timeSleep delay in
            convergeLoop fuel' serviceID delay deadline diagnostics
        | inr service =>
            match svcUpdateStatus service with
            | None => ret (Some diagnostics)
            | Some status =>
                match usState status with
                | UpdateStateCompleted => ret (Some diagnostics)
                | UpdateStatePaused =>
                    ret (Some (AddWarning diagnostics "Service Update Paused"
                                 ("Service " +:+ serviceID +:+ " update is paused: "
                                  +:+ usMessage status)))
                | _ =>
                    let* _ := timeSleep delay in
                    convergeLoop fuel' serviceID delay deadline diagnostics
                end
            end
        end
      else
        ret (Some (AddWarning diagnostics "Service Convergence Timeout"
                     ("Service " +:+ serviceID +:+
                      " did not converge within the timeout period")))
  end.

Definition zeroConvergeConfig : ConvergeConfigModel :=
  {| Delay := None; Timeout := None |}.

Definition waitForConvergence (fuel : nat) (serviceID : string)
    (convergeConfig : Got (list ConvergeConfigModel))
    (diagnostics : Diagnostics) : M W (option Diagnostics) :=
  let configs := gotData convergeConfig in
  let diagnostics := diagnostics ++ gotDiags convergeConfig in
  if HasError diagnostics || (length configs =? 0)%nat then
    ret (Some diagnostics)
  else
    let config := default zeroConvergeConfig (head configs) in
    let delay := parsedDuration (Delay config) in
    let timeout := parsedDuration (Timeout config) in
    let* now := timeNow in
    convergeLoop fuel serviceID delay (now + timeout)%Z diagnostics.

(** The end of [ServiceResource.Create] and [ServiceResource.Update],
    after the service has been created or updated: wait for convergence
    if configured, then write the state. *)
Definition convergeAndSetState {Model : Type} (fuel : nat) (serviceID : string)
    (convergeConfig : ConvergeConfigList) (data : Model)
    (diagnostics : Diagnostics) : M W (option (ResourceResponse Model)) :=
  let* d :=
    match convergeConfig with
    | Some cfg =>
        if (0 <? length (gotData cfg))%nat
        then waitForConvergence fuel serviceID cfg diagnostics
        else ret (Some diagnostics)
    | None => ret (Some diagnostics)
    end in
  match d with
  | Some diags => ret (Some (Build_ResourceResponse diags (Some data)))
  | None => ret None
  end.

End waitForConvergence.

(** ** A reference Docker daemon

    The daemon itself is not part of the repository.  [Engine] is a small
    model of the endpoints the provider calls, used to run the provider
    code on concrete inputs and to say which objects a call leaves alone:
    containers and networks are stored by ID and can be addressed by ID or
    by name (an ID wins), volumes by name; a [label] filter [k=v] selects
    the objects whose label [k] has the value [v]; a request the daemon
    refuses returns an error and changes nothing.  Images are stored by
    reference, swarm secrets and configs by ID. *)

Module engine.

Record ContainerData := {
  cdName : string;
  cdImage : string;
  cdLabels : Labels;
  cdState : string
}.

Record NetworkData := {
  ndName : string;
  ndDriver : string;
  ndLabels : Labels
}.

Record VolumeData := {
  vdDriver : string;
  vdLabels : Labels
}.

Record Engine := {
  containers : gmap string ContainerData;
  networks : gmap string NetworkData;
  volumes : gmap string VolumeData;
  images : gmap string ImageInspect;
  secrets : gmap string Secret;
  configs : gmap string Config;
  (** the answers to the next calls of [ServiceInspectWithRaw] *)
  inspections : list (Result Service);
  clock : Z;
  refuses : Request -> bool
}.

(** [k=v] is split at its first [=]. *)
Fixpoint cut (s : string) : string * option string :=
  match s with
  | EmptyString => (EmptyString, None)
  | String c s' =>
      if Ascii.eqb c "="%char then (EmptyString, Some s')
      else let (k, v) := cut s' in (String c k, v)
  end.

Definition matchesLabel (labels : Labels) (kv : string) : bool :=
  match cut kv with
  | (k, Some v) => bool_decide (labels !! k = Some v)
  | (k, None) => bool_decide (is_Some (labels !! k))
  end.

Definition matches (labels : Labels) (state : option string) (args : Args) : bool :=
  forallb (fun kv : string * string =>
             if decide (kv.1 = "label") then matchesLabel labels kv.2
             else if decide (kv.1 = "status") then bool_decide (state = Some kv.2)
             else false) args.

Definition summaryOf (p : string * ContainerData) : ContainerSummary :=
  {| cID := p.1; cLabels := cdLabels p.2; cState := cdState p.2 |}.

Definition inspectOf (p : string * ContainerData) : ContainerJSON :=
  {| jID := p.1; jName := "/" +:+ cdName p.2; jImage := cdImage p.2;
     jNetwork := Some ("", ""); jExitCode := Some 0%Z |}.

Definition networkOf (p : string * NetworkData) : NetworkSummary :=
  {| nID := p.1; nName := ndName p.2; nDriver' := ndDriver p.2;
     nScope := "local"; nInternal := false; nAttachable := false;
     nIngress := false; nEnableIPv6 := false; nOptions := ∅;
     nLabels := ndLabels p.2 |}.

Definition volumeOf (p : string * VolumeData) : VolumeSummary :=
  {| vName := p.1; volDriver := vdDriver p.2;
     volMountpoint := "/var/lib/docker/volumes/" +:+ p.1 +:+ "/_data";
     volOptions := ∅; vLabels := vdLabels p.2 |}.

Definition resolveContainer (e : Engine) (x : string) : option string :=
  match containers e !! x with
  | Some _ => Some x
  | None =>
      fst <$> head (filter (fun p : string * ContainerData => cdName p.2 = x)
                           (map_to_list (containers e)))
  end.

Definition resolveNetwork (e : Engine) (x : string) : option string :=
  match networks e !! x with
  | Some _ => Some x
  | None =>
      fst <$> head (filter (fun p : string * NetworkData => ndName p.2 = x)
                           (map_to_list (networks e)))
  end.

Definition setContainers (e : Engine) (m : gmap string ContainerData) : Engine :=
  {| containers := m; networks := networks e; volumes := volumes e;
     images := images e; secrets := secrets e; configs := configs e;
     inspections := inspections e; clock := clock e; refuses := refuses e |}.

Definition setNetworks (e : Engine) (m : gmap string NetworkData) : Engine :=
  {| containers := containers e; networks := m; volumes := volumes e;
     images := images e; secrets := secrets e; configs := configs e;
     inspections := inspections e; clock := clock e; refuses := refuses e |}.

Definition setVolumes (e : Engine) (m : gmap string VolumeData) : Engine :=
  {| containers := containers e; networks := networks e; volumes := m;
     images := images e; secrets := secrets e; configs := configs e;
     inspections := inspections e; clock := clock e; refuses := refuses e |}.

Definition setInspections (e : Engine) (m : list (Result Service)) : Engine :=
  {| containers := containers e; networks := networks e; volumes := volumes e;
     images := images e; secrets := secrets e; configs := configs e;
     inspections := m; clock := clock e; refuses := refuses e |}.

Definition setState (state : string) (c : ContainerData) : ContainerData :=
  {| cdName := cdName c; cdImage := cdImage c; cdLabels := cdLabels c;
     cdState := state |}.

(** The error answer of a refused request. *)
Definition refusal (r : Request) : Response r :=
  match r with
  | ContainerList _ => inl "request refused"
  | ContainerInspect _ => inl "request refused"
  | ContainerCreate _ _ => inl "request refused"
  | ContainerStart _ => Some "request refused"
  | ContainerStop _ _ => Some "request refused"
  | ContainerRemove _ _ => Some "request refused"
  | NetworkList _ => inl "request refused"
  | NetworkInspect _ => inl "request refused"
  | NetworkCreate _ _ _ => inl "request refused"
  | NetworkRemove _ => Some "request refused"
  | VolumeList _ => inl "request refused"
  | VolumeInspect _ => inl "request refused"
  | VolumeCreate _ _ _ => inl "request refused"
  | VolumeRemove _ _ => Some "request refused"
  | ServiceInspectWithRaw _ => inl "request refused"
  | ImageInspectWithRaw _ => inl "request refused"
  | SecretInspectWithRaw _ => inl "request refused"
  | ConfigInspectWithRaw _ => inl "request refused"
  end.

Definition accept (r : Request) (e : Engine) : Response r * Engine :=
  match r as r0 return Response r0 * Engine with
  | ContainerList opts =>
      (inr (summaryOf <$>
              filter (fun p : string * ContainerData =>
                        (All opts || bool_decide (cdState p.2 = "running")) &&
                        matches (cdLabels p.2) (Some (cdState p.2)) (Filters opts))
                     (map_to_list (containers e))), e)
  | ContainerInspect name =>
      match resolveContainer e name with
      | Some id =>
          match containers e !! id with
          | Some c => (inr (inspectOf (id, c)), e)
          | None => (inl ("No such container: " +:+ name), e)
          end
      | None => (inl ("No such container: " +:+ name), e)
      end
  | ContainerCreate name spec =>
      let id := "id-" +:+ name in
      match resolveContainer e name, containers e !! id with
      | None, None =>
          (inr id,
           setContainers e
             (<[id := {| cdName := name; cdImage := sImage spec;
                         cdLabels := sLabels spec;
                         cdState := "created" |}]> (containers e)))
      | _, _ => (inl ("Conflict. The container name " +:+ name +:+
                      " is already in use"), e)
      end
  | ContainerStart x =>
      match resolveContainer e x with
      | Some id => (None, setContainers e (alter (setState "running") id (containers e)))
      | None => (Some ("No such container: " +:+ x), e)
      end
  | ContainerStop x _ =>
      match resolveContainer e x with
      | Some id => (None, setContainers e (alter (setState "exited") id (containers e)))
      | None => (Some ("No such container: " +:+ x), e)
      end
  | ContainerRemove x force =>
      match resolveContainer e x with
      | Some id =>
          match containers e !! id with
          | Some c =>
              if bool_decide (cdState c = "running") && negb force
              then (Some "cannot remove a running container", e)
              else (None, setContainers e (delete id (containers e)))
          | None => (Some ("No such container: " +:+ x), e)
          end
      | None => (Some ("No such container: " +:+ x), e)
      end
  | NetworkList filters =>
      (inr (networkOf <$>
              filter (fun p : string * NetworkData => matches (ndLabels p.2) None filters)
                     (map_to_list (networks e))), e)
  | NetworkInspect name =>
      match resolveNetwork e name with
      | Some id =>
          match networks e !! id with
          | Some n => (inr (networkOf (id, n)), e)
          | None => (inl ("network " +:+ name +:+ " not found"), e)
          end
      | None => (inl ("network " +:+ name +:+ " not found"), e)
      end
  | NetworkCreate name driver labels =>
      let id := "net-" +:+ name in
      match resolveNetwork e name, networks e !! id with
      | None, None =>
          (inr id,
           setNetworks e (<[id := {| ndName := name; ndDriver := driver;
                                     ndLabels := labels |}]> (networks e)))
      | _, _ => (inl ("network with name " +:+ name +:+ " already exists"), e)
      end
  | NetworkRemove x =>
      match resolveNetwork e x with
      | Some id => (None, setNetworks e (delete id (networks e)))
      | None => (Some ("network " +:+ x +:+ " not found"), e)
      end
  | VolumeList filters =>
      (inr (volumeOf <$>
              filter (fun p : string * VolumeData => matches (vdLabels p.2) None filters)
                     (map_to_list (volumes e))), e)
  | VolumeInspect name =>
      match volumes e !! name with
      | Some l => (inr (volumeOf (name, l)), e)
      | None => (inl ("get " +:+ name +:+ ": no such volume"), e)
      end
  | VolumeCreate name driver labels =>
      match volumes e !! name with
      | Some l => (inr (volumeOf (name, l)), e)
      | None =>
          let v := {| vdDriver := driver; vdLabels := labels |} in
          (inr (volumeOf (name, v)), setVolumes e (<[name := v]> (volumes e)))
      end
  | VolumeRemove name _ =>
      match volumes e !! name with
      | Some _ => (None, setVolumes e (delete name (volumes e)))
      | None => (Some ("get " +:+ name +:+ ": no such volume"), e)
      end
  | ServiceInspectWithRaw id =>
      match inspections e with
      | a :: rest => (a, setInspections e rest)
      | [] => (inl ("service " +:+ id +:+ " not found"), e)
      end
  | ImageInspectWithRaw name =>
      match images e !! name with
      | Some i => (inr i, e)
      | None => (inl ("No such image: " +:+ name), e)
      end
  | SecretInspectWithRaw id =>
      match secrets e !! id with
      | Some x => (inr x, e)
      | None => (inl ("secret " +:+ id +:+ " not found"), e)
      end
  | ConfigInspectWithRaw id =>
      match configs e !! id with
      | Some x => (inr x, e)
      | None => (inl ("config " +:+ id +:+ " not found"), e)
      end
  end.

Definition serve : Daemon Engine :=
  fun r e => if refuses e r then (refusal r, e) else accept r e.

Definition Now (e : Engine) : Z := clock e.

(** [time.Sleep]: returns at once for a duration that is not positive. *)
Definition Sleep (d : Z) (e : Engine) : Engine :=
  {| containers := containers e; networks := networks e; volumes := volumes e;
     images := images e; secrets := secrets e; configs := configs e;
     inspections := inspections e; clock := (clock e + Z.max d 0)%Z; refuses := refuses e |}.

Definition start (e : Engine) : Sys Engine := {| world := e; trace := [] |}.

End engine.

(** ** Predicates on projects, visit states and traces *)

Section order_predicates.

Variable project : Project.

(** [edge n d]: service [n] names [d] in its [depends_on]. *)
Definition edge (n d : string) : Prop :=
  d ∈ dom (DependsOn (serviceOf project n)).

(** Finished names are visited, and no name is finished twice. *)
Definition Inv (st : visitState) : Prop :=
  (forall x, x ∈ order st -> x ∈ visited st) /\ NoDup (order st).

(** Names entered but not yet appended: the call stack of [visit]. *)
Definition grey (st : visitState) (x : string) : Prop :=
  x ∈ visited st /\ x ∉ order st.

Definition extends (st st' : visitState) : Prop :=
  visited st ⊆ visited st' /\
  (exists new, order st' = order st ++ new) /\
  (forall x, grey st' x <-> grey st x).

Definition acyclic : Prop := forall n, ~ tc edge n n.

(** Every dependency of a listed name is listed at a smaller index. *)
Definition topological (l : list string) : Prop :=
  forall i m d, l !! i = Some m -> edge m d ->
    exists j, (j < i)%nat /\ l !! j = Some d.

Definition initialState : visitState := {| visited := ∅; order := [] |}.


(** Every [depends_on] entry names a service of the project. *)
Definition dependsOnDefined : Prop :=
  forall n d, edge n d -> d ∈ dom (pServices project).

(** A decidable check of a property of all [depends_on] edges. *)
Definition checkEdges (P : string -> string -> bool) : bool :=
  forallb (fun n => forallb (P n) (dependsOn project n))
          (elements (dom (pServices project))).

End order_predicates.
(** The container names a trace asks [ContainerInspect] for, in order. *)
Definition inspected (rs : list Request) : list string :=
  omap (fun r => match r with ContainerInspect n => Some n | _ => None end) rs.

(** Calls that provision networks and volumes. *)
Definition isProvisioning (r : Request) : bool :=
  match r with
  | NetworkInspect _ | NetworkCreate _ _ _
  | VolumeInspect _ | VolumeCreate _ _ _ => true
  | _ => false
  end.

(** The calls [createService] makes for one service when it succeeds:
    inspect and start an existing container, or inspect, create and
    start a new one. *)
Definition serviceCalls (projectName : string) (project : Project)
    (serviceName : string) (rs : list Request) : Prop :=
  let name := containerName projectName serviceName in
  rs = [ContainerInspect name; ContainerStart name] \/
  exists id,
    rs = [ContainerInspect name;
          ContainerCreate name
            (containerSpec projectName serviceName
               (serviceOf project serviceName) project);
          ContainerStart id].

(** What a run of the convergence loop from [s] to [s'] with the final
    diagnostics [diags'] looks like: it polled at most [bound] times and
    made no other call, time did not run backwards, and it either added
    nothing (converged), or the warning of a paused update, or the
    timeout warning, the latter only once the deadline had passed. *)
Definition convergeOutcome {W : Type} (Now : W -> Z) (serviceID : string)
    (diags : Diagnostics) (deadline : Z) (bound : nat)
    (s : Sys W) (diags' : Diagnostics) (s' : Sys W) : Prop :=
  (exists n, (n <= bound)%nat /\
     trace s' = trace s ++ replicate n (ServiceInspectWithRaw serviceID)) /\
  (Now (world s) <= Now (world s'))%Z /\
  (diags' = diags \/
   (exists msg, diags' = AddWarning diags "Service Update Paused" msg) \/
   (diags' = AddWarning diags "Service Convergence Timeout"
               ("Service " +:+ serviceID +:+
                " did not converge within the timeout period") /\
    (deadline <= Now (world s'))%Z)).

(** The update status is terminal: absent or completed. *)
Definition converged (service : Service) : bool :=
  match svcUpdateStatus service with
  | None => true
  | Some status =>
      match usState status with UpdateStateCompleted => true | _ => false end
  end.

Definition paused (service : Service) : bool :=
  match svcUpdateStatus service with
  | None => false
  | Some status =>
      match usState status with UpdateStatePaused => true | _ => false end
  end.

Definition pausedMessage (serviceID : string) (service : Service) : string :=
  "Service " +:+ serviceID +:+ " update is paused: " +:+
  default "" (usMessage <$> svcUpdateStatus service).

Definition timeoutWarning (diags : Diagnostics) (serviceID : string) : Diagnostics :=
  AddWarning diags "Service Convergence Timeout"
    ("Service " +:+ serviceID +:+ " did not converge within the timeout period").

(** The inspection failed, or found an update that is neither finished
    nor paused. *)
Definition inProgress (r : Result Service) : bool :=
  match r with
  | inl _ => true
  | inr service => negb (converged service) && negb (paused service)
  end.

(** Polling a service until its update is terminal or the deadline has
    passed, from [s] to [s'] with the final diagnostics: once the clock
    has reached the deadline, the timeout warning is added and nothing
    is sent; before the deadline the service is inspected, and the run
    ends there when the update is found absent or completed (nothing is
    added) or paused (the warning of a paused update is added); after
    any other answer the run sleeps [delay] and goes on polling. *)
Inductive polls {W : Type} (serve : Daemon W) (Now : W -> Z)
    (Sleep : Z -> W -> W) (serviceID : string) (delay deadline : Z)
    (diags : Diagnostics) : Sys W -> Diagnostics -> Sys W -> Prop :=
| polls_timeout s :
    (deadline <= Now (world s))%Z ->
    polls serve Now Sleep serviceID delay deadline diags
          s (timeoutWarning diags serviceID) s
| polls_converged s service :
    (Now (world s) < deadline)%Z ->
    (call serve (ServiceInspectWithRaw serviceID) s).1 = inr service ->
    converged service = true ->
    polls serve Now Sleep serviceID delay deadline diags
          s diags (call serve (ServiceInspectWithRaw serviceID) s).2
| polls_paused s service :
    (Now (world s) < deadline)%Z ->
    (call serve (ServiceInspectWithRaw serviceID) s).1 = inr service ->
    paused service = true ->
    polls serve Now Sleep serviceID delay deadline diags
          s (AddWarning diags "Service Update Paused"
               (pausedMessage serviceID service))
          (call serve (ServiceInspectWithRaw serviceID) s).2
| polls_again s diags' s' :
    (Now (world s) < deadline)%Z ->
    inProgress (call serve (ServiceInspectWithRaw serviceID) s).1 = true ->
    polls serve Now Sleep serviceID delay deadline diags
          (timeSleep Sleep delay
             (call serve (ServiceInspectWithRaw serviceID) s).2).2 diags' s' ->
    polls serve Now Sleep serviceID delay deadline diags s diags' s'.

(** A run of [m] from [s] that sends at most one request. *)
Definition singleRoundTrip {W A : Type} (m : M W A) (s : Sys W) : Prop :=
  (length (trace (m s).2) <= S (length (trace s)))%nat.

(** ** The Docker Hub client (package dockerhub) *)

Module dockerhub.

(** An [http.Request], as the client builds it. *)
Record HTTPRequest := {
  Method : string;
  URL : string;
  ContentType : option string;
  Authorization : option string;
  Body : option string
}.

(** An [http.Response]; [resp.Status] is the status code followed by
    the reason phrase. *)
Record HTTPResponse := {
  StatusCode : Z;
  Reason : string;
  RespBody : string
}.

Definition Status (resp : HTTPResponse) : string :=
  decimal (StatusCode resp) +:+ " " +:+ Reason resp.

(** [httpClient.Do] against a world [H] that holds Docker Hub. *)
Definition Transport (H : Type) : Type :=
  HTTPRequest -> H -> Result HTTPResponse * H.

Abbreviation HubSys := (SysOf HTTPRequest).
Abbreviation HubM := (MOf HTTPRequest).

Definition Do {H} (transport : Transport H) (req : HTTPRequest)
  : HubM H (Result HTTPResponse) :=
  fun s =>
    let (a, h') := transport req (world s) in
    (a, {| world := h'; trace := trace s ++ [req] |}).

Definition DefaultBaseURL : string := "https://hub.docker.com/v2".

(** [Client], without the [http.Client] (its only setting is the
    constant timeout). *)
Record Client := {
  baseURL : string;
  token : string;
  username : string
}.

Record Config := {
  Username : string;
  Password : string;
  Token : string
}.

Record Repository := {
  rNamespace : string;
  rName : string;
  rDescription : string;
  rFullDescription : string;
  rIsPrivate : bool;
  rPullCount : Z;
  rStarCount : Z
}.

Record Team := {
  tName : string;
  tDescription : string;
  tMemberCount : Z
}.

Record Member := {
  mUsername : string;
  mRole : string
}.

Record RepositoryPermission := {
  pTeamName : string;
  pPermission : string
}.

Record AccessToken := {
  aUUID : string;
  aLabel : string;
  aScopes : list string;
  aIsActive : bool
}.

Definition zeroRepository : Repository :=
  {| rNamespace := ""; rName := ""; rDescription := ""; rFullDescription := "";
     rIsPrivate := false; rPullCount := 0; rStarCount := 0 |}.
Definition zeroTeam : Team := {| tName := ""; tDescription := ""; tMemberCount := 0 |}.
Definition zeroMember : Member := {| mUsername := ""; mRole := "" |}.
Definition zeroPermission : RepositoryPermission :=
  {| pTeamName := ""; pPermission := "" |}.
Definition zeroAccessToken : AccessToken :=
  {| aUUID := ""; aLabel := ""; aScopes := []; aIsActive := false |}.

(** The JSON library is outside the repository: a family of decoders,
    one per result type, and the encoding of the login payload. *)
Record JSON := {
  marshalLogin : string -> string -> string;
  decodeToken : string -> Result string;
  decodeRepository : string -> Result Repository;
  decodeTeam : string -> Result Team;
  decodeMember : string -> Result Member;
  decodeMembers : string -> Result (list Member);
  decodePermission : string -> Result RepositoryPermission;
  decodeAccessToken : string -> Result AccessToken
}.

Section client.

Context {H : Type}.
Variable transport : Transport H.
(** [http.NewRequestWithContext]: the error, if any, for a method and a
    URL (a URL that does not parse). *)
Variable NewRequestWithContext : string -> string -> option Error.
Variable json : JSON.
(** [url.PathEscape] *)
Variable PathEscape : string -> string.

(** [authenticate] stores the token in the client it is called on;
    here it returns the client so updated. *)
Definition authenticate (c : Client) (user password : string)
  : HubM H (Result Client) :=
  let body := marshalLogin json user password in
  let req := {| Method := "POST"; URL := baseURL c +:+ "/users/login";
                ContentType := Some "application/json";
                Authorization := None; Body := Some body |} in
  let* r := Do transport req in
  match r with
  | inl err => ret (inl err)
  | inr resp =>
      if decide (StatusCode resp <> 200%Z) then
        ret (inl ("authentication failed: " +:+ Status resp +:+ " - " +:+
                  RespBody resp))
      else
        match decodeToken json (RespBody resp) with
        | inl err => ret (inl err)
        | inr tok =>
            ret (inr {| baseURL := baseURL c; token := tok; username := user |})
        end
  end.

Definition NewClient (config : Config) : HubM H (Result Client) :=
  let client := {| baseURL := DefaultBaseURL; token := ""; username := "" |} in
  if decide (Token config <> "") then
    ret (inr {| baseURL := baseURL client; token := Token config;
                username := Username config |})
  else if decide (Username config <> "" /\ Password config <> "") then
    let* r := authenticate client (Username config) (Password config) in
    match r with
    | inl err => ret (inl ("authentication failed: " +:+ err))
    | inr c => ret (inr c)
    end
  else ret (inr client).

(** [doRequest]; [body] is the marshalled payload, [decode] the
    decoder of the result ([None] for a nil result).  The value is
    [None] when nothing was decoded.  A request that cannot be built is
    not sent. *)
Definition doRequest {T} (c : Client) (method path : string)
    (body : option string) (decode : option (string -> Result T))
  : HubM H (Result (option T)) :=
  match NewRequestWithContext method (baseURL c +:+ path) with
  | Some err => ret (inl err)
  | None =>
      let req := {| Method := method; URL := baseURL c +:+ path;
                    ContentType := match body with
                                   | Some _ => Some "application/json"
                                   | None => None
                                   end;
                    Authorization := if decide (token c <> "")
                                     then Some ("Bearer " +:+ token c) else None;
                    Body := body |} in
      let* r := Do transport req in
      match r with
      | inl err => ret (inl err)
      | inr resp =>
          if decide (400 <= StatusCode resp)%Z then
            ret (inl ("API error: " +:+ Status resp +:+ " - " +:+ RespBody resp))
          else
            match decode with
            | Some dec =>
                if decide (StatusCode resp <> 204%Z) then
                  match dec (RespBody resp) with
                  | inl err => ret (inl err)
                  | inr v => ret (inr (Some v))
                  end
                else ret (inr None)
            | None => ret (inr None)
            end
      end
  end.

(** The getters return the decoded value, or the zero value when the
    answer carried none. *)
Definition get {T} (zero : T) (c : Client) (path : string)
    (decode : string -> Result T) : HubM H (Result T) :=
  let* r := doRequest c "GET" path None (Some decode) in
  match r with
  | inl err => ret (inl err)
  | inr v => ret (inr (default zero v))
  end.

Definition GetRepository (c : Client) (namespace name : string) :=
  get zeroRepository c ("/repositories/" +:+ namespace +:+ "/" +:+ name)
      (decodeRepository json).

Definition GetTeam (c : Client) (orgName teamName : string) :=
  get zeroTeam c ("/orgs/" +:+ orgName +:+ "/groups/" +:+ PathEscape teamName)
      (decodeTeam json).

Definition GetOrgMember (c : Client) (orgName user : string) :=
  get zeroMember c ("/orgs/" +:+ orgName +:+ "/members/" +:+ user)
      (decodeMember json).

Definition GetRepositoryTeamPermission (c : Client)
    (namespace repoName teamName : string) :=
  get zeroPermission c
      ("/repositories/" +:+ namespace +:+ "/" +:+ repoName +:+ "/groups/" +:+
       PathEscape teamName)
      (decodePermission json).

Definition GetAccessToken (c : Client) (uuid : string) :=
  get zeroAccessToken c ("/access-tokens/" +:+ uuid) (decodeAccessToken json).

Definition ListTeamMembers (c : Client) (orgName teamName : string)
    (page pageSize : Z) : HubM H (Result (list Member)) :=
  get [] c ("/orgs/" +:+ orgName +:+ "/groups/" +:+ PathEscape teamName +:+
            "/members?page=" +:+ decimal page +:+ "&page_size=" +:+
            decimal pageSize)
      (decodeMembers json).

Definition IsTeamMember (c : Client) (orgName teamName user : string)
  : HubM H (Result bool) :=
  let* r := ListTeamMembers c orgName teamName 1 100 in
  match r with
  | inl err => ret (inl err)
  | inr members =>
      ret (inr (existsb (fun m => bool_decide (mUsername m = user)) members))
  end.

End client.

End dockerhub.

(** ** The Read operation of the resources

    Each model lists the attributes its [Read] reads or writes.
    [types.MapValueFrom] and [types.ListValueFrom] on strings report no
    diagnostics, and [resp.State.Set] on the resource's own model reports
    none either. *)

Module ImageResource.

Record Model := {
  Name : option string;
  ImageID : option string;
  RepoDigest : option string
}.

Section Read.

Context {W : Type}.
Variable serve : Daemon W.

Definition Read (req : ResourceRequest Model) : M W (ResourceResponse Model) :=
  let diags := gotDiags (reqGet req) in
  let state := reqPriorState req in
  let data := gotData (reqGet req) in
  if HasError diags then ret (Build_ResourceResponse diags state)
  else
    let key := ValueString (Name data) in
    let* r := call serve (ImageInspectWithRaw key) in
    match r with
    | inl err =>
        if Contains err "No such image" then
          ret (Build_ResourceResponse diags None)
        else
          ret (Build_ResourceResponse
                 (AddError diags "Image Read Error"
                    ("Unable to read image " +:+ key +:+ ": " +:+ err))
                 state)
    | inr found =>
        ret (Build_ResourceResponse diags
               (Some {| Name := Name data; ImageID := Some (iID found);
                        RepoDigest := head (iRepoDigests found) |}))
    end.

End Read.

End ImageResource.

Module NetworkResource.

Record Model := {
  ID : option string;
  Name : option string;
  Driver : option string;
  Internal : option bool;
  Attachable : option bool;
  Ingress : option bool;
  Scope : option string;
  IPv6 : option bool;
  Labels : option (gmap string string);
  Options : option (gmap string string)
}.

Section Read.

Context {W : Type}.
Variable serve : Daemon W.

Definition Read (req : ResourceRequest Model) : M W (ResourceResponse Model) :=
  let diags := gotDiags (reqGet req) in
  let state := reqPriorState req in
  let data := gotData (reqGet req) in
  if HasError diags then ret (Build_ResourceResponse diags state)
  else
    let key := ValueString (ID data) in
    let* r := call serve (NetworkInspect key) in
    match r with
    | inl err =>
        if Contains err "not found" || Contains err "No such network" then
          ret (Build_ResourceResponse diags None)
        else
          ret (Build_ResourceResponse
                 (AddError diags "Network Read Error"
                    ("Unable to read network " +:+ key +:+ ": " +:+ err))
                 state)
    | inr found =>
        ret (Build_ResourceResponse diags
               (Some {| ID := ID data; Name := Some (nName found);
                        Driver := Some (nDriver' found);
                        Internal := Some (nInternal found);
                        Attachable := Some (nAttachable found);
                        Ingress := Some (nIngress found);
                        Scope := Some (nScope found);
                        IPv6 := if nEnableIPv6 found then Some true else IPv6 data;
                        Labels := if decide (nLabels found = ∅) then Labels data
                                  else Some (nLabels found);
                        Options := if decide (nOptions found = ∅) then Options data
                                   else Some (nOptions found) |}))
    end.

End Read.

End NetworkResource.

Module VolumeResource.

Record Model := {
  Name : option string;
  Driver : option string;
  Mountpoint : option string;
  DriverOpts : option (gmap string string);
  Labels : option (gmap string string)
}.

Section Read.

Context {W : Type}.
Variable serve : Daemon W.

Definition Read (req : ResourceRequest Model) : M W (ResourceResponse Model) :=
  let diags := gotDiags (reqGet req) in
  let state := reqPriorState req in
  let data := gotData (reqGet req) in
  if HasError diags then ret (Build_ResourceResponse diags state)
  else
    let key := ValueString (Name data) in
    let* r := call serve (VolumeInspect key) in
    match r with
    | inl err =>
        if Contains err "no such volume" || Contains err "not found" then
          ret (Build_ResourceResponse diags None)
        else
          ret (Build_ResourceResponse
                 (AddError diags "Volume Read Error"
                    ("Unable to read volume " +:+ key +:+ ": " +:+ err))
                 state)
    | inr found =>
        ret (Build_ResourceResponse diags
               (Some {| Name := Some (vName found);
                        Driver := Some (volDriver found);
                        Mountpoint := Some (volMountpoint found);
                        DriverOpts := if decide (volOptions found = ∅)
                                      then DriverOpts data
                                      else Some (volOptions found);
                        Labels := if decide (vLabels found = ∅) then Labels data
                                  else Some (vLabels found) |}))
    end.

End Read.

End VolumeResource.

Module ContainerResource.

Record Model := {
  ID : option string;
  Name : option string;
  Image : option string;
  ContainerID : option string;
  IPAddress : option string;
  Gateway : option string;
  ExitCode : option Z
}.

Section Read.

Context {W : Type}.
Variable serve : Daemon W.

Definition Read (req : ResourceRequest Model) : M W (ResourceResponse Model) :=
  let diags := gotDiags (reqGet req) in
  let state := reqPriorState req in
  let data := gotData (reqGet req) in
  if HasError diags then ret (Build_ResourceResponse diags state)
  else
    let key := ValueString (ID data) in
    let* r := call serve (ContainerInspect key) in
    match r with
    | inl err =>
        if Contains err "No such container" || Contains err "not found" then
          ret (Build_ResourceResponse diags None)
        else
          ret (Build_ResourceResponse
                 (AddError diags "Container Read Error"
                    ("Unable to read container " +:+ key +:+ ": " +:+ err))
                 state)
    | inr found =>
        let ip := match jNetwork found with
                  | Some (a, _) => if decide (a = "") then IPAddress data else Some a
                  | None => IPAddress data
                  end in
        let gw := match jNetwork found with
                  | Some (_, g) => if decide (g = "") then Gateway data else Some g
                  | None => Gateway data
                  end in
        ret (Build_ResourceResponse diags
               (Some {| ID := ID data;
                        Name := Some (TrimPrefix (jName found) "/");
                        Image := Some (jImage found);
                        ContainerID := Some (jID found);
                        IPAddress := ip; Gateway := gw;
                        ExitCode := match jExitCode found with
                                    | Some c => Some c
                                    | None => ExitCode data
                                    end |}))
    end.

End Read.

End ContainerResource.

Module SecretResource.

Record Model := {
  ID : option string;
  Name : option string;
  Labels : option (gmap string string)
}.

Section Read.

Context {W : Type}.
Variable serve : Daemon W.

Definition Read (req : ResourceRequest Model) : M W (ResourceResponse Model) :=
  let diags := gotDiags (reqGet req) in
  let state := reqPriorState req in
  let data := gotData (reqGet req) in
  if HasError diags then ret (Build_ResourceResponse diags state)
  else
    let key := ValueString (ID data) in
    let* r := call serve (SecretInspectWithRaw key) in
    match r with
    | inl err =>
        if Contains err "No such secret" || Contains err "secret not found" then
          ret (Build_ResourceResponse diags None)
        else
          ret (Build_ResourceResponse
                 (AddError diags "Docker Secret Read Failed"
                    ("Failed to read secret " +:+ key +:+ ": " +:+ err))
                 state)
    | inr found =>
        ret (Build_ResourceResponse diags
               (Some {| ID := ID data; Name := Some (secName found);
                        Labels := if decide (secLabels found = ∅) then Labels data
                                  else Some (secLabels found) |}))
    end.

End Read.

End SecretResource.

Module ConfigResource.

Record Model := {
  ID : option string;
  Name : option string;
  Data : option string;
  Labels : option (gmap string string)
}.

Section Read.

Context {W : Type}.
Variable serve : Daemon W.
(** [base64.StdEncoding.EncodeToString] *)
Variable base64Encode : string -> string.

Definition Read (req : ResourceRequest Model) : M W (ResourceResponse Model) :=
  let diags := gotDiags (reqGet req) in
  let state := reqPriorState req in
  let data := gotData (reqGet req) in
  if HasError diags then ret (Build_ResourceResponse diags state)
  else
    let key := ValueString (ID data) in
    let* r := call serve (ConfigInspectWithRaw key) in
    match r with
    | inl err =>
        if Contains err "No such config" || Contains err "config not found" then
          ret (Build_ResourceResponse diags None)
        else
          ret (Build_ResourceResponse
                 (AddError diags "Docker Config Read Failed"
                    ("Failed to read config " +:+ key +:+ ": " +:+ err))
                 state)
    | inr found =>
        ret (Build_ResourceResponse diags
               (Some {| ID := ID data; Name := Some (cfgName found);
                        Data := if decide (cfgData found = "") then Data data
                                else Some (base64Encode (cfgData found));
                        Labels := if decide (cfgLabels found = ∅) then Labels data
                                  else Some (cfgLabels found) |}))
    end.

End Read.

End ConfigResource.

Module ServiceResource.

Record Model := {
  ID : option string;
  Name : option string;
  Labels : option (gmap string string);
  Mode : option string;
  Replicas : option Z;
  ConvergeConfig : ConvergeConfigList
}.

Section Read.

Context {W : Type}.
Variable serve : Daemon W.

Definition Read (req : ResourceRequest Model) : M W (ResourceResponse Model) :=
  let diags := gotDiags (reqGet req) in
  let state := reqPriorState req in
  let data := gotData (reqGet req) in
  if HasError diags then ret (Build_ResourceResponse diags state)
  else
    let key := ValueString (ID data) in
    let* r := call serve (ServiceInspectWithRaw key) in
    match r with
    | inl err =>
        if Contains err "No such service" || Contains err "service not found" then
          ret (Build_ResourceResponse diags None)
        else
          ret (Build_ResourceResponse
                 (AddError diags "Docker Service Read Failed"
                    ("Failed to read service " +:+ key +:+ ": " +:+ err))
                 state)
    | inr found =>
        ret (Build_ResourceResponse diags
               (Some {| ID := ID data; Name := Some (svcName found);
                        Labels := if decide (svcLabels found = ∅) then Labels data
                                  else Some (svcLabels found);
                        Mode := Some (if svcGlobal found then "global"
                                      else "replicated");
                        Replicas := if svcGlobal found then Replicas data
                                    else match svcReplicas found with
                                         | Some n => Some n
                                         | None => Replicas data
                                         end;
                        ConvergeConfig := ConvergeConfig data |}))
    end.

End Read.

End ServiceResource.

Module TagResource.

Record Model := {
  TargetImage : option string;
  SourceImageID : option string
}.

Section Read.

Context {W : Type}.
Variable serve : Daemon W.

Definition Read (req : ResourceRequest Model) : M W (ResourceResponse Model) :=
  let diags := gotDiags (reqGet req) in
  let state := reqPriorState req in
  let data := gotData (reqGet req) in
  if HasError diags then ret (Build_ResourceResponse diags state)
  else
    let key := ValueString (TargetImage data) in
    let* r := call serve (ImageInspectWithRaw key) in
    match r with
    | inl err =>
        if Contains err "No such image" then
          ret (Build_ResourceResponse diags None)
        else
          ret (Build_ResourceResponse
                 (AddError diags "Docker Image Read Failed"
                    ("Failed to read image " +:+ key +:+ ": " +:+ err))
                 state)
    | inr found =>
        ret (Build_ResourceResponse diags
               (Some {| TargetImage := TargetImage data;
                        SourceImageID := Some (iID found) |}))
    end.

End Read.

End TagResource.

Module RegistryImageResource.

Record Model := {
  Name : option string;
  Sha256Digest : option string
}.

(** The digest of the first repo digest of the form [name@digest]. *)
Definition digestOf (repoDigests : list string) : option string :=
  match
    filter (fun rd => Contains rd "@" = true /\ length (Split rd "@"%char) = 2%nat)
           repoDigests
  with
  | rd :: _ => Split rd "@"%char !! 1%nat
  | [] => None
  end.

Section Read.

Context {W : Type}.
Variable serve : Daemon W.

Definition Read (req : ResourceRequest Model) : M W (ResourceResponse Model) :=
  let diags := gotDiags (reqGet req) in
  let state := reqPriorState req in
  let data := gotData (reqGet req) in
  if HasError diags then ret (Build_ResourceResponse diags state)
  else
    let key := ValueString (Name data) in
    let* r := call serve (ImageInspectWithRaw key) in
    match r with
    | inl err =>
        if Contains err "No such image" then
          (* the image may still exist in the registry: the state is kept *)
          ret (Build_ResourceResponse diags state)
        else
          ret (Build_ResourceResponse
                 (AddError diags "Docker Image Read Failed"
                    ("Failed to read image " +:+ key +:+ ": " +:+ err))
                 state)
    | inr found =>
        ret (Build_ResourceResponse diags
               (Some {| Name := Name data;
                        Sha256Digest :=
                          match digestOf (iRepoDigests found) with
                          | Some d => Some d
                          | None => Sha256Digest data
                          end |}))
    end.

End Read.

End RegistryImageResource.

Module HubRepositoryResource.

Record Model := {
  Namespace : option string;
  Name : option string;
  Description : option string;
  FullDescription : option string;
  Private : option bool;
  PullCount : option Z;
  StarCount : option Z
}.

Section Read.

Context {H : Type}.
Variable transport : dockerhub.Transport H.
(** [http.NewRequestWithContext]: the error, if any, for a method and a
    URL (a URL that does not parse). *)
Variable NewRequestWithContext : string -> string -> option Error.
Variable json : dockerhub.JSON.
Variable PathEscape : string -> string.
(** [r.hubClient]; [None] is nil. *)
Variable hubClient : option dockerhub.Client.

Definition Read (req : ResourceRequest Model)
  : dockerhub.HubM H (ResourceResponse Model) :=
  let diags := gotDiags (reqGet req) in
  let state := reqPriorState req in
  let data := gotData (reqGet req) in
  if HasError diags then ret (Build_ResourceResponse diags state)
  else
    match hubClient with
    | None =>
        ret (Build_ResourceResponse
               (AddError diags "Docker Hub Not Configured"
                  "Docker Hub credentials are required to read Hub repositories.")
               state)
    | Some client =>
      let namespace := ValueString (Namespace data) in
      let name := ValueString (Name data) in
      let* r := dockerhub.GetRepository transport NewRequestWithContext
                  json client namespace name in
      match r with
      | inl err =>
          if Contains err "404" || Contains err "not found" then
            ret (Build_ResourceResponse diags None)
          else
            ret (Build_ResourceResponse
                   (AddError diags "Docker Hub Repository Read Failed" ("Failed to read repository " +:+ namespace +:+ "/" +:+ name +:+ ": " +:+ err))
                   state)
      | inr found =>
          ret (Build_ResourceResponse diags
                 (Some {| Namespace := Namespace data; Name := Name data;
                          Description := Some (dockerhub.rDescription found);
                          FullDescription := Some (dockerhub.rFullDescription found);
                          Private := Some (dockerhub.rIsPrivate found);
                          PullCount := Some (dockerhub.rPullCount found);
                          StarCount := Some (dockerhub.rStarCount found) |}))
      end
    end.

End Read.

End HubRepositoryResource.

Module HubRepositoryTeamPermissionResource.

Record Model := {
  Namespace : option string;
  Repository : option string;
  TeamName : option string;
  Permission : option string
}.

Section Read.

Context {H : Type}.
Variable transport : dockerhub.Transport H.
(** [http.NewRequestWithContext]: the error, if any, for a method and a
    URL (a URL that does not parse). *)
Variable NewRequestWithContext : string -> string -> option Error.
Variable json : dockerhub.JSON.
Variable PathEscape : string -> string.
(** [r.hubClient]; [None] is nil. *)
Variable hubClient : option dockerhub.Client.

Definition Read (req : ResourceRequest Model)
  : dockerhub.HubM H (ResourceResponse Model) :=
  let diags := gotDiags (reqGet req) in
  let state := reqPriorState req in
  let data := gotData (reqGet req) in
  if HasError diags then ret (Build_ResourceResponse diags state)
  else
    match hubClient with
    | None =>
        ret (Build_ResourceResponse
               (AddError diags "Docker Hub Not Configured"
                  "Docker Hub credentials are required to read repository permissions.")
               state)
    | Some client =>
      let namespace := ValueString (Namespace data) in
      let repository := ValueString (Repository data) in
      let teamName := ValueString (TeamName data) in
      let* r := dockerhub.GetRepositoryTeamPermission transport NewRequestWithContext
                  json PathEscape client namespace repository teamName in
      match r with
      | inl err =>
          if Contains err "404" || Contains err "not found" then
            ret (Build_ResourceResponse diags None)
          else
            ret (Build_ResourceResponse
                   (AddError diags "Docker Hub Repository Team Permission Read Failed" ("Failed to read permission for team " +:+ teamName +:+ " on repo " +:+ namespace +:+ "/" +:+ repository +:+ ": " +:+ err))
                   state)
      | inr found =>
          ret (Build_ResourceResponse diags
                 (Some {| Namespace := Namespace data;
                          Repository := Repository data;
                          TeamName := TeamName data;
                          Permission := Some (dockerhub.pPermission found) |}))
      end
    end.

End Read.

End HubRepositoryTeamPermissionResource.

Module OrgTeamResource.

Record Model := {
  OrgName : option string;
  TeamName : option string;
  TeamDescription : option string;
  MemberCount : option Z
}.

Section Read.

Context {H : Type}.
Variable transport : dockerhub.Transport H.
(** [http.NewRequestWithContext]: the error, if any, for a method and a
    URL (a URL that does not parse). *)
Variable NewRequestWithContext : string -> string -> option Error.
Variable json : dockerhub.JSON.
Variable PathEscape : string -> string.
(** [r.hubClient]; [None] is nil. *)
Variable hubClient : option dockerhub.Client.

Definition Read (req : ResourceRequest Model)
  : dockerhub.HubM H (ResourceResponse Model) :=
  let diags := gotDiags (reqGet req) in
  let state := reqPriorState req in
  let data := gotData (reqGet req) in
  if HasError diags then ret (Build_ResourceResponse diags state)
  else
    match hubClient with
    | None =>
        ret (Build_ResourceResponse
               (AddError diags "Docker Hub Not Configured"
                  "Docker Hub credentials are required to read organization teams.")
               state)
    | Some client =>
      let orgName := ValueString (OrgName data) in
      let teamName := ValueString (TeamName data) in
      let* r := dockerhub.GetTeam transport NewRequestWithContext
                  json PathEscape client orgName teamName in
      match r with
      | inl err =>
          if Contains err "404" || Contains err "not found" then
            ret (Build_ResourceResponse diags None)
          else
            ret (Build_ResourceResponse
                   (AddError diags "Docker Hub Team Read Failed" ("Failed to read team " +:+ teamName +:+ " in org " +:+ orgName +:+ ": " +:+ err))
                   state)
      | inr found =>
          ret (Build_ResourceResponse diags
                 (Some {| OrgName := OrgName data; TeamName := TeamName data;
                          TeamDescription := Some (dockerhub.tDescription found);
                          MemberCount := Some (dockerhub.tMemberCount found) |}))
      end
    end.

End Read.

End OrgTeamResource.

Module OrgMemberResource.

Record Model := {
  OrgName : option string;
  Username : option string;
  Role : option string
}.

Section Read.

Context {H : Type}.
Variable transport : dockerhub.Transport H.
(** [http.NewRequestWithContext]: the error, if any, for a method and a
    URL (a URL that does not parse). *)
Variable NewRequestWithContext : string -> string -> option Error.
Variable json : dockerhub.JSON.
Variable PathEscape : string -> string.
(** [r.hubClient]; [None] is nil. *)
Variable hubClient : option dockerhub.Client.

Definition Read (req : ResourceRequest Model)
  : dockerhub.HubM H (ResourceResponse Model) :=
  let diags := gotDiags (reqGet req) in
  let state := reqPriorState req in
  let data := gotData (reqGet req) in
  if HasError diags then ret (Build_ResourceResponse diags state)
  else
    match hubClient with
    | None =>
        ret (Build_ResourceResponse
               (AddError diags "Docker Hub Not Configured"
                  "Docker Hub credentials are required to read organization members.")
               state)
    | Some client =>
      let orgName := ValueString (OrgName data) in
      let username := ValueString (Username data) in
      let* r := dockerhub.GetOrgMember transport NewRequestWithContext
                  json client orgName username in
      match r with
      | inl err =>
          if Contains err "404" || Contains err "not found" then
            ret (Build_ResourceResponse diags None)
          else
            ret (Build_ResourceResponse
                   (AddError diags "Docker Hub Organization Member Read Failed" ("Failed to read member " +:+ username +:+ " in org " +:+ orgName +:+ ": " +:+ err))
                   state)
      | inr found =>
          ret (Build_ResourceResponse diags
                 (Some {| OrgName := OrgName data; Username := Username data;
                          Role := Some (dockerhub.mRole found) |}))
      end
    end.

End Read.

End OrgMemberResource.

Module AccessTokenResource.

Record Model := {
  UUID : option string;
  Label : option string;
  IsActive : option bool;
  Scopes : option (list string)
}.

Section Read.

Context {H : Type}.
Variable transport : dockerhub.Transport H.
(** [http.NewRequestWithContext]: the error, if any, for a method and a
    URL (a URL that does not parse). *)
Variable NewRequestWithContext : string -> string -> option Error.
Variable json : dockerhub.JSON.
Variable PathEscape : string -> string.
(** [r.hubClient]; [None] is nil. *)
Variable hubClient : option dockerhub.Client.

Definition Read (req : ResourceRequest Model)
  : dockerhub.HubM H (ResourceResponse Model) :=
  let diags := gotDiags (reqGet req) in
  let state := reqPriorState req in
  let data := gotData (reqGet req) in
  if HasError diags then ret (Build_ResourceResponse diags state)
  else
    match hubClient with
    | None =>
        ret (Build_ResourceResponse
               (AddError diags "Docker Hub Not Configured"
                  "Docker Hub credentials are required to read access tokens.")
               state)
    | Some client =>
      let uuid := ValueString (UUID data) in
      let* r := dockerhub.GetAccessToken transport NewRequestWithContext
                  json client uuid in
      match r with
      | inl err =>
          if Contains err "404" || Contains err "not found" then
            ret (Build_ResourceResponse diags None)
          else
            ret (Build_ResourceResponse
                   (AddError diags "Docker Hub Access Token Read Failed" ("Failed to read access token " +:+ uuid +:+ ": " +:+ err))
                   state)
      | inr found =>
          ret (Build_ResourceResponse diags
                 (Some {| UUID := UUID data;
                          Label := Some (dockerhub.aLabel found);
                          IsActive := Some (dockerhub.aIsActive found);
                          Scopes := match dockerhub.aScopes found with
                                    | [] => Scopes data
                                    | l => Some l
                                    end |}))
      end
    end.

End Read.

End AccessTokenResource.

Module OrgTeamMemberResource.

Record Model := {
  OrgName : option string;
  TeamName : option string;
  Username : option string
}.

Section Read.

Context {H : Type}.
Variable transport : dockerhub.Transport H.
(** [http.NewRequestWithContext]: the error, if any, for a method and a
    URL (a URL that does not parse). *)
Variable NewRequestWithContext : string -> string -> option Error.
Variable json : dockerhub.JSON.
Variable PathEscape : string -> string.
Variable hubClient : option dockerhub.Client.

Definition Read (req : ResourceRequest Model)
  : dockerhub.HubM H (ResourceResponse Model) :=
  let diags := gotDiags (reqGet req) in
  let state := reqPriorState req in
  let data := gotData (reqGet req) in
  if HasError diags then ret (Build_ResourceResponse diags state)
  else
    match hubClient with
    | None =>
        ret (Build_ResourceResponse
               (AddError diags "Docker Hub Not Configured"
                  "Docker Hub credentials are required to read team members.")
               state)
    | Some client =>
      let orgName := ValueString (OrgName data) in
      let teamName := ValueString (TeamName data) in
      let username := ValueString (Username data) in
      let* r := dockerhub.IsTeamMember transport NewRequestWithContext
                  json PathEscape client
                  orgName teamName username in
      match r with
      | inl err =>
          ret (Build_ResourceResponse
                 (AddError diags "Docker Hub Team Member Read Failed"
                    ("Failed to check membership of " +:+ username +:+
                     " in team " +:+ teamName +:+ " org " +:+ orgName +:+
                     ": " +:+ err))
                 state)
      | inr isMember =>
          if negb isMember then ret (Build_ResourceResponse diags None)
          else ret (Build_ResourceResponse diags (Some data))
      end
    end.

End Read.

End OrgTeamMemberResource.






(** ** The Docker Engine client (package docker) *)

Module docker.

Record ClientConfig := {
  Host : string;
  TLSVerify : bool;
  CertPath : string;
  CACert : string;
  Cert : string;
  Key : string
}.

(** [Client]: the SDK client it embeds is determined by the
    configuration it was built from. *)
Record Client := {
  config : ClientConfig
}.

(** The TLS and Docker SDK functions [NewClient] relies on. *)
Record SDK := {
  AppendCertsFromPEM : string -> bool;
  X509KeyPair : string -> string -> option Error;
  (** [tlsconfig.Client] for a certificate directory and
      [InsecureSkipVerify] *)
  tlsconfigClient : string -> bool -> option Error;
  NewClientWithOpts : ClientConfig -> option Error;
  Ping : ClientConfig -> option Error
}.

Definition createTLSConfigFromContent (sdk : SDK) (caCert cert key : string)
  : option Error :=
  if negb (AppendCertsFromPEM sdk caCert) then
    Some "failed to parse CA certificate"
  else
    match X509KeyPair sdk cert key with
    | Some err => Some ("failed to parse client certificate/key pair: " +:+ err)
    | None => None
    end.

Definition createTLSHTTPClient (sdk : SDK) (cfg : ClientConfig) : option Error :=
  if decide (CACert cfg <> "" /\ Cert cfg <> "" /\ Key cfg <> "") then
    createTLSConfigFromContent sdk (CACert cfg) (Cert cfg) (Key cfg)
  else if decide (CertPath cfg <> "") then
    match tlsconfigClient sdk (CertPath cfg) (negb (TLSVerify cfg)) with
    | Some err => Some ("failed to create TLS config from cert path: " +:+ err)
    | None => None
    end
  else Some "TLS verification enabled but no certificates provided".

Definition NewClient (sdk : SDK) (cfg : ClientConfig) : Result Client :=
  let tls :=
    if TLSVerify cfg then
      match createTLSHTTPClient sdk cfg with
      | Some err => Some ("failed to create TLS HTTP client: " +:+ err)
      | None => None
      end
    else None in
  match tls with
  | Some err => inl err
  | None =>
      match NewClientWithOpts sdk cfg with
      | Some err => inl ("failed to create Docker client: " +:+ err)
      | None =>
          match Ping sdk cfg with
          | Some err =>
              inl ("failed to connect to Docker daemon at " +:+ Host cfg +:+
                   ": " +:+ err)
          | None => inr {| config := cfg |}
          end
      end
  end.

End docker.

(** ** DockerProvider.Configure *)

Module DockerProvider.

Record DockerProviderModel := {
  Host : option string;
  TLSVerify : option bool;
  CertPath : option string;
  CACert : option string;
  Cert : option string;
  Key : option string;
  HubUsername : option string;
  HubPassword : option string;
  HubToken : option string
}.

(** [HubClient] is [None] for a nil client. *)
Record ProviderData := {
  DockerClient : docker.Client;
  HubClient : option dockerhub.Client
}.

Record ConfigureResponse := {
  Diagnostics' : Diagnostics;
  DataSourceData : option ProviderData;
  ResourceData : option ProviderData
}.

Definition newline : string := String "010"%char EmptyString.

Section Configure.

Context {H : Type}.
Variable transport : dockerhub.Transport H.
Variable json : dockerhub.JSON.
Variable sdk : docker.SDK.
(** [os.Getenv] *)
Variable Getenv : string -> string.

Definition orEnv (v : option string) (name : string) : string :=
  if negb (IsNull v) then ValueString v else Getenv name.

Definition hubUsername (config : DockerProviderModel) : string :=
  orEnv (HubUsername config) "DOCKER_HUB_USERNAME".
Definition hubPassword (config : DockerProviderModel) : string :=
  orEnv (HubPassword config) "DOCKER_HUB_PASSWORD".
Definition hubToken (config : DockerProviderModel) : string :=
  orEnv (HubToken config) "DOCKER_HUB_TOKEN".

(** [hubUsername != "" && (hubPassword != "" || hubToken != "")] *)
Definition hubCredentials (config : DockerProviderModel) : bool :=
  negb (String.eqb (hubUsername config) "") &&
  (negb (String.eqb (hubPassword config) "") ||
   negb (String.eqb (hubToken config) "")).

Definition clientConfig (config : DockerProviderModel) : docker.ClientConfig :=
  let host := orEnv (Host config) "DOCKER_HOST" in
  {| docker.Host := if decide (host = "") then "unix:///var/run/docker.sock"
                    else host;
     docker.TLSVerify :=
       if negb (IsNull (TLSVerify config)) then ValueBool (TLSVerify config)
       else String.eqb (Getenv "DOCKER_TLS_VERIFY") "1";
     docker.CertPath := orEnv (CertPath config) "DOCKER_CERT_PATH";
     docker.CACert := ValueString (CACert config);
     docker.Cert := ValueString (Cert config);
     docker.Key := ValueString (Key config) |}.

Definition hubConfig (config : DockerProviderModel) : dockerhub.Config :=
  {| dockerhub.Username := hubUsername config;
     dockerhub.Password := hubPassword config;
     dockerhub.Token := hubToken config |}.

(** [Configure].  [AddAttributeError] is recorded as an error diagnostic
    without its attribute path; the [tflog] lines leave no trace in the
    response and are left out. *)
Definition Configure (req : Got DockerProviderModel)
  : dockerhub.HubM H ConfigureResponse :=
  let diags := gotDiags req in
  let config := gotData req in
  if HasError diags then ret (Build_ConfigureResponse diags None None)
  else
    let cfg := clientConfig config in
    let hasCertPath := negb (String.eqb (docker.CertPath cfg) "") in
    let hasCertContent :=
      negb (String.eqb (docker.CACert cfg) "") &&
      negb (String.eqb (docker.Cert cfg) "") &&
      negb (String.eqb (docker.Key cfg) "") in
    if docker.TLSVerify cfg && negb hasCertPath && negb hasCertContent then
      ret (Build_ConfigureResponse
             (AddError diags "Missing TLS Configuration"
                "When tls_verify is enabled, you must provide either cert_path or all of ca_cert, cert, and key.")
             None None)
    else
      match docker.NewClient sdk cfg with
      | inl err =>
          ret (Build_ConfigureResponse
                 (AddError diags "Unable to Create Docker Client"
                    ("An unexpected error occurred when creating the Docker client. " +:+
                     "If the error is not clear, please contact the provider developers." +:+
                     newline +:+ newline +:+ "Docker Client Error: " +:+ err))
                 None None)
      | inr dockerClient =>
          let* hub :=
            if hubCredentials config then
              let* r := dockerhub.NewClient transport json (hubConfig config) in
              match r with
              | inl err =>
                  ret (None,
                       AddWarning diags "Docker Hub Authentication Failed"
                         ("Failed to authenticate with Docker Hub: " +:+ err +:+
                          newline +:+ "Docker Hub resources will not be available."))
              | inr c => ret (Some c, diags)
              end
            else ret (None, diags) in
          let providerData :=
            {| DockerClient := dockerClient; HubClient := hub.1 |} in
          ret (Build_ConfigureResponse hub.2
                 (Some providerData) (Some providerData))
      end.

End Configure.

End DockerProvider.

(** ** Predicates on the Docker Hub login *)

(** The request [authenticate] sends. *)
Definition loginRequest (json : dockerhub.JSON) (user password : string)
  : dockerhub.HTTPRequest :=
  {| dockerhub.Method := "POST";
     dockerhub.URL := dockerhub.DefaultBaseURL +:+ "/users/login";
     dockerhub.ContentType := Some "application/json";
     dockerhub.Authorization := None;
     dockerhub.Body := Some (dockerhub.marshalLogin json user password) |}.

Definition isErr {A} (r : Result A) : Prop :=
  match r with inl _ => True | inr _ => False end.

(** [NewClient] with a user name and a password fails exactly when the
    login request fails or is answered with a status other than 200. *)
Definition failsOnlyOnFailedLogin {H : Type} (transport : dockerhub.Transport H)
    (json : dockerhub.JSON) : Prop :=
  forall cfg (s : dockerhub.HubSys H),
    dockerhub.Token cfg = "" ->
    dockerhub.Username cfg <> "" ->
    dockerhub.Password cfg <> "" ->
    (isErr (dockerhub.NewClient transport json cfg s).1 <->
     match (transport (loginRequest json (dockerhub.Username cfg)
                         (dockerhub.Password cfg)) (world s)).1 with
     | inl _ => True
     | inr resp => dockerhub.StatusCode resp <> 200%Z
     end).

(** ** Concrete inputs *)

Module examples.

Import engine.

(** A daemon with no objects that serves every request. *)
Definition emptyEngine : Engine :=
  {| containers := ∅; networks := ∅; volumes := ∅;
     images := ∅; secrets := ∅; configs := ∅; inspections := [];
     clock := 0%Z; refuses := fun _ => false |}.

Definition noFile (path : string) : Result string :=
  inl ("open " +:+ path +:+ ": no such file or directory").

(** Stands for a compose file whose services are those of [app_db_cache]. *)
Definition loadShop (name content : string) : Result Project :=
  inr app_db_cache.

Definition plainDigest (content : string) : string := content.

Definition shopModel : ComposeResourceModel :=
  {| ID := None; ProjectName := Some "shop"; ComposeFile := None;
     ComposeContent := Some "services: {app: {depends_on: [db, cache]}, db: {}, cache: {}}";
     RemoveOrphans := Some true; RemoveVolumes := Some false;
     ForceRecreate := Some false; ContentHash := None; Services := None;
     RunningServices := None |}.

Definition shopRequest : ResourceRequest ComposeResourceModel :=
  {| reqGet := {| gotDiags := []; gotData := shopModel |};
     reqPriorState := None |}.

(** Neither [compose_file] nor [compose_content]. *)
Definition unconfiguredModel : ComposeResourceModel :=
  {| ID := None; ProjectName := Some "shop"; ComposeFile := None;
     ComposeContent := None;
     RemoveOrphans := Some true; RemoveVolumes := Some false;
     ForceRecreate := Some false; ContentHash := None; Services := None;
     RunningServices := None |}.

Definition unconfiguredRequest : ResourceRequest ComposeResourceModel :=
  {| reqGet := {| gotDiags := []; gotData := unconfiguredModel |};
     reqPriorState := None |}.

(** [b] depends on a service the project does not define. *)
Definition dangling : Project :=
  mkProject "x" [("b", ["ghost"]); ("a", ["b"])].

(** A daemon with a container, a network and a volume of project
    "shop", and one of each that belongs to nobody. *)
Definition mixedEngine : Engine :=
  {| containers :=
       {[ "c1" := {| cdName := "shop-db-1"; cdImage := "db";
                     cdLabels := {[ projectLabel := "shop" ]};
                     cdState := "running" |};
          "c2" := {| cdName := "other"; cdImage := "busybox";
                     cdLabels := ∅; cdState := "running" |} ]};
     networks :=
       {[ "n1" := {| ndName := "shop_default"; ndDriver := "bridge";
                     ndLabels := {[ projectLabel := "shop" ]} |};
          "n2" := {| ndName := "bridge"; ndDriver := "bridge"; ndLabels := ∅ |} ]};
     volumes :=
       {[ "shop_data" := {| vdDriver := "local";
                            vdLabels := {[ projectLabel := "shop" ]} |};
          "scratch" := {| vdDriver := "local"; vdLabels := ∅ |} ]};
     images := ∅; secrets := ∅; configs := ∅;
     inspections := []; clock := 0%Z; refuses := fun _ => false |}.

Definition shopState : ResourceRequest ComposeResourceModel :=
  {| reqGet := {| gotDiags := []; gotData := shopModel |};
     reqPriorState := Some shopModel |}.

Definition shopDelete :=
  Delete engine.serve shopState (engine.start mixedEngine).

(** Durations of the examples, in nanoseconds. *)
Definition parseExampleDuration (s : string) : Result Z :=
  if decide (s = "5s") then inr 5000000000%Z
  else if decide (s = "12s") then inr 12000000000%Z
  else inl ("time: invalid duration " +:+ s).

Definition everyFiveSeconds : Got (list ConvergeConfigModel) :=
  {| gotDiags := [];
     gotData := [{| Delay := Some "5s"; Timeout := Some "12s" |}] |}.

(** A service whose update is seen failing to answer, then updating,
    then completed. *)
Definition rolloutEngine : Engine :=
  {| containers := ∅; networks := ∅; volumes := ∅;
     images := ∅; secrets := ∅; configs := ∅;
     inspections :=
       [inl "rpc error";
        inr {| svcID := "svc1"; svcName := "web"; svcLabels := ∅;
               svcGlobal := false; svcReplicas := Some 2%Z;
               svcUpdateStatus :=
                 Some {| usState := UpdateStateUpdating; usMessage := "" |} |};
        inr {| svcID := "svc1"; svcName := "web"; svcLabels := ∅;
               svcGlobal := false; svcReplicas := Some 2%Z;
               svcUpdateStatus :=
                 Some {| usState := UpdateStateCompleted; usMessage := "" |} |}];
     clock := 0%Z; refuses := fun _ => false |}.

(** A service that never answers. *)
Definition silentEngine : Engine := emptyEngine.

Definition shopCreate :=
  Create engine.serve noFile loadShop plainDigest rangeInOrder
         rangeServicesInOrder rangeServicesInOrder rangeServicesInOrder
         shopRequest (engine.start emptyEngine).



(** A local image in the state that is gone. *)
Definition pulledImage : ResourceRequest ImageResource.Model :=
  let data := {| ImageResource.Name := Some "busybox:1.36";
                 ImageResource.ImageID := Some "sha256:77aa";
                 ImageResource.RepoDigest := None |} in
  {| reqGet := {| gotDiags := []; gotData := data |};
     reqPriorState := Some data |}.

(** A decoder that, like [encoding/json], reports EOF for an empty
    body; any other body is taken as the value itself. *)
Definition eofJSON : dockerhub.JSON :=
  {| dockerhub.marshalLogin := fun user password => user +:+ ":" +:+ password;
     dockerhub.decodeToken :=
       fun body => if decide (body = "") then inl "EOF" else inr body;
     dockerhub.decodeRepository := fun _ => inr dockerhub.zeroRepository;
     dockerhub.decodeTeam := fun _ => inr dockerhub.zeroTeam;
     dockerhub.decodeMember := fun _ => inr dockerhub.zeroMember;
     dockerhub.decodeMembers := fun _ => inr [];
     dockerhub.decodePermission := fun _ => inr dockerhub.zeroPermission;
     dockerhub.decodeAccessToken := fun _ => inr dockerhub.zeroAccessToken |}.

(** Docker Hub answering 200 with an empty body, 200 with a token, and
    401. *)
Definition emptyBodyHub : dockerhub.Transport unit :=
  fun _ h => (inr {| dockerhub.StatusCode := 200; dockerhub.Reason := "OK";
                     dockerhub.RespBody := "" |}, h).

Definition grantingHub : dockerhub.Transport unit :=
  fun _ h => (inr {| dockerhub.StatusCode := 200; dockerhub.Reason := "OK";
                     dockerhub.RespBody := "jwt-1" |}, h).

Definition rejectingHub : dockerhub.Transport unit :=
  fun _ h => (inr {| dockerhub.StatusCode := 401;
                     dockerhub.Reason := "Unauthorized";
                     dockerhub.RespBody := "Incorrect authentication credentials" |}, h).

Definition hubStart : dockerhub.HubSys unit := {| world := tt; trace := [] |}.

Definition alice : dockerhub.Config :=
  {| dockerhub.Username := "alice"; dockerhub.Password := "secret";
     dockerhub.Token := "" |}.

Definition aliceWithToken : dockerhub.Config :=
  {| dockerhub.Username := "alice"; dockerhub.Password := "";
     dockerhub.Token := "dckr_pat_1" |}.

(** A reachable daemon without TLS, and an empty environment. *)
Definition plainSDK : docker.SDK :=
  {| docker.AppendCertsFromPEM := fun _ => true;
     docker.X509KeyPair := fun _ _ => None;
     docker.tlsconfigClient := fun _ _ => None;
     docker.NewClientWithOpts := fun _ => None;
     docker.Ping := fun _ => None |}.

Definition noEnv (name : string) : string := "".

Definition aliceProvider : Got DockerProvider.DockerProviderModel :=
  {| gotDiags := [];
     gotData :=
       {| DockerProvider.Host := None; DockerProvider.TLSVerify := None;
          DockerProvider.CertPath := None; DockerProvider.CACert := None;
          DockerProvider.Cert := None; DockerProvider.Key := None;
          DockerProvider.HubUsername := Some "alice";
          DockerProvider.HubPassword := Some "secret";
          DockerProvider.HubToken := None |} |}.

Definition shopRank (name : string) : nat :=
  if decide (name = "app") then 1%nat else 0%nat.

End examples.

From Stdlib Require Import DecimalPos.

(** ** parseDuration (container resource)

    The durations of a container health check, in nanoseconds.  The loop
    [for _, c := range s] yields runes; a rune that is not ASCII is neither
    a digit nor a unit and only resets [num], as does each of its bytes
    here, so the byte-wise loop computes the same value. *)

(** [int64] arithmetic wraps around: an operation yields its mathematical
    result reduced to the range -2^63 .. 2^63 - 1. *)
Definition int64 (z : Z) : Z := ((z + 2 ^ 63) mod 2 ^ 64 - 2 ^ 63)%Z.

(** [c >= '0' && c <= '9'] *)
Definition isDigit (c : ascii) : bool :=
  Ascii.leb "0" c && Ascii.leb c "9".

(** [int64(c - '0')] *)
Definition digitValue (c : ascii) : Z := (Z.of_N (N_of_ascii c) - 48)%Z.

(** The local variables of [parseDuration]. *)
Record durationVars := {
  duration : Z;
  num : Z
}.

(** The body of the loop for the character [c]. *)
Definition parseDurationStep (v : durationVars) (c : ascii) : durationVars :=
  if isDigit c then
    {| duration := duration v;
       num := int64 (int64 (num v * 10) + digitValue c) |}
  else
    {| duration :=
         if Ascii.eqb c "s" then
           int64 (duration v + int64 (num v * 1000000000))
         else if Ascii.eqb c "m" then
           int64 (duration v + int64 (int64 (num v * 60) * 1000000000))
         else if Ascii.eqb c "h" then
           int64 (duration v + int64 (int64 (num v * 3600) * 1000000000))
         else duration v;
       num := 0 |}.

(** [for _, c := range s], from the variables [v]. *)
Fixpoint parseDurationLoop (s : string) (v : durationVars) : durationVars :=
  match s with
  | EmptyString => v
  | String c s' => parseDurationLoop s' (parseDurationStep v c)
  end.

Definition parseDuration (s : string) : Result Z :=
  if decide (s = "") then inl "empty duration"
  else inr (duration (parseDurationLoop s {| duration := 0; num := 0 |})).

(** The value of a decimal numeral read from the left, after [a]. *)
Fixpoint horner (d : Decimal.uint) (a : Z) : Z :=
  match d with
  | Decimal.Nil => a
  | Decimal.D0 l => horner l (10 * a)
  | Decimal.D1 l => horner l (10 * a + 1)
  | Decimal.D2 l => horner l (10 * a + 2)
  | Decimal.D3 l => horner l (10 * a + 3)
  | Decimal.D4 l => horner l (10 * a + 4)
  | Decimal.D5 l => horner l (10 * a + 5)
  | Decimal.D6 l => horner l (10 * a + 6)
  | Decimal.D7 l => horner l (10 * a + 7)
  | Decimal.D8 l => horner l (10 * a + 8)
  | Decimal.D9 l => horner l (10 * a + 9)
  end.

(** Every character of [s] satisfies [p]. *)
Fixpoint allChars (p : ascii -> bool) (s : string) : bool :=
  match s with
  | EmptyString => true
  | String c s' => p c && allChars p s'
  end.

Definition nanoseconds : Z := 1000000000.

(** ** The Docker Hub client, continued: the methods that write, and the
       paged lists *)

Module dockerhub'.

Import dockerhub.

(** The values the client puts into a [map[string]interface{}] payload. *)
Inductive PayloadValue :=
| PString (s : string)
| PBool (b : bool)
| PStrings (l : list string).

(** The entries of a payload's map literal. *)
Definition Payload := list (string * PayloadValue).

(** [RepositoryTag]; [tagLastUpdated] is the [time.Time] as Unix
    seconds. *)
Record RepositoryTag := {
  tagName : string;
  tagFullSize : Z;
  tagLastUpdated : Z;
  tagDigest : string
}.

(** [Member] with all its fields. *)
Record Member' := {
  memberID : string;
  memberUsername : string;
  memberFullName : string;
  memberEmail : string;
  memberRole : string
}.

(** The decoders of the paged answers: [results] and [count]. *)
Record PageJSON := {
  decodeRepositoryPage : string -> Result (list Repository * Z);
  decodeMemberPage : string -> Result (list Member' * Z);
  decodeTagPage : string -> Result (list RepositoryTag * Z)
}.

Section methods.

Context {H : Type}.
Variable transport : Transport H.
(** [http.NewRequestWithContext]: the error, if any, for a method and a
    URL (a URL that does not parse). *)
Variable NewRequestWithContext : string -> string -> option Error.
Variable json : JSON.
Variable pages : PageJSON.
Variable PathEscape : string -> string.
(** [json.Marshal] of a payload. *)
Variable Marshal : Payload -> string.

(** [c.doRequest(ctx, method, path, payload, nil)] *)
Definition send (c : Client) (method path : string) (payload : option Payload)
  : HubM H (option Error) :=
  let* r := doRequest (T := unit) transport NewRequestWithContext
      c method path (Marshal <$> payload) None in
  match r with
  | inl err => ret (Some err)
  | inr _ => ret None
  end.

(** [c.doRequest(ctx, method, path, payload, &result)] followed by
    [return &result, nil]: [zero] is the value of [result] before the
    call. *)
Definition exchange {T} (zero : T) (c : Client) (method path : string)
    (payload : option Payload) (decode : string -> Result T) : HubM H (Result T) :=
  let* r := doRequest transport NewRequestWithContext
              c method path (Marshal <$> payload) (Some decode) in
  match r with
  | inl err => ret (inl err)
  | inr v => ret (inr (default zero v))
  end.

Definition CreateRepository (c : Client) (repo : Repository) :=
  exchange zeroRepository c "POST" ("/repositories/" +:+ rNamespace repo)
    (Some [("name", PString (rName repo));
           ("namespace", PString (rNamespace repo));
           ("description", PString (rDescription repo));
           ("full_description", PString (rFullDescription repo));
           ("is_private", PBool (rIsPrivate repo))])
    (decodeRepository json).

Definition UpdateRepository (c : Client) (repo : Repository) :=
  exchange zeroRepository c "PATCH"
    ("/repositories/" +:+ rNamespace repo +:+ "/" +:+ rName repo)
    (Some [("description", PString (rDescription repo));
           ("full_description", PString (rFullDescription repo))])
    (decodeRepository json).

Definition DeleteRepository (c : Client) (namespace name : string) :=
  send c "DELETE" ("/repositories/" +:+ namespace +:+ "/" +:+ name) None.

Definition ListRepositories (c : Client) (namespace : string) (page pageSize : Z) :=
  exchange ([], 0%Z) c "GET"
    ("/repositories/" +:+ namespace +:+ "?page=" +:+ decimal page +:+
     "&page_size=" +:+ decimal pageSize)
    None (decodeRepositoryPage pages).

Definition CreateTeam (c : Client) (orgName : string) (team : Team) :=
  exchange zeroTeam c "POST" ("/orgs/" +:+ orgName +:+ "/groups")
    (Some [("name", PString (tName team));
           ("description", PString (tDescription team))])
    (decodeTeam json).

Definition UpdateTeam (c : Client) (orgName : string) (team : Team) :=
  exchange zeroTeam c "PATCH"
    ("/orgs/" +:+ orgName +:+ "/groups/" +:+ PathEscape (tName team))
    (Some [("description", PString (tDescription team))])
    (decodeTeam json).

Definition DeleteTeam (c : Client) (orgName teamName : string) :=
  send c "DELETE" ("/orgs/" +:+ orgName +:+ "/groups/" +:+ PathEscape teamName) None.

Definition AddOrgMember (c : Client) (orgName user role : string) :=
  send c "POST" ("/orgs/" +:+ orgName +:+ "/members")
    (Some [("member", PString user); ("role", PString role)]).

Definition RemoveOrgMember (c : Client) (orgName user : string) :=
  send c "DELETE" ("/orgs/" +:+ orgName +:+ "/members/" +:+ user) None.

Definition UpdateOrgMember (c : Client) (orgName user role : string) :=
  send c "PATCH" ("/orgs/" +:+ orgName +:+ "/members/" +:+ user)
    (Some [("role", PString role)]).

Definition ListOrgMembers (c : Client) (orgName : string) (page pageSize : Z) :=
  exchange ([], 0%Z) c "GET"
    ("/orgs/" +:+ orgName +:+ "/members?page=" +:+ decimal page +:+
     "&page_size=" +:+ decimal pageSize)
    None (decodeMemberPage pages).

Definition AddTeamMember (c : Client) (orgName teamName user : string) :=
  send c "POST"
    ("/orgs/" +:+ orgName +:+ "/groups/" +:+ PathEscape teamName +:+ "/members")
    (Some [("member", PString user)]).

Definition RemoveTeamMember (c : Client) (orgName teamName user : string) :=
  send c "DELETE"
    ("/orgs/" +:+ orgName +:+ "/groups/" +:+ PathEscape teamName +:+
     "/members/" +:+ user)
    None.

Definition SetRepositoryTeamPermission (c : Client)
    (namespace repoName teamName permission : string) :=
  send c "POST" ("/repositories/" +:+ namespace +:+ "/" +:+ repoName +:+ "/groups")
    (Some [("group_name", PString teamName); ("permission", PString permission)]).

Definition RemoveRepositoryTeamPermission (c : Client)
    (namespace repoName teamName : string) :=
  send c "DELETE"
    ("/repositories/" +:+ namespace +:+ "/" +:+ repoName +:+ "/groups/" +:+
     PathEscape teamName)
    None.

Definition UpdateAccessToken (c : Client) (uuid : string) (isActive : bool) :=
  exchange zeroAccessToken c "PATCH" ("/access-tokens/" +:+ uuid)
    (Some [("is_active", PBool isActive)])
    (decodeAccessToken json).

Definition DeleteAccessToken (c : Client) (uuid : string) :=
  send c "DELETE" ("/access-tokens/" +:+ uuid) None.

Definition ListRepositoryTags (c : Client) (namespace repoName : string)
    (page pageSize : Z) :=
  exchange ([], 0%Z) c "GET"
    ("/repositories/" +:+ namespace +:+ "/" +:+ repoName +:+ "/tags?page=" +:+
     decimal page +:+ "&page_size=" +:+ decimal pageSize)
    None (decodeTagPage pages).

End methods.

End dockerhub'.

(** ** The Docker Hub resources, continued: Create, Update, Delete and
       ImportState

    The models carry every attribute of the Go structs.  [Delete] leaves
    the state of the response alone: the framework removes the resource
    when [Delete] returns without an error diagnostic.  [ImportState]
    starts from a null state; the state it returns has the attributes it
    set and null for all others. *)

(** [if r.hubClient == nil { AddError("Docker Hub Not Configured", ...) }] *)
Definition notConfigured {Model : Type} (diags : Diagnostics) (detail : string)
    (state : option Model) : ResourceResponse Model :=
  Build_ResourceResponse (AddError diags "Docker Hub Not Configured" detail) state.

(** [strings.Contains(err.Error(), "404") ||
     strings.Contains(err.Error(), "not found")] *)
Definition isHubNotFound (err : Error) : bool :=
  Contains err "404" || Contains err "not found".

Module OrgTeamResource'.

Record Model := {
  ID : option string;
  OrgName : option string;
  TeamName : option string;
  TeamDescription : option string;
  MemberCount : option Z
}.

Section methods.

Context {H : Type}.
Variable transport : dockerhub.Transport H.
(** [http.NewRequestWithContext]: the error, if any, for a method and a
    URL (a URL that does not parse). *)
Variable NewRequestWithContext : string -> string -> option Error.
Variable json : dockerhub.JSON.
Variable PathEscape : string -> string.
Variable Marshal : dockerhub'.Payload -> string.
Variable hubClient : option dockerhub.Client.

Definition Create (req : ResourceRequest Model)
  : dockerhub.HubM H (ResourceResponse Model) :=
  let diags := gotDiags (reqGet req) in
  let state := reqPriorState req in
  let data := gotData (reqGet req) in
  if HasError diags then ret (Build_ResourceResponse diags state)
  else
    match hubClient with
    | None =>
        ret (notConfigured diags
               "Docker Hub credentials are required to manage organization teams. Configure hub_username and hub_password in the provider."
               state)
    | Some client =>
        let team := {| dockerhub.tName := ValueString (TeamName data);
                       dockerhub.tDescription := ValueString (TeamDescription data);
                       dockerhub.tMemberCount := 0 |} in
        let* r := dockerhub'.CreateTeam transport NewRequestWithContext
                    json Marshal client
                    (ValueString (OrgName data)) team in
        match r with
        | inl err =>
            ret (Build_ResourceResponse
                   (AddError diags "Docker Hub Team Creation Failed"
                      ("Failed to create team " +:+ dockerhub.tName team +:+
                       " in org " +:+ ValueString (OrgName data) +:+ ": " +:+ err))
                   state)
        | inr result =>
            ret (Build_ResourceResponse diags
                   (Some {| ID := Some (ValueString (OrgName data) +:+ "/" +:+
                                        dockerhub.tName result);
                            OrgName := OrgName data; TeamName := TeamName data;
                            TeamDescription := TeamDescription data;
                            MemberCount := Some (dockerhub.tMemberCount result) |}))
        end
    end.

Definition Update (req : ResourceRequest Model)
  : dockerhub.HubM H (ResourceResponse Model) :=
  let diags := gotDiags (reqGet req) in
  let state := reqPriorState req in
  let data := gotData (reqGet req) in
  if HasError diags then ret (Build_ResourceResponse diags state)
  else
    match hubClient with
    | None =>
        ret (notConfigured diags
               "Docker Hub credentials are required to update organization teams."
               state)
    | Some client =>
        let team := {| dockerhub.tName := ValueString (TeamName data);
                       dockerhub.tDescription := ValueString (TeamDescription data);
                       dockerhub.tMemberCount := 0 |} in
        let* r := dockerhub'.UpdateTeam transport NewRequestWithContext
                    json PathEscape Marshal client
                    (ValueString (OrgName data)) team in
        match r with
        | inl err =>
            ret (Build_ResourceResponse
                   (AddError diags "Docker Hub Team Update Failed"
                      ("Failed to update team " +:+ dockerhub.tName team +:+
                       " in org " +:+ ValueString (OrgName data) +:+ ": " +:+ err))
                   state)
        | inr result =>
            ret (Build_ResourceResponse diags
                   (Some {| ID := ID data;
                            OrgName := OrgName data; TeamName := TeamName data;
                            TeamDescription := TeamDescription data;
                            MemberCount := Some (dockerhub.tMemberCount result) |}))
        end
    end.

Definition Delete (req : ResourceRequest Model)
  : dockerhub.HubM H (ResourceResponse Model) :=
  let diags := gotDiags (reqGet req) in
  let state := reqPriorState req in
  let data := gotData (reqGet req) in
  if HasError diags then ret (Build_ResourceResponse diags state)
  else
    match hubClient with
    | None =>
        ret (notConfigured diags
               "Docker Hub credentials are required to delete organization teams."
               state)
    | Some client =>
        let orgName := ValueString (OrgName data) in
        let teamName := ValueString (TeamName data) in
        let* e := dockerhub'.DeleteTeam transport NewRequestWithContext
                    PathEscape Marshal client
                    orgName teamName in
        match e with
        | Some err =>
            if isHubNotFound err then ret (Build_ResourceResponse diags state)
            else
              ret (Build_ResourceResponse
                     (AddError diags "Docker Hub Team Deletion Failed"
                        ("Failed to delete team " +:+ teamName +:+ " in org " +:+
                         orgName +:+ ": " +:+ err))
                     state)
        | None => ret (Build_ResourceResponse diags state)
        end
    end.

End methods.

Definition ImportState (ID' : string) : ResourceResponse Model :=
  match Split ID' "/"%char with
  | [org; team] =>
      Build_ResourceResponse []
        (Some {| ID := Some ID'; OrgName := Some org; TeamName := Some team;
                 TeamDescription := None; MemberCount := None |})
  | _ =>
      Build_ResourceResponse
        (AddError [] "Invalid Import ID"
           ("Expected format: org_name/team_name, got: " +:+ ID'))
        None
  end.

End OrgTeamResource'.

Module OrgMemberResource'.

Record Model := {
  ID : option string;
  OrgName : option string;
  Username : option string;
  Role : option string
}.

Definition withID (data : Model) (id : string) : Model :=
  {| ID := Some id; OrgName := OrgName data; Username := Username data;
     Role := Role data |}.

Section methods.

Context {H : Type}.
Variable transport : dockerhub.Transport H.
(** [http.NewRequestWithContext]: the error, if any, for a method and a
    URL (a URL that does not parse). *)
Variable NewRequestWithContext : string -> string -> option Error.
Variable PathEscape : string -> string.
Variable Marshal : dockerhub'.Payload -> string.
Variable hubClient : option dockerhub.Client.

Definition Create (req : ResourceRequest Model)
  : dockerhub.HubM H (ResourceResponse Model) :=
  let diags := gotDiags (reqGet req) in
  let state := reqPriorState req in
  let data := gotData (reqGet req) in
  if HasError diags then ret (Build_ResourceResponse diags state)
  else
    match hubClient with
    | None =>
        ret (notConfigured diags
               "Docker Hub credentials are required to manage organization members. Configure hub_username and hub_password in the provider."
               state)
    | Some client =>
        let orgName := ValueString (OrgName data) in
        let username := ValueString (Username data) in
        let role := ValueString (Role data) in
        let* e := dockerhub'.AddOrgMember transport NewRequestWithContext Marshal client
                    orgName username role in
        match e with
        | Some err =>
            ret (Build_ResourceResponse
                   (AddError diags "Docker Hub Organization Member Add Failed"
                      ("Failed to add member " +:+ username +:+ " to org " +:+
                       orgName +:+ ": " +:+ err))
                   state)
        | None =>
            ret (Build_ResourceResponse diags
                   (Some (withID data (orgName +:+ "/" +:+ username))))
        end
    end.

Definition Update (req : ResourceRequest Model)
  : dockerhub.HubM H (ResourceResponse Model) :=
  let diags := gotDiags (reqGet req) in
  let state := reqPriorState req in
  let data := gotData (reqGet req) in
  if HasError diags then ret (Build_ResourceResponse diags state)
  else
    match hubClient with
    | None =>
        ret (notConfigured diags
               "Docker Hub credentials are required to update organization members."
               state)
    | Some client =>
        let orgName := ValueString (OrgName data) in
        let username := ValueString (Username data) in
        let role := ValueString (Role data) in
        let* e := dockerhub'.UpdateOrgMember transport NewRequestWithContext
                    Marshal client
                    orgName username role in
        match e with
        | Some err =>
            ret (Build_ResourceResponse
                   (AddError diags "Docker Hub Organization Member Update Failed"
                      ("Failed to update member " +:+ username +:+ " in org " +:+
                       orgName +:+ ": " +:+ err))
                   state)
        | None => ret (Build_ResourceResponse diags (Some data))
        end
    end.

Definition Delete (req : ResourceRequest Model)
  : dockerhub.HubM H (ResourceResponse Model) :=
  let diags := gotDiags (reqGet req) in
  let state := reqPriorState req in
  let data := gotData (reqGet req) in
  if HasError diags then ret (Build_ResourceResponse diags state)
  else
    match hubClient with
    | None =>
        ret (notConfigured diags
               "Docker Hub credentials are required to delete organization members."
               state)
    | Some client =>
        let orgName := ValueString (OrgName data) in
        let username := ValueString (Username data) in
        let* e := dockerhub'.RemoveOrgMember transport NewRequestWithContext
                    Marshal client
                    orgName username in
        match e with
        | Some err =>
            if isHubNotFound err then ret (Build_ResourceResponse diags state)
            else
              ret (Build_ResourceResponse
                     (AddError diags "Docker Hub Organization Member Deletion Failed"
                        ("Failed to remove member " +:+ username +:+ " from org " +:+
                         orgName +:+ ": " +:+ err))
                     state)
        | None => ret (Build_ResourceResponse diags state)
        end
    end.

End methods.

Definition ImportState (ID' : string) : ResourceResponse Model :=
  match Split ID' "/"%char with
  | [org; user] =>
      Build_ResourceResponse []
        (Some {| ID := Some ID'; OrgName := Some org; Username := Some user;
                 Role := None |})
  | _ =>
      Build_ResourceResponse
        (AddError [] "Invalid Import ID"
           ("Expected format: org_name/username, got: " +:+ ID'))
        None
  end.

End OrgMemberResource'.

Module OrgTeamMemberResource'.

Record Model := {
  ID : option string;
  OrgName : option string;
  TeamName : option string;
  Username : option string
}.

Definition withID (data : Model) (id : string) : Model :=
  {| ID := Some id; OrgName := OrgName data; TeamName := TeamName data;
     Username := Username data |}.

Section methods.

Context {H : Type}.
Variable transport : dockerhub.Transport H.
(** [http.NewRequestWithContext]: the error, if any, for a method and a
    URL (a URL that does not parse). *)
Variable NewRequestWithContext : string -> string -> option Error.
Variable PathEscape : string -> string.
Variable Marshal : dockerhub'.Payload -> string.
Variable hubClient : option dockerhub.Client.

Definition Create (req : ResourceRequest Model)
  : dockerhub.HubM H (ResourceResponse Model) :=
  let diags := gotDiags (reqGet req) in
  let state := reqPriorState req in
  let data := gotData (reqGet req) in
  if HasError diags then ret (Build_ResourceResponse diags state)
  else
    match hubClient with
    | None =>
        ret (notConfigured diags
               "Docker Hub credentials are required to manage team members. Configure hub_username and hub_password in the provider."
               state)
    | Some client =>
        let orgName := ValueString (OrgName data) in
        let teamName := ValueString (TeamName data) in
        let username := ValueString (Username data) in
        let* e := dockerhub'.AddTeamMember transport NewRequestWithContext
                    PathEscape Marshal client
                    orgName teamName username in
        match e with
        | Some err =>
            ret (Build_ResourceResponse
                   (AddError diags "Docker Hub Team Member Add Failed"
                      ("Failed to add member " +:+ username +:+ " to team " +:+
                       teamName +:+ " in org " +:+ orgName +:+ ": " +:+ err))
                   state)
        | None =>
            ret (Build_ResourceResponse diags
                   (Some (withID data
                            (orgName +:+ "/" +:+ teamName +:+ "/" +:+ username))))
        end
    end.

(** Membership cannot be changed in place: [Update] only writes the
    plan to the state. *)
Definition Update (req : ResourceRequest Model)
  : dockerhub.HubM H (ResourceResponse Model) :=
  let diags := gotDiags (reqGet req) in
  let state := reqPriorState req in
  let data := gotData (reqGet req) in
  if HasError diags then ret (Build_ResourceResponse diags state)
  else ret (Build_ResourceResponse diags (Some data)).

Definition Delete (req : ResourceRequest Model)
  : dockerhub.HubM H (ResourceResponse Model) :=
  let diags := gotDiags (reqGet req) in
  let state := reqPriorState req in
  let data := gotData (reqGet req) in
  if HasError diags then ret (Build_ResourceResponse diags state)
  else
    match hubClient with
    | None =>
        ret (notConfigured diags
               "Docker Hub credentials are required to delete team members."
               state)
    | Some client =>
        let orgName := ValueString (OrgName data) in
        let teamName := ValueString (TeamName data) in
        let username := ValueString (Username data) in
        let* e := dockerhub'.RemoveTeamMember transport NewRequestWithContext
                    PathEscape Marshal client
                    orgName teamName username in
        match e with
        | Some err =>
            if isHubNotFound err then ret (Build_ResourceResponse diags state)
            else
              ret (Build_ResourceResponse
                     (AddError diags "Docker Hub Team Member Deletion Failed"
                        ("Failed to remove member " +:+ username +:+ " from team " +:+
                         teamName +:+ " in org " +:+ orgName +:+ ": " +:+ err))
                     state)
        | None => ret (Build_ResourceResponse diags state)
        end
    end.

End methods.

Definition ImportState (ID' : string) : ResourceResponse Model :=
  match Split ID' "/"%char with
  | [org; team; user] =>
      Build_ResourceResponse []
        (Some {| ID := Some ID'; OrgName := Some org; TeamName := Some team;
                 Username := Some user |})
  | _ =>
      Build_ResourceResponse
        (AddError [] "Invalid Import ID"
           ("Expected format: org_name/team_name/username, got: " +:+ ID'))
        None
  end.

End OrgTeamMemberResource'.

Module HubRepositoryTeamPermissionResource'.

Record Model := {
  ID : option string;
  Namespace : option string;
  Repository : option string;
  TeamName : option string;
  Permission : option string
}.

Definition withID (data : Model) (id : string) : Model :=
  {| ID := Some id; Namespace := Namespace data; Repository := Repository data;
     TeamName := TeamName data; Permission := Permission data |}.

Section methods.

Context {H : Type}.
Variable transport : dockerhub.Transport H.
(** [http.NewRequestWithContext]: the error, if any, for a method and a
    URL (a URL that does not parse). *)
Variable NewRequestWithContext : string -> string -> option Error.
Variable PathEscape : string -> string.
Variable Marshal : dockerhub'.Payload -> string.
Variable hubClient : option dockerhub.Client.

Definition Create (req : ResourceRequest Model)
  : dockerhub.HubM H (ResourceResponse Model) :=
  let diags := gotDiags (reqGet req) in
  let state := reqPriorState req in
  let data := gotData (reqGet req) in
  if HasError diags then ret (Build_ResourceResponse diags state)
  else
    match hubClient with
    | None =>
        ret (notConfigured diags
               "Docker Hub credentials are required to manage repository permissions. Configure hub_username and hub_password in the provider."
               state)
    | Some client =>
        let namespace := ValueString (Namespace data) in
        let repository := ValueString (Repository data) in
        let teamName := ValueString (TeamName data) in
        let permission := ValueString (Permission data) in
        let* e := dockerhub'.SetRepositoryTeamPermission transport NewRequestWithContext
                    Marshal client
                    namespace repository teamName permission in
        match e with
        | Some err =>
            ret (Build_ResourceResponse
                   (AddError diags "Docker Hub Repository Team Permission Failed"
                      ("Failed to set permission for team " +:+ teamName +:+
                       " on repo " +:+ namespace +:+ "/" +:+ repository +:+ ": " +:+
                       err))
                   state)
        | None =>
            ret (Build_ResourceResponse diags
                   (Some (withID data
                            (namespace +:+ "/" +:+ repository +:+ "/" +:+ teamName))))
        end
    end.

Definition Update (req : ResourceRequest Model)
  : dockerhub.HubM H (ResourceResponse Model) :=
  let diags := gotDiags (reqGet req) in
  let state := reqPriorState req in
  let data := gotData (reqGet req) in
  if HasError diags then ret (Build_ResourceResponse diags state)
  else
    match hubClient with
    | None =>
        ret (notConfigured diags
               "Docker Hub credentials are required to update repository permissions."
               state)
    | Some client =>
        let namespace := ValueString (Namespace data) in
        let repository := ValueString (Repository data) in
        let teamName := ValueString (TeamName data) in
        let permission := ValueString (Permission data) in
        let* e := dockerhub'.SetRepositoryTeamPermission transport NewRequestWithContext
                    Marshal client
                    namespace repository teamName permission in
        match e with
        | Some err =>
            ret (Build_ResourceResponse
                   (AddError diags "Docker Hub Repository Team Permission Update Failed"
                      ("Failed to update permission for team " +:+ teamName +:+
                       " on repo " +:+ namespace +:+ "/" +:+ repository +:+ ": " +:+
                       err))
                   state)
        | None => ret (Build_ResourceResponse diags (Some data))
        end
    end.

Definition Delete (req : ResourceRequest Model)
  : dockerhub.HubM H (ResourceResponse Model) :=
  let diags := gotDiags (reqGet req) in
  let state := reqPriorState req in
  let data := gotData (reqGet req) in
  if HasError diags then ret (Build_ResourceResponse diags state)
  else
    match hubClient with
    | None =>
        ret (notConfigured diags
               "Docker Hub credentials are required to delete repository permissions."
               state)
    | Some client =>
        let namespace := ValueString (Namespace data) in
        let repository := ValueString (Repository data) in
        let teamName := ValueString (TeamName data) in
        let* e := dockerhub'.RemoveRepositoryTeamPermission transport NewRequestWithContext
                    PathEscape
                    Marshal client namespace repository teamName in
        match e with
        | Some err =>
            if isHubNotFound err then ret (Build_ResourceResponse diags state)
            else
              ret (Build_ResourceResponse
                     (AddError diags
                        "Docker Hub Repository Team Permission Deletion Failed"
                        ("Failed to remove permission for team " +:+ teamName +:+
                         " on repo " +:+ namespace +:+ "/" +:+ repository +:+
                         ": " +:+ err))
                     state)
        | None => ret (Build_ResourceResponse diags state)
        end
    end.

End methods.

Definition ImportState (ID' : string) : ResourceResponse Model :=
  match Split ID' "/"%char with
  | [namespace; repository; team] =>
      Build_ResourceResponse []
        (Some {| ID := Some ID'; Namespace := Some namespace;
                 Repository := Some repository; TeamName := Some team;
                 Permission := None |})
  | _ =>
      Build_ResourceResponse
        (AddError [] "Invalid Import ID"
           ("Expected format: namespace/repository/team_name, got: " +:+ ID'))
        None
  end.

End HubRepositoryTeamPermissionResource'.

Module HubRepositoryResource'.

Record Model := {
  ID : option string;
  Namespace : option string;
  Name : option string;
  Description : option string;
  FullDescription : option string;
  Private : option bool;
  PullCount : option Z;
  StarCount : option Z
}.

Section methods.

Context {H : Type}.
Variable transport : dockerhub.Transport H.
(** [http.NewRequestWithContext]: the error, if any, for a method and a
    URL (a URL that does not parse). *)
Variable NewRequestWithContext : string -> string -> option Error.
Variable json : dockerhub.JSON.
Variable PathEscape : string -> string.
Variable Marshal : dockerhub'.Payload -> string.
Variable hubClient : option dockerhub.Client.

Definition Create (req : ResourceRequest Model)
  : dockerhub.HubM H (ResourceResponse Model) :=
  let diags := gotDiags (reqGet req) in
  let state := reqPriorState req in
  let data := gotData (reqGet req) in
  if HasError diags then ret (Build_ResourceResponse diags state)
  else
    match hubClient with
    | None =>
        ret (notConfigured diags
               "Docker Hub credentials are required to manage Hub repositories. Configure hub_username and hub_password or hub_token in the provider."
               state)
    | Some client =>
        let repo :=
          {| dockerhub.rNamespace := ValueString (Namespace data);
             dockerhub.rName := ValueString (Name data);
             dockerhub.rDescription := ValueString (Description data);
             dockerhub.rFullDescription := ValueString (FullDescription data);
             dockerhub.rIsPrivate := ValueBool (Private data);
             dockerhub.rPullCount := 0; dockerhub.rStarCount := 0 |} in
        let* r := dockerhub'.CreateRepository transport NewRequestWithContext
                    json Marshal client repo in
        match r with
        | inl err =>
            ret (Build_ResourceResponse
                   (AddError diags "Docker Hub Repository Creation Failed"
                      ("Failed to create repository " +:+ dockerhub.rNamespace repo +:+
                       "/" +:+ dockerhub.rName repo +:+ ": " +:+ err))
                   state)
        | inr result =>
            ret (Build_ResourceResponse diags
                   (Some {| ID := Some (dockerhub.rNamespace result +:+ "/" +:+
                                        dockerhub.rName result);
                            Namespace := Namespace data; Name := Name data;
                            Description := Description data;
                            FullDescription := FullDescription data;
                            Private := Private data;
                            PullCount := Some (dockerhub.rPullCount result);
                            StarCount := Some (dockerhub.rStarCount result) |}))
        end
    end.

Definition Update (req : ResourceRequest Model)
  : dockerhub.HubM H (ResourceResponse Model) :=
  let diags := gotDiags (reqGet req) in
  let state := reqPriorState req in
  let data := gotData (reqGet req) in
  if HasError diags then ret (Build_ResourceResponse diags state)
  else
    match hubClient with
    | None =>
        ret (notConfigured diags
               "Docker Hub credentials are required to update Hub repositories."
               state)
    | Some client =>
        let repo :=
          {| dockerhub.rNamespace := ValueString (Namespace data);
             dockerhub.rName := ValueString (Name data);
             dockerhub.rDescription := ValueString (Description data);
             dockerhub.rFullDescription := ValueString (FullDescription data);
             dockerhub.rIsPrivate := false;
             dockerhub.rPullCount := 0; dockerhub.rStarCount := 0 |} in
        let* r := dockerhub'.UpdateRepository transport NewRequestWithContext
                    json Marshal client repo in
        match r with
        | inl err =>
            ret (Build_ResourceResponse
                   (AddError diags "Docker Hub Repository Update Failed"
                      ("Failed to update repository " +:+ dockerhub.rNamespace repo +:+
                       "/" +:+ dockerhub.rName repo +:+ ": " +:+ err))
                   state)
        | inr result =>
            ret (Build_ResourceResponse diags
                   (Some {| ID := ID data;
                            Namespace := Namespace data; Name := Name data;
                            Description := Description data;
                            FullDescription := FullDescription data;
                            Private := Private data;
                            PullCount := Some (dockerhub.rPullCount result);
                            StarCount := Some (dockerhub.rStarCount result) |}))
        end
    end.

Definition Delete (req : ResourceRequest Model)
  : dockerhub.HubM H (ResourceResponse Model) :=
  let diags := gotDiags (reqGet req) in
  let state := reqPriorState req in
  let data := gotData (reqGet req) in
  if HasError diags then ret (Build_ResourceResponse diags state)
  else
    match hubClient with
    | None =>
        ret (notConfigured diags
               "Docker Hub credentials are required to delete Hub repositories."
               state)
    | Some client =>
        let namespace := ValueString (Namespace data) in
        let name := ValueString (Name data) in
        let* e := dockerhub'.DeleteRepository transport NewRequestWithContext
                    Marshal client
                    namespace name in
        match e with
        | Some err =>
            if isHubNotFound err then ret (Build_ResourceResponse diags state)
            else
              ret (Build_ResourceResponse
                     (AddError diags "Docker Hub Repository Deletion Failed"
                        ("Failed to delete repository " +:+ namespace +:+ "/" +:+
                         name +:+ ": " +:+ err))
                     state)
        | None => ret (Build_ResourceResponse diags state)
        end
    end.

End methods.

Definition ImportState (ID' : string) : ResourceResponse Model :=
  match Split ID' "/"%char with
  | [namespace; name] =>
      Build_ResourceResponse []
        (Some {| ID := Some ID'; Namespace := Some namespace; Name := Some name;
                 Description := None; FullDescription := None; Private := None;
                 PullCount := None; StarCount := None |})
  | _ =>
      Build_ResourceResponse
        (AddError [] "Invalid Import ID"
           ("Expected format: namespace/name, got: " +:+ ID'))
        None
  end.

End HubRepositoryResource'.

Module AccessTokenResource'.

Record Model := {
  ID : option string;
  UUID : option string;
  Label : option string;
  Scopes : option (list string);
  IsActive : option bool;
  Token : option string
}.

Section methods.

Context {H : Type}.
Variable transport : dockerhub.Transport H.
(** [http.NewRequestWithContext]: the error, if any, for a method and a
    URL (a URL that does not parse). *)
Variable NewRequestWithContext : string -> string -> option Error.
Variable json : dockerhub.JSON.
Variable Marshal : dockerhub'.Payload -> string.
Variable hubClient : option dockerhub.Client.

(** Only [is_active] can be updated. *)
Definition Update (req : ResourceRequest Model)
  : dockerhub.HubM H (ResourceResponse Model) :=
  let diags := gotDiags (reqGet req) in
  let state := reqPriorState req in
  let data := gotData (reqGet req) in
  if HasError diags then ret (Build_ResourceResponse diags state)
  else
    match hubClient with
    | None =>
        ret (notConfigured diags
               "Docker Hub credentials are required to update access tokens."
               state)
    | Some client =>
        let uuid := ValueString (UUID data) in
        let* r := dockerhub'.UpdateAccessToken transport NewRequestWithContext
                    json Marshal client uuid
                    (ValueBool (IsActive data)) in
        match r with
        | inl err =>
            ret (Build_ResourceResponse
                   (AddError diags "Docker Hub Access Token Update Failed"
                      ("Failed to update access token " +:+ uuid +:+ ": " +:+ err))
                   state)
        | inr _ => ret (Build_ResourceResponse diags (Some data))
        end
    end.

Definition Delete (req : ResourceRequest Model)
  : dockerhub.HubM H (ResourceResponse Model) :=
  let diags := gotDiags (reqGet req) in
  let state := reqPriorState req in
  let data := gotData (reqGet req) in
  if HasError diags then ret (Build_ResourceResponse diags state)
  else
    match hubClient with
    | None =>
        ret (notConfigured diags
               "Docker Hub credentials are required to delete access tokens."
               state)
    | Some client =>
        let uuid := ValueString (UUID data) in
        let* e := dockerhub'.DeleteAccessToken transport NewRequestWithContext
                    Marshal client uuid in
        match e with
        | Some err =>
            if isHubNotFound err then ret (Build_ResourceResponse diags state)
            else
              ret (Build_ResourceResponse
                     (AddError diags "Docker Hub Access Token Deletion Failed"
                        ("Failed to delete access token " +:+ uuid +:+ ": " +:+ err))
                     state)
        | None => ret (Build_ResourceResponse diags state)
        end
    end.

End methods.

(** Import by UUID; the token value cannot be read back. *)
Definition ImportState (ID' : string) : ResourceResponse Model :=
  Build_ResourceResponse
    (AddWarning [] "Token Value Not Available"
       "The access token value cannot be retrieved after creation. You will need to regenerate the token if you need the value.")
    (Some {| ID := Some ID'; UUID := Some ID'; Label := None; Scopes := None;
             IsActive := None; Token := None |}).

End AccessTokenResource'.

(** ** Predicates on import identifiers and hub operations *)

(** The number of occurrences of the character [c] in [s]
    ([strings.Count] for a one-byte substring). *)
Fixpoint Count (s : string) (c : ascii) : nat :=
  match s with
  | EmptyString => 0
  | String a s' => (if Ascii.eqb a c then 1 else 0) + Count s' c
  end.

(** [strings.Join] *)
Fixpoint Join (elems : list string) (sep : string) : string :=
  match elems with
  | [] => ""
  | [x] => x
  | x :: rest => x +:+ sep +:+ Join rest sep
  end.

(** [ImportState] takes an identifier apart at its slashes: it accepts
    exactly the identifiers with [k] slashes, stores the identifier and
    its [k + 1] parts (read back by [parts]), which joined by slashes are
    the identifier again, and otherwise reports an error and leaves the
    state null. *)
Definition importsBySlashes {Model : Type}
    (ImportState : string -> ResourceResponse Model) (k : nat)
    (id : Model -> option string) (parts : Model -> list (option string)) : Prop :=
  forall ID,
    if decide (Count ID "/" = k) then
      exists data ps,
        ImportState ID = Build_ResourceResponse [] (Some data) /\
        id data = Some ID /\
        parts data = Some <$> ps /\
        length ps = S k /\
        Join ps "/" = ID /\
        Forall (fun p => Count p "/" = 0%nat) ps
    else
      respState (ImportState ID) = None /\
      HasError (respDiagnostics (ImportState ID)) = true.

(** The DELETE request of the client [c] for the path [url]. *)
Definition deleteRequest (c : dockerhub.Client) (url : string)
  : dockerhub.HTTPRequest :=
  {| dockerhub.Method := "DELETE";
     dockerhub.URL := dockerhub.baseURL c +:+ url;
     dockerhub.ContentType := None;
     dockerhub.Authorization :=
       if decide (dockerhub.token c <> "")
       then Some ("Bearer " +:+ dockerhub.token c) else None;
     dockerhub.Body := None |}.

(** When the [request] of [Delete] can be built and Docker Hub answers
    it with 404, [Delete] adds no diagnostic and has sent that request
    and nothing else. *)
Definition deletesOn404 {H Model : Type} (transport : dockerhub.Transport H)
    (NewRequestWithContext : string -> string -> option Error)
    (Delete : ResourceRequest Model -> dockerhub.HubM H (ResourceResponse Model))
    (request : Model -> dockerhub.HTTPRequest) : Prop :=
  forall req (s : dockerhub.HubSys H) resp,
    HasError (gotDiags (reqGet req)) = false ->
    let httpReq := request (gotData (reqGet req)) in
    NewRequestWithContext (dockerhub.Method httpReq) (dockerhub.URL httpReq) = None ->
    (transport httpReq (world s)).1 = inr resp ->
    dockerhub.StatusCode resp = 404%Z ->
    respDiagnostics (Delete req s).1 = gotDiags (reqGet req) /\
    trace (Delete req s).2 = trace s ++ [httpReq].

(** Without a Docker Hub client the operation [op] reports "Docker Hub
    Not Configured", leaves the state as it was and sends nothing. *)
Definition needsHubClient {H Model : Type}
    (op : option dockerhub.Client -> ResourceRequest Model ->
          dockerhub.HubM H (ResourceResponse Model)) : Prop :=
  forall req (s : dockerhub.HubSys H),
    HasError (gotDiags (reqGet req)) = false ->
    exists detail,
      op None req s =
      (Build_ResourceResponse
         (AddError (gotDiags (reqGet req)) "Docker Hub Not Configured" detail)
         (reqPriorState req), s).

(** ** Concrete inputs for the Docker Hub resources *)

Module hubExamples.

(** Docker Hub accepting every request with 204 and no body. *)
Definition acceptingHub : dockerhub.Transport unit :=
  fun _ h => (inr {| dockerhub.StatusCode := 204;
                     dockerhub.Reason := "No Content";
                     dockerhub.RespBody := "" |}, h).

(** Docker Hub answering every request with 404. *)
Definition missingHub : dockerhub.Transport unit :=
  fun _ h => (inr {| dockerhub.StatusCode := 404;
                     dockerhub.Reason := "Not Found";
                     dockerhub.RespBody := "{}" |}, h).

Definition noMarshal (payload : dockerhub'.Payload) : string := "{}".

(** [http.NewRequestWithContext] refusing the URLs that hold the escape
    [%zz], which [url.Parse] does not accept. *)
Definition strictURL (method url : string) : option Error :=
  if Contains url "%zz"
  then Some ("parse " +:+ url +:+ ": invalid URL escape")
  else None.

(** A client holding a personal access token. *)
Definition token : dockerhub.Client :=
  {| dockerhub.baseURL := dockerhub.DefaultBaseURL;
     dockerhub.token := "dckr_pat_1"; dockerhub.username := "alice" |}.


Definition aliceInDev : OrgTeamMemberResource'.Model :=
  {| OrgTeamMemberResource'.ID := None;
     OrgTeamMemberResource'.OrgName := Some "acme";
     OrgTeamMemberResource'.TeamName := Some "dev";
     OrgTeamMemberResource'.Username := Some "alice" |}.

Definition aliceJoinsDev : ResourceRequest OrgTeamMemberResource'.Model :=
  {| reqGet := {| gotDiags := []; gotData := aliceInDev |};
     reqPriorState := None |}.

Definition aliceLeavesDev : ResourceRequest OrgTeamMemberResource'.Model :=
  {| reqGet := {| gotDiags := []; gotData := aliceInDev |};
     reqPriorState := Some aliceInDev |}.

End hubExamples.

(** ** The data sources that list Docker Hub objects page by page

    [Read] of the repositories, the organization members and the
    repository tags data sources runs the same loop: it asks for page 1,
    2, ... with 100 entries each, appends what it gets, and stops as soon
    as it holds [count] entries or a page comes back empty.  [count] is
    what the answer just received announces. *)

Section fetchAll.

Context {H T : Type}.
(** [d.hubClient.List...(ctx, ..., page, pageSize)] *)
Variable listPage : Z -> Z -> dockerhub.HubM H (Result (list T * Z)).

(** The loop [for { ... page++ }], entered with [page] and [all];
    [None] when [fuel] iterations did not end it. *)
Fixpoint fetchAll (fuel : nat) (page pageSize : Z) (all : list T)
  : dockerhub.HubM H (option (Result (list T))) :=
  match fuel with
  | O => ret None
  | S fuel' =>
      let* r := listPage page pageSize in
      match r with
      | inl err => ret (Some (inl err))
      | inr (items, count) =>
          let all := all ++ items in
          if (count <=? Z.of_nat (length all))%Z || (length items =? 0)%nat
          then ret (Some (inr all))
          else fetchAll fuel' (page + 1)%Z pageSize all
      end
  end.

End fetchAll.

Module HubRepositoryTagsDataSource.

Record HubRepositoryTagModel := {
  tName : option string;
  tFullSize : option Z;
  tLastUpdated : option string;
  tDigest : option string
}.

Record Model := {
  ID : option string;
  Namespace : option string;
  Name : option string;
  Tags : list HubRepositoryTagModel
}.

Section Read.

Context {H : Type}.
Variable transport : dockerhub.Transport H.
(** [http.NewRequestWithContext]: the error, if any, for a method and a
    URL (a URL that does not parse). *)
Variable NewRequestWithContext : string -> string -> option Error.
Variable pages : dockerhub'.PageJSON.
Variable Marshal : dockerhub'.Payload -> string.
(** [t.Format("2006-01-02T15:04:05Z")] *)
Variable Format : Z -> string.
Variable hubClient : option dockerhub.Client.

Definition tagModel (tag : dockerhub'.RepositoryTag) : HubRepositoryTagModel :=
  {| tName := Some (dockerhub'.tagName tag);
     tFullSize := Some (dockerhub'.tagFullSize tag);
     tLastUpdated := Some (Format (dockerhub'.tagLastUpdated tag));
     tDigest := Some (dockerhub'.tagDigest tag) |}.

Definition Read (fuel : nat) (req : Got Model)
  : dockerhub.HubM H (option (ResourceResponse Model)) :=
  let diags := gotDiags req in
  let data := gotData req in
  if HasError diags then ret (Some (Build_ResourceResponse diags None))
  else
    match hubClient with
    | None =>
        ret (Some (notConfigured diags
                     "Docker Hub credentials are required to list repository tags."
                     None))
    | Some client =>
        let namespace := ValueString (Namespace data) in
        let name := ValueString (Name data) in
        let* r := fetchAll
                    (dockerhub'.ListRepositoryTags transport NewRequestWithContext
                       pages Marshal client
                       namespace name)
                    fuel 1 100 [] in
        match r with
        | None => ret None
        | Some (inl err) =>
            ret (Some (Build_ResourceResponse
                         (AddError diags "Failed to List Repository Tags"
                            ("Unable to list tags for " +:+ namespace +:+ "/" +:+
                             name +:+ ": " +:+ err))
                         None))
        | Some (inr allTags) =>
            ret (Some (Build_ResourceResponse diags
                         (Some {| ID := Some (namespace +:+ "/" +:+ name);
                                  Namespace := Namespace data; Name := Name data;
                                  Tags := tagModel <$> allTags |})))
        end
    end.

End Read.

End HubRepositoryTagsDataSource.

Module HubRepositoriesDataSource.

Record HubRepositoryDataSourceModel := {
  rID : option string;
  rNamespace : option string;
  rName : option string;
  rDescription : option string;
  rFullDescription : option string;
  rPrivate : option bool;
  rPullCount : option Z;
  rStarCount : option Z
}.

Record Model := {
  ID : option string;
  Namespace : option string;
  Repositories : list HubRepositoryDataSourceModel
}.

Section Read.

Context {H : Type}.
Variable transport : dockerhub.Transport H.
(** [http.NewRequestWithContext]: the error, if any, for a method and a
    URL (a URL that does not parse). *)
Variable NewRequestWithContext : string -> string -> option Error.
Variable pages : dockerhub'.PageJSON.
Variable Marshal : dockerhub'.Payload -> string.
Variable hubClient : option dockerhub.Client.

Definition repositoryModel (repo : dockerhub.Repository)
  : HubRepositoryDataSourceModel :=
  {| rID := Some (dockerhub.rNamespace repo +:+ "/" +:+ dockerhub.rName repo);
     rNamespace := Some (dockerhub.rNamespace repo);
     rName := Some (dockerhub.rName repo);
     rDescription := Some (dockerhub.rDescription repo);
     rFullDescription := Some (dockerhub.rFullDescription repo);
     rPrivate := Some (dockerhub.rIsPrivate repo);
     rPullCount := Some (dockerhub.rPullCount repo);
     rStarCount := Some (dockerhub.rStarCount repo) |}.

Definition Read (fuel : nat) (req : Got Model)
  : dockerhub.HubM H (option (ResourceResponse Model)) :=
  let diags := gotDiags req in
  let data := gotData req in
  if HasError diags then ret (Some (Build_ResourceResponse diags None))
  else
    match hubClient with
    | None =>
        ret (Some (notConfigured diags
                     "Docker Hub credentials are required to list repositories."
                     None))
    | Some client =>
        let namespace := ValueString (Namespace data) in
        let* r := fetchAll
                    (dockerhub'.ListRepositories transport NewRequestWithContext
                       pages Marshal client
                       namespace)
                    fuel 1 100 [] in
        match r with
        | None => ret None
        | Some (inl err) =>
            ret (Some (Build_ResourceResponse
                         (AddError diags "Failed to List Repositories"
                            ("Unable to list repositories for " +:+ namespace +:+
                             ": " +:+ err))
                         None))
        | Some (inr allRepos) =>
            ret (Some (Build_ResourceResponse diags
                         (Some {| ID := Some namespace;
                                  Namespace := Namespace data;
                                  Repositories := repositoryModel <$> allRepos |})))
        end
    end.

End Read.

End HubRepositoriesDataSource.

Module OrgMembersDataSource.

Record OrgMemberModel := {
  mID : option string;
  mUsername : option string;
  mFullName : option string;
  mEmail : option string;
  mRole : option string
}.

Record Model := {
  ID : option string;
  OrgName : option string;
  Members : list OrgMemberModel
}.

Section Read.

Context {H : Type}.
Variable transport : dockerhub.Transport H.
(** [http.NewRequestWithContext]: the error, if any, for a method and a
    URL (a URL that does not parse). *)
Variable NewRequestWithContext : string -> string -> option Error.
Variable pages : dockerhub'.PageJSON.
Variable Marshal : dockerhub'.Payload -> string.
Variable hubClient : option dockerhub.Client.

Definition memberModel (member : dockerhub'.Member') : OrgMemberModel :=
  {| mID := Some (dockerhub'.memberID member);
     mUsername := Some (dockerhub'.memberUsername member);
     mFullName := Some (dockerhub'.memberFullName member);
     mEmail := Some (dockerhub'.memberEmail member);
     mRole := Some (dockerhub'.memberRole member) |}.

Definition Read (fuel : nat) (req : Got Model)
  : dockerhub.HubM H (option (ResourceResponse Model)) :=
  let diags := gotDiags req in
  let data := gotData req in
  if HasError diags then ret (Some (Build_ResourceResponse diags None))
  else
    match hubClient with
    | None =>
        ret (Some (notConfigured diags
                     "Docker Hub credentials are required to list organization members."
                     None))
    | Some client =>
        let orgName := ValueString (OrgName data) in
        let* r := fetchAll
                    (dockerhub'.ListOrgMembers transport NewRequestWithContext
                       pages Marshal client orgName)
                    fuel 1 100 [] in
        match r with
        | None => ret None
        | Some (inl err) =>
            ret (Some (Build_ResourceResponse
                         (AddError diags "Failed to List Organization Members"
                            ("Unable to list members for " +:+ orgName +:+ ": " +:+
                             err))
                         None))
        | Some (inr allMembers) =>
            ret (Some (Build_ResourceResponse diags
                         (Some {| ID := Some orgName; OrgName := OrgName data;
                                  Members := memberModel <$> allMembers |})))
        end
    end.

End Read.

End OrgMembersDataSource.

(** ** Predicates on paged lists *)

(** Page [p] (from 1) of [items], [k] entries a page. *)
Definition pageOf {T} (k : nat) (items : list T) (p : nat) : list T :=
  take k (drop (k * (p - 1)) items).

(** The number of pages of [k] entries that hold [n] entries; one page
    for none. *)
Definition pagesNeeded (n k : nat) : nat :=
  Nat.max 1 ((n + k - 1) / k).

(** The GET request of the client [c] for the path and query [url]. *)
Definition getRequest (c : dockerhub.Client) (url : string) : dockerhub.HTTPRequest :=
  {| dockerhub.Method := "GET";
     dockerhub.URL := dockerhub.baseURL c +:+ url;
     dockerhub.ContentType := None;
     dockerhub.Authorization :=
       if decide (dockerhub.token c <> "")
       then Some ("Bearer " +:+ dockerhub.token c) else None;
     dockerhub.Body := None |}.

(** In the state [h], Docker Hub holds [items] and serves them in pages
    of [k]: the request for page [p], whose path and query is [url p],
    can be built, is answered with that page and the total as [count],
    and leaves Docker Hub as it is.  Only the pages that hold entries
    need to be served (and page 1). *)
Definition servesPages {H T : Type} (transport : dockerhub.Transport H)
    (NewRequestWithContext : string -> string -> option Error)
    (decode : string -> Result (list T * Z)) (c : dockerhub.Client)
    (url : Z -> string) (k : nat) (items : list T) (h : H) : Prop :=
  forall p, (1 <= p <= pagesNeeded (length items) k)%nat ->
    NewRequestWithContext "GET"
      (dockerhub.URL (getRequest c (url (Z.of_nat p)))) = None /\
    exists resp,
      transport (getRequest c (url (Z.of_nat p))) h = (inr resp, h) /\
      (dockerhub.StatusCode resp < 400)%Z /\
      dockerhub.StatusCode resp <> 204%Z /\
      decode (dockerhub.RespBody resp)
        = inr (pageOf k items p, Z.of_nat (length items)).

(** No answer of Docker Hub announces more than [N] entries. *)
Definition countsAtMost {H T : Type} (transport : dockerhub.Transport H)
    (decode : string -> Result (list T * Z)) (N : nat) : Prop :=
  forall httpReq h resp items count,
    (transport httpReq h).1 = inr resp ->
    decode (dockerhub.RespBody resp) = inr (items, count) ->
    (count <= Z.of_nat N)%Z.

(** The paths and queries of the three lists. *)
Definition tagsURL (namespace name : string) (page : Z) : string :=
  "/repositories/" +:+ namespace +:+ "/" +:+ name +:+ "/tags?page=" +:+
  decimal page +:+ "&page_size=" +:+ decimal 100.

Definition repositoriesURL (namespace : string) (page : Z) : string :=
  "/repositories/" +:+ namespace +:+ "?page=" +:+ decimal page +:+
  "&page_size=" +:+ decimal 100.

Definition membersURL (orgName : string) (page : Z) : string :=
  "/orgs/" +:+ orgName +:+ "/members?page=" +:+ decimal page +:+
  "&page_size=" +:+ decimal 100.

(** ** Concrete inputs for the paged lists *)

Module pageExamples.

(** 150 tags, named 1 to 150. *)
Definition tags : list dockerhub'.RepositoryTag :=
  (fun i => {| dockerhub'.tagName := decimal (Z.of_nat i);
               dockerhub'.tagFullSize := Z.of_nat i;
               dockerhub'.tagLastUpdated := 0;
               dockerhub'.tagDigest := "" |}) <$> seq 1 150.

(** Docker Hub answering every request with 200 and, as the body, the
    URL it was asked for. *)
Definition echoHub : dockerhub.Transport unit :=
  fun httpReq h => (inr {| dockerhub.StatusCode := 200; dockerhub.Reason := "OK";
                           dockerhub.RespBody := dockerhub.URL httpReq |}, h).

Definition page (n : Z) : string :=
  dockerhub.DefaultBaseURL +:+ tagsURL "library" "busybox" n.

(** The body for page 1 decodes to the first hundred tags, that for page
    2 to the rest, any other to no entry; the total is 150. *)
Definition pagesJSON : dockerhub'.PageJSON :=
  {| dockerhub'.decodeRepositoryPage := fun _ => inr ([], 0%Z);
     dockerhub'.decodeMemberPage := fun _ => inr ([], 0%Z);
     dockerhub'.decodeTagPage :=
       fun body =>
         if decide (body = page 1) then inr (take 100 tags, 150%Z)
         else if decide (body = page 2) then inr (drop 100 tags, 150%Z)
         else inr ([], 150%Z) |}.

Definition formatUnix (t : Z) : string := decimal t.

Definition busyboxTags : Got HubRepositoryTagsDataSource.Model :=
  {| gotDiags := [];
     gotData := {| HubRepositoryTagsDataSource.ID := None;
                   HubRepositoryTagsDataSource.Namespace := Some "library";
                   HubRepositoryTagsDataSource.Name := Some "busybox";
                   HubRepositoryTagsDataSource.Tags := [] |} |}.

End pageExamples.

(** ** Predicates on the containers and requests of a compose stack *)

(** [_, exists := project.Services[c.Labels["com.docker.compose.service"]]]
    is false: the container belongs to no service of the project.  A
    container without the label is looked up under the empty name. *)
Definition isOrphan (project : Project) (c : ContainerSummary) : bool :=
  bool_decide
    (pServices project !! default "" (cLabels c !! "com.docker.compose.service")
     = None).

(** Requests that stop or remove something. *)
Definition isRemoval (r : Request) : bool :=
  match r with
  | ContainerStop _ _ | ContainerRemove _ _
  | NetworkRemove _ | VolumeRemove _ _ => true
  | _ => false
  end.

(** A container list, stop or removal. *)
Definition isCleanup (r : Request) : bool :=
  match r with
  | ContainerList _ | ContainerStop _ _ | ContainerRemove _ _ => true
  | _ => false
  end.

(** [refreshStackInfo]'s list of the running containers of a project. *)
Definition listRunning (projectName : string) : Request :=
  ContainerList {| All := false;
                   Filters := projectFilter projectName ++ [("status", "running")] |}.

(** Every dependency of a finished name has been visited. *)
Definition closed (project : Project) (st : visitState) : Prop :=
  forall x d, x ∈ order st -> edge project x d -> d ∈ visited st.

Module orderExamples.

(** Stands for a compose file whose services are those of
    [examples.dangling]. *)
Definition loadDangling (name content : string) : Result Project :=
  inr examples.dangling.

Definition danglingModel : ComposeResourceModel :=
  {| ID := None; ProjectName := Some "x"; ComposeFile := None;
     ComposeContent := Some "services: {b: {depends_on: [ghost]}, a: {depends_on: [b]}}";
     RemoveOrphans := Some true; RemoveVolumes := Some false;
     ForceRecreate := Some false; ContentHash := None; Services := None;
     RunningServices := None |}.

Definition danglingRequest : ResourceRequest ComposeResourceModel :=
  {| reqGet := {| gotDiags := []; gotData := danglingModel |};
     reqPriorState := None |}.

End orderExamples.

(** ** Predicates on the team member lookup *)

(** The path and query [IsTeamMember] asks for. *)
Definition teamMembersURL (PathEscape : string -> string)
    (orgName teamName : string) (page : Z) : string :=
  "/orgs/" +:+ orgName +:+ "/groups/" +:+ PathEscape teamName +:+
  "/members?page=" +:+ decimal page +:+ "&page_size=" +:+ decimal 100.

(** The outcome of [ParseDuration] is an error or a duration that is not
    positive. *)
Definition noDuration (parsed : Result Z) : Prop :=
  match parsed with
  | inl _ => True
  | inr d => (d <= 0)%Z
  end.

Module teamExamples.

(** 150 members, named u1 to u150. *)
Definition members : list dockerhub.Member :=
  (fun i => {| dockerhub.mUsername := "u" +:+ decimal (Z.of_nat i);
               dockerhub.mRole := "member" |}) <$> seq 1 150.

(** Every body decodes to the first page of the members. *)
Definition firstPageJSON : dockerhub.JSON :=
  {| dockerhub.marshalLogin := fun user password => user +:+ ":" +:+ password;
     dockerhub.decodeToken := fun body => inr body;
     dockerhub.decodeRepository := fun _ => inr dockerhub.zeroRepository;
     dockerhub.decodeTeam := fun _ => inr dockerhub.zeroTeam;
     dockerhub.decodeMember := fun _ => inr dockerhub.zeroMember;
     dockerhub.decodeMembers := fun _ => inr (take 100 members);
     dockerhub.decodePermission := fun _ => inr dockerhub.zeroPermission;
     dockerhub.decodeAccessToken := fun _ => inr dockerhub.zeroAccessToken |}.

Definition okHub : dockerhub.Transport unit :=
  fun _ h => (inr {| dockerhub.StatusCode := 200; dockerhub.Reason := "OK";
                     dockerhub.RespBody := "" |}, h).

Definition client : dockerhub.Client :=
  {| dockerhub.baseURL := dockerhub.DefaultBaseURL;
     dockerhub.token := "dckr_pat_1"; dockerhub.username := "alice" |}.

(** The last member of the team, in the state. *)
Definition lastMember : ResourceRequest OrgTeamMemberResource.Model :=
  let data := {| OrgTeamMemberResource.OrgName := Some "acme";
                 OrgTeamMemberResource.TeamName := Some "dev";
                 OrgTeamMemberResource.Username := Some "u150" |} in
  {| reqGet := {| gotDiags := []; gotData := data |};
     reqPriorState := Some data |}.

(** A [converge_config] whose timeout is no duration. *)
Definition untilSoon : Got (list ConvergeConfigModel) :=
  {| gotDiags := [];
     gotData := [{| Delay := Some "5s"; Timeout := Some "soon" |}] |}.

(** A token and a user name, and a password as well. *)
Definition aliceWithAll : Got DockerProvider.DockerProviderModel :=
  {| gotDiags := [];
     gotData :=
       {| DockerProvider.Host := None; DockerProvider.TLSVerify := None;
          DockerProvider.CertPath := None; DockerProvider.CACert := None;
          DockerProvider.Cert := None; DockerProvider.Key := None;
          DockerProvider.HubUsername := Some "alice";
          DockerProvider.HubPassword := Some "secret";
          DockerProvider.HubToken := Some "dckr_pat_1" |} |}.

End teamExamples.

(** ** Predicates on the networks and volumes of a compose stack *)

(** The network a request inspects, creates or removes. *)
Definition networkRequested (r : Request) : option string :=
  match r with
  | NetworkInspect n | NetworkCreate n _ _ | NetworkRemove n => Some n
  | _ => None
  end.

(** [n] is the name, on the daemon, of a network that the project
    declares and that is not external. *)
Definition declaredNetwork (projectName : string) (project : Project)
    (n : string) : Prop :=
  exists name cfg,
    pNetworks project !! name = Some cfg /\
    nExternal cfg = false /\
    n = projectName +:+ "_" +:+ name.

(** The volume a request inspects, creates or removes. *)
Definition volumeRequested (r : Request) : option string :=
  match r with
  | VolumeInspect n | VolumeCreate n _ _ | VolumeRemove n _ => Some n
  | _ => None
  end.

(** [n] is the name, on the daemon, of a volume that the project
    declares and that is not external. *)
Definition declaredVolume (projectName : string) (project : Project)
    (n : string) : Prop :=
  exists name cfg,
    pVolumes project !! name = Some cfg /\
    vExternal cfg = false /\
    n = projectName +:+ "_" +:+ name.

(** The request names no network but one the project declares, and no
    volume but one the project declares. *)
Definition onDeclared (projectName : string) (project : Project)
    (r : Request) : Prop :=
  (forall n, networkRequested r = Some n ->
     declaredNetwork projectName project n) /\
  (forall n, volumeRequested r = Some n ->
     declaredVolume projectName project n).

Module volumeExamples.

(** A service [db] that mounts the external volume [data]. *)
Definition dataMount : ServiceVolumeConfig :=
  {| vType := "volume"; Source := "data"; Target := "/var/lib/db";
     ReadOnly := false |}.

Definition db : ServiceConfig :=
  {| Name := "db"; Image := "db:1"; Command := []; Entrypoint := [];
     Hostname := ""; WorkingDir := ""; User := ""; Privileged := false;
     RestartPolicy := ""; Volumes := [dataMount]; Networks := ∅;
     DependsOn := ∅ |}.

Definition externalData : VolumeConfig :=
  {| vDriver := ""; vExternal := true |}.

Definition sharedData : Project :=
  {| pName := "shop"; pServices := {[ "db" := db ]}; pNetworks := ∅;
     pVolumes := {[ "data" := externalData ]} |}.

(** Stands for a compose file that declares [sharedData]. *)
Definition loadShared (name content : string) : Result Project :=
  inr sharedData.

Definition sharedModel : ComposeResourceModel :=
  {| ID := None; ProjectName := Some "shop"; ComposeFile := None;
     ComposeContent :=
       Some "services: {db: {image: 'db:1', volumes: [{type: volume, source: data, target: /var/lib/db}]}}, volumes: {data: {external: true}}";
     RemoveOrphans := Some true; RemoveVolumes := Some false;
     ForceRecreate := Some false; ContentHash := None; Services := None;
     RunningServices := None |}.

Definition sharedRequest : ResourceRequest ComposeResourceModel :=
  {| reqGet := {| gotDiags := []; gotData := sharedModel |};
     reqPriorState := None |}.

End volumeExamples.

(** ** The conversion of a compose file (parseComposeFile, parseService,
       parseNetwork, parseVolume)

    [yaml.Unmarshal] is outside the repository; what it stores in an
    [interface{}] is modelled by its dynamic type. *)

Module yaml.

#[warnings="-register-all"]
Inductive Value :=
| Nil
| Str (s : string)
| Int (n : Z)
| Bool (b : bool)
(** [[]interface{}] *)
| Seq (items : list Value)
(** [map[string]interface{}] *)
| Map (entries : gmap string Value)
(** a value of any other dynamic type *)
| Other.

(** [v.(string)] and the like, on the result of indexing a map; a missing
    key gives nil, on which every assertion fails. *)
Definition asString (v : option Value) : option string :=
  match v with Some (Str s) => Some s | _ => None end.
Definition asInt (v : option Value) : option Z :=
  match v with Some (Int n) => Some n | _ => None end.
Definition asBool (v : option Value) : option bool :=
  match v with Some (Bool b) => Some b | _ => None end.
Definition asSeq (v : option Value) : option (list Value) :=
  match v with Some (Seq items) => Some items | _ => None end.
Definition asMap (v : option Value) : option (gmap string Value) :=
  match v with Some (Map entries) => Some entries | _ => None end.

End yaml.

Module composetypes'.

Record ServicePortConfig := {
  Target : Z;
  Published : string;
  Protocol : string
}.

(** [types.ServiceConfig] with the two fields [parseService] sets that
    [composetypes.ServiceConfig] leaves out.  A nil map and an empty map
    are not told apart. *)
Record ServiceConfig := {
  base : composetypes.ServiceConfig;
  Environment : gmap string string;
  Ports : list ServicePortConfig
}.

End composetypes'.

(** [strings.SplitN(s, sep, 2)] on a one-byte separator. *)
Fixpoint SplitN2 (s : string) (sep : ascii) : list string :=
  match s with
  | EmptyString => [EmptyString]
  | String c s' =>
      if Ascii.eqb c sep then [EmptyString; s']
      else match SplitN2 s' sep with
           | h :: t => String c h :: t
           | [] => [String c EmptyString]
           end
  end.

(** [uint32(n)] *)
Definition uint32 (n : Z) : Z := (n mod 2 ^ 32)%Z.

(** The strings among the items of a list. *)
Definition stringsOf (items : list yaml.Value) : list string :=
  omap (fun item => yaml.asString (Some item)) items.

(** [command] and [entrypoint]: a string, or the strings of a list. *)
Definition parseShellCommand (v : option yaml.Value) : list string :=
  match v with
  | Some (yaml.Str cmd) => [cmd]
  | Some (yaml.Seq items) => stringsOf items
  | _ => []
  end.

(** [environment]: the string values of a mapping, or the items [k=v] of
    a list, a later item overriding an earlier one. *)
Definition parseEnvironment (v : option yaml.Value) : gmap string string :=
  match v with
  | Some (yaml.Map e) => omap (fun item => yaml.asString (Some item)) e
  | Some (yaml.Seq items) =>
      foldl (fun env item =>
               match item with
               | yaml.Str s =>
                   match SplitN2 s "=" with
                   | [k; val] => <[k := val]> env
                   | _ => env
                   end
               | _ => env
               end) ∅ items
  | _ => ∅
  end.

Definition parsePort (p : yaml.Value) : option composetypes'.ServicePortConfig :=
  match p with
  | yaml.Str port =>
      Some {| composetypes'.Target := 0; composetypes'.Published := port;
              composetypes'.Protocol := "" |}
  | yaml.Map port =>
      Some {| composetypes'.Target :=
                match yaml.asInt (port !! "target") with
                | Some target => uint32 target
                | None => 0%Z
                end;
              composetypes'.Published :=
                match yaml.asString (port !! "published") with
                | Some published => published
                | None =>
                    match yaml.asInt (port !! "published") with
                    | Some published => decimal published
                    | None => ""
                    end
                end;
              composetypes'.Protocol :=
                default "" (yaml.asString (port !! "protocol")) |}
  | _ => None
  end.

Definition parseServiceVolume (v : yaml.Value) : option ServiceVolumeConfig :=
  match v with
  | yaml.Str vol =>
      Some {| vType := ""; Source := vol; Target := ""; ReadOnly := false |}
  | yaml.Map vol =>
      Some {| vType := default "" (yaml.asString (vol !! "type"));
              Source := default "" (yaml.asString (vol !! "source"));
              Target := default "" (yaml.asString (vol !! "target"));
              ReadOnly := default false (yaml.asBool (vol !! "read_only")) |}
  | _ => None
  end.

(** [networks] and [depends_on]: the strings of a list, or the keys of a
    mapping. *)
Definition parseNames (v : option yaml.Value) : gset string :=
  match v with
  | Some (yaml.Seq items) => list_to_set (stringsOf items)
  | Some (yaml.Map entries) => dom entries
  | _ => ∅
  end.

(** The service [parseService] starts from. *)
Definition namedService (name : string) : composetypes'.ServiceConfig :=
  {| composetypes'.base :=
       {| Name := name; Image := ""; Command := []; Entrypoint := [];
          Hostname := ""; WorkingDir := ""; User := ""; Privileged := false;
          RestartPolicy := ""; Volumes := []; Networks := ∅; DependsOn := ∅ |};
     composetypes'.Environment := ∅;
     composetypes'.Ports := [] |}.

(** [parseService]; the error it returns is always nil. *)
Definition parseService (name : string) (config : yaml.Value)
  : Result composetypes'.ServiceConfig :=
  match config with
  | yaml.Map cfg =>
      inr {| composetypes'.base :=
               {| Name := name;
                  Image := default "" (yaml.asString (cfg !! "image"));
                  Command := parseShellCommand (cfg !! "command");
                  Entrypoint := parseShellCommand (cfg !! "entrypoint");
                  Hostname := default "" (yaml.asString (cfg !! "hostname"));
                  WorkingDir := default "" (yaml.asString (cfg !! "working_dir"));
                  User := default "" (yaml.asString (cfg !! "user"));
                  Privileged := default false (yaml.asBool (cfg !! "privileged"));
                  RestartPolicy := default "" (yaml.asString (cfg !! "restart"));
                  Volumes := match yaml.asSeq (cfg !! "volumes") with
                             | Some volumes => omap parseServiceVolume volumes
                             | None => []
                             end;
                  Networks := parseNames (cfg !! "networks");
                  DependsOn := gset_to_gmap zeroServiceDependency
                                 (parseNames (cfg !! "depends_on")) |};
             composetypes'.Environment := parseEnvironment (cfg !! "environment");
             composetypes'.Ports :=
               match yaml.asSeq (cfg !! "ports") with
               | Some ports => omap parsePort ports
               | None => []
               end |}
  | _ => inr (namedService name)
  end.

Definition parseNetwork (config : yaml.Value) : NetworkConfig :=
  match config with
  | yaml.Map cfg =>
      {| nDriver := default "" (yaml.asString (cfg !! "driver"));
         nExternal := default false (yaml.asBool (cfg !! "external")) |}
  | _ => {| nDriver := ""; nExternal := false |}
  end.

Definition parseVolume (config : yaml.Value) : VolumeConfig :=
  match config with
  | yaml.Map cfg =>
      {| vDriver := default "" (yaml.asString (cfg !! "driver"));
         vExternal := default false (yaml.asBool (cfg !! "external")) |}
  | _ => {| vDriver := ""; vExternal := false |}
  end.

Section parseComposeFile.

(** [yaml.Unmarshal(content, &rawConfig)] *)
Variable Unmarshal : string -> Result (gmap string yaml.Value).
(** The iteration order of the range over the services. *)
Variable mapRangeConfig :
  list (string * yaml.Value) -> list (string * yaml.Value).

(** The loop over the services: the first error ends it. *)
Fixpoint parseServices (entries : list (string * yaml.Value))
    (services : gmap string composetypes.ServiceConfig)
  : Result (gmap string composetypes.ServiceConfig) :=
  match entries with
  | [] => inr services
  | (name, svcConfig) :: rest =>
      match parseService name svcConfig with
      | inl err => inl ("failed to parse service " +:+ name +:+ ": " +:+ err)
      | inr service =>
          parseServices rest (<[name := composetypes'.base service]> services)
      end
  end.

(** [parseComposeFile] from [yaml.Unmarshal] on: what the [loadProject]
    of [parseComposeFile] stands for.  The loops over the networks and
    over the volumes store one value under each key. *)
Definition loadProject (name content : string) : Result Project :=
  match Unmarshal content with
  | inl err => inl ("failed to parse YAML: " +:+ err)
  | inr rawConfig =>
      let services :=
        match yaml.asMap (rawConfig !! "services") with
        | Some services => parseServices (mapRangeConfig (map_to_list services)) ∅
        | None => inr ∅
        end in
      match services with
      | inl err => inl err
      | inr services =>
          inr {| pName := name;
                 pServices := services;
                 pNetworks :=
                   match yaml.asMap (rawConfig !! "networks") with
                   | Some networks => parseNetwork <$> networks
                   | None => ∅
                   end;
                 pVolumes :=
                   match yaml.asMap (rawConfig !! "volumes") with
                   | Some volumes => parseVolume <$> volumes
                   | None => ∅
                   end |}
      end
  end.

End parseComposeFile.

(** ** The ports of a container (createService) *)

(** [nat.PortBinding] *)
Record PortBinding := {
  HostIP : string;
  HostPort : string
}.

(** One round of the loop of [createService] over [service.Ports], on
    [exposedPorts] and [portBindings]; port keys are [<port>/<protocol>]. *)
Definition portStep (maps : gset string * gmap string (list PortBinding))
    (p : composetypes'.ServicePortConfig)
  : gset string * gmap string (list PortBinding) :=
  let (exposedPorts, portBindings) := maps in
  if (0 <? composetypes'.Target p)%Z then
    let protocol := if decide (composetypes'.Protocol p = "") then "tcp"
                    else composetypes'.Protocol p in
    let portKey := decimal (composetypes'.Target p) +:+ "/" +:+ protocol in
    ({[ portKey ]} ∪ exposedPorts,
     if decide (composetypes'.Published p <> "")
     then <[portKey := [{| HostIP := ""; HostPort := composetypes'.Published p |}]]>
            portBindings
     else portBindings)
  else if decide (composetypes'.Published p <> "") then
    match Split (composetypes'.Published p) ":" with
    | [host; container] =>
        let portKey := container +:+ "/tcp" in
        ({[ portKey ]} ∪ exposedPorts,
         <[portKey := [{| HostIP := ""; HostPort := host |}]]> portBindings)
    | _ => maps
    end
  else maps.

(** [exposedPorts] and [portBindings] after the loop. *)
Definition portMaps (ports : list composetypes'.ServicePortConfig)
  : gset string * gmap string (list PortBinding) :=
  foldl portStep (∅, ∅) ports.

(** ** Predicates on the conversion of a compose file *)

(** The service [parseComposeFile] stores for an entry of [services]. *)
Definition serviceFrom (name : string) (config : yaml.Value)
  : composetypes.ServiceConfig :=
  match parseService name config with
  | inr service => composetypes'.base service
  | inl _ => zeroServiceConfig
  end.

(** The mapping under [key] of a decoded document; none when the key is
    missing or its value is not a mapping. *)
Definition section (rawConfig : gmap string yaml.Value) (key : string)
  : gmap string yaml.Value :=
  default ∅ (yaml.asMap (rawConfig !! key)).

(** An environment item [k=v]. *)
Definition assignment (kv : string * string) : yaml.Value :=
  yaml.Str (kv.1 +:+ "=" +:+ kv.2).

Module parseExamples.

(** [{image: nginx, volumes: ["site:/usr/share/nginx/html"]}] *)
Definition web : gmap string yaml.Value :=
  {[ "image" := yaml.Str "nginx";
     "volumes" := yaml.Seq [yaml.Str "site:/usr/share/nginx/html"] ]}.

(** [{web: {...}, db: null}], [networks] a list. *)
Definition document : gmap string yaml.Value :=
  {[ "services" := yaml.Map {[ "web" := yaml.Map web; "db" := yaml.Nil ]};
     "networks" := yaml.Seq [yaml.Str "front"] ]}.

Definition decoded (content : string) : Result (gmap string yaml.Value) :=
  inr document.

Definition rangeConfigReversed (entries : list (string * yaml.Value))
  : list (string * yaml.Value) := reverse entries.

(** [condition] and the other settings of a dependency. *)
Definition healthy : gmap string yaml.Value :=
  {[ "db" := yaml.Map {[ "condition" := yaml.Str "service_healthy" ]} ]}.

End parseExamples.
(* ===================================================================== *)
(** * Properties *)

(** ** The service order *)

(** [sort.Strings] yields one list for all orders of the same names. *)
Lemma string_le_trans a : forall b c, string_le a b -> string_le b c -> string_le a c.
Proof.
  unfold string_le, String.leb.
  induction a as [|x a IH]; intros [|y b] [|z c]; simpl; try done.
  unfold Ascii.compare.
  destruct (N.compare_spec (N_of_ascii x) (N_of_ascii y)) as [Hxy|Hxy|Hxy];
    destruct (N.compare_spec (N_of_ascii y) (N_of_ascii z)) as [Hyz|Hyz|Hyz];
    destruct (N.compare_spec (N_of_ascii x) (N_of_ascii z)) as [Hxz|Hxz|Hxz];
    try done; try lia.
  apply IH.
Qed.

Global Instance string_le_transitive : Transitive string_le.
Proof. intros a b c. apply string_le_trans. Qed.

Global Instance string_le_total : Total string_le.
Proof. intros a b. apply String.leb_total. Qed.

Global Instance string_le_antisym : AntiSymm (=) string_le.
Proof. intros a b. apply String.leb_antisym. Qed.

Lemma sortStrings_unique l1 l2 : l1 ≡ₚ l2 -> sortStrings l1 = sortStrings l2.
Proof.
  intros Hp. unfold sortStrings.
  apply (Sorted_unique string_le); try apply Sorted_merge_sort; try apply _.
  by rewrite !merge_sort_Permutation.
Qed.

(** The sorted service names do not depend on the order in which the
    range over [project.Services] yields them. *)
Lemma serviceNames_deterministic (f g : list string -> list string) project :
  (forall keys, f keys ≡ₚ keys) -> (forall keys, g keys ≡ₚ keys) ->
  serviceNames f project = serviceNames g project.
Proof.
  intros Hf Hg. unfold serviceNames. apply sortStrings_unique.
  by rewrite Hf, Hg.
Qed.

Lemma visitStep_None v l : foldl (visitStep v) None l = None.
Proof. induction l; simpl; auto. Qed.

(** A loop of [visit]s keeps an invariant [I] and establishes, for every
    element it ranged over, a post-condition [R] that every step keeps. *)
Lemma visitLoop_ind v (I : visitState -> Prop) (R : string -> visitState -> Prop)
    (l : list string) :
  (forall d s s', d ∈ l -> I s -> v d s = Some s' ->
     I s' /\ R d s' /\ (forall e, R e s -> R e s')) ->
  forall s s', I s -> foldl (visitStep v) (Some s) l = Some s' ->
    I s' /\ (forall d, d ∈ l -> R d s') /\ (forall e, R e s -> R e s').
Proof.
  induction l as [|a l IH]; intros Hstep s s' Hs Hf; simpl in Hf.
  - inversion Hf; subst. split_and!; [done| |done].
    intros d Hd. by apply elem_of_nil in Hd.
  - destruct (v a s) as [s1|] eqn:Ha; [|by rewrite visitStep_None in Hf].
    destruct (Hstep a s s1) as (Hs1 & Ra & Hst); [left|done|done|].
    destruct (IH (fun d t t' Hd => Hstep d t t' (list_elem_of_further _ _ _ Hd))
                 s1 s' Hs1 Hf) as (Hs' & Hall & Hst').
    split_and!; [done| |by auto].
    intros d [->|Hd]%elem_of_cons; auto.
Qed.

Section getServiceOrder_facts.

Variable mapRange : string -> list string -> list string.
Variable mapRangeServices : list string -> list string.
Variable project : Project.

(** The iteration order of a map range is some order of its keys. *)
Hypothesis mapRange_perm : forall name keys, mapRange name keys ≡ₚ keys.
Hypothesis mapRangeServices_perm : forall keys, mapRangeServices keys ≡ₚ keys.

Abbreviation visit := (visit mapRange project).
Abbreviation edge := (edge project).
Abbreviation acyclic := (acyclic project).
Abbreviation topological := (topological project).

Lemma elem_of_range n d : d ∈ mapRange n (dependsOn project n) <-> edge n d.
Proof.
  rewrite (mapRange_perm n). unfold dependsOn, edge. by rewrite elem_of_elements.
Qed.

Lemma extends_refl st : extends st st.
Proof. split_and!; [done|by exists []; rewrite app_nil_r|done]. Qed.

Lemma extends_trans a b c : extends a b -> extends b c -> extends a c.
Proof.
  intros (V1 & [n1 O1] & G1) (V2 & [n2 O2] & G2). split_and!.
  - set_solver.
  - exists (n1 ++ n2). by rewrite O2, O1, app_assoc.
  - intros x. by rewrite G2, G1.
Qed.

Lemma visit_spec fuel : forall n st st',
  Inv st -> visit fuel n st = Some st' ->
  Inv st' /\ extends st st' /\ n ∈ visited st'.
Proof.
  induction fuel as [|fuel IH]; intros n st st' HI Hv; [done|].
  simpl in Hv. destruct (decide (n ∈ visited st)) as [Hin|Hnin].
  { inversion Hv; subst. auto using extends_refl. }
  set (st1 := {| visited := {[n]} ∪ visited st; order := order st |}) in *.
  destruct (foldl _ _ _) as [st2|] eqn:Hf; [|done]. inversion Hv; subst; clear Hv.
  assert (HI1 : Inv st1).
  { destruct HI as [Hsub Hnd]. split; [|done]. intros x Hx. simpl. set_solver. }
  destruct (visitLoop_ind (visit fuel)
              (fun s => Inv s /\ extends st1 s) (fun _ _ => True)
              (mapRange n (dependsOn project n))) with (s := st1) (s' := st2)
    as ((HI2 & V2 & [new O2] & G2) & _ & _); [|by auto using extends_refl|done|].
  { intros d s s' _ [Hs He] Hd. destruct (IH d s s' Hs Hd) as (? & ? & ?).
    split_and!; eauto using extends_trans. }
  assert (Hg1 : grey st1 n).
  { split; simpl; [set_solver|]. intros Hx. apply Hnin. by apply HI. }
  assert (Hn2 : n ∉ order st2) by (apply G2 in Hg1; apply Hg1).
  assert (Hnv2 : n ∈ visited st2) by (apply G2 in Hg1; apply Hg1).
  split_and!; simpl.
  - split; simpl.
    + intros x [Hx| ->%list_elem_of_singleton]%elem_of_app; [by apply HI2|done].
    + apply NoDup_app. split_and!; [apply HI2| |apply NoDup_singleton].
      intros x Hx ->%list_elem_of_singleton. done.
  - split_and!; simpl.
    + set_solver.
    + exists (new ++ [n]). rewrite O2. simpl. by rewrite app_assoc.
    + intros x. unfold grey; simpl. rewrite not_elem_of_app, list_elem_of_singleton.
      specialize (G2 x). unfold grey in G2; simpl in G2.
      split.
      * intros (Hxv & Hxo & Hne). destruct G2 as [G2 _].
        destruct G2 as [Hx1 Hx2]; [done|]. split; [set_solver|done].
      * intros (Hxv & Hxo). assert (x <> n) by (intros ->; done).
        destruct G2 as [_ G2]. destruct G2; [split; [set_solver|done]|]. done.
  - done.
Qed.

(** *** Topological order *)

Lemma topological_snoc l n :
  topological l -> (forall d, edge n d -> d ∈ l) -> topological (l ++ [n]).
Proof.
  intros Hl Hn i m d Hi Hmd.
  destruct (decide (i < length l)%nat) as [Hlt|Hge].
  - rewrite lookup_app_l in Hi by done.
    destruct (Hl i m d Hi Hmd) as (j & Hj & Hjd).
    exists j. split; [done|]. rewrite lookup_app_l; [done|lia].
  - rewrite lookup_app_r in Hi by lia.
    destruct (i - length l)%nat as [|k] eqn:Hk; simpl in Hi; [|done].
    inversion Hi; subst m.
    pose proof (Hn d Hmd) as Hd. apply list_elem_of_lookup in Hd as [j Hj].
    exists j. pose proof (lookup_lt_Some _ _ _ Hj).
    split; [lia|]. by rewrite lookup_app_l.
Qed.

Lemma visit_topological fuel : acyclic -> forall n st st',
  Inv st -> topological (order st) ->
  (forall g, grey st g -> rtc edge g n) ->
  visit fuel n st = Some st' -> topological (order st').
Proof.
  intros Hacyc. induction fuel as [|fuel IH]; intros n st st' HI HT HG Hv; [done|].
  simpl in Hv. destruct (decide (n ∈ visited st)) as [Hin|Hnin].
  { by inversion Hv; subst. }
  set (st1 := {| visited := {[n]} ∪ visited st; order := order st |}) in *.
  destruct (foldl _ _ _) as [st2|] eqn:Hf; [|done]. inversion Hv; subst; clear Hv.
  simpl.
  assert (HI1 : Inv st1).
  { destruct HI as [Hsub Hnd]. split; [|done]. intros x Hx. simpl. set_solver. }
  assert (HG1 : forall g, grey st1 g -> rtc edge g n).
  { intros g [Hgv Hgo]. simpl in *.
    apply elem_of_union in Hgv as [->%elem_of_singleton|Hgv]; [done|].
    apply HG. by split. }
  destruct (visitLoop_ind (visit fuel)
              (fun s => Inv s /\ extends st1 s /\ topological (order s))
              (fun d s => d ∈ order s)
              (mapRange n (dependsOn project n))) with (s := st1) (s' := st2)
    as ((HI2 & E2 & T2) & Hdeps & _); [|by auto using extends_refl|done|].
  { intros d s s' Hd%elem_of_range (Hs & He & Ht) Hvd.
    destruct (visit_spec fuel d s s' Hs Hvd) as (Hs' & He' & Hdv).
    assert (Hgd : forall g, grey s g -> rtc edge g d).
    { intros g Hg. apply He in Hg. eapply rtc_r; [by apply HG1|done]. }
    split_and!; [done|by eapply extends_trans| |..].
    - exact (IH d s s' Hs Ht Hgd Hvd).
    - destruct (decide (d ∈ order s')) as [|Hno]; [done|exfalso].
      assert (grey s' d) as Hg by done.
      apply He', He, HG1 in Hg.
      apply (Hacyc n). eapply tc_rtc_r; [by apply tc_once|done].
    - intros e He0. destruct He' as (_ & [new ->] & _). apply elem_of_app. by left. }
  apply topological_snoc; [done|].
  intros d Hd. apply Hdeps. by apply elem_of_range.
Qed.

(** *** Enough fuel *)

Lemma universe_service n : n ∈ dom (pServices project) -> n ∈ universe project.
Proof. unfold universe. set_solver. Qed.

Lemma universe_edge n d : edge n d -> d ∈ universe project.
Proof.
  unfold edge, serviceOf, universe. intros Hd.
  destruct (pServices project !! n) as [svc|] eqn:Hn; simpl in Hd; [|set_solver].
  apply elem_of_union_r, elem_of_union_list.
  exists (dom (DependsOn svc)). split; [|done].
  apply list_elem_of_fmap. exists (n, svc). split; [done|].
  by apply elem_of_map_to_list.
Qed.

Lemma visitLoop_total fuel (l : list string) :
  (forall n st, Inv st -> n ∈ universe project ->
     (size (universe project ∖ visited st) < fuel)%nat -> is_Some (visit fuel n st)) ->
  (forall d, d ∈ l -> d ∈ universe project) ->
  forall s, Inv s -> (size (universe project ∖ visited s) < fuel)%nat ->
    is_Some (foldl (visitStep (visit fuel)) (Some s) l).
Proof.
  intros Hv. induction l as [|a l IH]; intros Hl s Hs Hsz; simpl; [done|].
  destruct (Hv a s Hs) as [s1 Ha]; [apply Hl; by left|done|].
  rewrite Ha. destruct (visit_spec fuel a s s1 Hs Ha) as (Hs1 & (Hsub & _) & _).
  apply IH; [intros d Hd; apply Hl; by right|done|].
  eapply Nat.le_lt_trans; [|exact Hsz].
  apply subseteq_size. set_solver.
Qed.

Lemma visit_total fuel : forall n st,
  Inv st -> n ∈ universe project ->
  (size (universe project ∖ visited st) < fuel)%nat -> is_Some (visit fuel n st).
Proof.
  induction fuel as [|fuel IH]; intros n st HI Hn Hsz; [lia|].
  simpl. destruct (decide (n ∈ visited st)) as [Hin|Hnin]; [done|].
  set (st1 := {| visited := {[n]} ∪ visited st; order := order st |}).
  assert (HI1 : Inv st1).
  { destruct HI as [Hsub Hnd]. split; [|done]. intros x Hx. simpl. set_solver. }
  destruct (visitLoop_total fuel (mapRange n (dependsOn project n)) IH)
    with (s := st1) as [st2 ->]; [|done| |done].
  - intros d Hd%elem_of_range. by eapply universe_edge.
  - assert (universe project ∖ visited st1 ⊂ universe project ∖ visited st) as Hlt.
    { simpl. apply strict_spec_alt. split; [set_solver|].
      intros Heq. assert (n ∈ universe project ∖ visited st) as Hx by set_solver.
      rewrite <- Heq in Hx. set_solver. }
    apply subset_size in Hlt. lia.
Qed.

Lemma visit_in_universe fuel : forall n st st',
  n ∈ universe project -> visited st ⊆ universe project ->
  visit fuel n st = Some st' -> visited st' ⊆ universe project.
Proof.
  induction fuel as [|fuel IH]; intros n st st' Hn Hsub Hv; [done|].
  simpl in Hv. destruct (decide (n ∈ visited st)); [by inversion Hv; subst|].
  destruct (foldl _ _ _) as [st2|] eqn:Hf; [|done]. inversion Hv; subst; clear Hv.
  simpl.
  destruct (visitLoop_ind (visit fuel)
              (fun s => visited s ⊆ universe project) (fun _ _ => True)
              (mapRange n (dependsOn project n)))
    with (s := {| visited := {[n]} ∪ visited st; order := order st |}) (s' := st2)
    as (H2 & _ & _); [| |done|done].
  - intros d s s' Hd%elem_of_range Hs Hvd. split_and!; [|done|done].
    eapply IH; [|done|done]. by eapply universe_edge.
  - simpl. set_solver.
Qed.

(** *** The list [getServiceOrder] returns *)

Lemma serviceNames_perm :
  serviceNames mapRangeServices project ≡ₚ elements (dom (pServices project)).
Proof.
  unfold serviceNames, sortStrings.
  by rewrite merge_sort_Permutation, mapRangeServices_perm.
Qed.

Lemma elem_of_serviceNames n :
  n ∈ serviceNames mapRangeServices project <-> n ∈ dom (pServices project).
Proof. by rewrite serviceNames_perm, elem_of_elements. Qed.

Lemma getServiceOrder_run :
  exists st,
    foldl (visitStep (visit (S (size (universe project))))) (Some initialState)
          (serviceNames mapRangeServices project) = Some st /\
    getServiceOrder mapRange mapRangeServices project = order st.
Proof.
  destruct (visitLoop_total (S (size (universe project)))
              (serviceNames mapRangeServices project)
              (visit_total _)) with (s := initialState) as [st Hst].
  - intros d Hd%elem_of_serviceNames. by apply universe_service.
  - split; simpl; [set_solver|constructor].
  - simpl. apply Nat.lt_succ_r, subseteq_size. set_solver.
  - exists st. split; [done|].
    unfold getServiceOrder, getServiceOrder_fuel. fold initialState. by rewrite Hst.
Qed.

(** The fuel never runs out. *)
Lemma getServiceOrder_total :
  getServiceOrder_fuel mapRange mapRangeServices project
    (S (size (universe project)))
  = Some (getServiceOrder mapRange mapRangeServices project).
Proof.
  destruct getServiceOrder_run as (st & Hst & ->).
  unfold getServiceOrder_fuel. fold initialState. by rewrite Hst.
Qed.

Lemma getServiceOrder_spec :
  let o := getServiceOrder mapRange mapRangeServices project in
  NoDup o /\
  (forall n, n ∈ dom (pServices project) -> n ∈ o) /\
  (forall n, n ∈ o -> n ∈ universe project) /\
  (acyclic -> topological o).
Proof.
  destruct getServiceOrder_run as (st & Hst & ->). simpl.
  assert (HI0 : Inv initialState) by (split; simpl; [set_solver|constructor]).
  assert (Hgrey : forall s, extends initialState s -> forall g, ~ grey s g).
  { intros s (_ & _ & G) g Hg. apply G in Hg as [Hg _]. simpl in Hg. set_solver. }
  destruct (visitLoop_ind (visit (S (size (universe project))))
              (fun s => Inv s /\ extends initialState s /\
                        visited s ⊆ universe project)
              (fun d s => d ∈ order s)
              (serviceNames mapRangeServices project))
    with (s := initialState) (s' := st)
    as ((HI & HE & HU) & Hall & _); [| |done|].
  { intros d s s' Hd%elem_of_serviceNames (Hs & He & Hu) Hvd.
    destruct (visit_spec _ d s s' Hs Hvd) as (Hs' & He' & Hdv).
    assert (extends initialState s') as He2 by (by eapply extends_trans).
    split_and!; [done|done| | |].
    - eapply visit_in_universe; [|done|done]. by apply universe_service.
    - destruct (decide (d ∈ order s')) as [|Hno]; [done|exfalso].
      by apply (Hgrey s' He2 d).
    - intros e He0. destruct He' as (_ & [new ->] & _). apply elem_of_app. by left. }
  { split_and!; [done|apply extends_refl|simpl; set_solver]. }
  split_and!.
  - apply HI.
  - intros n Hn. by apply Hall, elem_of_serviceNames.
  - intros n Hn. apply HU. by apply HI.
  - intros Hacyc.
    destruct (visitLoop_ind (visit (S (size (universe project))))
                (fun s => Inv s /\ extends initialState s /\ topological (order s))
                (fun _ _ => True)
                (serviceNames mapRangeServices project))
      with (s := initialState) (s' := st)
      as ((_ & _ & HT) & _ & _); [| |done|done].
    + intros d s s' _ (Hs & He & Ht) Hvd.
      destruct (visit_spec _ d s s' Hs Hvd) as (Hs' & He' & Hdv).
      split_and!; try done; [by eapply extends_trans|].
      apply (visit_topological (S (size (universe project))) Hacyc d s s' Hs Ht);
        [|done].
      intros g Hg. by destruct (Hgrey s He g).
    + split_and!; [done|apply extends_refl|].
      intros i m d Hi. done.
Qed.

End getServiceOrder_facts.

(** ** Traces of the compose resource *)

Lemma inspected_app rs1 rs2 : inspected (rs1 ++ rs2) = inspected rs1 ++ inspected rs2.
Proof. apply omap_app. Qed.

Lemma inspected_provisioning rs :
  forallb isProvisioning rs = true -> inspected rs = [].
Proof.
  induction rs as [|r rs IH]; simpl; [done|].
  intros [Hr Hrs]%andb_prop. unfold inspected in *. simpl.
  destruct r; simpl in *; try done; by apply IH.
Qed.

Section trace_facts.

Context {W : Type}.
Variable serve : Daemon W.

Lemma call_trace r (s : Sys W) a s' :
  call serve r s = (a, s') -> trace s' = trace s ++ [r].
Proof.
  unfold call. destruct (serve r (world s)) as [a0 w']. by intros [= <- <-].
Qed.

(** A loop that stops at the first error: the trace is the concatenation
    of one block of calls per element it reached; [Q] holds of every
    block, [P] of the blocks of a loop that ran to its end. *)
Lemma forEachUntilError_trace {A} (f : A -> M W (option Error))
    (P Q : A -> list Request -> Prop) :
  (forall x s e s', f x s = (e, s') ->
     exists rs, trace s' = trace s ++ rs /\ Q x rs /\ (e = None -> P x rs)) ->
  forall xs s r s', forEachUntilError f xs s = (r, s') ->
    exists k blocks,
      trace s' = trace s ++ concat blocks /\
      Forall2 Q (take k xs) blocks /\
      (r = None -> Forall2 P xs blocks).
Proof.
  intros Hf. induction xs as [|x xs IH]; intros s r s' Hrun; simpl in Hrun.
  - inversion Hrun; subst. exists 0%nat, []. simpl.
    rewrite app_nil_r. split_and!; [done|constructor|constructor].
  - unfold bind in Hrun. destruct (f x s) as [e s1] eqn:Hx.
    destruct (Hf x s e s1 Hx) as (rs & Ht & HQ & HP).
    destruct e as [err|].
    + inversion Hrun; subst. exists 1%nat, [rs]. simpl.
      rewrite app_nil_r, take_0. split_and!; [done|by repeat constructor|done].
    + destruct (IH s1 r s' Hrun) as (k & blocks & Ht' & HQ' & HP').
      exists (S k), (rs :: blocks). simpl.
      split_and!.
      * by rewrite Ht', Ht, app_assoc.
      * by constructor.
      * intros Hr. constructor; auto.
Qed.

Lemma forEach_trace {A} (f : A -> M W unit) (P : A -> list Request -> Prop) :
  (forall x s e s', f x s = (e, s') ->
     exists rs, trace s' = trace s ++ rs /\ P x rs) ->
  forall xs s r s', forEach f xs s = (r, s') ->
    exists blocks,
      trace s' = trace s ++ concat blocks /\ Forall2 P xs blocks.
Proof.
  intros Hf. induction xs as [|x xs IH]; intros s r s' Hrun; simpl in Hrun.
  - inversion Hrun; subst. exists []. simpl.
    rewrite app_nil_r. split; [done|constructor].
  - unfold bind in Hrun. destruct (f x s) as [e s1] eqn:Hx.
    destruct (Hf x s e s1 Hx) as (rs & Ht & HP).
    destruct (IH s1 r s' Hrun) as (blocks & Ht' & HP').
    exists (rs :: blocks). simpl. split.
    + by rewrite Ht', Ht, app_assoc.
    + by constructor.
Qed.

End trace_facts.

(** ** ComposeResource.Create *)

(** Destructs the next daemon call of a run [H : m s = (a, s')]. *)
Ltac next_call H :=
  unfold bind in H;
  match type of H with
  | context [call ?srv ?r ?s] =>
      let a := fresh "a" in
      let s1 := fresh "s" in
      let E := fresh "Hcall" in
      destruct (call srv r s) as [a s1] eqn:E;
      apply call_trace in E; simpl in a
  end.

Section Create_facts.

Context {W : Type}.
Variable serve : Daemon W.
Variable ReadFile : string -> Result string.
Variable loadProject : string -> string -> Result Project.
Variable Sum256 : string -> string.
Variable mapRange : string -> list string -> list string.
Variable mapRangeServices : list string -> list string.
Variable mapRangeNetworks : list string -> list string.
Variable mapRangeVolumes : list string -> list string.

Hypothesis mapRange_perm : forall name keys, mapRange name keys ≡ₚ keys.
Hypothesis mapRangeServices_perm : forall keys, mapRangeServices keys ≡ₚ keys.

Abbreviation Create' :=
  (Create serve ReadFile loadProject Sum256 mapRange mapRangeServices
          mapRangeNetworks mapRangeVolumes).

Lemma createNetwork_trace projectName name cfg (s : Sys W) e s' :
  createNetwork serve projectName name cfg s = (e, s') ->
  exists rs, trace s' = trace s ++ rs /\ forallb isProvisioning rs = true.
Proof.
  unfold createNetwork. intros H. destruct (nExternal cfg).
  { inversion H; subst. exists []. by rewrite app_nil_r. }
  next_call H. destruct a.
  - next_call H. exists [NetworkInspect (projectName +:+ "_" +:+ name);
      NetworkCreate (projectName +:+ "_" +:+ name)
        (if decide (nDriver cfg = "") then "bridge" else nDriver cfg)
        {[projectLabel := projectName; "com.docker.compose.network" := name]}].
    split; [|done].
    destruct a; inversion H; subst; rewrite Hcall0, Hcall; by rewrite <- app_assoc.
  - inversion H; subst. eexists [_]. split; [exact Hcall|done].
Qed.

Lemma createVolume_trace projectName name cfg (s : Sys W) e s' :
  createVolume serve projectName name cfg s = (e, s') ->
  exists rs, trace s' = trace s ++ rs /\ forallb isProvisioning rs = true.
Proof.
  unfold createVolume. intros H. destruct (vExternal cfg).
  { inversion H; subst. exists []. by rewrite app_nil_r. }
  next_call H. destruct a.
  - next_call H. exists [VolumeInspect (projectName +:+ "_" +:+ name);
      VolumeCreate (projectName +:+ "_" +:+ name)
        (if decide (vDriver cfg = "") then "local" else vDriver cfg)
        {[projectLabel := projectName; "com.docker.compose.volume" := name]}].
    split; [|done].
    destruct a; inversion H; subst; rewrite Hcall0, Hcall; by rewrite <- app_assoc.
  - inversion H; subst. eexists [_]. split; [exact Hcall|done].
Qed.

Lemma createService_trace projectName project serviceName (s : Sys W) e s' :
  createService serve projectName serviceName
    (serviceOf project serviceName) project s = (e, s') ->
  exists rs, trace s' = trace s ++ rs /\
    inspected rs = [containerName projectName serviceName] /\
    (e = None -> serviceCalls projectName project serviceName rs).
Proof.
  unfold createService. intros H. next_call H. destruct a as [err|c].
  - next_call H. destruct a as [err'|id].
    + inversion H; subst. eexists [_; _]. split_and!.
      * rewrite Hcall0, Hcall. by rewrite <- app_assoc.
      * done.
      * done.
    + next_call H. eexists [_; _; _]. split_and!.
      * destruct a; inversion H; subst; rewrite Hcall1, Hcall0, Hcall;
          by rewrite <- !app_assoc.
      * done.
      * intros ->. right. by exists id.
  - destruct (call serve _ s0) as [a s1] eqn:Hcall0.
    apply call_trace in Hcall0. inversion H; subst.
    eexists [_; _]. split_and!.
    + rewrite Hcall0, Hcall. by rewrite <- app_assoc.
    + done.
    + intros _. by left.
Qed.

Lemma refreshStackInfo_trace data project (s : Sys W) d s' :
  refreshStackInfo serve mapRangeServices data project s = (d, s') ->
  trace s' = trace s ++
    [ContainerList {| All := false;
       Filters := projectFilter (ValueString (ProjectName data)) ++
                  [("status", "running")] |}].
Proof.
  unfold refreshStackInfo. intros H. next_call H.
  destruct project; inversion H; by subst.
Qed.

Lemma HasError_AddError ds summary detail :
  HasError (AddError ds summary detail) = true.
Proof.
  unfold HasError, AddError. rewrite existsb_app. simpl.
  by rewrite orb_true_r.
Qed.

Lemma createServices_trace projectName project (s : Sys W) r s' :
  createServices serve mapRange mapRangeServices projectName project s = (r, s') ->
  exists k blocks,
    trace s' = trace s ++ concat blocks /\
    Forall2 (fun n rs => inspected rs = [containerName projectName n])
            (take k (getServiceOrder mapRange mapRangeServices project)) blocks /\
    (r = None ->
     Forall2 (serviceCalls projectName project)
             (getServiceOrder mapRange mapRangeServices project) blocks).
Proof.
  unfold createServices. apply forEachUntilError_trace.
  intros x s0 e s1 Hx. by apply createService_trace in Hx.
Qed.

Lemma provisioning_blocks {A} (xs : list A) (blocks : list (list Request)) :
  Forall2 (fun _ rs => forallb isProvisioning rs = true) xs blocks ->
  forallb isProvisioning (concat blocks) = true.
Proof.
  induction 1 as [|x rs xs blocks Hrs _ IH]; simpl; [done|].
  rewrite forallb_app. by rewrite Hrs, IH.
Qed.

Lemma createNetworks_trace projectName project (s : Sys W) r s' :
  createNetworks serve mapRangeNetworks projectName project s = (r, s') ->
  exists rs, trace s' = trace s ++ rs /\ forallb isProvisioning rs = true.
Proof.
  unfold createNetworks. intros H.
  eapply (forEachUntilError_trace _
            (fun _ _ => True)
            (fun _ rs => forallb isProvisioning rs = true)) in H
    as (k & blocks & Ht & HQ & _).
  - exists (concat blocks). split; [done|]. by eapply provisioning_blocks.
  - intros x s0 e s1 Hx. destruct (pNetworks project !! x).
    + apply createNetwork_trace in Hx as (rs & ? & ?). by exists rs.
    + inversion Hx; subst. exists []. by rewrite app_nil_r.
Qed.

Lemma createVolumes_trace projectName project (s : Sys W) r s' :
  createVolumes serve mapRangeVolumes projectName project s = (r, s') ->
  exists rs, trace s' = trace s ++ rs /\ forallb isProvisioning rs = true.
Proof.
  unfold createVolumes. intros H.
  eapply (forEachUntilError_trace _
            (fun _ _ => True)
            (fun _ rs => forallb isProvisioning rs = true)) in H
    as (k & blocks & Ht & HQ & _).
  - exists (concat blocks). split; [done|]. by eapply provisioning_blocks.
  - intros x s0 e s1 Hx. destruct (pVolumes project !! x).
    + apply createVolume_trace in Hx as (rs & ? & ?). by exists rs.
    + inversion Hx; subst. exists []. by rewrite app_nil_r.
Qed.

Lemma inspected_blocks projectName (xs : list string) (blocks : list (list Request)) :
  Forall2 (fun n rs => inspected rs = [containerName projectName n]) xs blocks ->
  inspected (concat blocks) = containerName projectName <$> xs.
Proof.
  induction 1 as [|x rs xs blocks Hrs _ IH]; simpl; [done|].
  by rewrite inspected_app, Hrs, IH.
Qed.

(** The calls of one [Create], for a compose file that parses. *)
Lemma Create_trace req project (s : Sys W) resp s' :
  parseComposeFile ReadFile loadProject (gotData (reqGet req)) = inr project ->
  Create' req s = (resp, s') ->
  let projectName := ValueString (ProjectName (gotData (reqGet req))) in
  let serviceOrder := getServiceOrder mapRange mapRangeServices project in
  exists pre k blocks post,
    trace s' = trace s ++ pre ++ concat blocks ++ post /\
    forallb isProvisioning pre = true /\
    Forall2 (fun n rs => inspected rs = [containerName projectName n])
            (take k serviceOrder) blocks /\
    inspected post = [] /\
    (HasError (respDiagnostics resp) = false ->
       Forall2 (serviceCalls projectName project) serviceOrder blocks /\
       post = [ContainerList {| All := false;
                 Filters := projectFilter projectName ++ [("status", "running")] |}] /\
       exists data, respState resp = Some data /\ ID data = Some projectName).
Proof.
  intros Hparse Hrun projectName serviceOrder. unfold Create in Hrun.
  destruct (HasError (gotDiags (reqGet req))) eqn:Hdiags.
  { inversion Hrun; subst. exists [], 0%nat, [], []. simpl.
    rewrite app_nil_r, take_0.
    split; [done|]. split; [done|]. split; [constructor|]. split; [done|]. simpl.
    by rewrite Hdiags. }
  destruct (IsNull (ComposeFile _) && IsNull (ComposeContent _)) eqn:Hnull.
  { inversion Hrun; subst. exists [], 0%nat, [], []. simpl.
    rewrite app_nil_r, take_0.
    split; [done|]. split; [done|]. split; [constructor|]. split; [done|]. simpl.
    by rewrite HasError_AddError. }
  rewrite Hparse in Hrun. unfold bind in Hrun.
  destruct (createNetworks _ _ _ _ s) as [n s1] eqn:Hn.
  apply createNetworks_trace in Hn as (rs1 & Ht1 & Hp1).
  destruct n as [[name err]|].
  { inversion Hrun; subst. exists rs1, 0%nat, [], []. simpl.
    rewrite app_nil_r, take_0.
    split; [done|]. split; [done|]. split; [constructor|]. split; [done|]. simpl.
    by rewrite HasError_AddError. }
  destruct (createVolumes _ _ _ _ s1) as [v s2] eqn:Hv.
  apply createVolumes_trace in Hv as (rs2 & Ht2 & Hp2).
  assert (Hp12 : forallb isProvisioning (rs1 ++ rs2) = true)
    by (by rewrite forallb_app, Hp1, Hp2).
  destruct v as [[name err]|].
  { inversion Hrun; subst. exists (rs1 ++ rs2), 0%nat, [], []. simpl.
    rewrite app_nil_r, take_0, Ht2, Ht1, <- app_assoc.
    split; [done|]. split; [done|]. split; [constructor|]. split; [done|]. simpl.
    by rewrite HasError_AddError. }
  destruct (createServices _ _ _ _ _ s2) as [r s3] eqn:Hs.
  apply createServices_trace in Hs as (k & blocks & Ht3 & HQ & HP).
  destruct r as [[name err]|].
  { inversion Hrun; subst. exists (rs1 ++ rs2), k, blocks, []. simpl.
    rewrite app_nil_r, Ht3, Ht2, Ht1, <- !app_assoc.
    split; [done|]. split; [done|]. split; [done|]. split; [done|]. simpl.
    by rewrite HasError_AddError. }
  destruct (refreshStackInfo _ _ _ _ s3) as [d s4] eqn:Hr.
  pose proof Hr as Hd.
  apply refreshStackInfo_trace in Hr. simpl in Hr.
  inversion Hrun; subst.
  exists (rs1 ++ rs2), k, blocks,
    [ContainerList {| All := false;
       Filters := projectFilter projectName ++ [("status", "running")] |}].
  split; [|split; [done|split; [done|split; [done|]]]].
  - rewrite Hr, Ht3, Ht2, Ht1. by rewrite <- !app_assoc.
  - intros _. split; [by apply HP|]. split; [done|].
    exists d. split; [done|].
    unfold refreshStackInfo, bind in Hd.
    destruct (call serve _ s3) as [a s5]. destruct a; by inversion Hd.
Qed.

End Create_facts.

(** ** Checking a concrete project *)

Lemma edge_service project n d :
  edge project n d ->
  n ∈ elements (dom (pServices project)) /\ d ∈ dependsOn project n.
Proof.
  unfold edge, dependsOn, serviceOf. intros Hd. split.
  - apply elem_of_elements, elem_of_dom.
    destruct (pServices project !! n); [done|]. simpl in Hd. set_solver.
  - by apply elem_of_elements.
Qed.

Lemma checkEdges_spec project (P : string -> string -> bool) :
  checkEdges project P = true ->
  forall n d, edge project n d -> P n d = true.
Proof.
  unfold checkEdges. intros Hall n d [Hn Hd]%edge_service.
  rewrite forallb_forall in Hall.
  apply list_elem_of_In, Hall in Hn. rewrite forallb_forall in Hn.
  by apply Hn, list_elem_of_In.
Qed.

(** A rank that every [depends_on] edge decreases rules out cycles. *)
Lemma acyclic_ranked project (rank : string -> nat) :
  checkEdges project (fun n d => rank d <? rank n)%nat = true ->
  acyclic project.
Proof.
  intros Hchk n Hcyc.
  assert (Hlt : forall a b, tc (edge project) a b -> (rank b < rank a)%nat).
  { induction 1 as [a b Hab|a b c Hab _ IH].
    - by apply Nat.ltb_lt, (checkEdges_spec project _ Hchk).
    - apply (checkEdges_spec project _ Hchk), Nat.ltb_lt in Hab. lia. }
  apply Hlt in Hcyc. lia.
Qed.

Lemma dependsOnDefined_checked project :
  checkEdges project (fun _ d => bool_decide (d ∈ dom (pServices project))) = true ->
  dependsOnDefined project.
Proof.
  intros Hchk n d Hnd.
  by apply (checkEdges_spec project _ Hchk), bool_decide_eq_true in Hnd.
Qed.

Lemma rangeInOrder_perm name keys : rangeInOrder name keys ≡ₚ keys.
Proof. done. Qed.

Lemma rangeReversed_perm name keys : rangeReversed name keys ≡ₚ keys.
Proof. apply reverse_Permutation. Qed.

Lemma rangeServicesInOrder_perm keys : rangeServicesInOrder keys ≡ₚ keys.
Proof. done. Qed.

Lemma filter_absent (l : list string) (n : string) :
  n ∉ l -> filter (fun x => x = n) l = [].
Proof.
  induction l as [|x l IH]; intros Hn; [done|].
  apply not_elem_of_cons in Hn as [Hne Hn].
  rewrite filter_cons. destruct (decide (x = n)); [congruence|by apply IH].
Qed.

Lemma once_in_NoDup (l : list string) (n : string) :
  NoDup l -> n ∈ l -> length (filter (fun x => x = n) l) = 1%nat.
Proof.
  induction 1 as [|x l Hx Hl IH]; intros Hn; [by apply elem_of_nil in Hn|].
  rewrite filter_cons. destruct (decide (x = n)) as [->|Hne].
  - simpl. by rewrite filter_absent.
  - apply elem_of_cons in Hn as [->|Hn]; [done|]. by apply IH.
Qed.

(** ** The claims about the service order and [Create] *)

Section compose_claims.

Context {W : Type}.
Variable serve : Daemon W.
Variable ReadFile : string -> Result string.
Variable loadProject : string -> string -> Result Project.
Variable Sum256 : string -> string.
Variable mapRange : string -> list string -> list string.
Variable mapRangeServices : list string -> list string.
Variable mapRangeNetworks : list string -> list string.
Variable mapRangeVolumes : list string -> list string.

Hypothesis mapRange_perm : forall name keys, mapRange name keys ≡ₚ keys.
Hypothesis mapRangeServices_perm : forall keys, mapRangeServices keys ≡ₚ keys.

(** C1.  For a project whose depends_on graph is acyclic and names only
    defined services, [getServiceOrder] returns a topological order of
    the project's services: the list is a permutation of the service
    names and every dependency of a service stands at a smaller index
    than the service.  [Create] works through exactly that list: the
    containers it inspects are those of a prefix of the list, in order,
    and a [Create] that reports no error has, after the network and
    volume calls, made the calls of every service of the list in order
    (inspect, create if missing, start) before its final listing. *)
Theorem getServiceOrder_topological_Create_in_order (project : Project) :
  acyclic project ->
  dependsOnDefined project ->
  let serviceOrder := getServiceOrder mapRange mapRangeServices project in
  serviceOrder ≡ₚ elements (dom (pServices project)) /\
  topological project serviceOrder /\
  forall req (s : Sys W) resp s',
    parseComposeFile ReadFile loadProject (gotData (reqGet req)) = inr project ->
    Create serve ReadFile loadProject Sum256 mapRange mapRangeServices
           mapRangeNetworks mapRangeVolumes req s = (resp, s') ->
    let projectName := ValueString (ProjectName (gotData (reqGet req))) in
    exists rs,
      trace s' = trace s ++ rs /\
      inspected rs `prefix_of` (containerName projectName <$> serviceOrder) /\
      (HasError (respDiagnostics resp) = false ->
       exists pre blocks post,
         rs = pre ++ concat blocks ++ post /\
         forallb isProvisioning pre = true /\
         Forall2 (serviceCalls projectName project) serviceOrder blocks /\
         post = [ContainerList
                   {| All := false;
                      Filters := projectFilter projectName ++
                                 [("status", "running")] |}]).
Proof.
  intros Hacyc Hdef serviceOrder.
  destruct (getServiceOrder_spec mapRange mapRangeServices project
              mapRange_perm mapRangeServices_perm)
    as (Hnd & Hall & Huniv & Htopo).
  split_and!.
  - apply NoDup_Permutation; [done|apply NoDup_elements|].
    intros n. rewrite elem_of_elements. split; [|apply Hall].
    intros Hn%Huniv. unfold universe in Hn.
    apply elem_of_union in Hn as [Hn|Hn]; [done|].
    apply elem_of_union_list in Hn as (X & HX & Hn).
    apply list_elem_of_fmap in HX as ([m svc] & -> & Hm).
    apply elem_of_map_to_list in Hm. simpl in Hn.
    apply (Hdef m n). unfold edge, serviceOf. by rewrite Hm.
  - by apply Htopo.
  - intros req s resp s' Hparse Hrun projectName.
    destruct (Create_trace serve ReadFile loadProject Sum256 mapRange
                mapRangeServices mapRangeNetworks mapRangeVolumes
                req project s resp s' Hparse Hrun)
      as (pre & k & blocks & post & Ht & Hpre & Hblocks & Hpost & Hok).
    exists (pre ++ concat blocks ++ post). split; [done|]. split.
    + rewrite !inspected_app, (inspected_provisioning pre Hpre), Hpost, app_nil_r.
      simpl. rewrite (inspected_blocks _ _ _ Hblocks).
      exists (containerName projectName <$> drop k serviceOrder).
      by rewrite <- fmap_app, take_drop.
    + intros Hnoerr. destruct (Hok Hnoerr) as (Hcalls & -> & _).
      by exists pre, blocks, [ContainerList
                   {| All := false;
                      Filters := projectFilter projectName ++
                                 [("status", "running")] |}].
Qed.

(** C9.  The list [getServiceOrder] returns has no duplicates and
    contains every service name of the project exactly once, whatever
    the [depends_on] entries name. *)
Theorem getServiceOrder_each_service_once (project : Project) :
  let serviceOrder := getServiceOrder mapRange mapRangeServices project in
  NoDup serviceOrder /\
  forall n, n ∈ dom (pServices project) ->
    length (filter (fun x => x = n) serviceOrder) = 1%nat.
Proof.
  destruct (getServiceOrder_spec mapRange mapRangeServices project
              mapRange_perm mapRangeServices_perm)
    as (Hnd & Hall & _ & _).
  split; [done|]. intros n Hn. apply once_in_NoDup; [done|by apply Hall].
Qed.

(** C8.  With [compose_file] and [compose_content] both null, [Create]
    adds the error "Missing Compose Configuration" and returns with the
    world, the trace of API calls and the state left as they were. *)
Theorem Create_missing_compose_configuration
    (req : ResourceRequest ComposeResourceModel) (s : Sys W) :
  HasError (gotDiags (reqGet req)) = false ->
  ComposeFile (gotData (reqGet req)) = None ->
  ComposeContent (gotData (reqGet req)) = None ->
  Create serve ReadFile loadProject Sum256 mapRange mapRangeServices
         mapRangeNetworks mapRangeVolumes req s =
  ({| respDiagnostics :=
        gotDiags (reqGet req) ++
        [{| dSeverity := SeverityError;
            dSummary := "Missing Compose Configuration";
            dDetail := "Either compose_file or compose_content must be specified." |}];
      respState := reqPriorState req |}, s).
Proof.
  intros Hdiags Hfile Hcontent. unfold Create.
  by rewrite Hdiags, Hfile, Hcontent.
Qed.

End compose_claims.

Import examples.

Lemma getServiceOrder_topological_Create_in_order_witness :
  acyclic app_db_cache /\ dependsOnDefined app_db_cache /\
  topological app_db_cache
    (getServiceOrder rangeInOrder rangeServicesInOrder app_db_cache).
Proof.
  assert (Ha : acyclic app_db_cache)
    by (apply (acyclic_ranked _ shopRank); vm_compute; reflexivity).
  assert (Hd : dependsOnDefined app_db_cache)
    by (apply dependsOnDefined_checked; vm_compute; reflexivity).
  split; [exact Ha|]. split; [exact Hd|].
  exact (proj1 (proj2
    (getServiceOrder_topological_Create_in_order
       engine.serve noFile loadShop plainDigest
       rangeInOrder rangeServicesInOrder rangeServicesInOrder rangeServicesInOrder
       rangeInOrder_perm rangeServicesInOrder_perm app_db_cache Ha Hd))).
Defined.

Lemma getServiceOrder_each_service_once_witness :
  NoDup (getServiceOrder rangeReversed rangeServicesInOrder dangling) /\
  forall n, n ∈ dom (pServices dangling) ->
    length (filter (fun x => x = n)
              (getServiceOrder rangeReversed rangeServicesInOrder dangling)) = 1%nat.
Proof.
  exact (getServiceOrder_each_service_once rangeReversed rangeServicesInOrder
           rangeReversed_perm rangeServicesInOrder_perm dangling).
Defined.

(** A name that is depended on but not defined is listed as well, before
    its dependant. *)
Example getServiceOrder_dangling :
  getServiceOrder rangeReversed rangeServicesInOrder dangling = ["ghost"; "b"; "a"].
Proof. vm_compute. reflexivity. Qed.

Lemma Create_missing_compose_configuration_witness :
  Create engine.serve noFile loadShop plainDigest rangeInOrder
         rangeServicesInOrder rangeServicesInOrder rangeServicesInOrder
         unconfiguredRequest (engine.start emptyEngine) =
  ({| respDiagnostics :=
        [{| dSeverity := SeverityError;
            dSummary := "Missing Compose Configuration";
            dDetail := "Either compose_file or compose_content must be specified." |}];
      respState := None |}, engine.start emptyEngine).
Proof.
  exact (Create_missing_compose_configuration engine.serve noFile loadShop
           plainDigest rangeInOrder rangeServicesInOrder rangeServicesInOrder
           rangeServicesInOrder unconfiguredRequest (engine.start emptyEngine)
           eq_refl eq_refl eq_refl).
Defined.

(** C2.  [getServiceOrder] is not a function of the project alone.  The
    service names are sorted, so the order in which they are first visited
    is the same for every iteration order of [project.Services]; but the
    dependencies of a service are ranged over in map order.  For [app]
    depending on [db] and [cache], two iteration orders of that map give
    two different lists. *)
Theorem getServiceOrder_depends_on_map_order :
  (forall f g : list string -> list string,
     (forall keys, f keys ≡ₚ keys) -> (forall keys, g keys ≡ₚ keys) ->
     serviceNames f app_db_cache = serviceNames g app_db_cache) /\
  (forall name keys, rangeInOrder name keys ≡ₚ keys) /\
  (forall name keys, rangeReversed name keys ≡ₚ keys) /\
  getServiceOrder rangeInOrder rangeServicesInOrder app_db_cache
    = ["cache"; "db"; "app"] /\
  getServiceOrder rangeReversed rangeServicesInOrder app_db_cache
    = ["db"; "cache"; "app"].
Proof.
  split; [intros f g; apply serviceNames_deterministic|].
  split; [apply rangeInOrder_perm|]. split; [apply rangeReversed_perm|].
  split; vm_compute; reflexivity.
Qed.

(** ** ComposeResource.Delete on the reference daemon *)

Import engine.

Lemma cut_projectFilter projectName :
  cut (projectLabel +:+ "=" +:+ projectName) = (projectLabel, Some projectName).
Proof. reflexivity. Qed.

Lemma matches_projectFilter labels state projectName :
  matches labels state (projectFilter projectName)
  = bool_decide (labels !! projectLabel = Some projectName).
Proof.
  unfold matches, projectFilter, matchesLabel. cbn [forallb fst snd].
  rewrite cut_projectFilter. destruct (decide ("label" = "label")); [|done].
  by rewrite andb_true_r.
Qed.

(** A loop whose step for [a] touches only the key [key a] of one store
    of the daemon ([get]) and keeps the rest of it ([keep]). *)
Section key_local_loop.

Context {V X A : Type}.
Variable get : Engine -> gmap string V.
Variable keep : Engine -> X.
Variable key : A -> string.
Variable f : A -> M Engine unit.

Definition servesAll (e : Engine) : Prop := forall q, refuses e q = false.

Hypothesis f_local : forall a s r s',
  is_Some (get (world s) !! key a) -> f a s = (r, s') ->
  keep (world s') = keep (world s) /\
  refuses (world s') = refuses (world s) /\
  (forall k, k <> key a -> get (world s') !! k = get (world s) !! k) /\
  (servesAll (world s) -> get (world s') !! key a = None).

Lemma forEach_local : forall xs s r s',
  (forall a, a ∈ xs -> is_Some (get (world s) !! key a)) ->
  NoDup (key <$> xs) ->
  forEach f xs s = (r, s') ->
  keep (world s') = keep (world s) /\
  refuses (world s') = refuses (world s) /\
  (forall k, k ∉ key <$> xs -> get (world s') !! k = get (world s) !! k) /\
  (servesAll (world s) ->
   forall k, k ∈ key <$> xs -> get (world s') !! k = None).
Proof.
  induction xs as [|a xs IH]; intros s r s' Hex Hnd Hrun; simpl in Hrun.
  - inversion Hrun; subst. split_and!; try done.
    intros _ k Hk. by apply elem_of_nil in Hk.
  - unfold bind in Hrun. destruct (f a s) as [u s1] eqn:Ha.
    rewrite fmap_cons in Hnd. apply NoDup_cons in Hnd as [Hka Hnd].
    destruct (f_local a s u s1) as (K1 & R1 & O1 & G1); [apply Hex; by left|done|].
    destruct (IH s1 r s') as (K2 & R2 & O2 & G2); [|done|done|].
    { intros b Hb. rewrite O1; [apply Hex; by right|].
      intros Heq. apply Hka. rewrite <- Heq. by apply list_elem_of_fmap_2. }
    split_and!.
    + by rewrite K2.
    + by rewrite R2.
    + intros k Hk. rewrite fmap_cons in Hk.
      apply not_elem_of_cons in Hk as [Hne Hk]. rewrite O2 by done. by apply O1.
    + intros Hall k Hk. rewrite fmap_cons in Hk.
      assert (Hall1 : servesAll (world s1)).
      { intros q. rewrite R1. apply Hall. }
      apply elem_of_cons in Hk as [->|Hk].
      * rewrite O2 by done. by apply G1.
      * by apply G2.
Qed.

End key_local_loop.

Lemma resolveContainer_id e id c :
  containers e !! id = Some c -> resolveContainer e id = Some id.
Proof. unfold resolveContainer. by intros ->. Qed.

Lemma resolveNetwork_id e id n :
  networks e !! id = Some n -> resolveNetwork e id = Some id.
Proof. unfold resolveNetwork. by intros ->. Qed.

(** Stopping and removing the container [id]. *)
Lemma stop_remove_local (c : ContainerSummary) (s : Sys Engine) r s' :
  is_Some (containers (world s) !! cID c) ->
  (let* _ := call serve (ContainerStop (cID c) (Some 10%Z)) in
   let* _ := call serve (ContainerRemove (cID c) true) in
   ret tt) s = (r, s') ->
  (networks (world s'), volumes (world s')) = (networks (world s), volumes (world s)) /\
  refuses (world s') = refuses (world s) /\
  (forall k, k <> cID c -> containers (world s') !! k = containers (world s) !! k) /\
  (servesAll (world s) -> containers (world s') !! cID c = None).
Proof.
  intros [cd Hcd] Hrun. unfold bind, call, serve, ret in Hrun. simpl in Hrun.
  destruct s as [e t]. simpl in *.
  destruct (refuses e (ContainerStop (cID c) (Some 10%Z))) eqn:Hr1; simpl in Hrun.
  - destruct (refuses e (ContainerRemove (cID c) true)) eqn:Hr2; simpl in Hrun.
    + inversion Hrun; subst; simpl. split_and!; try done.
      intros Hall. by rewrite Hall in Hr1.
    + rewrite (resolveContainer_id e _ cd Hcd), Hcd in Hrun.
      destruct (bool_decide (cdState cd = "running")); simpl in Hrun;
        inversion Hrun; subst; simpl;
        (split; [reflexivity|]; split; [reflexivity|]; split;
         [intros k Hk; by rewrite lookup_delete_ne
         |intros _; by rewrite lookup_delete_eq]).
  - rewrite (resolveContainer_id e _ cd Hcd) in Hrun. simpl in Hrun.
    set (m1 := alter (setState "exited") (cID c) (containers e)) in *.
    assert (Hm1 : m1 !! cID c = Some (setState "exited" cd)).
    { unfold m1. by rewrite lookup_alter_eq, Hcd. }
    destruct (refuses e (ContainerRemove (cID c) true)) eqn:Hr2; simpl in Hrun.
    + inversion Hrun; subst; simpl. split_and!; try done.
      * intros k Hk. unfold m1. by rewrite lookup_alter_ne.
      * intros Hall. by rewrite Hall in Hr2.
    + unfold resolveContainer in Hrun. simpl in Hrun. rewrite Hm1 in Hrun.
      simpl in Hrun. rewrite ?Hm1 in Hrun. simpl in Hrun.
      destruct (bool_decide (cdState (setState "exited" cd) = "running"));
        simpl in Hrun; inversion Hrun; subst; simpl;
        (split; [reflexivity|]; split; [reflexivity|]; split;
         [intros k Hk; unfold m1; by rewrite lookup_delete_ne, lookup_alter_ne
         |intros _; by rewrite lookup_delete_eq]).
Qed.

Lemma network_remove_local (n : NetworkSummary) (s : Sys Engine) r s' :
  is_Some (networks (world s) !! nID n) ->
  (let* _ := call serve (NetworkRemove (nID n)) in ret tt) s = (r, s') ->
  (containers (world s'), volumes (world s')) = (containers (world s), volumes (world s)) /\
  refuses (world s') = refuses (world s) /\
  (forall k, k <> nID n -> networks (world s') !! k = networks (world s) !! k) /\
  (servesAll (world s) -> networks (world s') !! nID n = None).
Proof.
  intros [nd Hnd] Hrun. unfold bind, call, serve, ret in Hrun. simpl in Hrun.
  destruct s as [e t]. simpl in *.
  destruct (refuses e (NetworkRemove (nID n))) eqn:Hr1; simpl in Hrun.
  - inversion Hrun; subst; simpl. split_and!; try done.
    intros Hall. by rewrite Hall in Hr1.
  - rewrite (resolveNetwork_id e _ nd Hnd) in Hrun.
    inversion Hrun; subst; simpl. split_and!; try done.
    + intros k Hk. by rewrite lookup_delete_ne.
    + intros _. by rewrite lookup_delete_eq.
Qed.

Lemma volume_remove_local (v : VolumeSummary) (s : Sys Engine) r s' :
  is_Some (volumes (world s) !! vName v) ->
  (let* _ := call serve (VolumeRemove (vName v) true) in ret tt) s = (r, s') ->
  (containers (world s'), networks (world s')) = (containers (world s), networks (world s)) /\
  refuses (world s') = refuses (world s) /\
  (forall k, k <> vName v -> volumes (world s') !! k = volumes (world s) !! k) /\
  (servesAll (world s) -> volumes (world s') !! vName v = None).
Proof.
  intros [l Hl] Hrun. unfold bind, call, serve, ret in Hrun. simpl in Hrun.
  destruct s as [e t]. simpl in *.
  destruct (refuses e (VolumeRemove (vName v) true)) eqn:Hr1; simpl in Hrun.
  - inversion Hrun; subst; simpl. split_and!; try done.
    intros Hall. by rewrite Hall in Hr1.
  - rewrite Hl in Hrun.
    inversion Hrun; subst; simpl. split_and!; try done.
    + intros k Hk. by rewrite lookup_delete_ne.
    + intros _. by rewrite lookup_delete_eq.
Qed.

Arguments matches : simpl never.
Arguments projectFilter : simpl never.

Lemma NoDup_filtered_keys {V} (P : string * V -> Prop) `{!forall x, Decision (P x)}
    (m : gmap string V) :
  NoDup ((filter P (map_to_list m)).*1).
Proof.
  eapply sublist_NoDup; [apply (NoDup_fst_map_to_list m)|].
  apply fmap_sublist, sublist_filter.
Qed.

Lemma removeProjectContainers_engine projectName (s : Sys Engine) r s' :
  removeProjectContainers serve projectName s = (r, s') ->
  let e := world s in
  let e' := world s' in
  (networks e', volumes e') = (networks e, volumes e) /\
  refuses e' = refuses e /\
  (forall id, (forall c, containers e !! id = Some c ->
                         cdLabels c !! projectLabel <> Some projectName) ->
              containers e' !! id = containers e !! id) /\
  (servesAll e -> forall id c,
     containers e !! id = Some c ->
     cdLabels c !! projectLabel = Some projectName ->
     containers e' !! id = None).
Proof.
  unfold removeProjectContainers, bind. intros Hrun.
  destruct s as [e t]. unfold call at 1, serve in Hrun. simpl in *.
  destruct (refuses e _) eqn:Href; simpl in Hrun.
  { inversion Hrun; subst; simpl. split_and!; try done.
    intros Hall. by rewrite Hall in Href. }
  set (sel := filter _ (map_to_list (containers e))) in Hrun.
  assert (Hsel : forall id c, (id, c) ∈ sel <->
            containers e !! id = Some c /\
            cdLabels c !! projectLabel = Some projectName).
  { intros id c. unfold sel. rewrite list_elem_of_filter, elem_of_map_to_list.
    simpl. rewrite matches_projectFilter, bool_decide_spec. tauto. }
  eapply (forEach_local containers (fun e => (networks e, volumes e)) cID)
    in Hrun as (K & R & O & G); simpl in *.
  - split_and!; [done|done| |].
    + intros id Hid. apply O. intros Hin.
      apply list_elem_of_fmap in Hin as (c & -> & Hc).
      apply list_elem_of_fmap in Hc as ([id cd] & -> & Hc).
      apply Hsel in Hc as [Hc Hl]. by apply (Hid cd).
    + intros Hall id c Hc Hl. apply G; [done|].
      apply list_elem_of_fmap. exists (summaryOf (id, c)). split; [done|].
      apply list_elem_of_fmap. exists (id, c). split; [done|]. by apply Hsel.
  - intros a s0 r0 s1 Ha Hstep. by apply stop_remove_local in Hstep.
  - intros a Ha. apply list_elem_of_fmap in Ha as ([id cd] & -> & Hc).
    apply Hsel in Hc as [Hc _]. simpl. by rewrite Hc.
  - rewrite <- list_fmap_compose. apply (NoDup_filtered_keys _ (containers e)).
Qed.

Lemma removeProjectNetworks_engine projectName (s : Sys Engine) r s' :
  removeProjectNetworks serve projectName s = (r, s') ->
  let e := world s in
  let e' := world s' in
  (containers e', volumes e') = (containers e, volumes e) /\
  refuses e' = refuses e /\
  (forall id, (forall n, networks e !! id = Some n ->
                         ndLabels n !! projectLabel <> Some projectName) ->
              networks e' !! id = networks e !! id) /\
  (servesAll e -> forall id n,
     networks e !! id = Some n ->
     ndLabels n !! projectLabel = Some projectName ->
     networks e' !! id = None).
Proof.
  unfold removeProjectNetworks, bind. intros Hrun.
  destruct s as [e t]. unfold call at 1, serve in Hrun. simpl in *.
  destruct (refuses e _) eqn:Href; simpl in Hrun.
  { inversion Hrun; subst; simpl. split_and!; try done.
    intros Hall. by rewrite Hall in Href. }
  set (sel := filter _ (map_to_list (networks e))) in Hrun.
  assert (Hsel : forall id n, (id, n) ∈ sel <->
            networks e !! id = Some n /\
            ndLabels n !! projectLabel = Some projectName).
  { intros id n. unfold sel. rewrite list_elem_of_filter, elem_of_map_to_list.
    simpl. rewrite matches_projectFilter, bool_decide_spec. tauto. }
  eapply (forEach_local networks (fun e => (containers e, volumes e)) nID)
    in Hrun as (K & R & O & G); simpl in *.
  - split_and!; [done|done| |].
    + intros id Hid. apply O. intros Hin.
      apply list_elem_of_fmap in Hin as (c & -> & Hc).
      apply list_elem_of_fmap in Hc as ([id nd] & -> & Hc).
      apply Hsel in Hc as [Hc Hl]. by apply (Hid nd).
    + intros Hall id n Hn Hl. apply G; [done|].
      apply list_elem_of_fmap. exists (networkOf (id, n)). split; [done|].
      apply list_elem_of_fmap. exists (id, n). split; [done|]. by apply Hsel.
  - intros a s0 r0 s1 Ha Hstep. by apply network_remove_local in Hstep.
  - intros a Ha. apply list_elem_of_fmap in Ha as ([id nd] & -> & Hc).
    apply Hsel in Hc as [Hc _]. simpl. by rewrite Hc.
  - rewrite <- list_fmap_compose. apply (NoDup_filtered_keys _ (networks e)).
Qed.

Lemma removeProjectVolumes_engine projectName (s : Sys Engine) r s' :
  removeProjectVolumes serve projectName s = (r, s') ->
  let e := world s in
  let e' := world s' in
  (containers e', networks e') = (containers e, networks e) /\
  refuses e' = refuses e /\
  (forall name, (forall l, volumes e !! name = Some l ->
                           vdLabels l !! projectLabel <> Some projectName) ->
                volumes e' !! name = volumes e !! name) /\
  (servesAll e -> forall name l,
     volumes e !! name = Some l ->
     vdLabels l !! projectLabel = Some projectName ->
     volumes e' !! name = None).
Proof.
  unfold removeProjectVolumes, bind. intros Hrun.
  destruct s as [e t]. unfold call at 1, serve in Hrun. simpl in *.
  destruct (refuses e _) eqn:Href; simpl in Hrun.
  { inversion Hrun; subst; simpl. split_and!; try done.
    intros Hall. by rewrite Hall in Href. }
  set (sel := filter _ (map_to_list (volumes e))) in Hrun.
  assert (Hsel : forall name l, (name, l) ∈ sel <->
            volumes e !! name = Some l /\
            vdLabels l !! projectLabel = Some projectName).
  { intros name l. unfold sel. rewrite list_elem_of_filter, elem_of_map_to_list.
    simpl. rewrite matches_projectFilter, bool_decide_spec. tauto. }
  eapply (forEach_local volumes (fun e => (containers e, networks e)) vName)
    in Hrun as (K & R & O & G); simpl in *.
  - split_and!; [done|done| |].
    + intros name Hname. apply O. intros Hin.
      apply list_elem_of_fmap in Hin as (c & -> & Hc).
      apply list_elem_of_fmap in Hc as ([name l] & -> & Hc).
      apply Hsel in Hc as [Hc Hl]. by apply (Hname l).
    + intros Hall name l Hn Hl. apply G; [done|].
      apply list_elem_of_fmap. exists (volumeOf (name, l)). split; [done|].
      apply list_elem_of_fmap. exists (name, l). split; [done|]. by apply Hsel.
  - intros a s0 r0 s1 Ha Hstep. by apply volume_remove_local in Hstep.
  - intros a Ha. apply list_elem_of_fmap in Ha as ([name l] & -> & Hc).
    apply Hsel in Hc as [Hc _]. simpl. by rewrite Hc.
  - rewrite <- list_fmap_compose. apply (NoDup_filtered_keys _ (volumes e)).
Qed.

(** C7.  [Delete] on the reference daemon.  Whatever requests the daemon
    refuses, every container, network and volume that does not carry the
    label com.docker.compose.project=<project_name> is left exactly as it
    was (and none is created), and with [remove_volumes] false the volumes
    are all left as they were.  When the daemon serves every request and
    the state was read without error, every container and network that
    carries the label is removed, and every labelled volume as well when
    [remove_volumes] is true.  [Delete] adds no diagnostic. *)
Theorem Delete_touches_only_project_objects
    (req : ResourceRequest ComposeResourceModel) (e : Engine) resp s' :
  Delete serve req (start e) = (resp, s') ->
  let projectName := ValueString (ProjectName (gotData (reqGet req))) in
  let removeVolumes := ValueBool (RemoveVolumes (gotData (reqGet req))) in
  let e' := world s' in
  (forall id,
     (forall c, containers e !! id = Some c ->
                cdLabels c !! projectLabel <> Some projectName) ->
     containers e' !! id = containers e !! id) /\
  (forall id,
     (forall n, networks e !! id = Some n ->
                ndLabels n !! projectLabel <> Some projectName) ->
     networks e' !! id = networks e !! id) /\
  (forall name,
     (forall l, volumes e !! name = Some l ->
                vdLabels l !! projectLabel <> Some projectName) ->
     volumes e' !! name = volumes e !! name) /\
  (removeVolumes = false -> volumes e' = volumes e) /\
  (HasError (gotDiags (reqGet req)) = false -> servesAll e ->
     (forall id c, containers e !! id = Some c ->
                   cdLabels c !! projectLabel = Some projectName ->
                   containers e' !! id = None) /\
     (forall id n, networks e !! id = Some n ->
                   ndLabels n !! projectLabel = Some projectName ->
                   networks e' !! id = None) /\
     (removeVolumes = true ->
      forall name l, volumes e !! name = Some l ->
                     vdLabels l !! projectLabel = Some projectName ->
                     volumes e' !! name = None)) /\
  respDiagnostics resp = gotDiags (reqGet req).
Proof.
  intros Hrun projectName removeVolumes e'. unfold Delete in Hrun.
  destruct (HasError (gotDiags (reqGet req))) eqn:Hdiags.
  { inversion Hrun; subst. subst e'. simpl. split_and!; done. }
  unfold bind in Hrun. fold projectName removeVolumes in Hrun.
  destruct (removeProjectContainers serve projectName (start e)) as [u1 s1] eqn:H1.
  destruct (removeProjectNetworks serve projectName s1) as [u2 s2] eqn:H2.
  apply removeProjectContainers_engine in H1 as (K1 & R1 & O1 & G1).
  apply removeProjectNetworks_engine in H2 as (K2 & R2 & O2 & G2).
  simpl in K1, R1, O1, G1. injection K1 as N1 V1. injection K2 as C2 V2.
  assert (Hall1 : servesAll e -> servesAll (world s1)).
  { intros Hall q. rewrite R1. apply Hall. }
  assert (Hall2 : servesAll e -> servesAll (world s2)).
  { intros Hall q. rewrite R2. by apply Hall1. }
  destruct removeVolumes eqn:Hrv.
  - destruct (removeProjectVolumes serve projectName s2) as [u3 s3] eqn:H3.
    apply removeProjectVolumes_engine in H3 as (K3 & R3 & O3 & G3).
    injection K3 as C3 N3. inversion Hrun; subst resp s'. subst e'. simpl.
    split_and!; [| | |done| |done].
    + intros id Hid. rewrite C3, C2. by apply O1.
    + intros id Hid. rewrite N3. rewrite O2; [by rewrite N1|].
      intros n. rewrite N1. apply Hid.
    + intros name Hname. rewrite O3; [by rewrite V2, V1|].
      intros l. rewrite V2, V1. apply Hname.
    + intros _ Hall. split_and!.
      * intros id c Hc Hl. rewrite C3, C2. by eapply G1.
      * intros id n Hn Hl. rewrite N3. eapply G2; [by apply Hall1| |done].
        by rewrite N1.
      * intros _ name l Hn Hl. eapply G3; [by apply Hall2| |done].
        by rewrite V2, V1.
  - inversion Hrun; subst resp s'. subst e'. simpl.
    split_and!; [| | | | |done].
    + intros id Hid. rewrite C2. by apply O1.
    + intros id Hid. rewrite O2; [by rewrite N1|].
      intros n. rewrite N1. apply Hid.
    + intros name _. by rewrite V2, V1.
    + intros _. by rewrite V2, V1.
    + intros _ Hall. split_and!; [| |done].
      * intros id c Hc Hl. rewrite C2. by eapply G1.
      * intros id n Hn Hl. eapply G2; [by apply Hall1| |done]. by rewrite N1.
Qed.

Lemma Delete_touches_only_project_objects_witness :
  containers (world examples.shopDelete.2) !! "c2"
    = containers examples.mixedEngine !! "c2" /\
  containers (world examples.shopDelete.2) !! "c1" = None /\
  volumes (world examples.shopDelete.2) = volumes examples.mixedEngine.
Proof.
  destruct (Delete_touches_only_project_objects examples.shopState
              examples.mixedEngine examples.shopDelete.1 examples.shopDelete.2
              (surjective_pairing examples.shopDelete))
    as (Hc & _ & _ & Hv & Hgone & _).
  split; [|split].
  - apply Hc. intros c Hc2. vm_compute in Hc2. injection Hc2 as <-. vm_compute.
    discriminate.
  - apply (proj1 (Hgone eq_refl (fun _ => eq_refl))) with
      (c := {| cdName := "shop-db-1"; cdImage := "db";
               cdLabels := {[ projectLabel := "shop" ]};
               cdState := "running" |}); vm_compute; reflexivity.
  - apply Hv. reflexivity.
Defined.

(** ** ServiceResource.waitForConvergence *)

Lemma HasError_AddWarning ds summary detail :
  HasError (AddWarning ds summary detail) = HasError ds.
Proof.
  unfold HasError, AddWarning. rewrite existsb_app. simpl.
  by rewrite orb_false_r.
Qed.

Lemma replicate_snoc {A} (n : nat) (x : A) :
  replicate n x ++ [x] = replicate (S n) x.
Proof. induction n as [|n IH]; simpl; [done|]. by rewrite IH. Qed.

Section waitForConvergence_facts.

Context {W : Type}.
Variable serve : Daemon W.
Variable Now : W -> Z.
Variable Sleep : Z -> W -> W.
Variable ParseDuration : string -> Result Z.

(** [time.Sleep(d)] pauses for at least [d]; time does not run backwards
    while a request is served. *)
Hypothesis Sleep_pauses : forall d w, (Now w + d <= Now (Sleep d w))%Z.
Hypothesis serve_monotone : forall r w, (Now w <= Now (serve r w).2)%Z.

Lemma convergeLoop_terminates serviceID delay deadline diags :
  (0 < delay)%Z ->
  forall fuel (s : Sys W),
    (deadline - Now (world s) <= Z.of_nat fuel * delay)%Z ->
    exists diags' s', 
      convergeLoop serve Now Sleep (S fuel) serviceID delay deadline diags s
        = (Some diags', s') /\
      convergeOutcome Now serviceID diags deadline fuel s diags' s'.
Proof.
  intros Hdelay. induction fuel as [|fuel IH]; intros s Hs.
  - exists (AddWarning diags "Service Convergence Timeout"
              ("Service " +:+ serviceID +:+
               " did not converge within the timeout period")), s.
    simpl. unfold bind, timeNow. simpl.
    destruct (Z.ltb_spec (Now (world s)) deadline) as [Hlt|Hge]; [lia|].
    split; [done|]. split_and!.
    + exists 0%nat. split; [lia|]. simpl. by rewrite app_nil_r.
    + lia.
    + right. right. split; [done|lia].
  - cbn [convergeLoop]. unfold bind at 1, timeNow at 1. cbn beta iota.
    destruct (Z.ltb_spec (Now (world s)) deadline) as [Hlt|Hge].
    2:{ eexists _, s. split; [reflexivity|]. split_and!.
        - exists 0%nat. split; [lia|]. simpl. by rewrite app_nil_r.
        - lia.
        - right. right. split; [done|lia]. }
    unfold bind at 1, call at 1.
    pose proof (serve_monotone (ServiceInspectWithRaw serviceID) (world s)) as Hmono.
    destruct (serve (ServiceInspectWithRaw serviceID) (world s)) as [r w1].
    simpl in Hmono. simpl in r.
    set (s1 := {| world := w1; trace := trace s ++ [ServiceInspectWithRaw serviceID] |}).
    set (s2 := {| world := Sleep delay w1;
                  trace := trace s ++ [ServiceInspectWithRaw serviceID] |}).
    assert (Hagain : exists diags' s',
              convergeLoop serve Now Sleep (S fuel) serviceID delay deadline diags s2
                = (Some diags', s') /\
              convergeOutcome Now serviceID diags deadline (S fuel) s diags' s').
    { pose proof (Sleep_pauses delay w1) as Hsl.
      destruct (IH s2) as (diags' & s' & Hrun & (n & Hn & Ht) & Hclock & Hout).
      { simpl. lia. }
      exists diags', s'. split; [done|]. split_and!.
      - exists (S n). split; [lia|]. rewrite Ht. simpl.
        by rewrite <- app_assoc.
      - simpl in Hclock. lia.
      - done. }
    assert (Hnow : forall diags',
              (diags' = diags \/
               exists msg, diags' = AddWarning diags "Service Update Paused" msg) ->
              convergeOutcome Now serviceID diags deadline (S fuel) s diags' s1).
    { intros diags' Hd. split_and!.
      - exists 1%nat. split; [lia|done].
      - simpl. lia.
      - destruct Hd as [->|Hd]; [by left|by right; left]. }
    destruct r as [err|service].
    + unfold bind at 1, timeSleep. cbn beta iota. exact Hagain.
    + destruct (svcUpdateStatus service) as [status|].
      2:{ exists diags, s1. split; [done|]. apply Hnow. by left. }
      destruct (usState status);
        try (unfold bind at 1, timeSleep; cbn beta iota; exact Hagain).
      * eexists _, s1. split; [reflexivity|]. apply Hnow. right. by eexists.
      * exists diags, s1. split; [done|]. apply Hnow. by left.
Qed.

Lemma convergeLoop_fuel_mono serviceID delay deadline diags :
  forall fuel (s : Sys W) diags' s',
    convergeLoop serve Now Sleep fuel serviceID delay deadline diags s
      = (Some diags', s') ->
    forall fuel', (fuel <= fuel')%nat ->
      convergeLoop serve Now Sleep fuel' serviceID delay deadline diags s
        = (Some diags', s').
Proof.
  induction fuel as [|fuel IH]; intros s diags' s' Hrun fuel' Hle; [done|].
  destruct fuel' as [|fuel']; [lia|].
  cbn [convergeLoop] in *. unfold bind at 1, timeNow at 1 in Hrun.
  unfold bind at 1, timeNow at 1. cbn beta iota in *.
  destruct (Now (world s) <? deadline)%Z; [|done].
  unfold bind at 1 in Hrun. unfold bind at 1.
  destruct (call serve (ServiceInspectWithRaw serviceID) s) as [r s1].
  destruct r as [err|service].
  - unfold bind at 1, timeSleep in Hrun. unfold bind at 1, timeSleep.
    cbn beta iota in *. apply IH; [done|lia].
  - destruct (svcUpdateStatus service) as [status|]; [|done].
    destruct (usState status); try done;
      unfold bind at 1, timeSleep in Hrun; unfold bind at 1, timeSleep;
      cbn beta iota in *; (apply IH; [done|lia]).
Qed.

(** One iteration of the loop. *)
Lemma convergeLoop_S fuel serviceID delay deadline ds (s : Sys W) :
  convergeLoop serve Now Sleep (S fuel) serviceID delay deadline ds s =
  if (Now (world s) <? deadline)%Z then
    let polled := call serve (ServiceInspectWithRaw serviceID) s in
    let again := convergeLoop serve Now Sleep fuel serviceID delay deadline ds
                   (timeSleep Sleep delay polled.2).2 in
    match polled.1 with
    | inr service =>
        if converged service then (Some ds, polled.2)
        else if paused service then
          (Some (AddWarning ds "Service Update Paused"
                   (pausedMessage serviceID service)), polled.2)
        else again
    | inl _ => again
    end
  else (Some (timeoutWarning ds serviceID), s).
Proof.
  cbn [convergeLoop]. unfold bind at 1, timeNow at 1. cbn beta iota.
  destruct (Now (world s) <? deadline)%Z; [|done].
  unfold bind at 1.
  destruct (call serve (ServiceInspectWithRaw serviceID) s) as [r s1].
  cbn [fst snd]. destruct r as [err|service]; [done|].
  unfold converged, paused, pausedMessage.
  destruct (svcUpdateStatus service) as [status|]; [|done].
  simpl. by destruct (usState status).
Qed.

(** Whenever the loop returns, for any delay and without any assumption
    on the clock, it has only polled, and has added nothing, the paused
    warning, or the timeout warning with the deadline passed. *)
Lemma convergeLoop_safe serviceID delay deadline ds :
  forall fuel (s : Sys W) diags' s',
    convergeLoop serve Now Sleep fuel serviceID delay deadline ds s
      = (Some diags', s') ->
    (exists n, trace s' = trace s ++ replicate n (ServiceInspectWithRaw serviceID)) /\
    (diags' = ds \/
     (exists msg, diags' = AddWarning ds "Service Update Paused" msg) \/
     (diags' = timeoutWarning ds serviceID /\ (deadline <= Now (world s'))%Z)).
Proof.
  induction fuel as [|fuel IH]; intros s diags' s' Hrun; [done|].
  rewrite convergeLoop_S in Hrun.
  destruct (Z.ltb_spec (Now (world s)) deadline) as [Hlt|Hge].
  2:{ injection Hrun as <- <-. split.
      - exists 0%nat. simpl. by rewrite app_nil_r.
      - right. right. split; [done|lia]. }
  cbn zeta in Hrun.
  destruct (call serve (ServiceInspectWithRaw serviceID) s) as [r s1] eqn:Hcall.
  apply call_trace in Hcall. cbn [fst snd] in Hrun.
  assert (Hagain :
    convergeLoop serve Now Sleep fuel serviceID delay deadline ds
      (timeSleep Sleep delay s1).2 = (Some diags', s') ->
    (exists n, trace s' = trace s ++ replicate n (ServiceInspectWithRaw serviceID)) /\
    (diags' = ds \/
     (exists msg, diags' = AddWarning ds "Service Update Paused" msg) \/
     (diags' = timeoutWarning ds serviceID /\ (deadline <= Now (world s'))%Z))).
  { intros Hloop. apply IH in Hloop as ((n & Hn) & Hcase). split; [|done].
    exists (S n). rewrite Hn. simpl. rewrite Hcall. by rewrite <- app_assoc. }
  destruct r as [err|service]; [by apply Hagain|].
  destruct (converged service).
  { injection Hrun as <- <-. split; [by exists 1%nat|by left]. }
  destruct (paused service); [|by apply Hagain].
  injection Hrun as <- <-. split; [by exists 1%nat|]. right. left. by eexists.
Qed.

Lemma paused_not_converged service :
  paused service = true -> converged service = false.
Proof.
  unfold paused, converged. destruct (svcUpdateStatus service) as [status|];
    [|done]. by destruct (usState status).
Qed.

(** Every run of the loop that returns is a polling run. *)
Lemma convergeLoop_polls serviceID delay deadline ds :
  forall fuel (s : Sys W) diags' s',
    convergeLoop serve Now Sleep fuel serviceID delay deadline ds s
      = (Some diags', s') ->
    polls serve Now Sleep serviceID delay deadline ds s diags' s'.
Proof.
  induction fuel as [|fuel IH]; intros s diags' s' Hrun; [done|].
  rewrite convergeLoop_S in Hrun.
  destruct (Z.ltb_spec (Now (world s)) deadline) as [Hlt|Hge].
  2:{ injection Hrun as <- <-. by apply polls_timeout. }
  cbn zeta in Hrun.
  destruct (call serve (ServiceInspectWithRaw serviceID) s).1
    as [err|service] eqn:Hpolled.
  - apply polls_again; [done|by rewrite Hpolled|by apply IH].
  - destruct (converged service) eqn:Hconverged.
    { injection Hrun as <- <-. by eapply polls_converged. }
    destruct (paused service) eqn:Hpaused.
    { injection Hrun as <- <-. by eapply polls_paused. }
    apply polls_again; [done| |by apply IH].
    rewrite Hpolled. simpl. by rewrite Hconverged, Hpaused.
Qed.

(** Every polling run is returned by the loop, given enough fuel. *)
Lemma polls_convergeLoop serviceID delay deadline ds (s : Sys W) diags' s' :
  polls serve Now Sleep serviceID delay deadline ds s diags' s' ->
  exists fuel,
    convergeLoop serve Now Sleep fuel serviceID delay deadline ds s
      = (Some diags', s').
Proof.
  induction 1 as [s Hge|s service Hlt Hpolled Hconverged
                  |s service Hlt Hpolled Hpaused
                  |s diags' s' Hlt Hprogress _ [fuel IH]].
  - exists 1%nat. rewrite convergeLoop_S.
    destruct (Z.ltb_spec (Now (world s)) deadline); [lia|done].
  - exists 1%nat. rewrite convergeLoop_S.
    destruct (Z.ltb_spec (Now (world s)) deadline); [|lia].
    cbn zeta. by rewrite Hpolled, Hconverged.
  - exists 1%nat. rewrite convergeLoop_S.
    destruct (Z.ltb_spec (Now (world s)) deadline); [|lia].
    cbn zeta. by rewrite Hpolled, (paused_not_converged _ Hpaused), Hpaused.
  - exists (S fuel). rewrite convergeLoop_S.
    destruct (Z.ltb_spec (Now (world s)) deadline); [|lia].
    cbn zeta.
    destruct (call serve (ServiceInspectWithRaw serviceID) s).1
      as [err|service]; [done|].
    simpl in Hprogress. apply andb_true_iff in Hprogress as [Hc Hp].
    apply negb_true_iff in Hc, Hp. by rewrite Hc, Hp.
Qed.

(** [waitForConvergence] reads the clock once and runs the loop. *)
Lemma waitForConvergence_loop
    (serviceID : string) (cfg : Got (list ConvergeConfigModel))
    (config : ConvergeConfigModel) (diags : Diagnostics) fuel (s : Sys W) :
  head (gotData cfg) = Some config ->
  HasError (diags ++ gotDiags cfg) = false ->
  waitForConvergence serve Now Sleep ParseDuration fuel serviceID cfg diags s =
  convergeLoop serve Now Sleep fuel serviceID
    (parsedDuration ParseDuration (Delay config))
    (Now (world s) + parsedDuration ParseDuration (Timeout config))
    (diags ++ gotDiags cfg) s.
Proof.
  intros Hhead Hdiags. unfold waitForConvergence. rewrite Hdiags.
  destruct (gotData cfg) as [|c rest] eqn:Hcfg; [done|].
  simpl in Hhead. injection Hhead as ->. done.
Qed.

(** The loop ends, within a number of polls fixed by the timeout and
    the delay. *)
Lemma waitForConvergence_outcome
    (serviceID : string) (cfg : Got (list ConvergeConfigModel))
    (config : ConvergeConfigModel) (diags : Diagnostics) :
  head (gotData cfg) = Some config ->
  HasError (diags ++ gotDiags cfg) = false ->
  let delay := parsedDuration ParseDuration (Delay config) in
  let timeout := parsedDuration ParseDuration (Timeout config) in
  (0 < delay)%Z ->
  forall fuel (s : Sys W),
    (Z.to_nat (timeout / delay) + 2 <= fuel)%nat ->
    exists diags' s',
      waitForConvergence serve Now Sleep ParseDuration fuel serviceID cfg diags s
        = (Some diags', s') /\
      convergeOutcome Now serviceID (diags ++ gotDiags cfg)
        (Now (world s) + timeout) (Z.to_nat (timeout / delay) + 1) s diags' s' /\
      HasError diags' = false.
Proof.
  intros Hhead Hdiags delay timeout Hdelay fuel s Hfuel.
  set (fuel0 := Z.to_nat (timeout / delay)).
  destruct (convergeLoop_terminates serviceID delay
              (Now (world s) + timeout)%Z (diags ++ gotDiags cfg) Hdelay
              (S fuel0) s)
    as (diags' & s' & Hrun & Hout).
  { subst fuel0. destruct (Z.le_gt_cases 0 timeout) as [Hpos|Hneg].
    - rewrite Nat2Z.inj_succ, Z2Nat.id by (apply Z.div_pos; lia).
      pose proof (Z.mul_succ_div_gt timeout delay Hdelay). lia.
    - assert (0 <= Z.of_nat (S (Z.to_nat (timeout / delay))) * delay)%Z by lia.
      lia. }
  exists diags', s'. split_and!.
  - unfold waitForConvergence. rewrite Hdiags.
    destruct (gotData cfg) as [|c rest] eqn:Hcfg; [done|].
    simpl in Hhead. injection Hhead as ->. cbn [length Nat.eqb orb head default].
    unfold bind at 1, timeNow at 1. cbn beta iota.
    apply (convergeLoop_fuel_mono _ _ _ _ (S (S fuel0))); [done|lia].
  - destruct Hout as ((n & Hn & Ht) & Hclock & Hcase).
    split_and!; [|done|done]. exists n. split; [lia|done].
  - destruct Hout as (_ & _ & [->|[[msg ->]|[-> _]]]); [done| |];
      by rewrite HasError_AddWarning.
Qed.

(** C3.  [waitForConvergence] polls the service until its update is
    terminal or the timeout has elapsed, as [polls] describes, with the
    deadline fixed at the start, timeout after the clock reading: before
    the deadline it inspects the service and returns at the first
    inspection that finds the update absent, completed (nothing added)
    or paused (the warning "Service Update Paused" added); after a
    failed inspection or an update still in progress it sleeps [delay]
    and polls again; once the deadline has passed it adds the warning
    "Service Convergence Timeout" and returns.  Every run that returns
    is such a polling run, and every such polling run is what
    [waitForConvergence] returns, given enough fuel.  A run sends
    nothing but [ServiceInspect] requests and never adds an error.  With
    a positive delay it does return, for every amount of fuel above
    timeout/delay + 1, after at most timeout/delay + 1 polls.  The end
    of [Create] and [Update], which waits for convergence and then
    writes the state, therefore stores the state and reports no error
    whenever the wait returns. *)
Theorem waitForConvergence_polls_until_terminal_or_timeout
    (serviceID : string) (cfg : Got (list ConvergeConfigModel))
    (config : ConvergeConfigModel) (diags : Diagnostics) :
  head (gotData cfg) = Some config ->
  HasError (diags ++ gotDiags cfg) = false ->
  let delay := parsedDuration ParseDuration (Delay config) in
  let timeout := parsedDuration ParseDuration (Timeout config) in
  let wait fuel :=
    waitForConvergence serve Now Sleep ParseDuration fuel serviceID cfg diags in
  let polling (s : Sys W) :=
    polls serve Now Sleep serviceID delay (Now (world s) + timeout)
          (diags ++ gotDiags cfg) s in
  (forall fuel (s : Sys W) diags' s',
     wait fuel s = (Some diags', s') -> polling s diags' s') /\
  (forall (s : Sys W) diags' s',
     polling s diags' s' -> exists fuel, wait fuel s = (Some diags', s')) /\
  (forall fuel (s : Sys W) diags' s',
     wait fuel s = (Some diags', s') ->
     (exists n, trace s' = trace s ++ replicate n (ServiceInspectWithRaw serviceID)) /\
     (diags' = diags ++ gotDiags cfg \/
      (exists msg,
         diags' = AddWarning (diags ++ gotDiags cfg) "Service Update Paused" msg) \/
      (diags' = timeoutWarning (diags ++ gotDiags cfg) serviceID /\
       (Now (world s) + timeout <= Now (world s'))%Z)) /\
     HasError diags' = false) /\
  ((0 < delay)%Z ->
   forall fuel (s : Sys W),
     (Z.to_nat (timeout / delay) + 2 <= fuel)%nat ->
     exists diags' s',
       wait fuel s = (Some diags', s') /\
       polling s diags' s' /\
       convergeOutcome Now serviceID (diags ++ gotDiags cfg)
         (Now (world s) + timeout) (Z.to_nat (timeout / delay) + 1) s diags' s' /\
       HasError diags' = false) /\
  (forall (Model : Type) (data : Model) fuel (s : Sys W) resp s',
     convergeAndSetState serve Now Sleep ParseDuration fuel serviceID
       (Some cfg) data diags s = (Some resp, s') ->
     respState resp = Some data /\ HasError (respDiagnostics resp) = false).
Proof.
  intros Hhead Hdiags delay timeout wait polling. subst wait polling.
  cbn beta.
  assert (Hsafe : forall fuel (s : Sys W) diags' s',
    waitForConvergence serve Now Sleep ParseDuration fuel serviceID cfg diags s
      = (Some diags', s') ->
    (exists n, trace s' = trace s ++ replicate n (ServiceInspectWithRaw serviceID)) /\
    (diags' = diags ++ gotDiags cfg \/
     (exists msg,
        diags' = AddWarning (diags ++ gotDiags cfg) "Service Update Paused" msg) \/
     (diags' = timeoutWarning (diags ++ gotDiags cfg) serviceID /\
      (Now (world s) + timeout <= Now (world s'))%Z)) /\
    HasError diags' = false).
  { intros fuel s diags' s' Hrun.
    rewrite (waitForConvergence_loop _ _ _ _ _ _ Hhead Hdiags) in Hrun.
    apply convergeLoop_safe in Hrun as (Hn & Hcase).
    split; [done|]. split; [done|].
    destruct Hcase as [->|[[msg ->]|[-> _]]]; [done| |];
      unfold timeoutWarning; by rewrite HasError_AddWarning. }
  split; [|split; [|split; [exact Hsafe|split]]].
  - intros fuel s diags' s' Hrun.
    rewrite (waitForConvergence_loop _ _ _ _ _ _ Hhead Hdiags) in Hrun.
    by eapply convergeLoop_polls.
  - intros s diags' s' Hpolls.
    destruct (polls_convergeLoop _ _ _ _ _ _ _ Hpolls) as [fuel Hrun].
    exists fuel. by rewrite (waitForConvergence_loop _ _ _ _ _ _ Hhead Hdiags).
  - intros Hdelay fuel s Hfuel.
    destruct (waitForConvergence_outcome serviceID cfg config diags
                Hhead Hdiags Hdelay fuel s Hfuel)
      as (diags' & s' & Hrun & Hout & Hok).
    exists diags', s'. split; [done|]. split; [|by split].
    rewrite (waitForConvergence_loop _ _ _ _ _ _ Hhead Hdiags) in Hrun.
    by eapply convergeLoop_polls.
  - intros Model data fuel s resp s' Hrun.
    unfold convergeAndSetState in Hrun.
    destruct (gotData cfg) as [|c rest] eqn:Hcfg; [done|].
    cbn [length Nat.ltb Nat.leb] in Hrun. unfold bind in Hrun.
    destruct (waitForConvergence serve Now Sleep ParseDuration fuel serviceID
                cfg diags s) as [[diags'|] s1] eqn:Hwait; [|done].
    injection Hrun as <- <-. split; [done|].
    by destruct (Hsafe _ _ _ _ Hwait) as (_ & _ & Hok).
Qed.

End waitForConvergence_facts.

Lemma engine_Sleep_pauses d e : (Now e + d <= Now (Sleep d e))%Z.
Proof. unfold Now, Sleep. simpl. lia. Qed.

Lemma engine_serve_clock r e : clock (serve r e).2 = clock e.
Proof.
  unfold serve. destruct (refuses e r); [done|].
  destruct r; simpl; repeat case_match; done.
Qed.

Lemma engine_serve_monotone r e : (Now e <= Now (serve r e).2)%Z.
Proof. unfold Now. rewrite engine_serve_clock. lia. Qed.

Lemma waitForConvergence_polls_until_terminal_or_timeout_witness :
  head (gotData examples.everyFiveSeconds)
    = Some {| Delay := Some "5s"; Timeout := Some "12s" |} /\
  HasError ([] ++ gotDiags examples.everyFiveSeconds) = false /\
  (0 < parsedDuration examples.parseExampleDuration (Some "5s"))%Z /\
  exists diags' s',
    waitForConvergence serve Now Sleep examples.parseExampleDuration 4 "svc1"
      examples.everyFiveSeconds [] (start examples.rolloutEngine) = (Some diags', s') /\
    polls serve Now Sleep "svc1" 5000000000 12000000000 []
          (start examples.rolloutEngine) diags' s' /\
    HasError diags' = false.
Proof.
  split; [reflexivity|]. split; [reflexivity|]. split; [reflexivity|].
  destruct (proj1 (proj2 (proj2 (proj2
              (waitForConvergence_polls_until_terminal_or_timeout
                 serve Now Sleep examples.parseExampleDuration
                 engine_Sleep_pauses engine_serve_monotone
                 "svc1" examples.everyFiveSeconds
                 {| Delay := Some "5s"; Timeout := Some "12s" |} []
                 eq_refl eq_refl)))) eq_refl 4%nat (start examples.rolloutEngine))
    as (diags' & s' & Hrun & Hpolls & _ & Hok).
  - vm_compute. lia.
  - by exists diags', s'.
Defined.

(** The rollout is seen completed at the third poll; a service that never
    answers is polled three times, at 0s, 5s and 10s, before the timeout
    warning. *)
Example waitForConvergence_rollout :
  let run := waitForConvergence serve Now Sleep examples.parseExampleDuration 4
               "svc1" examples.everyFiveSeconds [] (start examples.rolloutEngine) in
  run.1 = Some [] /\ length (trace run.2) = 3%nat /\ clock (world run.2) = 10000000000%Z.
Proof. vm_compute. auto. Qed.

Example waitForConvergence_silent :
  let run := waitForConvergence serve Now Sleep examples.parseExampleDuration 4
               "svc1" examples.everyFiveSeconds [] (start examples.silentEngine) in
  run.1 = Some (timeoutWarning [] "svc1") /\ length (trace run.2) = 3%nat.
Proof. vm_compute. auto. Qed.

(** ** Round trips of one lifecycle call *)

Lemma serviceCalls_length projectName project (order : list string)
    (blocks : list (list Request)) :
  Forall2 (serviceCalls projectName project) order blocks ->
  (2 * length order <= length (concat blocks))%nat.
Proof.
  induction 1 as [|n rs order blocks Hrs _ IH]; simpl; [lia|].
  rewrite length_app.
  assert (2 <= length rs)%nat by (destruct Hrs as [->|[id ->]]; simpl; lia).
  lia.
Qed.

Section round_trips.

Context {W : Type}.
Variable serve : Daemon W.
Variable ReadFile : string -> Result string.
Variable loadProject : string -> string -> Result Project.
Variable Sum256 : string -> string.
Variable mapRange : string -> list string -> list string.
Variable mapRangeServices : list string -> list string.
Variable mapRangeNetworks : list string -> list string.
Variable mapRangeVolumes : list string -> list string.
Variable Now : W -> Z.
Variable Sleep : Z -> W -> W.
Variable ParseDuration : string -> Result Z.

Hypothesis mapRange_perm : forall name keys, mapRange name keys ≡ₚ keys.
Hypothesis mapRangeServices_perm : forall keys, mapRangeServices keys ≡ₚ keys.
Hypothesis Sleep_pauses : forall d w, (Now w + d <= Now (Sleep d w))%Z.
Hypothesis serve_monotone : forall r w, (Now w <= Now (serve r w).2)%Z.

(** C6, as the code has it.  A lifecycle call is not limited to one
    round trip.  A [Create] of a compose project that reports no error
    has sent, one after another: the inspect and create requests of the
    networks and volumes; for each service, in the order of
    [getServiceOrder], an inspect and a start of its container, with a
    create in between when the container did not exist; and one final
    listing: at least two requests per service and one more.
    [waitForConvergence] is a polling loop: every run that returns is a
    run of [polls], which inspects the service again after sleeping the
    delay until the update is terminal or paused or the deadline has
    passed; it sends only [ServiceInspect] requests and never adds an
    error; with a positive delay it returns after at most
    timeout/delay + 1 polls. *)
Theorem lifecycle_calls_send_several_requests :
  (forall req project (s : Sys W) resp s',
     parseComposeFile ReadFile loadProject (gotData (reqGet req)) = inr project ->
     Create serve ReadFile loadProject Sum256 mapRange mapRangeServices
            mapRangeNetworks mapRangeVolumes req s = (resp, s') ->
     HasError (respDiagnostics resp) = false ->
     let projectName := ValueString (ProjectName (gotData (reqGet req))) in
     (exists provisioning blocks,
        trace s' =
          trace s ++ provisioning ++ concat blocks ++
          [ContainerList {| All := false;
             Filters := projectFilter projectName ++ [("status", "running")] |}] /\
        forallb isProvisioning provisioning = true /\
        Forall2 (serviceCalls projectName project)
                (getServiceOrder mapRange mapRangeServices project) blocks) /\
     (length (trace s) + (2 * size (pServices project) + 1)
      <= length (trace s'))%nat) /\
  (forall serviceID cfg config diags,
     head (gotData cfg) = Some config ->
     HasError (diags ++ gotDiags cfg) = false ->
     let delay := parsedDuration ParseDuration (Delay config) in
     let timeout := parsedDuration ParseDuration (Timeout config) in
     let wait fuel :=
       waitForConvergence serve Now Sleep ParseDuration fuel serviceID cfg diags in
     let polling (s : Sys W) :=
       polls serve Now Sleep serviceID delay (Now (world s) + timeout)
             (diags ++ gotDiags cfg) s in
     (forall fuel (s : Sys W) diags' s',
        wait fuel s = (Some diags', s') ->
        polling s diags' s' /\
        (exists n, trace s' =
                   trace s ++ replicate n (ServiceInspectWithRaw serviceID)) /\
        HasError diags' = false) /\
     ((0 < delay)%Z ->
      forall fuel (s : Sys W),
        (Z.to_nat (timeout / delay) + 2 <= fuel)%nat ->
        exists diags' s' n,
          wait fuel s = (Some diags', s') /\
          polling s diags' s' /\
          trace s' = trace s ++ replicate n (ServiceInspectWithRaw serviceID) /\
          (n <= Z.to_nat (timeout / delay) + 1)%nat /\
          HasError diags' = false)).
Proof.
  split.
  - intros req project s resp s' Hparse Hrun Hok projectName.
    destruct (Create_trace serve ReadFile loadProject Sum256 mapRange
                mapRangeServices mapRangeNetworks mapRangeVolumes
                req project s resp s' Hparse Hrun)
      as (pre & k & blocks & post & Ht & Hpre & _ & _ & Hsucc).
    destruct (Hsucc Hok) as (Hcalls & -> & _).
    split; [by exists pre, blocks|].
    apply serviceCalls_length in Hcalls.
    destruct (getServiceOrder_spec mapRange mapRangeServices project
                mapRange_perm mapRangeServices_perm) as (Hnd & Hall & _ & _).
    assert (size (pServices project)
            <= length (getServiceOrder mapRange mapRangeServices project))%nat.
    { rewrite <- size_dom. unfold size, set_size. simpl.
      apply submseteq_length, NoDup_submseteq; [apply NoDup_elements|].
      intros n Hn%elem_of_elements. by apply Hall. }
    rewrite Ht, !length_app. simpl. lia.
  - intros serviceID cfg config diags Hhead Hdiags delay timeout wait polling.
    subst wait polling. cbn beta. split.
    + intros fuel s diags' s' Hrun.
      rewrite (waitForConvergence_loop serve Now Sleep ParseDuration
                 _ _ _ _ _ _ Hhead Hdiags) in Hrun.
      split; [by eapply convergeLoop_polls|].
      apply convergeLoop_safe in Hrun as (Hn & Hcase). split; [done|].
      destruct Hcase as [->|[[msg ->]|[-> _]]]; [done| |];
        unfold timeoutWarning; by rewrite HasError_AddWarning.
    + intros Hdelay fuel s Hfuel.
      destruct (waitForConvergence_outcome serve Now Sleep ParseDuration
                  Sleep_pauses serve_monotone serviceID cfg config diags
                  Hhead Hdiags Hdelay fuel s Hfuel)
        as (diags' & s' & Hrun & ((n & Hn & Ht) & _ & _) & Hok).
      exists diags', s', n. split; [done|]. split; [|done].
      rewrite (waitForConvergence_loop serve Now Sleep ParseDuration
                 _ _ _ _ _ _ Hhead Hdiags) in Hrun.
      by eapply convergeLoop_polls.
Qed.

End round_trips.

(** C6, as stated, fails: the [Create] of the three services of
    [app_db_cache] on an empty daemon sends ten requests, and a
    convergence wait on a service that never answers polls three times. *)
Lemma Create_is_not_a_single_round_trip :
  ~ singleRoundTrip
      (Create engine.serve examples.noFile examples.loadShop examples.plainDigest
              rangeInOrder rangeServicesInOrder rangeServicesInOrder
              rangeServicesInOrder examples.shopRequest)
      (engine.start examples.emptyEngine) /\
  ~ singleRoundTrip
      (waitForConvergence engine.serve engine.Now engine.Sleep
         examples.parseExampleDuration 4 "svc1" examples.everyFiveSeconds [])
      (engine.start examples.silentEngine).
Proof.
  unfold singleRoundTrip. split; vm_compute; lia.
Qed.

Lemma lifecycle_calls_send_several_requests_witness :
  parseComposeFile examples.noFile examples.loadShop
    (gotData (reqGet examples.shopRequest)) = inr app_db_cache /\
  HasError (respDiagnostics examples.shopCreate.1) = false /\
  (length (trace (engine.start examples.emptyEngine)) +
   (2 * size (pServices app_db_cache) + 1)
   <= length (trace examples.shopCreate.2))%nat.
Proof.
  split; [reflexivity|]. split; [vm_compute; reflexivity|].
  exact (proj2 (proj1 (lifecycle_calls_send_several_requests
           engine.serve examples.noFile examples.loadShop examples.plainDigest
           rangeInOrder rangeServicesInOrder rangeServicesInOrder
           rangeServicesInOrder engine.Now engine.Sleep
           examples.parseExampleDuration
           rangeInOrder_perm rangeServicesInOrder_perm
           engine_Sleep_pauses engine_serve_monotone)
         examples.shopRequest app_db_cache (engine.start examples.emptyEngine)
         examples.shopCreate.1 examples.shopCreate.2
         eq_refl (surjective_pairing examples.shopCreate)
         ltac:(vm_compute; reflexivity))).
Defined.

(** ** Read and objects that are gone *)




Lemma Contains_404_API_error reason body :
  Contains ("API error: " +:+ decimal 404 +:+ " " +:+ reason +:+ " - " +:+ body)
           "404" = true.
Proof. reflexivity. Qed.

Section hub_facts.

Context {H : Type}.
Variable transport : dockerhub.Transport H.
Variable NewRequestWithContext : string -> string -> option Error.
Variable json : dockerhub.JSON.
Variable PathEscape : string -> string.



End hub_facts.


Section Read_claims.

Context {W H : Type}.
Variable serve : Daemon W.
Variable base64Encode : string -> string.
Variable transport : dockerhub.Transport H.
Variable NewRequestWithContext : string -> string -> option Error.
Variable json : dockerhub.JSON.
Variable PathEscape : string -> string.


End Read_claims.



(** ** dockerhub.NewClient *)

Section NewClient_facts.

Context {H : Type}.
Variable transport : dockerhub.Transport H.
Variable json : dockerhub.JSON.

(** C5, as the code has it.  With a token, [NewClient] stores it and
    returns the client without sending anything.  Without a token and
    with a user name and a password it sends one POST to /users/login
    carrying the credentials; it stores the token of the answer, and it
    fails exactly when the request fails, the status is not 200, or the
    body of a 200 answer does not decode. *)
Theorem NewClient_authenticates (cfg : dockerhub.Config) (s : dockerhub.HubSys H) :
  (dockerhub.Token cfg <> "" ->
   dockerhub.NewClient transport json cfg s =
   (inr {| dockerhub.baseURL := dockerhub.DefaultBaseURL;
           dockerhub.token := dockerhub.Token cfg;
           dockerhub.username := dockerhub.Username cfg |}, s)) /\
  (dockerhub.Token cfg = "" ->
   dockerhub.Username cfg <> "" ->
   dockerhub.Password cfg <> "" ->
   let login := loginRequest json (dockerhub.Username cfg) (dockerhub.Password cfg) in
   let answer := transport login (world s) in
   let run := dockerhub.NewClient transport json cfg s in
   run.2 = {| world := answer.2; trace := trace s ++ [login] |} /\
   (isErr run.1 <->
    match answer.1 with
    | inl _ => True
    | inr resp =>
        dockerhub.StatusCode resp <> 200%Z \/
        isErr (dockerhub.decodeToken json (dockerhub.RespBody resp))
    end) /\
   (forall resp tok,
      answer.1 = inr resp ->
      dockerhub.StatusCode resp = 200%Z ->
      dockerhub.decodeToken json (dockerhub.RespBody resp) = inr tok ->
      run.1 = inr {| dockerhub.baseURL := dockerhub.DefaultBaseURL;
                     dockerhub.token := tok;
                     dockerhub.username := dockerhub.Username cfg |})).
Proof.
  split.
  - intros Htok. unfold dockerhub.NewClient.
    by destruct (decide (dockerhub.Token cfg <> "")).
  - intros Htok Huser Hpass login answer run. subst run.
    unfold dockerhub.NewClient.
    destruct (decide (dockerhub.Token cfg <> "")) as [|_]; [done|].
    destruct (decide (dockerhub.Username cfg <> "" /\ dockerhub.Password cfg <> ""))
      as [_|Hno]; [|tauto].
    unfold bind, dockerhub.authenticate, bind, dockerhub.Do. simpl.
    fold (loginRequest json (dockerhub.Username cfg) (dockerhub.Password cfg)).
    fold login. subst answer.
    destruct (transport login (world s)) as [[err|resp] h']; simpl.
    { split; [done|]. split; [tauto|]. intros resp tok Hr. discriminate Hr. }
    destruct (decide (dockerhub.StatusCode resp <> 200%Z)) as [Hne|Heq]; simpl.
    { split; [done|]. split; [tauto|]. intros resp' tok [= <-] Hc. done. }
    destruct (dockerhub.decodeToken json (dockerhub.RespBody resp)) as [err|tok]
      eqn:Hdec; simpl.
    { split; [done|]. split; [tauto|]. intros resp' tok [= <-] _ Hd.
      rewrite Hdec in Hd. discriminate Hd. }
    split; [done|]. split; [tauto|]. intros resp' tok' [= <-] _ Hd.
    rewrite Hdec in Hd. by injection Hd as <-.
Qed.

End NewClient_facts.

Lemma NewClient_authenticates_witness :
  dockerhub.NewClient examples.rejectingHub examples.eofJSON
    examples.aliceWithToken examples.hubStart =
  (inr {| dockerhub.baseURL := dockerhub.DefaultBaseURL;
          dockerhub.token := "dckr_pat_1";
          dockerhub.username := "alice" |}, examples.hubStart).
Proof.
  apply (proj1 (NewClient_authenticates examples.rejectingHub examples.eofJSON
                  examples.aliceWithToken examples.hubStart)).
  discriminate.
Defined.

(** C5, as stated, fails: a login answered 200 with a body that does not
    decode makes [NewClient] fail although the request succeeded. *)
Lemma NewClient_fails_on_undecodable_answer :
  ~ failsOnlyOnFailedLogin examples.emptyBodyHub examples.eofJSON.
Proof.
  intros Hclaim.
  destruct (Hclaim examples.alice examples.hubStart eq_refl) as [Hfails _];
    [discriminate|discriminate|].
  apply Hfails; [|reflexivity]. exact I.
Qed.

(** ** DockerProvider.Configure *)

Section Configure_facts.

Context {H : Type}.
Variable transport : dockerhub.Transport H.
Variable json : dockerhub.JSON.
Variable sdk : docker.SDK.
Variable Getenv : string -> string.

Import DockerProvider.

(** A Docker client was only built with the certificates TLS asks for. *)
Lemma NewClient_has_certificates cfg c :
  docker.NewClient sdk cfg = inr c ->
  docker.TLSVerify cfg &&
  negb (negb (String.eqb (docker.CertPath cfg) "")) &&
  negb (negb (String.eqb (docker.CACert cfg) "") &&
        negb (String.eqb (docker.Cert cfg) "") &&
        negb (String.eqb (docker.Key cfg) "")) = false.
Proof.
  unfold docker.NewClient, docker.createTLSHTTPClient.
  destruct (docker.TLSVerify cfg); [|done]. simpl.
  destruct (String.eqb_spec (docker.CertPath cfg) "") as [Hp|Hp]; [|done].
  destruct (String.eqb_spec (docker.CACert cfg) "") as [Ha|Ha];
    destruct (String.eqb_spec (docker.Cert cfg) "") as [Hb|Hb];
    destruct (String.eqb_spec (docker.Key cfg) "") as [Hc|Hc]; simpl; try done;
    (destruct (decide _) as [(? & ? & ?)|_]; [done|]);
    (destruct (decide (docker.CertPath cfg <> "")); [done|]); done.
Qed.

(** C10.  Without a hub user name, or without both a hub password and
    a hub token, [Configure] sends nothing to Docker Hub and publishes
    no hub client.  With them, if creating the hub client fails,
    [Configure] adds one warning and no error, and publishes provider
    data whose [HubClient] is nil and whose [DockerClient] is the client
    it built. *)
Theorem Configure_hub_client_failure_is_a_warning
    (req : Got DockerProviderModel) (s : dockerhub.HubSys H) :
  let config := gotData req in
  let run := Configure transport json sdk Getenv req s in
  (hubCredentials Getenv config = false ->
   run.2 = s /\
   forall data, ResourceData run.1 = Some data -> HubClient data = None) /\
  (forall dockerClient err s',
     HasError (gotDiags req) = false ->
     docker.NewClient sdk (clientConfig Getenv config) = inr dockerClient ->
     hubCredentials Getenv config = true ->
     dockerhub.NewClient transport json (hubConfig Getenv config) s = (inl err, s') ->
     let data := {| DockerClient := dockerClient; HubClient := None |} in
     run =
     ({| Diagnostics' :=
           gotDiags req ++
           [{| dSeverity := SeverityWarning;
               dSummary := "Docker Hub Authentication Failed";
               dDetail := "Failed to authenticate with Docker Hub: " +:+ err +:+
                          newline +:+ "Docker Hub resources will not be available." |}];
         DataSourceData := Some data;
         ResourceData := Some data |}, s') /\
     HasError (Diagnostics' run.1) = false).
Proof.
  intros config run. subst run. split.
  - intros Hcred. unfold Configure. fold config.
    destruct (HasError (gotDiags req)); [by split|].
    destruct (_ && _ && _); [by split|].
    destruct (docker.NewClient sdk (clientConfig Getenv config)); [by split|].
    rewrite Hcred. unfold bind, ret. simpl. split; [done|].
    by intros data [= <-].
  - intros dockerClient err s' Hdiags Hnew Hcred Hhub data.
    unfold Configure. fold config.
    rewrite Hdiags, (NewClient_has_certificates _ _ Hnew), Hnew, Hcred.
    unfold bind. rewrite Hhub. unfold ret. cbn [fst snd Diagnostics'].
    split; [done|].
    by rewrite HasError_AddWarning.
Qed.

End Configure_facts.

Lemma Configure_hub_client_failure_is_a_warning_witness :
  HasError (gotDiags examples.aliceProvider) = false /\
  DockerProvider.hubCredentials examples.noEnv (gotData examples.aliceProvider) = true /\
  HasError (DockerProvider.Diagnostics'
              (DockerProvider.Configure examples.rejectingHub examples.eofJSON
                 examples.plainSDK examples.noEnv examples.aliceProvider
                 examples.hubStart).1) = false.
Proof.
  split; [reflexivity|]. split; [reflexivity|].
  refine (proj2 (proj2 (Configure_hub_client_failure_is_a_warning
            examples.rejectingHub examples.eofJSON examples.plainSDK examples.noEnv
            examples.aliceProvider examples.hubStart)
          _ _ _ eq_refl eq_refl eq_refl eq_refl)).
Defined.

(** Docker Hub rejecting the login: one warning, a Docker client, no hub
    client. *)
Example Configure_rejected_login :
  let run := DockerProvider.Configure examples.rejectingHub examples.eofJSON
               examples.plainSDK examples.noEnv examples.aliceProvider
               examples.hubStart in
  (dSeverity <$> DockerProvider.Diagnostics' run.1) = [SeverityWarning] /\
  (DockerProvider.HubClient <$> DockerProvider.ResourceData run.1) = Some None /\
  length (trace run.2) = 1%nat.
Proof. vm_compute. auto. Qed.

(** ** parseDuration *)

Lemma int64_small z : (- 2 ^ 63 <= z < 2 ^ 63)%Z -> int64 z = z.
Proof.
  intros Hz. unfold int64. rewrite Z.mod_small; lia.
Qed.

Lemma int64_range z : (- 2 ^ 63 <= int64 z < 2 ^ 63)%Z.
Proof.
  unfold int64. pose proof (Z.mod_pos_bound (z + 2 ^ 63) (2 ^ 64)). lia.
Qed.

Lemma int64_add_l a b : int64 (int64 a + b) = int64 (a + b).
Proof.
  unfold int64. f_equal.
  replace ((a + 2 ^ 63) mod 2 ^ 64 - 2 ^ 63 + b + 2 ^ 63)%Z
    with ((a + 2 ^ 63) mod 2 ^ 64 + b)%Z by lia.
  rewrite Zplus_mod_idemp_l. f_equal. lia.
Qed.

Lemma int64_add_r a b : int64 (a + int64 b) = int64 (a + b).
Proof. rewrite (Z.add_comm a), int64_add_l. f_equal. lia. Qed.

Lemma int64_idem a : int64 (int64 a) = int64 a.
Proof. apply int64_small, int64_range. Qed.

Lemma parseDurationLoop_app s t v :
  parseDurationLoop (s +:+ t) v = parseDurationLoop t (parseDurationLoop s v).
Proof.
  revert v. induction s as [|c s IH]; intros v; simpl; [done|]. apply IH.
Qed.

Lemma parseDurationLoop_unit c t v :
  parseDurationLoop (String c "" +:+ t) v =
  parseDurationLoop t (parseDurationStep v c).
Proof. done. Qed.

Lemma parseDuration_nonempty s :
  s <> "" ->
  parseDuration s =
  inr (duration (parseDurationLoop s {| duration := 0; num := 0 |})).
Proof. intros Hs. unfold parseDuration. by destruct (decide (s = "")). Qed.

(** The duration accumulated before a text only shifts the result. *)
Lemma parseDurationLoop_shift s : forall d n,
  int64 d = d ->
  parseDurationLoop s {| duration := d; num := n |} =
  {| duration :=
       int64 (d + duration (parseDurationLoop s {| duration := 0; num := n |}));
     num := num (parseDurationLoop s {| duration := 0; num := n |}) |}.
Proof.
  induction s as [|c s IH]; intros d n Hd; cbn [parseDurationLoop].
  { cbn [duration num]. by rewrite Z.add_0_r, Hd. }
  unfold parseDurationStep. cbn [duration num].
  destruct (isDigit c).
  { by apply IH. }
  assert (Hstep : forall x,
    parseDurationLoop s {| duration := int64 (d + x); num := 0 |} =
    {| duration :=
         int64 (d + duration (parseDurationLoop s {| duration := int64 (0 + x); num := 0 |}));
       num := num (parseDurationLoop s {| duration := int64 (0 + x); num := 0 |}) |}).
  { intros x. rewrite (IH (int64 (d + x))) by apply int64_idem.
    rewrite (IH (int64 (0 + x))) by apply int64_idem. cbn [duration num].
    f_equal. rewrite ?int64_add_l, ?int64_add_r, ?int64_add_l. f_equal. lia. }
  destruct (Ascii.eqb c "s"); [apply Hstep|].
  destruct (Ascii.eqb c "m"); [apply Hstep|].
  destruct (Ascii.eqb c "h"); [apply Hstep|].
  by apply IH.
Qed.

Lemma parseDurationLoop_canonical s : forall d n,
  int64 d = d -> int64 (duration (parseDurationLoop s {| duration := d; num := n |}))
                 = duration (parseDurationLoop s {| duration := d; num := n |}).
Proof.
  induction s as [|c s IH]; intros d n Hd; simpl; [done|].
  unfold parseDurationStep. destruct (isDigit c); simpl; [by apply IH|].
  apply IH.
  destruct (Ascii.eqb c "s"); [apply int64_idem|].
  destruct (Ascii.eqb c "m"); [apply int64_idem|].
  destruct (Ascii.eqb c "h"); [apply int64_idem|done].
Qed.

Lemma app_nonempty_r s t : t <> "" -> s +:+ t <> "".
Proof. destruct s; [done|]. discriminate. Qed.

(** X1.  Durations add up: when a text [a] is followed by a character
    [c] that is not a digit (a unit, or anything else) and then by a
    second text [b], the result is the sum of the results for [a ++ c]
    and for [b], in 64-bit arithmetic. *)
Theorem parseDuration_concat (a b : string) (c : ascii) (da db : Z) :
  isDigit c = false ->
  parseDuration (a +:+ String c "") = inr da ->
  parseDuration b = inr db ->
  parseDuration (a +:+ String c b) = inr (int64 (da + db)).
Proof.
  intros Hc Ha Hb.
  assert (Hbne : b <> "").
  { intros ->. unfold parseDuration in Hb. simpl in Hb. discriminate. }
  rewrite parseDuration_nonempty in Ha by (by apply app_nonempty_r).
  rewrite parseDuration_nonempty in Hb by done.
  rewrite parseDuration_nonempty by (by apply app_nonempty_r).
  injection Ha as <-. injection Hb as <-.
  rewrite !parseDurationLoop_app. simpl.
  set (v := parseDurationLoop a _).
  unfold parseDurationStep. rewrite Hc. simpl.
  set (d := if Ascii.eqb c "s" then _ else _).
  assert (Hd : int64 d = d).
  { subst d.
    destruct (Ascii.eqb c "s"); [apply int64_idem|].
    destruct (Ascii.eqb c "m"); [apply int64_idem|].
    destruct (Ascii.eqb c "h"); [apply int64_idem|].
    subst v. by apply parseDurationLoop_canonical. }
  by rewrite parseDurationLoop_shift.
Qed.

Lemma parseDuration_concat_witness :
  isDigit "m" = false /\
  parseDuration ("5" +:+ String "m" "") = inr 300000000000%Z /\
  parseDuration "30s" = inr 30000000000%Z /\
  parseDuration ("5" +:+ String "m" "30s") = inr 330000000000%Z.
Proof.
  split; [reflexivity|]. split; [reflexivity|]. split; [reflexivity|].
  exact (parseDuration_concat "5" "30s" "m" 300000000000 30000000000
           eq_refl eq_refl eq_refl).
Defined.

Lemma horner_ge d : forall a, (0 <= a)%Z -> (a <= horner d a)%Z.
Proof.
  induction d as [|d IH|d IH|d IH|d IH|d IH|d IH|d IH|d IH|d IH|d IH];
    intros a Ha; simpl; [lia|..];
    (etrans; [|apply IH; lia]); lia.
Qed.

Lemma of_uint_acc_horner d : forall acc,
  Z.pos (Pos.of_uint_acc d acc) = horner d (Z.pos acc).
Proof.
  induction d as [|d IH|d IH|d IH|d IH|d IH|d IH|d IH|d IH|d IH|d IH];
    intros acc; simpl; [done|..]; rewrite IH; f_equal; lia.
Qed.

Lemma of_uint_horner d : Z.of_N (Pos.of_uint d) = horner d 0.
Proof.
  induction d as [|d IH|d IH|d IH|d IH|d IH|d IH|d IH|d IH|d IH|d IH];
    simpl; [done|done|..]; apply of_uint_acc_horner.
Qed.

(** Reading a numeral leaves the duration alone and accumulates its
    value in [num], as long as that value fits. *)
Lemma parseDurationLoop_numeral d : forall D a,
  (0 <= a)%Z -> (horner d a < 2 ^ 63)%Z ->
  parseDurationLoop (NilEmpty.string_of_uint d) {| duration := D; num := a |} =
  {| duration := D; num := horner d a |}.
Proof.
  induction d as [|d IH|d IH|d IH|d IH|d IH|d IH|d IH|d IH|d IH|d IH];
    intros D a Ha Hfit; [done|..];
    cbn [NilEmpty.string_of_uint parseDurationLoop horner] in *;
    unfold parseDurationStep; cbn [duration num];
    match goal with
    | |- context [isDigit ?c] =>
        change (isDigit c) with true; cbv iota;
        match goal with
        | H : (horner _ ?x < _)%Z |- _ =>
            pose proof (horner_ge d x ltac:(lia));
            replace (int64 (int64 (a * 10) + digitValue c)) with x;
            [apply IH; lia|]
        end
    end;
    rewrite (int64_small (a * 10)) by lia;
    rewrite int64_small by (unfold digitValue; simpl; lia);
    unfold digitValue; simpl; lia.
Qed.

Lemma parseDurationLoop_decimal n D :
  (0 <= n < 2 ^ 63)%Z ->
  parseDurationLoop (decimal n) {| duration := D; num := 0 |} =
  {| duration := D; num := n |}.
Proof.
  intros Hn. unfold decimal. destruct n as [|p|p]; [done| |lia].
  cbn [Z.to_int NilZero.string_of_int].
  assert (Hp : horner (Pos.to_uint p) 0 = Z.pos p).
  { rewrite <- of_uint_horner, DecimalPos.Unsigned.of_to. done. }
  unfold NilZero.string_of_uint.
  destruct (Pos.to_uint p) eqn:Hd; cbv iota;
    try (rewrite parseDurationLoop_numeral, Hp; [done|lia|lia]).
  simpl in Hp. lia.
Qed.

(** X2.  A text of the form <h>h<m>m<s>s, the three numbers written in
    decimal, parses to (3600 h + 60 m + s) * 10^9 nanoseconds, provided
    that value is below 2^63. *)
Theorem parseDuration_hours_minutes_seconds (h m sec : Z) :
  (0 <= h)%Z -> (0 <= m)%Z -> (0 <= sec)%Z ->
  ((3600 * h + 60 * m + sec) * nanoseconds < 2 ^ 63)%Z ->
  parseDuration (decimal h +:+ "h" +:+ decimal m +:+ "m" +:+ decimal sec +:+ "s")
  = inr ((3600 * h + 60 * m + sec) * nanoseconds)%Z.
Proof.
  unfold nanoseconds. intros Hh Hm Hs Hfit.
  rewrite parseDuration_nonempty
    by (apply app_nonempty_r, app_nonempty_r, app_nonempty_r, app_nonempty_r;
        by apply app_nonempty_r).
  rewrite parseDurationLoop_app, parseDurationLoop_decimal by lia.
  rewrite parseDurationLoop_unit.
  unfold parseDurationStep at 1. cbn [duration num].
  change (isDigit "h") with false. cbv iota.
  change (Ascii.eqb "h" "s") with false. change (Ascii.eqb "h" "m") with false.
  change (Ascii.eqb "h" "h") with true. cbv iota.
  rewrite parseDurationLoop_app, parseDurationLoop_decimal by lia.
  rewrite parseDurationLoop_unit.
  unfold parseDurationStep at 1. cbn [duration num].
  change (isDigit "m") with false. cbv iota.
  change (Ascii.eqb "m" "s") with false. change (Ascii.eqb "m" "m") with true.
  cbv iota.
  rewrite parseDurationLoop_app, parseDurationLoop_decimal by lia.
  cbn [parseDurationLoop].
  unfold parseDurationStep. cbn [duration num].
  change (isDigit "s") with false. cbv iota.
  change (Ascii.eqb "s" "s") with true. cbv iota.
  f_equal. cbn [duration].
  rewrite (int64_small (h * 3600)) by lia.
  rewrite (int64_small (h * 3600 * 1000000000)) by lia.
  rewrite (int64_small (0 + _)) by lia.
  rewrite (int64_small (m * 60)) by lia.
  rewrite (int64_small (m * 60 * 1000000000)) by lia.
  rewrite (int64_small (_ + m * 60 * 1000000000)) by lia.
  rewrite (int64_small (sec * 1000000000)) by lia.
  rewrite int64_small by lia. lia.
Qed.

Lemma parseDuration_hours_minutes_seconds_witness :
  ((3600 * 1 + 60 * 5 + 30) * nanoseconds < 2 ^ 63)%Z /\
  parseDuration "1h5m30s" = inr 3930000000000%Z.
Proof.
  split; [reflexivity|].
  exact (parseDuration_hours_minutes_seconds 1 5 30
           ltac:(lia) ltac:(lia) ltac:(lia) ltac:(reflexivity)).
Defined.

Lemma parseDurationLoop_digits t : forall v,
  allChars isDigit t = true ->
  duration (parseDurationLoop t v) = duration v.
Proof.
  induction t as [|c t IH]; intros v Ht; simpl in *; [done|].
  apply andb_prop in Ht as [Hc Ht]. rewrite IH by done.
  unfold parseDurationStep. by rewrite Hc.
Qed.

(** X3.  Only the empty text is an error.  A number that no unit follows
    is dropped without notice: a text of digits alone parses to 0, and
    digits at the end of a text do not change its result. *)
Theorem parseDuration_number_without_unit (s t : string) :
  allChars isDigit t = true ->
  (parseDuration s = inl "empty duration" <-> s = "") /\
  (t <> "" -> parseDuration t = inr 0%Z) /\
  (s <> "" -> parseDuration (s +:+ t) = parseDuration s).
Proof.
  intros Ht. split; [|split].
  - unfold parseDuration. by destruct (decide (s = "")).
  - intros Hne. rewrite parseDuration_nonempty by done.
    by rewrite parseDurationLoop_digits.
  - intros Hne. rewrite !parseDuration_nonempty; [|done|].
    + by rewrite parseDurationLoop_app, parseDurationLoop_digits.
    + destruct s; [done|discriminate].
Qed.

Lemma parseDuration_number_without_unit_witness :
  allChars isDigit "30" = true /\
  parseDuration "30" = inr 0%Z /\
  parseDuration "1m30" = parseDuration "1m".
Proof.
  split; [reflexivity|].
  pose proof (parseDuration_number_without_unit "1m" "30" eq_refl) as (_ & H0 & H1).
  split; [by apply H0|by apply H1].
Defined.

(** ** ImportState of the Docker Hub resources *)

Lemma Split_nonempty s sep : Split s sep <> [].
Proof.
  destruct s as [|c s]; simpl; [done|].
  destruct (Ascii.eqb c sep); [done|]. by destruct (Split s sep).
Qed.

Lemma Split_length s sep : length (Split s sep) = S (Count s sep).
Proof.
  induction s as [|c s IH]; simpl; [done|].
  destruct (Ascii.eqb c sep); simpl; [by rewrite IH|].
  pose proof (Split_nonempty s sep).
  destruct (Split s sep); [done|]. by rewrite <- IH.
Qed.

Lemma Join_cons x y l sep :
  Join (x :: y :: l) sep = x +:+ sep +:+ Join (y :: l) sep.
Proof. done. Qed.

Lemma Join_Split s sep : Join (Split s sep) (String sep "") = s.
Proof.
  induction s as [|c s IH]; simpl; [done|].
  pose proof (Split_nonempty s sep).
  destruct (Split s sep) as [|h t] eqn:Hs; [done|].
  destruct (Ascii.eqb_spec c sep) as [->|Hc].
  - by rewrite Join_cons, IH.
  - destruct t as [|h' t]; [by rewrite <- IH|].
    rewrite Join_cons in *. by rewrite <- IH.
Qed.

Lemma Split_parts s sep : Forall (fun p => Count p sep = 0%nat) (Split s sep).
Proof.
  induction s as [|c s IH]; simpl.
  { by constructor. }
  pose proof (Split_nonempty s sep).
  destruct (Ascii.eqb c sep) eqn:Hc.
  - by constructor.
  - destruct (Split s sep) as [|h t]; [done|].
    inversion IH; subst. constructor; [|done]. simpl. by rewrite Hc.
Qed.

(** A text without the separator is a single part, and a part followed
    by the separator is split off. *)
Lemma Split_part a sep : Count a sep = 0%nat -> Split a sep = [a].
Proof.
  induction a as [|c a IH]; simpl; [done|].
  destruct (Ascii.eqb c sep); [done|]. intros Ha. by rewrite IH.
Qed.

Lemma Split_cons a b sep :
  Count a sep = 0%nat -> Split (a +:+ String sep b) sep = a :: Split b sep.
Proof.
  induction a as [|c a IH]; simpl.
  { by rewrite Ascii.eqb_refl. }
  destruct (Ascii.eqb c sep); [done|]. intros Ha. by rewrite IH.
Qed.

Lemma Split_two ID :
  Count ID "/" = 1%nat ->
  exists a b, Split ID "/" = [a; b] /\ Join [a; b] "/" = ID /\
              Forall (fun p => Count p "/" = 0%nat) [a; b].
Proof.
  intros Hk. pose proof (Split_length ID "/") as Hlen.
  pose proof (Join_Split ID "/") as Hjoin.
  pose proof (Split_parts ID "/") as Hparts. rewrite Hk in Hlen.
  destruct (Split ID "/") as [|a [|b [|c l]]]; try done. by exists a, b.
Qed.

Lemma Split_three ID :
  Count ID "/" = 2%nat ->
  exists a b c, Split ID "/" = [a; b; c] /\ Join [a; b; c] "/" = ID /\
                Forall (fun p => Count p "/" = 0%nat) [a; b; c].
Proof.
  intros Hk. pose proof (Split_length ID "/") as Hlen.
  pose proof (Join_Split ID "/") as Hjoin.
  pose proof (Split_parts ID "/") as Hparts. rewrite Hk in Hlen.
  destruct (Split ID "/") as [|a [|b [|c [|d l]]]]; try done. by exists a, b, c.
Qed.

Lemma Split_not_two ID :
  Count ID "/" <> 1%nat ->
  match Split ID "/" with [_; _] => False | _ => True end.
Proof.
  intros Hk. pose proof (Split_length ID "/") as Hlen.
  destruct (Split ID "/") as [|a [|b [|c l]]]; try done.
  simpl in Hlen. congruence.
Qed.

Lemma Split_not_three ID :
  Count ID "/" <> 2%nat ->
  match Split ID "/" with [_; _; _] => False | _ => True end.
Proof.
  intros Hk. pose proof (Split_length ID "/") as Hlen.
  destruct (Split ID "/") as [|a [|b [|c [|d l]]]]; try done.
  simpl in Hlen. congruence.
Qed.

Ltac imports_two ImportState :=
  let ID := fresh "ID" in
  let Hk := fresh "Hk" in
  intros ID; unfold ImportState;
  destruct (decide (Count ID "/" = 1%nat)) as [Hk|Hk];
  [ apply Split_two in Hk as (a & b & -> & Hjoin & Hparts);
    eexists; exists [a; b]; by repeat split
  | apply Split_not_two in Hk;
    destruct (Split ID "/") as [|? [|? [|? ?]]]; try done;
    split; try done; apply HasError_AddError ].

Ltac imports_three ImportState :=
  let ID := fresh "ID" in
  let Hk := fresh "Hk" in
  intros ID; unfold ImportState;
  destruct (decide (Count ID "/" = 2%nat)) as [Hk|Hk];
  [ apply Split_three in Hk as (a & b & c & -> & Hjoin & Hparts);
    eexists; exists [a; b; c]; by repeat split
  | apply Split_not_three in Hk;
    destruct (Split ID "/") as [|? [|? [|? [|? ?]]]]; try done;
    split; try done; apply HasError_AddError ].

(** X4.  The Docker Hub resources import by composite identifiers.
    [ImportState] of a team, an organization member and a repository
    accepts exactly the identifiers with one slash, that of a team member
    and a repository team permission exactly those with two; it stores
    the identifier as [id] and its parts, none of which contains a slash
    and which joined by slashes are the identifier, as the attributes the
    identifier is made of.  Any other identifier is an error and no
    state. *)
Theorem ImportState_splits_the_identifier_at_slashes :
  importsBySlashes OrgTeamResource'.ImportState 1 OrgTeamResource'.ID
    (fun d => [OrgTeamResource'.OrgName d; OrgTeamResource'.TeamName d]) /\
  importsBySlashes OrgMemberResource'.ImportState 1 OrgMemberResource'.ID
    (fun d => [OrgMemberResource'.OrgName d; OrgMemberResource'.Username d]) /\
  importsBySlashes HubRepositoryResource'.ImportState 1 HubRepositoryResource'.ID
    (fun d => [HubRepositoryResource'.Namespace d; HubRepositoryResource'.Name d]) /\
  importsBySlashes OrgTeamMemberResource'.ImportState 2 OrgTeamMemberResource'.ID
    (fun d => [OrgTeamMemberResource'.OrgName d;
               OrgTeamMemberResource'.TeamName d;
               OrgTeamMemberResource'.Username d]) /\
  importsBySlashes HubRepositoryTeamPermissionResource'.ImportState 2
    HubRepositoryTeamPermissionResource'.ID
    (fun d => [HubRepositoryTeamPermissionResource'.Namespace d;
               HubRepositoryTeamPermissionResource'.Repository d;
               HubRepositoryTeamPermissionResource'.TeamName d]).
Proof.
  split; [imports_two OrgTeamResource'.ImportState|].
  split; [imports_two OrgMemberResource'.ImportState|].
  split; [imports_two HubRepositoryResource'.ImportState|].
  split; [imports_three OrgTeamMemberResource'.ImportState|].
  imports_three HubRepositoryTeamPermissionResource'.ImportState.
Qed.

Lemma Count_app a b c : Count (a +:+ b) c = (Count a c + Count b c)%nat.
Proof. induction a as [|x a IH]; simpl; [done|]. rewrite IH. lia. Qed.

Lemma Split_three_parts a b c :
  Count a "/" = 0%nat -> Count b "/" = 0%nat -> Count c "/" = 0%nat ->
  Split (a +:+ "/" +:+ b +:+ "/" +:+ c) "/" = [a; b; c].
Proof.
  intros Ha Hb Hc.
  change (a +:+ "/" +:+ b +:+ "/" +:+ c)
    with (a +:+ String "/" (b +:+ String "/" c)).
  by rewrite !Split_cons, Split_part.
Qed.

Lemma Split_two_parts a b :
  Count a "/" = 0%nat -> Count b "/" = 0%nat ->
  Split (a +:+ "/" +:+ b) "/" = [a; b].
Proof.
  intros Ha Hb. change (a +:+ "/" +:+ b) with (a +:+ String "/" b).
  by rewrite Split_cons, Split_part.
Qed.

Section import_round_trip.

Context {H : Type}.
Variable transport : dockerhub.Transport H.
Variable NewRequestWithContext : string -> string -> option Error.
Variable PathEscape : string -> string.
Variable Marshal : dockerhub'.Payload -> string.
Variable client : dockerhub.Client.

(** X5.  The identifier [Create] writes can be imported again.  For
    names [a], [b], [c] without a slash: a team member created for
    org [a], team [b], user [c] gets a state that [ImportState] of its
    [id] reproduces exactly; an organization member (org [a], user [b])
    and a repository team permission (namespace [a], repository [b],
    team [c]) get states whose identifying attributes [ImportState] of
    the [id] reproduces, with the role and the permission null.  A
    team member whose org, team or user name contains a slash gets an
    [id] that [ImportState] rejects. *)
Theorem Create_id_round_trips_through_ImportState (a b c : string) :
  Count a "/" = 0%nat -> Count b "/" = 0%nat -> Count c "/" = 0%nat ->
  (forall req (s : dockerhub.HubSys H) i,
     gotData (reqGet req) =
       {| OrgTeamMemberResource'.ID := i;
          OrgTeamMemberResource'.OrgName := Some a;
          OrgTeamMemberResource'.TeamName := Some b;
          OrgTeamMemberResource'.Username := Some c |} ->
     let resp := (OrgTeamMemberResource'.Create transport NewRequestWithContext
                    PathEscape Marshal (Some client) req s).1 in
     HasError (respDiagnostics resp) = false ->
     exists st,
       respState resp = Some st /\
       OrgTeamMemberResource'.ImportState
         (ValueString (OrgTeamMemberResource'.ID st))
       = Build_ResourceResponse [] (Some st)) /\
  (forall req (s : dockerhub.HubSys H) i role,
     gotData (reqGet req) =
       {| OrgMemberResource'.ID := i;
          OrgMemberResource'.OrgName := Some a;
          OrgMemberResource'.Username := Some b;
          OrgMemberResource'.Role := role |} ->
     let resp := (OrgMemberResource'.Create transport NewRequestWithContext
                    Marshal (Some client) req s).1 in
     HasError (respDiagnostics resp) = false ->
     exists st,
       respState resp = Some st /\
       OrgMemberResource'.ImportState (ValueString (OrgMemberResource'.ID st))
       = Build_ResourceResponse []
           (Some {| OrgMemberResource'.ID := OrgMemberResource'.ID st;
                    OrgMemberResource'.OrgName := OrgMemberResource'.OrgName st;
                    OrgMemberResource'.Username := OrgMemberResource'.Username st;
                    OrgMemberResource'.Role := None |})) /\
  (forall req (s : dockerhub.HubSys H) i permission,
     gotData (reqGet req) =
       {| HubRepositoryTeamPermissionResource'.ID := i;
          HubRepositoryTeamPermissionResource'.Namespace := Some a;
          HubRepositoryTeamPermissionResource'.Repository := Some b;
          HubRepositoryTeamPermissionResource'.TeamName := Some c;
          HubRepositoryTeamPermissionResource'.Permission := permission |} ->
     let resp := (HubRepositoryTeamPermissionResource'.Create transport
                    NewRequestWithContext Marshal (Some client) req s).1 in
     HasError (respDiagnostics resp) = false ->
     exists st,
       respState resp = Some st /\
       HubRepositoryTeamPermissionResource'.ImportState
         (ValueString (HubRepositoryTeamPermissionResource'.ID st))
       = Build_ResourceResponse []
           (Some {| HubRepositoryTeamPermissionResource'.ID :=
                      HubRepositoryTeamPermissionResource'.ID st;
                    HubRepositoryTeamPermissionResource'.Namespace :=
                      HubRepositoryTeamPermissionResource'.Namespace st;
                    HubRepositoryTeamPermissionResource'.Repository :=
                      HubRepositoryTeamPermissionResource'.Repository st;
                    HubRepositoryTeamPermissionResource'.TeamName :=
                      HubRepositoryTeamPermissionResource'.TeamName st;
                    HubRepositoryTeamPermissionResource'.Permission := None |})) /\
  (forall x y z req (s : dockerhub.HubSys H) i,
     gotData (reqGet req) =
       {| OrgTeamMemberResource'.ID := i;
          OrgTeamMemberResource'.OrgName := Some x;
          OrgTeamMemberResource'.TeamName := Some y;
          OrgTeamMemberResource'.Username := Some z |} ->
     let resp := (OrgTeamMemberResource'.Create transport NewRequestWithContext
                    PathEscape Marshal (Some client) req s).1 in
     HasError (respDiagnostics resp) = false ->
     (Count x "/" + Count y "/" + Count z "/" <> 0)%nat ->
     exists st,
       respState resp = Some st /\
       respState (OrgTeamMemberResource'.ImportState
                    (ValueString (OrgTeamMemberResource'.ID st))) = None /\
       HasError (respDiagnostics
                   (OrgTeamMemberResource'.ImportState
                      (ValueString (OrgTeamMemberResource'.ID st)))) = true).
Proof.
  intros Ha Hb Hc. split; [|split; [|split]].
  - intros req s i Hdata resp Hok. subst resp.
    unfold OrgTeamMemberResource'.Create in *. rewrite Hdata in *.
    destruct (HasError (gotDiags (reqGet req))) eqn:Hdiags;
      [simpl in Hok; congruence|].
    unfold bind in *.
    destruct (dockerhub'.AddTeamMember _ _ _ _ _ _ _ _ s) as [[err|] s1];
      simpl in *; [by rewrite HasError_AddError in Hok|].
    eexists. split; [done|].
    unfold OrgTeamMemberResource'.ImportState,
      OrgTeamMemberResource'.withID. simpl.
    by rewrite Split_three_parts.
  - intros req s i role Hdata resp Hok. subst resp.
    unfold OrgMemberResource'.Create in *. rewrite Hdata in *.
    destruct (HasError (gotDiags (reqGet req))) eqn:Hdiags;
      [simpl in Hok; congruence|].
    unfold bind in *.
    destruct (dockerhub'.AddOrgMember _ _ _ _ _ _ _ s) as [[err|] s1];
      simpl in *; [by rewrite HasError_AddError in Hok|].
    eexists. split; [done|].
    unfold OrgMemberResource'.ImportState, OrgMemberResource'.withID. simpl.
    by rewrite Split_two_parts.
  - intros req s i permission Hdata resp Hok. subst resp.
    unfold HubRepositoryTeamPermissionResource'.Create in *. rewrite Hdata in *.
    destruct (HasError (gotDiags (reqGet req))) eqn:Hdiags;
      [simpl in Hok; congruence|].
    unfold bind in *.
    destruct (dockerhub'.SetRepositoryTeamPermission _ _ _ _ _ _ _ _ s)
      as [[err|] s1];
      simpl in *; [by rewrite HasError_AddError in Hok|].
    eexists. split; [done|].
    unfold HubRepositoryTeamPermissionResource'.ImportState,
      HubRepositoryTeamPermissionResource'.withID. simpl.
    by rewrite Split_three_parts.
  - intros x y z req s i Hdata resp Hok Hslash. subst resp.
    unfold OrgTeamMemberResource'.Create in *. rewrite Hdata in *.
    destruct (HasError (gotDiags (reqGet req))) eqn:Hdiags;
      [simpl in Hok; congruence|].
    unfold bind in *.
    destruct (dockerhub'.AddTeamMember _ _ _ _ _ _ _ _ s) as [[err|] s1];
      simpl in *; [by rewrite HasError_AddError in Hok|].
    eexists. split; [done|].
    unfold OrgTeamMemberResource'.ImportState,
      OrgTeamMemberResource'.withID. simpl.
    assert (Hk : Count (x +:+ "/" +:+ y +:+ "/" +:+ z) "/" <> 2%nat).
    { rewrite !Count_app. simpl. lia. }
    apply Split_not_three in Hk.
    destruct (Split _ "/") as [|? [|? [|? [|? ?]]]]; try done;
      (split; [done|apply HasError_AddError]).
Qed.

End import_round_trip.

Lemma Create_id_round_trips_through_ImportState_witness :
  Count "acme" "/" = 0%nat /\ Count "dev" "/" = 0%nat /\
  Count "alice" "/" = 0%nat /\
  OrgTeamMemberResource'.ImportState "acme/dev/alice" =
  Build_ResourceResponse []
    (Some {| OrgTeamMemberResource'.ID := Some "acme/dev/alice";
             OrgTeamMemberResource'.OrgName := Some "acme";
             OrgTeamMemberResource'.TeamName := Some "dev";
             OrgTeamMemberResource'.Username := Some "alice" |}).
Proof.
  split; [reflexivity|]. split; [reflexivity|]. split; [reflexivity|].
  destruct (proj1 (Create_id_round_trips_through_ImportState
                     hubExamples.acceptingHub hubExamples.strictURL id
                     hubExamples.noMarshal
                     hubExamples.token "acme" "dev" "alice"
                     eq_refl eq_refl eq_refl)
              hubExamples.aliceJoinsDev examples.hubStart None eq_refl eq_refl)
    as (st & Hst & Himport).
  injection Hst as <-. exact Himport.
Defined.

(** ** The Docker Hub resources: Delete, and a missing client *)

Section hub_write_facts.

Context {H : Type}.
Variable transport : dockerhub.Transport H.
Variable NewRequestWithContext : string -> string -> option Error.
Variable Marshal : dockerhub'.Payload -> string.

(** A DELETE request that can be built and is answered with 404 fails
    with an error that mentions it, and is the one request sent. *)
Lemma send_404 c url (s : dockerhub.HubSys H) resp :
  NewRequestWithContext "DELETE" (dockerhub.baseURL c +:+ url) = None ->
  (transport (deleteRequest c url) (world s)).1 = inr resp ->
  dockerhub.StatusCode resp = 404%Z ->
  exists err,
    (dockerhub'.send transport NewRequestWithContext Marshal c "DELETE" url
       None s).1 = Some err /\
    isHubNotFound err = true /\
    trace (dockerhub'.send transport NewRequestWithContext Marshal c "DELETE"
             url None s).2 = trace s ++ [deleteRequest c url].
Proof.
  intros Hbuilt Hr Hcode.
  unfold dockerhub'.send, dockerhub.doRequest, bind, dockerhub.Do.
  rewrite Hbuilt. simpl.
  change (dockerhub.Build_HTTPRequest _ _ _ _ _) with (deleteRequest c url).
  destruct (transport (deleteRequest c url) (world s)) as [a h'].
  simpl in Hr. subst a.
  destruct (decide (400 <= dockerhub.StatusCode resp)%Z); [|lia].
  simpl. eexists. split; [reflexivity|]. split; [|done].
  unfold isHubNotFound, dockerhub.Status. rewrite Hcode.
  apply orb_true_iff. left. apply Contains_404_API_error.
Qed.

End hub_write_facts.

Ltac deletes_on_404 Delete method :=
  let req := fresh "req" in
  let s := fresh "s" in
  let resp := fresh "resp" in
  let Hd := fresh "Hd" in
  let httpReq := fresh "httpReq" in
  let Hbuilt := fresh "Hbuilt" in
  let Hr := fresh "Hr" in
  let Hcode := fresh "Hcode" in
  intros req s resp Hd httpReq Hbuilt Hr Hcode; subst httpReq;
  cbv beta delta [Delete method] zeta;
  rewrite Hd; unfold bind;
  match goal with
  | |- context [dockerhub'.send ?t ?n ?m ?c "DELETE" ?url None s] =>
      destruct (send_404 t n m c url s resp Hbuilt Hr Hcode)
        as (err & Hrun & Hnf & Htrace);
      destruct (dockerhub'.send t n m c "DELETE" url None s) as [e s1];
      simpl in Hrun, Htrace; subst e; rewrite Hnf; simpl;
      by split
  end.

Section hub_Delete.

Context {H : Type}.
Variable transport : dockerhub.Transport H.
Variable NewRequestWithContext : string -> string -> option Error.
Variable PathEscape : string -> string.
Variable Marshal : dockerhub'.Payload -> string.
Variable client : dockerhub.Client.

(** X6.  Deleting a Docker Hub object that is already gone succeeds:
    when the DELETE request for the object can be built and Docker Hub
    answers that request with 404, [Delete] of a repository, a
    repository team permission, a team, an organization member, a team
    member and an access token adds no diagnostic, and has sent that one
    request, which has no body, and nothing else. *)
Theorem Delete_of_a_missing_hub_object_succeeds :
  deletesOn404 transport NewRequestWithContext
    (HubRepositoryResource'.Delete transport NewRequestWithContext Marshal
       (Some client))
    (fun data =>
       deleteRequest client
         ("/repositories/" +:+
          ValueString (HubRepositoryResource'.Namespace data) +:+ "/" +:+
          ValueString (HubRepositoryResource'.Name data))) /\
  deletesOn404 transport NewRequestWithContext
    (HubRepositoryTeamPermissionResource'.Delete transport
       NewRequestWithContext PathEscape Marshal (Some client))
    (fun data =>
       deleteRequest client
         ("/repositories/" +:+
          ValueString (HubRepositoryTeamPermissionResource'.Namespace data) +:+
          "/" +:+
          ValueString (HubRepositoryTeamPermissionResource'.Repository data) +:+
          "/groups/" +:+
          PathEscape
            (ValueString (HubRepositoryTeamPermissionResource'.TeamName data)))) /\
  deletesOn404 transport NewRequestWithContext
    (OrgTeamResource'.Delete transport NewRequestWithContext PathEscape Marshal
       (Some client))
    (fun data =>
       deleteRequest client
         ("/orgs/" +:+ ValueString (OrgTeamResource'.OrgName data) +:+
          "/groups/" +:+
          PathEscape (ValueString (OrgTeamResource'.TeamName data)))) /\
  deletesOn404 transport NewRequestWithContext
    (OrgMemberResource'.Delete transport NewRequestWithContext Marshal
       (Some client))
    (fun data =>
       deleteRequest client
         ("/orgs/" +:+ ValueString (OrgMemberResource'.OrgName data) +:+
          "/members/" +:+ ValueString (OrgMemberResource'.Username data))) /\
  deletesOn404 transport NewRequestWithContext
    (OrgTeamMemberResource'.Delete transport NewRequestWithContext PathEscape
       Marshal (Some client))
    (fun data =>
       deleteRequest client
         ("/orgs/" +:+ ValueString (OrgTeamMemberResource'.OrgName data) +:+
          "/groups/" +:+
          PathEscape (ValueString (OrgTeamMemberResource'.TeamName data)) +:+
          "/members/" +:+
          ValueString (OrgTeamMemberResource'.Username data))) /\
  deletesOn404 transport NewRequestWithContext
    (AccessTokenResource'.Delete transport NewRequestWithContext Marshal
       (Some client))
    (fun data =>
       deleteRequest client
         ("/access-tokens/" +:+ ValueString (AccessTokenResource'.UUID data))).
Proof.
  split; [deletes_on_404 @HubRepositoryResource'.Delete
            @dockerhub'.DeleteRepository|].
  split; [deletes_on_404 @HubRepositoryTeamPermissionResource'.Delete
            @dockerhub'.RemoveRepositoryTeamPermission|].
  split; [deletes_on_404 @OrgTeamResource'.Delete @dockerhub'.DeleteTeam|].
  split; [deletes_on_404 @OrgMemberResource'.Delete @dockerhub'.RemoveOrgMember|].
  split; [deletes_on_404 @OrgTeamMemberResource'.Delete
            @dockerhub'.RemoveTeamMember|].
  deletes_on_404 @AccessTokenResource'.Delete @dockerhub'.DeleteAccessToken.
Qed.

End hub_Delete.

Lemma Delete_of_a_missing_hub_object_succeeds_witness :
  HasError (gotDiags (reqGet hubExamples.aliceLeavesDev)) = false /\
  hubExamples.strictURL "DELETE"
    "https://hub.docker.com/v2/orgs/acme/groups/dev/members/alice" = None /\
  (hubExamples.missingHub
     (deleteRequest hubExamples.token "/orgs/acme/groups/dev/members/alice")
     (world examples.hubStart)).1 =
  inr {| dockerhub.StatusCode := 404; dockerhub.Reason := "Not Found";
         dockerhub.RespBody := "{}" |} /\
  respDiagnostics
    (OrgTeamMemberResource'.Delete hubExamples.missingHub hubExamples.strictURL
       id hubExamples.noMarshal (Some hubExamples.token)
       hubExamples.aliceLeavesDev examples.hubStart).1 = [] /\
  trace
    (OrgTeamMemberResource'.Delete hubExamples.missingHub hubExamples.strictURL
       id hubExamples.noMarshal (Some hubExamples.token)
       hubExamples.aliceLeavesDev examples.hubStart).2 =
  [deleteRequest hubExamples.token "/orgs/acme/groups/dev/members/alice"].
Proof.
  split; [reflexivity|]. split; [reflexivity|]. split; [reflexivity|].
  exact (proj1 (proj2 (proj2 (proj2 (proj2
    (Delete_of_a_missing_hub_object_succeeds hubExamples.missingHub
       hubExamples.strictURL id hubExamples.noMarshal hubExamples.token)))))
    hubExamples.aliceLeavesDev examples.hubStart _ eq_refl eq_refl eq_refl
    eq_refl).
Defined.

Ltac needs_hub_client op :=
  let req := fresh "req" in
  let s := fresh "s" in
  let Hd := fresh "Hd" in
  intros req s Hd; cbv beta delta [op notConfigured] zeta;
  rewrite Hd; eexists; reflexivity.

Section hub_not_configured.

Context {H : Type}.
Variable transport : dockerhub.Transport H.
Variable NewRequestWithContext : string -> string -> option Error.
Variable json : dockerhub.JSON.
Variable PathEscape : string -> string.
Variable Marshal : dockerhub'.Payload -> string.

(** X7.  Without a Docker Hub client (no credentials, or a login that
    failed) the operations of the Docker Hub resources that talk to
    Docker Hub report the error "Docker Hub Not Configured", leave the
    state as it was and send nothing. *)
Theorem hub_resources_need_a_hub_client :
  (needsHubClient (H := H) (HubRepositoryResource'.Create transport NewRequestWithContext
                              json Marshal) /\
   needsHubClient (H := H) (HubRepositoryResource.Read transport NewRequestWithContext
                              json) /\
   needsHubClient (H := H) (HubRepositoryResource'.Update transport NewRequestWithContext
                              json Marshal) /\
   needsHubClient (H := H) (HubRepositoryResource'.Delete transport NewRequestWithContext
                              Marshal)) /\
  (needsHubClient (H := H)
     (HubRepositoryTeamPermissionResource'.Create transport NewRequestWithContext
        Marshal) /\
   needsHubClient (H := H)
     (HubRepositoryTeamPermissionResource.Read transport NewRequestWithContext
        json PathEscape) /\
   needsHubClient (H := H)
     (HubRepositoryTeamPermissionResource'.Update transport NewRequestWithContext
        Marshal) /\
   needsHubClient (H := H)
     (HubRepositoryTeamPermissionResource'.Delete transport NewRequestWithContext
        PathEscape Marshal)) /\
  (needsHubClient (H := H) (OrgTeamResource'.Create transport NewRequestWithContext
                              json Marshal) /\
   needsHubClient (H := H) (OrgTeamResource.Read transport NewRequestWithContext
                              json PathEscape) /\
   needsHubClient (H := H)
     (OrgTeamResource'.Update transport NewRequestWithContext
        json PathEscape Marshal) /\
   needsHubClient (H := H) (OrgTeamResource'.Delete transport NewRequestWithContext
                              PathEscape Marshal)) /\
  (needsHubClient (H := H) (OrgMemberResource'.Create transport NewRequestWithContext
                              Marshal) /\
   needsHubClient (H := H) (OrgMemberResource.Read transport NewRequestWithContext
                              json) /\
   needsHubClient (H := H) (OrgMemberResource'.Update transport NewRequestWithContext
                              Marshal) /\
   needsHubClient (H := H) (OrgMemberResource'.Delete transport NewRequestWithContext
                              Marshal)) /\
  (needsHubClient (H := H)
     (OrgTeamMemberResource'.Create transport NewRequestWithContext
        PathEscape Marshal) /\
   needsHubClient (H := H) (OrgTeamMemberResource.Read transport NewRequestWithContext
                              json PathEscape) /\
   needsHubClient (H := H)
     (OrgTeamMemberResource'.Delete transport NewRequestWithContext
        PathEscape Marshal)) /\
  (needsHubClient (H := H) (AccessTokenResource.Read transport NewRequestWithContext
                              json) /\
   needsHubClient (H := H) (AccessTokenResource'.Update transport NewRequestWithContext
                              json Marshal) /\
   needsHubClient (H := H) (AccessTokenResource'.Delete transport NewRequestWithContext
                              Marshal)).
Proof.
  repeat split.
  - needs_hub_client @HubRepositoryResource'.Create.
  - needs_hub_client @HubRepositoryResource.Read.
  - needs_hub_client @HubRepositoryResource'.Update.
  - needs_hub_client @HubRepositoryResource'.Delete.
  - needs_hub_client @HubRepositoryTeamPermissionResource'.Create.
  - needs_hub_client @HubRepositoryTeamPermissionResource.Read.
  - needs_hub_client @HubRepositoryTeamPermissionResource'.Update.
  - needs_hub_client @HubRepositoryTeamPermissionResource'.Delete.
  - needs_hub_client @OrgTeamResource'.Create.
  - needs_hub_client @OrgTeamResource.Read.
  - needs_hub_client @OrgTeamResource'.Update.
  - needs_hub_client @OrgTeamResource'.Delete.
  - needs_hub_client @OrgMemberResource'.Create.
  - needs_hub_client @OrgMemberResource.Read.
  - needs_hub_client @OrgMemberResource'.Update.
  - needs_hub_client @OrgMemberResource'.Delete.
  - needs_hub_client @OrgTeamMemberResource'.Create.
  - needs_hub_client @OrgTeamMemberResource.Read.
  - needs_hub_client @OrgTeamMemberResource'.Delete.
  - needs_hub_client @AccessTokenResource.Read.
  - needs_hub_client @AccessTokenResource'.Update.
  - needs_hub_client @AccessTokenResource'.Delete.
Qed.

End hub_not_configured.

(** ** The paged lists of the data sources *)

Lemma pagesNeeded_pos n k : (1 <= pagesNeeded n k)%nat.
Proof. unfold pagesNeeded. lia. Qed.

(** Page [p] holds entries exactly when [p] is among the pages needed. *)
Lemma pagesNeeded_spec n k p :
  (0 < k)%nat -> (1 <= p)%nat ->
  (k * (p - 1) < n)%nat <-> (p <= pagesNeeded n k)%nat /\ n <> 0%nat.
Proof.
  intros Hk Hp. unfold pagesNeeded.
  set (q := ((n + k - 1) / k)%nat).
  assert (Hdiv : (k * q <= n + k - 1)%nat)
    by (apply Nat.Div0.mul_div_le).
  assert (Hlow : (k * (p - 1) < n -> p <= q)%nat).
  { intros Hlt. apply Nat.div_le_lower_bound; [lia|]. nia. }
  clearbody q. split.
  - intros Hlt. split; [specialize (Hlow Hlt); lia|nia].
  - intros [Hle Hn]. destruct (decide (p = 1%nat)) as [->|Hp1]; [nia|].
    assert (p <= q)%nat by lia. nia.
Qed.

Lemma pageOf_append {T} k (items : list T) p :
  (1 <= p)%nat ->
  take (k * (p - 1)) items ++ pageOf k items p = take (k * p) items.
Proof.
  intros Hp. unfold pageOf.
  replace (k * p)%nat with (k * (p - 1) + k)%nat by nia.
  by rewrite take_take_drop.
Qed.

Section fetchAll_facts.

Context {H T : Type}.
Variable listPage : Z -> Z -> dockerhub.HubM H (Result (list T * Z)).

Section complete.

Variable items : list T.
Variable k : nat.
Variable h : H.
Hypothesis k_pos : (0 < k)%nat.
Hypothesis served : forall p (s : dockerhub.HubSys H),
  world s = h -> (1 <= p <= pagesNeeded (length items) k)%nat ->
  exists s',
    listPage (Z.of_nat p) (Z.of_nat k) s
      = (inr (pageOf k items p, Z.of_nat (length items)), s') /\
    world s' = h /\ length (trace s') = S (length (trace s)).

Lemma fetchAll_complete : forall fuel p (s : dockerhub.HubSys H),
  world s = h -> (1 <= p)%nat ->
  (p = 1 \/ k * (p - 1) < length items)%nat ->
  (pagesNeeded (length items) k < p + fuel)%nat ->
  exists s',
    fetchAll listPage fuel (Z.of_nat p) (Z.of_nat k)
      (take (k * (p - 1)) items) s = (Some (inr items), s') /\
    world s' = h /\
    (length (trace s') =
     length (trace s) + (pagesNeeded (length items) k + 1 - p))%nat.
Proof.
  induction fuel as [|fuel IH]; intros p s Hs Hp Hinv Hfuel.
  { exfalso. pose proof (pagesNeeded_pos (length items) k).
    destruct Hinv as [->|Hlt]; [lia|].
    apply pagesNeeded_spec in Hlt; lia. }
  assert (Hle : (p <= pagesNeeded (length items) k)%nat).
  { pose proof (pagesNeeded_pos (length items) k).
    destruct Hinv as [->|Hlt]; [lia|]. apply pagesNeeded_spec in Hlt; lia. }
  destruct (served p s Hs (conj Hp Hle)) as (s1 & Hrun & Hw1 & Ht1).
  cbn [fetchAll]. unfold bind at 1. rewrite Hrun.
  rewrite pageOf_append by done.
  destruct (decide (length items <= k * p)%nat) as [Hlast|Hmore].
  - (* the last page *)
    rewrite firstn_all2 by done.
    assert (Hstop : (Z.of_nat (length items) <=? Z.of_nat (length items))%Z = true)
      by (apply Z.leb_le; lia).
    rewrite Hstop. cbn [orb]. eexists. split; [reflexivity|]. split; [done|].
    assert (pagesNeeded (length items) k <= p)%nat; [|lia].
    destruct (decide (length items = 0%nat)) as [H0|H0].
    { unfold pagesNeeded. rewrite H0. simpl.
      rewrite Nat.div_small by lia. lia. }
    destruct (decide (pagesNeeded (length items) k <= p)%nat); [done|].
    assert (Hnext : (k * (S p - 1) < length items)%nat).
    { apply pagesNeeded_spec; [done|lia|]. split; [lia|done]. }
    replace (S p - 1)%nat with p in Hnext by lia. lia.
  - (* more pages follow *)
    assert (Hlen : length (take (k * p) items) = (k * p)%nat)
      by (rewrite length_take; lia).
    rewrite Hlen.
    assert (Hgo : (Z.of_nat (length items) <=? Z.of_nat (k * p))%Z = false)
      by (apply Z.leb_gt; lia).
    assert (Hpage : (length (pageOf k items p) =? 0)%nat = false).
    { apply Nat.eqb_neq. unfold pageOf.
      rewrite length_take, length_drop. nia. }
    rewrite Hgo, Hpage. cbn [orb].
    replace (Z.of_nat p + 1)%Z with (Z.of_nat (S p)) by lia.
    assert (Hnext : (S p = 1 \/ k * (S p - 1) < length items)%nat).
    { right. replace (S p - 1)%nat with p by lia. lia. }
    destruct (IH (S p) s1 Hw1 ltac:(lia) Hnext ltac:(lia))
      as (s' & Hrest & Hw' & Ht').
    replace (S p - 1)%nat with p in Hrest by lia.
    rewrite Hrest. eexists. split; [reflexivity|]. split; [done|]. lia.
Qed.

End complete.

(** When no answer announces more than [N] entries, the loop ends
    within [max 1 N] requests. *)
Section bounded.

Variable N : nat.
Hypothesis counted : forall page pageSize (s : dockerhub.HubSys H) items count,
  (listPage page pageSize s).1 = inr (items, count) -> (count <= Z.of_nat N)%Z.
Hypothesis one_request : forall page pageSize (s : dockerhub.HubSys H),
  (length (trace (listPage page pageSize s).2) <= S (length (trace s)))%nat.

Lemma fetchAll_bounded : forall fuel page pageSize all (s : dockerhub.HubSys H) r' s',
  (Nat.max 1 (N - length all) <= fuel)%nat ->
  fetchAll listPage fuel page pageSize all s = (r', s') ->
  exists r,
    r' = Some r /\
    (length (trace s') <= length (trace s) + Nat.max 1 (N - length all))%nat.
Proof.
  induction fuel as [|fuel IH]; intros page pageSize all s r' s' Hfuel Hrun; [lia|].
  cbn [fetchAll] in Hrun. unfold bind at 1 in Hrun.
  pose proof (counted page pageSize s) as Hcount.
  pose proof (one_request page pageSize s) as Hone.
  destruct (listPage page pageSize s) as [[err|[items count]] s1]; simpl in *.
  { injection Hrun as <- <-. eexists. split; [done|]. lia. }
  specialize (Hcount items count eq_refl).
  destruct ((count <=? Z.of_nat (length (all ++ items)))%Z
            || (length items =? 0)%nat) eqn:Hstop.
  { injection Hrun as <- <-. eexists. split; [done|]. lia. }
  apply orb_false_iff in Hstop as [Hmore Hitems].
  apply Z.leb_gt in Hmore. apply Nat.eqb_neq in Hitems.
  rewrite length_app in Hmore.
  apply IH in Hrun as (r & Hr & Hlen); [|rewrite length_app; lia].
  exists r. split; [done|]. rewrite length_app in Hlen. lia.
Qed.

End bounded.

End fetchAll_facts.

Section paged_data_sources.

Context {H : Type}.
Variable transport : dockerhub.Transport H.
Variable NewRequestWithContext : string -> string -> option Error.
Variable pages : dockerhub'.PageJSON.
Variable Marshal : dockerhub'.Payload -> string.
Variable client : dockerhub.Client.

(** A GET that can be built and is answered below 400, not with 204, and
    with a body the decoder accepts. *)
Lemma exchange_get {T} (zero : T) url decode resp v (s : dockerhub.HubSys H) :
  NewRequestWithContext "GET" (dockerhub.URL (getRequest client url)) = None ->
  transport (getRequest client url) (world s) = (inr resp, world s) ->
  (dockerhub.StatusCode resp < 400)%Z ->
  dockerhub.StatusCode resp <> 204%Z ->
  decode (dockerhub.RespBody resp) = inr v ->
  dockerhub'.exchange transport NewRequestWithContext Marshal zero client
    "GET" url None decode s
  = (inr v, {| world := world s; trace := trace s ++ [getRequest client url] |}).
Proof.
  intros Hbuilt Hrun Hcode H204 Hdec.
  unfold dockerhub'.exchange, dockerhub.doRequest, bind, dockerhub.Do.
  cbn [fmap option_fmap option_map].
  change (dockerhub.URL (getRequest client url))
    with (dockerhub.baseURL client +:+ url) in Hbuilt.
  rewrite Hbuilt.
  change {| dockerhub.Method := "GET"; dockerhub.URL := _;
            dockerhub.ContentType := None; dockerhub.Authorization := _;
            dockerhub.Body := None |} with (getRequest client url).
  rewrite Hrun.
  destruct (decide (400 <= dockerhub.StatusCode resp)%Z); [lia|].
  destruct (decide (dockerhub.StatusCode resp <> 204%Z)); [|done].
  by rewrite Hdec.
Qed.

Lemma served_pages {T} (decode : string -> Result (list T * Z)) url
    (listPage : Z -> Z -> dockerhub.HubM H (Result (list T * Z))) items h :
  (forall page s,
     listPage page (Z.of_nat 100) s =
     dockerhub'.exchange transport NewRequestWithContext Marshal ([], 0%Z)
       client "GET" (url page) None decode s) ->
  servesPages transport NewRequestWithContext decode client url 100 items h ->
  forall p (s : dockerhub.HubSys H),
    world s = h -> (1 <= p <= pagesNeeded (length items) 100)%nat ->
    exists s',
      listPage (Z.of_nat p) (Z.of_nat 100) s
        = (inr (pageOf 100 items p, Z.of_nat (length items)), s') /\
      world s' = h /\ length (trace s') = S (length (trace s)).
Proof.
  intros Hlist Hserves p s <- Hp.
  destruct (Hserves p Hp) as (Hbuilt & resp & Hrun & Hcode & H204 & Hdec).
  rewrite Hlist. erewrite exchange_get by done.
  eexists. split; [done|]. split; [done|]. simpl. rewrite length_app. simpl. lia.
Qed.

(** X8.  The data sources that list repository tags, repositories and
    organization members return every entry, in order.  When Docker Hub
    holds [items] and serves them in pages of 100, each with the total as
    [count], and the requests for these pages can be built, [Read]
    stores all of [items], adds no diagnostic, leaves Docker Hub as it
    is, and has sent one request per page of 100 (one request when there
    is no entry). *)
Theorem paged_data_sources_return_every_entry :
  (forall Format req (s : dockerhub.HubSys H) items fuel,
     let data := gotData req in
     let namespace := ValueString (HubRepositoryTagsDataSource.Namespace data) in
     let name := ValueString (HubRepositoryTagsDataSource.Name data) in
     HasError (gotDiags req) = false ->
     servesPages transport NewRequestWithContext (dockerhub'.decodeTagPage pages)
       client
       (tagsURL namespace name) 100 items (world s) ->
     (pagesNeeded (length items) 100 <= fuel)%nat ->
     exists s',
       HubRepositoryTagsDataSource.Read transport NewRequestWithContext pages
                  Marshal Format
         (Some client) fuel req s
       = (Some (Build_ResourceResponse (gotDiags req)
            (Some {| HubRepositoryTagsDataSource.ID :=
                       Some (namespace +:+ "/" +:+ name);
                     HubRepositoryTagsDataSource.Namespace :=
                       HubRepositoryTagsDataSource.Namespace data;
                     HubRepositoryTagsDataSource.Name :=
                       HubRepositoryTagsDataSource.Name data;
                     HubRepositoryTagsDataSource.Tags :=
                       HubRepositoryTagsDataSource.tagModel Format <$> items |})),
          s') /\
       world s' = world s /\
       (length (trace s') =
        length (trace s) + pagesNeeded (length items) 100)%nat) /\
  (forall req (s : dockerhub.HubSys H) items fuel,
     let data := gotData req in
     let namespace := ValueString (HubRepositoriesDataSource.Namespace data) in
     HasError (gotDiags req) = false ->
     servesPages transport NewRequestWithContext (dockerhub'.decodeRepositoryPage pages)
       client
       (repositoriesURL namespace) 100 items (world s) ->
     (pagesNeeded (length items) 100 <= fuel)%nat ->
     exists s',
       HubRepositoriesDataSource.Read transport NewRequestWithContext
         pages Marshal (Some client)
         fuel req s
       = (Some (Build_ResourceResponse (gotDiags req)
            (Some {| HubRepositoriesDataSource.ID := Some namespace;
                     HubRepositoriesDataSource.Namespace :=
                       HubRepositoriesDataSource.Namespace data;
                     HubRepositoriesDataSource.Repositories :=
                       HubRepositoriesDataSource.repositoryModel <$> items |})),
          s') /\
       world s' = world s /\
       (length (trace s') =
        length (trace s) + pagesNeeded (length items) 100)%nat) /\
  (forall req (s : dockerhub.HubSys H) items fuel,
     let data := gotData req in
     let orgName := ValueString (OrgMembersDataSource.OrgName data) in
     HasError (gotDiags req) = false ->
     servesPages transport NewRequestWithContext (dockerhub'.decodeMemberPage pages)
       client
       (membersURL orgName) 100 items (world s) ->
     (pagesNeeded (length items) 100 <= fuel)%nat ->
     exists s',
       OrgMembersDataSource.Read transport NewRequestWithContext
         pages Marshal (Some client) fuel req s
       = (Some (Build_ResourceResponse (gotDiags req)
            (Some {| OrgMembersDataSource.ID := Some orgName;
                     OrgMembersDataSource.OrgName :=
                       OrgMembersDataSource.OrgName data;
                     OrgMembersDataSource.Members :=
                       OrgMembersDataSource.memberModel <$> items |})),
          s') /\
       world s' = world s /\
       (length (trace s') =
        length (trace s) + pagesNeeded (length items) 100)%nat).
Proof.
  split; [|split].
  - intros Format req s items fuel data namespace name Hd Hserves Hfuel.
    unfold HubRepositoryTagsDataSource.Read. rewrite Hd. unfold bind.
    destruct (fetchAll_complete
                (dockerhub'.ListRepositoryTags transport NewRequestWithContext
                   pages Marshal client
                   namespace name)
                items 100 (world s) ltac:(lia)
                (served_pages _ (tagsURL namespace name) _ items (world s)
                   (fun _ _ => eq_refl) Hserves)
                fuel 1 s eq_refl ltac:(lia) (or_introl eq_refl) ltac:(lia))
      as (s' & Hrun & Hw & Ht).
    change (fetchAll _ fuel 1 100 [] s) with
      (fetchAll (dockerhub'.ListRepositoryTags transport NewRequestWithContext
                   pages Marshal client
                   namespace name) fuel (Z.of_nat 1) (Z.of_nat 100)
                (take (100 * (1 - 1)) items) s).
    rewrite Hrun. exists s'. split; [done|]. split; [done|]. lia.
  - intros req s items fuel data namespace Hd Hserves Hfuel.
    unfold HubRepositoriesDataSource.Read. rewrite Hd. unfold bind.
    destruct (fetchAll_complete
                (dockerhub'.ListRepositories transport NewRequestWithContext
                   pages Marshal client
                   namespace)
                items 100 (world s) ltac:(lia)
                (served_pages _ (repositoriesURL namespace) _ items (world s)
                   (fun _ _ => eq_refl) Hserves)
                fuel 1 s eq_refl ltac:(lia) (or_introl eq_refl) ltac:(lia))
      as (s' & Hrun & Hw & Ht).
    change (fetchAll _ fuel 1 100 [] s) with
      (fetchAll (dockerhub'.ListRepositories transport NewRequestWithContext
                   pages Marshal client
                   namespace) fuel (Z.of_nat 1) (Z.of_nat 100)
                (take (100 * (1 - 1)) items) s).
    rewrite Hrun. exists s'. split; [done|]. split; [done|]. lia.
  - intros req s items fuel data orgName Hd Hserves Hfuel.
    unfold OrgMembersDataSource.Read. rewrite Hd. unfold bind.
    destruct (fetchAll_complete
                (dockerhub'.ListOrgMembers transport NewRequestWithContext
                   pages Marshal client orgName)
                items 100 (world s) ltac:(lia)
                (served_pages _ (membersURL orgName) _ items (world s)
                   (fun _ _ => eq_refl) Hserves)
                fuel 1 s eq_refl ltac:(lia) (or_introl eq_refl) ltac:(lia))
      as (s' & Hrun & Hw & Ht).
    change (fetchAll _ fuel 1 100 [] s) with
      (fetchAll (dockerhub'.ListOrgMembers transport NewRequestWithContext
                   pages Marshal client orgName)
                fuel (Z.of_nat 1) (Z.of_nat 100)
                (take (100 * (1 - 1)) items) s).
    rewrite Hrun. exists s'. split; [done|]. split; [done|]. lia.
Qed.

(** Every call of the client sends at most one request: none when the
    request cannot be built. *)
Lemma exchange_one_request {T} (zero : T) method url payload decode
    (s : dockerhub.HubSys H) :
  (length (trace (dockerhub'.exchange transport NewRequestWithContext Marshal
                    zero client method url payload decode s).2)
   <= S (length (trace s)))%nat.
Proof.
  unfold dockerhub'.exchange, dockerhub.doRequest, bind, dockerhub.Do.
  destruct (NewRequestWithContext _ _); simpl; [lia|].
  destruct (transport _ (world s)) as [[err|resp] h']; simpl;
    [rewrite length_app; simpl; lia|].
  destruct (decide (400 <= dockerhub.StatusCode resp)%Z); simpl;
    [rewrite length_app; simpl; lia|].
  destruct (decide (dockerhub.StatusCode resp <> 204%Z)); simpl;
    [|rewrite length_app; simpl; lia].
  destruct (decode (dockerhub.RespBody resp)); simpl;
    rewrite length_app; simpl; lia.
Qed.

Lemma exchange_counted {T} (decode : string -> Result (list T * Z)) N url
    (s : dockerhub.HubSys H) items count :
  countsAtMost transport decode N ->
  (dockerhub'.exchange transport NewRequestWithContext Marshal ([], 0%Z)
     client "GET" url None decode s).1 = inr (items, count) ->
  (count <= Z.of_nat N)%Z.
Proof.
  intros Hcounts.
  unfold dockerhub'.exchange, dockerhub.doRequest, bind, dockerhub.Do.
  destruct (NewRequestWithContext _ _); simpl; [done|].
  match goal with
  | |- context [transport ?r (world s)] =>
      pose proof (Hcounts r (world s)) as Hc;
      destruct (transport r (world s)) as [[err|resp] h']
  end; simpl; [done|].
  specialize (Hc resp).
  destruct (decide (400 <= dockerhub.StatusCode resp)%Z); simpl; [done|].
  destruct (decide (dockerhub.StatusCode resp <> 204%Z)); simpl.
  - destruct (decode (dockerhub.RespBody resp)) as [err|[i c]] eqn:Hdec;
      simpl; [done|].
    intros [= <- <-]. by eapply Hc.
  - intros [= <- <-]. lia.
Qed.

(** The outcome of a [Read] that lists: it returned, within [bound]
    requests, and either stored a state and added no diagnostic, or
    added an error and stored nothing. *)
Lemma list_outcome {T Model : Type}
    (listPage : Z -> Z -> dockerhub.HubM H (Result (list T * Z))) N fuel
    (s : dockerhub.HubSys H) (k : option (Result (list T)) ->
                                   dockerhub.HubM H (option (ResourceResponse Model)))
    (diags : Diagnostics) :
  (forall page pageSize (s : dockerhub.HubSys H) items count,
     (listPage page pageSize s).1 = inr (items, count) -> (count <= Z.of_nat N)%Z) ->
  (forall page pageSize (s : dockerhub.HubSys H),
     (length (trace (listPage page pageSize s).2) <= S (length (trace s)))%nat) ->
  (Nat.max 1 N <= fuel)%nat ->
  (forall r s1, exists resp,
     k (Some r) s1 = (Some resp, s1) /\
     (respState resp <> None /\ respDiagnostics resp = diags \/
      respState resp = None /\ HasError (respDiagnostics resp) = true)) ->
  exists resp,
    (bind (fetchAll listPage fuel 1 100 []) k s).1 = Some resp /\
    (length (trace (bind (fetchAll listPage fuel 1 100 []) k s).2)
     <= length (trace s) + Nat.max 1 N)%nat /\
    (respState resp <> None /\ respDiagnostics resp = diags \/
     respState resp = None /\ HasError (respDiagnostics resp) = true).
Proof.
  intros Hcounted Hone Hfuel Hk. unfold bind.
  destruct (fetchAll listPage fuel 1 100 [] s) as [r' s1] eqn:Hrun.
  eapply fetchAll_bounded in Hrun as (r & -> & Hlen); [|done|done|simpl; lia].
  destruct (Hk r s1) as (resp & Hresp & Hcase). rewrite Hresp.
  exists resp. split; [done|]. split; [|done]. simpl in *. lia.
Qed.

(** X9.  The paged data sources stop.  When no answer of Docker Hub
    announces more than [N] entries, [Read] of the repository tags, the
    repositories and the organization members data sources returns after
    at most [max 1 N] requests, whatever else Docker Hub answers; it has
    then either stored a state without adding a diagnostic, or added an
    error and stored nothing. *)
Theorem paged_data_sources_stop (N fuel : nat) :
  (Nat.max 1 N <= fuel)%nat ->
  (forall Format req (s : dockerhub.HubSys H),
     HasError (gotDiags req) = false ->
     countsAtMost transport (dockerhub'.decodeTagPage pages) N ->
     let run := HubRepositoryTagsDataSource.Read transport NewRequestWithContext pages
                  Marshal Format
                  (Some client) fuel req s in
     exists resp,
       run.1 = Some resp /\
       (length (trace run.2) <= length (trace s) + Nat.max 1 N)%nat /\
       (respState resp <> None /\ respDiagnostics resp = gotDiags req \/
        respState resp = None /\ HasError (respDiagnostics resp) = true)) /\
  (forall req (s : dockerhub.HubSys H),
     HasError (gotDiags req) = false ->
     countsAtMost transport (dockerhub'.decodeRepositoryPage pages) N ->
     let run := HubRepositoriesDataSource.Read transport NewRequestWithContext
                  pages Marshal
                  (Some client) fuel req s in
     exists resp,
       run.1 = Some resp /\
       (length (trace run.2) <= length (trace s) + Nat.max 1 N)%nat /\
       (respState resp <> None /\ respDiagnostics resp = gotDiags req \/
        respState resp = None /\ HasError (respDiagnostics resp) = true)) /\
  (forall req (s : dockerhub.HubSys H),
     HasError (gotDiags req) = false ->
     countsAtMost transport (dockerhub'.decodeMemberPage pages) N ->
     let run := OrgMembersDataSource.Read transport NewRequestWithContext pages Marshal
                  (Some client) fuel req s in
     exists resp,
       run.1 = Some resp /\
       (length (trace run.2) <= length (trace s) + Nat.max 1 N)%nat /\
       (respState resp <> None /\ respDiagnostics resp = gotDiags req \/
        respState resp = None /\ HasError (respDiagnostics resp) = true)).
Proof.
  intros Hfuel. split; [|split].
  - intros Format req s Hd Hcounts run. subst run.
    unfold HubRepositoryTagsDataSource.Read. rewrite Hd.
    apply (list_outcome _ N); [|intros; apply exchange_one_request|done|].
    + intros page pageSize s0 items count. by apply exchange_counted.
    + intros [err|all] s1; eexists; (split; [reflexivity|]); simpl.
      * right. split; [done|apply HasError_AddError].
      * by left.
  - intros req s Hd Hcounts run. subst run.
    unfold HubRepositoriesDataSource.Read. rewrite Hd.
    apply (list_outcome _ N); [|intros; apply exchange_one_request|done|].
    + intros page pageSize s0 items count. by apply exchange_counted.
    + intros [err|all] s1; eexists; (split; [reflexivity|]); simpl.
      * right. split; [done|apply HasError_AddError].
      * by left.
  - intros req s Hd Hcounts run. subst run.
    unfold OrgMembersDataSource.Read. rewrite Hd.
    apply (list_outcome _ N); [|intros; apply exchange_one_request|done|].
    + intros page pageSize s0 items count. by apply exchange_counted.
    + intros [err|all] s1; eexists; (split; [reflexivity|]); simpl.
      * right. split; [done|apply HasError_AddError].
      * by left.
Qed.

End paged_data_sources.

Lemma echoHub_serves_tags :
  servesPages pageExamples.echoHub hubExamples.strictURL
    (dockerhub'.decodeTagPage pageExamples.pagesJSON) hubExamples.token
    (tagsURL "library" "busybox") 100 pageExamples.tags tt.
Proof.
  intros p Hp.
  assert (Hcases : p = 1%nat \/ p = 2%nat).
  { change (pagesNeeded (length pageExamples.tags) 100) with 2%nat in Hp. lia. }
  destruct Hcases as [-> | ->]; (split; [reflexivity|]); eexists;
    (split; [reflexivity|]); (split; [reflexivity|]); (split; [done|]);
    vm_compute; reflexivity.
Qed.

Lemma paged_data_sources_return_every_entry_witness :
  HasError (gotDiags pageExamples.busyboxTags) = false /\
  exists s',
    HubRepositoryTagsDataSource.Read pageExamples.echoHub hubExamples.strictURL
      pageExamples.pagesJSON hubExamples.noMarshal pageExamples.formatUnix (Some hubExamples.token)
      2 pageExamples.busyboxTags examples.hubStart
    = (Some (Build_ResourceResponse []
         (Some {| HubRepositoryTagsDataSource.ID := Some "library/busybox";
                  HubRepositoryTagsDataSource.Namespace := Some "library";
                  HubRepositoryTagsDataSource.Name := Some "busybox";
                  HubRepositoryTagsDataSource.Tags :=
                    HubRepositoryTagsDataSource.tagModel pageExamples.formatUnix
                      <$> pageExamples.tags |})), s') /\
    length (trace s') = 2%nat.
Proof.
  split; [reflexivity|].
  destruct (proj1 (paged_data_sources_return_every_entry pageExamples.echoHub
                     hubExamples.strictURL pageExamples.pagesJSON hubExamples.noMarshal
                     hubExamples.token)
              pageExamples.formatUnix pageExamples.busyboxTags examples.hubStart
              pageExamples.tags 2%nat eq_refl echoHub_serves_tags
              ltac:(vm_compute; lia))
    as (s' & Hrun & _ & Hlen).
  exists s'. split; [exact Hrun|exact Hlen].
Defined.

Lemma echoHub_counts :
  countsAtMost pageExamples.echoHub
    (dockerhub'.decodeTagPage pageExamples.pagesJSON) 150.
Proof.
  intros httpReq h resp items count _. simpl.
  repeat case_decide; intros [= <- <-]; lia.
Qed.

Lemma paged_data_sources_stop_witness :
  (Nat.max 1 150 <= 150)%nat /\
  exists resp,
    (HubRepositoryTagsDataSource.Read pageExamples.echoHub hubExamples.strictURL
       pageExamples.pagesJSON hubExamples.noMarshal pageExamples.formatUnix (Some hubExamples.token)
       150 pageExamples.busyboxTags examples.hubStart).1 = Some resp.
Proof.
  split; [vm_compute; lia|].
  destruct (proj1 (paged_data_sources_stop pageExamples.echoHub
                     hubExamples.strictURL pageExamples.pagesJSON hubExamples.noMarshal
                     hubExamples.token 150 150 ltac:(vm_compute; lia))
              pageExamples.formatUnix pageExamples.busyboxTags examples.hubStart
              eq_refl echoHub_counts)
    as (resp & Hrun & _).
  by exists resp.
Defined.

(** ** ComposeResource: Read, Update and the orphan containers *)

(** The request of [refreshStackInfo]: the running containers of the
    project. *)
Lemma refreshStackInfo_result {W} (serve : Daemon W) mapRangeServices data project
    (s : Sys W) d s' :
  refreshStackInfo serve mapRangeServices data project s = (d, s') ->
  let listing :=
    ContainerList {| All := false;
                     Filters := projectFilter (ValueString (ProjectName data)) ++
                                [("status", "running")] |} in
  trace s' = trace s ++ [listing] /\
  ID d = ID data /\ ProjectName d = ProjectName data /\
  ContentHash d = ContentHash data /\
  RunningServices d =
    match (serve listing (world s)).1 with
    | inr containers => Some (Z.of_nat (length containers))
    | inl _ => RunningServices data
    end /\
  Services d =
    match project with
    | Some p => Some (serviceNames mapRangeServices p)
    | None => Services data
    end.
Proof.
  unfold refreshStackInfo, bind, call. intros Hrun. simpl.
  destruct (serve _ (world s)) as [[err|containers] w']; simpl in *;
    destruct project; injection Hrun as <- <-; done.
Qed.

Section compose_facts.

Context {W : Type}.
Variable serve : Daemon W.
Variable ReadFile : string -> Result string.
Variable loadProject : string -> string -> Result Project.
Variable Sum256 : string -> string.
Variable mapRange : string -> list string -> list string.
Variable mapRangeServices : list string -> list string.
Variable mapRangeNetworks : list string -> list string.
Variable mapRangeVolumes : list string -> list string.

(** X10.  [Read] of a compose stack never fails and never removes the
    stack from the state.  It sends one request, the list of the running
    containers of the project, and stores a state: the content hash
    recomputed, the number of running containers when the list was
    answered and the old number when it was not, and the sorted service
    names when the compose file can still be parsed, the old ones when it
    cannot. *)
Theorem Read_compose_always_stores_a_state
    (req : ResourceRequest ComposeResourceModel) (s : Sys W) :
  HasError (gotDiags (reqGet req)) = false ->
  let data := gotData (reqGet req) in
  let listing :=
    ContainerList {| All := false;
                     Filters := projectFilter (ValueString (ProjectName data)) ++
                                [("status", "running")] |} in
  let run := Read serve ReadFile loadProject Sum256 mapRangeServices req s in
  respDiagnostics run.1 = gotDiags (reqGet req) /\
  trace run.2 = trace s ++ [listing] /\
  exists data',
    respState run.1 = Some data' /\
    ID data' = ID data /\
    ContentHash data' = Some (calculateContentHash ReadFile Sum256 data) /\
    RunningServices data' =
      match (serve listing (world s)).1 with
      | inr containers => Some (Z.of_nat (length containers))
      | inl _ => RunningServices data
      end /\
    Services data' =
      match parseComposeFile ReadFile loadProject data with
      | inr project => Some (serviceNames mapRangeServices project)
      | inl _ => Services data
      end.
Proof.
  intros Hd data listing run. subst run. unfold Read. rewrite Hd.
  unfold bind.
  destruct (refreshStackInfo _ _ _ _ s) as [d s1] eqn:Hrefresh.
  apply refreshStackInfo_result in Hrefresh
    as (Htrace & Hid & Hname & Hhash & Hrunning & Hservices).
  simpl in *. split; [done|]. split; [done|].
  exists d. split; [done|]. split; [done|]. split; [done|]. split; [done|].
  rewrite Hservices. by destruct (parseComposeFile _ _ _).
Qed.

(** The requests of [removeOrphanContainers]. *)
Lemma removeOrphanContainers_trace projectName project (s : Sys W) :
  let listing :=
    ContainerList {| All := true; Filters := projectFilter projectName |} in
  trace (removeOrphanContainers serve projectName project s).2 =
  trace s ++ listing ::
    match (serve listing (world s)).1 with
    | inl _ => []
    | inr containers =>
        flat_map (fun c => [ContainerStop (cID c) (Some 10%Z);
                            ContainerRemove (cID c) true])
                 (filter (fun c => isOrphan project c = true) containers)
    end.
Proof.
  intros listing. unfold removeOrphanContainers, bind at 1, call at 1.
  fold listing.
  destruct (serve listing (world s)) as [[err|containers] w']; simpl.
  { done. }
  set (s1 := {| world := w'; trace := trace s ++ [listing] |}).
  change (trace s ++ listing :: ?l) with (trace s ++ [listing] ++ l).
  rewrite app_assoc. change (trace s ++ [listing]) with (trace s1).
  generalize s1. clear s1.
  induction containers as [|c containers IH]; intros s1; simpl.
  { by rewrite app_nil_r. }
  unfold bind at 1.
  rewrite filter_cons.
  destruct (decide (isOrphan project c = true)) as [Ho|Ho];
    unfold isOrphan in Ho.
  - apply bool_decide_eq_true in Ho. rewrite Ho. unfold bind, call.
    destruct (serve (ContainerStop (cID c) (Some 10%Z)) (world s1)) as [a1 w1].
    simpl.
    destruct (serve (ContainerRemove (cID c) true) w1) as [a2 w2]. simpl.
    rewrite IH. simpl. by rewrite <- !app_assoc.
  - destruct (pServices project !! _) eqn:Hsvc.
    + apply IH.
    + exfalso. apply Ho. by apply bool_decide_eq_true.
Qed.

(** X11.  [removeOrphanContainers] lists all containers that carry the
    project label and stops and removes, in the order of the list, exactly
    those whose service label names no service of the project; a
    container without a service label counts as one of the service with
    the empty name.  Containers of the project's services are left
    alone, and so is everything when the list fails. *)
Theorem removeOrphanContainers_removes_exactly_the_orphans
    projectName project (s : Sys W) :
  let listing :=
    ContainerList {| All := true; Filters := projectFilter projectName |} in
  let listed := match (serve listing (world s)).1 with
                | inl _ => []
                | inr containers => containers
                end in
  exists rs,
    trace (removeOrphanContainers serve projectName project s).2
      = trace s ++ listing :: rs /\
    rs = flat_map (fun c => [ContainerStop (cID c) (Some 10%Z);
                             ContainerRemove (cID c) true])
                  (filter (fun c => isOrphan project c = true) listed) /\
    (forall r, r ∈ rs ->
       exists c, c ∈ listed /\
         pServices project
           !! default "" (cLabels c !! "com.docker.compose.service") = None /\
         (r = ContainerStop (cID c) (Some 10%Z) \/
          r = ContainerRemove (cID c) true)) /\
    (forall c, c ∈ listed ->
       is_Some (pServices project
                  !! default "" (cLabels c !! "com.docker.compose.service")) ->
       (forall d, d ∈ listed -> isOrphan project d = true -> cID d <> cID c) ->
       forall r, r ∈ rs -> r <> ContainerStop (cID c) (Some 10%Z) /\
                           r <> ContainerRemove (cID c) true).
Proof.
  intros listing listed.
  pose proof (removeOrphanContainers_trace projectName project s) as Htrace.
  cbv zeta in Htrace. fold listing in Htrace.
  eexists. split; [exact Htrace|].
  assert (Hrs : match (serve listing (world s)).1 with
                | inl _ => []
                | inr containers =>
                    flat_map (fun c => [ContainerStop (cID c) (Some 10%Z);
                                        ContainerRemove (cID c) true])
                      (filter (fun c => isOrphan project c = true) containers)
                end
                = flat_map (fun c => [ContainerStop (cID c) (Some 10%Z);
                                      ContainerRemove (cID c) true])
                    (filter (fun c => isOrphan project c = true) listed)).
  { subst listed. by destruct (serve listing (world s)).1. }
  rewrite Hrs. split; [done|].
  assert (Hin : forall r,
    r ∈ flat_map (fun c => [ContainerStop (cID c) (Some 10%Z);
                            ContainerRemove (cID c) true])
          (filter (fun c => isOrphan project c = true) listed) ->
    exists c, c ∈ listed /\ isOrphan project c = true /\
      (r = ContainerStop (cID c) (Some 10%Z) \/ r = ContainerRemove (cID c) true)).
  { intros r Hr. apply list_elem_of_In, in_flat_map in Hr as (c & Hc & Hr).
    apply list_elem_of_In, list_elem_of_filter in Hc as [Ho Hc].
    exists c. split; [done|]. split; [done|].
    simpl in Hr. destruct Hr as [<-|[<-|[]]]; auto. }
  split.
  - intros r Hr. apply Hin in Hr as (c & Hc & Ho & Hr).
    exists c. split; [done|]. split; [|done].
    unfold isOrphan in Ho. by apply bool_decide_eq_true in Ho.
  - intros c Hc Hsvc Hids r Hr.
    apply Hin in Hr as (d & Hd & Ho & Hr).
    specialize (Hids d Hd Ho).
    destruct Hr as [-> | ->]; split; congruence.
Qed.

Lemma flat_map_cleanup (containers : list ContainerSummary) :
  forallb isCleanup
    (flat_map (fun c => [ContainerStop (cID c) (Some 10%Z);
                         ContainerRemove (cID c) true]) containers) = true.
Proof. induction containers as [|c l IH]; simpl; done. Qed.

Lemma Update_in_place_run
    (req : ResourceRequest ComposeResourceModel) (s : Sys W) project resp s' :
  let data := gotData (reqGet req) in
  HasError (gotDiags (reqGet req)) = false ->
  parseComposeFile ReadFile loadProject data = inr project ->
  ValueBool (ForceRecreate data) = false ->
  Update serve ReadFile loadProject Sum256 mapRange mapRangeServices
    mapRangeNetworks mapRangeVolumes req s = (resp, s') ->
  respDiagnostics resp = gotDiags (reqGet req) /\
  (exists data',
     respState resp = Some data' /\ ID data' = ID data /\
     ContentHash data' = Some (calculateContentHash ReadFile Sum256 data) /\
     Services data' = Some (serviceNames mapRangeServices project)) /\
  exists provisioning cleanup,
    trace s' = trace s ++ provisioning ++ cleanup ++
               [listRunning (ValueString (ProjectName data))] /\
    forallb isProvisioning provisioning = true /\
    forallb isCleanup cleanup = true /\
    (ValueBool (RemoveOrphans data) = false -> cleanup = []).
Proof.
  intros data Hd Hparse Hforce Hrun.
  unfold Update in Hrun. rewrite Hd in Hrun. fold data in Hrun.
  rewrite Hparse in Hrun.
  simpl (ForceRecreate _) in Hrun. simpl (RemoveOrphans _) in Hrun.
  fold data in Hrun. rewrite Hforce in Hrun.
  unfold bind at 1 in Hrun.
  destruct (forEach _ (mapRangeNetworks _) s) as [u1 s1] eqn:Hnets.
  eapply (forEach_trace _ (fun _ rs => forallb isProvisioning rs = true))
    in Hnets as (b1 & Ht1 & Hb1).
  2:{ intros name s0 e s0' Hr.
      destruct (pNetworks project !! name) as [cfg|].
      - unfold bind in Hr.
        destruct (createNetwork serve _ name cfg s0) as [e0 s2] eqn:Hc.
        injection Hr as <- <-. by eapply createNetwork_trace.
      - injection Hr as <- <-. exists []. by rewrite app_nil_r. }
  apply provisioning_blocks in Hb1.
  unfold bind at 1 in Hrun.
  destruct (forEach _ (mapRangeVolumes _) s1) as [u2 s2] eqn:Hvols.
  eapply (forEach_trace _ (fun _ rs => forallb isProvisioning rs = true))
    in Hvols as (b2 & Ht2 & Hb2).
  2:{ intros name s0 e s0' Hr.
      destruct (pVolumes project !! name) as [cfg|].
      - unfold bind in Hr.
        destruct (createVolume serve _ name cfg s0) as [e0 s3] eqn:Hc.
        injection Hr as <- <-. by eapply createVolume_trace.
      - injection Hr as <- <-. exists []. by rewrite app_nil_r. }
  apply provisioning_blocks in Hb2.
  unfold bind at 1 in Hrun. unfold ret at 1 in Hrun. cbv iota beta in Hrun.
  unfold bind at 1 in Hrun.
  set (projectName := ValueString (ProjectName data)) in *.
  assert (Hclean : exists cleanup,
    forall u3 s3,
      (if ValueBool (RemoveOrphans data)
       then removeOrphanContainers serve projectName project
       else ret tt) s2 = (u3, s3) ->
      trace s3 = trace s2 ++ cleanup /\
      forallb isCleanup cleanup = true /\
      (ValueBool (RemoveOrphans data) = false -> cleanup = [])).
  { destruct (ValueBool (RemoveOrphans data)).
    - pose proof (removeOrphanContainers_trace projectName project s2) as Ht.
      cbv zeta in Ht. eexists. intros u3 s3 Hr. rewrite Hr in Ht.
      split; [exact Ht|]. split; [|done].
      simpl.
      match goal with
      | |- context [match ?x with inl _ => _ | inr _ => _ end] => destruct x
      end; [done|apply flat_map_cleanup].
    - exists []. intros u3 s3 [= <- <-]. by rewrite app_nil_r. }
  destruct Hclean as (cleanup & Hclean).
  destruct ((if ValueBool (RemoveOrphans data)
             then removeOrphanContainers serve projectName project
             else ret tt) s2) as [u3 s3] eqn:Horph.
  destruct (Hclean u3 s3 eq_refl) as (Ht3 & Hc3 & Hnone).
  unfold bind in Hrun.
  destruct (refreshStackInfo _ _ _ _ s3) as [d s4] eqn:Hrefresh.
  apply refreshStackInfo_result in Hrefresh
    as (Ht4 & Hid & Hname & Hhash & Hrunning & Hservices).
  injection Hrun as <- <-.
  simpl in *. split; [done|]. split.
  { exists d. by repeat split. }
  exists (concat b1 ++ concat b2), cleanup. split; [|split; [|done]].
  - rewrite Ht4, Ht3, Ht2, Ht1. unfold listRunning. by rewrite <- !app_assoc.
  - by rewrite forallb_app, Hb1, Hb2.
Qed.

(** X12.  [Update] without [force_recreate] changes the stack in place
    and cannot fail once the compose file is parsed: whatever the daemon
    answers (a network or volume that cannot be created is only logged),
    it adds no diagnostic and stores the state with the new content
    hash.  It sends the inspect and create requests of the networks and
    volumes, then, only with [remove_orphans], the list, stop and remove
    requests of the orphan containers, then the list of the running
    containers; it creates and starts no container. *)
Theorem Update_in_place_cannot_fail
    (req : ResourceRequest ComposeResourceModel) (s : Sys W) project :
  let data := gotData (reqGet req) in
  HasError (gotDiags (reqGet req)) = false ->
  parseComposeFile ReadFile loadProject data = inr project ->
  ValueBool (ForceRecreate data) = false ->
  let run := Update serve ReadFile loadProject Sum256 mapRange mapRangeServices
               mapRangeNetworks mapRangeVolumes req s in
  respDiagnostics run.1 = gotDiags (reqGet req) /\
  (exists data',
     respState run.1 = Some data' /\ ID data' = ID data /\
     ContentHash data' = Some (calculateContentHash ReadFile Sum256 data) /\
     Services data' = Some (serviceNames mapRangeServices project)) /\
  exists provisioning cleanup,
    trace run.2 = trace s ++ provisioning ++ cleanup ++
                  [listRunning (ValueString (ProjectName data))] /\
    forallb isProvisioning provisioning = true /\
    forallb isCleanup cleanup = true /\
    (ValueBool (RemoveOrphans data) = false -> cleanup = []).
Proof.
  intros data Hd Hparse Hforce run.
  destruct run as [resp s'] eqn:Hrun. subst run.
  by eapply Update_in_place_run.
Qed.

Lemma provisioning_no_removal rs :
  forallb isProvisioning rs = true -> Forall (fun r => isRemoval r = false) rs.
Proof.
  intros Hp. apply Forall_forall. intros r Hr.
  rewrite forallb_forall in Hp. apply list_elem_of_In in Hr.
  specialize (Hp r Hr). by destruct r.
Qed.

Lemma createService_no_removal projectName serviceName service project
    (s : Sys W) e s' :
  createService serve projectName serviceName service project s = (e, s') ->
  exists rs, trace s' = trace s ++ rs /\ Forall (fun r => isRemoval r = false) rs.
Proof.
  unfold createService. intros Hrun. next_call Hrun. destruct a as [err|c].
  - next_call Hrun. destruct a as [err'|id].
    + injection Hrun as <- <-. eexists [_; _]. split.
      * rewrite Hcall0, Hcall. by rewrite <- app_assoc.
      * by repeat constructor.
    + next_call Hrun. eexists [_; _; _]. split.
      * destruct a; injection Hrun as <- <-; rewrite Hcall1, Hcall0, Hcall;
          by rewrite <- !app_assoc.
      * by repeat constructor.
  - destruct (call serve _ s0) as [a s1] eqn:Hcall0.
    apply call_trace in Hcall0. injection Hrun as <- <-.
    eexists [_; _]. split.
    + rewrite Hcall0, Hcall. by rewrite <- app_assoc.
    + by repeat constructor.
Qed.

Lemma Forall_concat_blocks {A} (P : Request -> Prop) (xs : list A)
    (blocks : list (list Request)) :
  Forall2 (fun _ rs => Forall P rs) xs blocks -> Forall P (concat blocks).
Proof.
  induction 1 as [|x rs xs blocks Hrs _ IH]; simpl; [done|].
  by apply Forall_app.
Qed.

Lemma Create_run (req : ResourceRequest ComposeResourceModel) (s : Sys W) resp s' :
  Create serve ReadFile loadProject Sum256 mapRange mapRangeServices
    mapRangeNetworks mapRangeVolumes req s = (resp, s') ->
  let data := gotData (reqGet req) in
  let diags := gotDiags (reqGet req) in
  (exists rs, trace s' = trace s ++ rs /\
              Forall (fun r => isRemoval r = false) rs) /\
  (HasError diags = false ->
   (respState resp = reqPriorState req /\
    exists summary detail, respDiagnostics resp = AddError diags summary detail) \/
   (respDiagnostics resp = diags /\
    exists data',
      respState resp = Some data' /\
      ID data' = Some (ValueString (ProjectName data)) /\
      ContentHash data' = Some (calculateContentHash ReadFile Sum256 data))).
Proof.
  intros Hrun data diags. unfold Create in Hrun. fold data diags in Hrun.
  assert (Hnil : exists rs, trace s = trace s ++ rs /\
                            Forall (fun r => isRemoval r = false) rs).
  { exists []. by rewrite app_nil_r. }
  destruct (HasError diags) eqn:Hd.
  { injection Hrun as <- <-. split; [done|]. done. }
  destruct (IsNull (ComposeFile data) && IsNull (ComposeContent data)).
  { injection Hrun as <- <-. split; [done|]. intros _. left. split; [done|].
    by eexists _, _. }
  destruct (parseComposeFile ReadFile loadProject data) as [err|project].
  { injection Hrun as <- <-. split; [done|]. intros _. left. split; [done|].
    by eexists _, _. }
  unfold bind at 1 in Hrun.
  destruct (createNetworks _ _ _ _ s) as [n s1] eqn:Hnets.
  apply createNetworks_trace in Hnets as (r1 & Ht1 & Hp1).
  apply provisioning_no_removal in Hp1.
  destruct n as [[name err]|].
  { injection Hrun as <- <-. split; [by exists r1|].
    intros _. left. split; [done|]. by eexists _, _. }
  unfold bind at 1 in Hrun.
  destruct (createVolumes _ _ _ _ s1) as [v s2] eqn:Hvols.
  apply createVolumes_trace in Hvols as (r2 & Ht2 & Hp2).
  apply provisioning_no_removal in Hp2.
  assert (H12 : exists rs, trace s2 = trace s ++ rs /\
                           Forall (fun r => isRemoval r = false) rs).
  { exists (r1 ++ r2). split; [by rewrite Ht2, Ht1, app_assoc|].
    by apply Forall_app. }
  destruct v as [[name err]|].
  { injection Hrun as <- <-. split; [done|].
    intros _. left. split; [done|]. by eexists _, _. }
  unfold bind at 1 in Hrun.
  destruct (createServices _ _ _ _ _ s2) as [sv s3] eqn:Hsvcs.
  unfold createServices in Hsvcs.
  eapply (forEachUntilError_trace _
            (fun _ rs => Forall (fun r => isRemoval r = false) rs)
            (fun _ rs => Forall (fun r => isRemoval r = false) rs))
    in Hsvcs as (k & blocks & Ht3 & Hb3 & _).
  2:{ intros x s0 e s0' Hr. apply createService_no_removal in Hr as (rs & ? & ?).
      by exists rs. }
  apply Forall_concat_blocks in Hb3.
  destruct H12 as (r12 & Ht12 & Hf12).
  assert (H123 : exists rs, trace s3 = trace s ++ rs /\
                            Forall (fun r => isRemoval r = false) rs).
  { exists (r12 ++ concat blocks). split; [by rewrite Ht3, Ht12, app_assoc|].
    by apply Forall_app. }
  destruct sv as [[name err]|].
  { injection Hrun as <- <-. split; [done|].
    intros _. left. split; [done|]. by eexists _, _. }
  unfold bind in Hrun.
  destruct (refreshStackInfo _ _ _ _ s3) as [d s4] eqn:Hrefresh.
  apply refreshStackInfo_result in Hrefresh
    as (Ht4 & Hid & Hname & Hhash & Hrunning & Hservices).
  injection Hrun as <- <-. destruct H123 as (r123 & Ht123 & Hf123). split.
  - exists (r123 ++ [listRunning (ValueString (ProjectName data))]). split.
    + rewrite Ht4, Ht123. unfold listRunning. simpl. by rewrite <- app_assoc.
    + apply Forall_app. split; [done|]. by repeat constructor.
  - intros _. right. split; [done|]. exists d. by repeat split.
Qed.

(** X13.  [Create] of a compose stack does not roll back and stores a
    state only on success.  Whatever happens, none of its requests stops
    or removes a container, a network or a volume: what was created
    before a failure stays.  When the plan decodes, it either adds one
    error and leaves the state as it was, or adds nothing and stores a
    state whose [id] is the project name, with the content hash. *)
Theorem Create_does_not_roll_back
    (req : ResourceRequest ComposeResourceModel) (s : Sys W) :
  let data := gotData (reqGet req) in
  let diags := gotDiags (reqGet req) in
  let run := Create serve ReadFile loadProject Sum256 mapRange mapRangeServices
               mapRangeNetworks mapRangeVolumes req s in
  (exists rs, trace run.2 = trace s ++ rs /\
              Forall (fun r => isRemoval r = false) rs) /\
  (HasError diags = false ->
   (respState run.1 = reqPriorState req /\
    exists summary detail,
      respDiagnostics run.1 = AddError diags summary detail) \/
   (respDiagnostics run.1 = diags /\
    exists data',
      respState run.1 = Some data' /\
      ID data' = Some (ValueString (ProjectName data)) /\
      ContentHash data' = Some (calculateContentHash ReadFile Sum256 data))).
Proof.
  intros data diags run. destruct run as [resp s'] eqn:Hrun. subst run.
  by apply Create_run in Hrun.
Qed.

End compose_facts.

Lemma Read_compose_always_stores_a_state_witness :
  HasError (gotDiags (reqGet examples.shopState)) = false /\
  respDiagnostics
    (Read engine.serve examples.noFile examples.loadShop examples.plainDigest
       rangeServicesInOrder examples.shopState
       (engine.start examples.mixedEngine)).1 = [].
Proof.
  split; [reflexivity|].
  exact (proj1 (Read_compose_always_stores_a_state engine.serve examples.noFile
                  examples.loadShop examples.plainDigest rangeServicesInOrder
                  examples.shopState (engine.start examples.mixedEngine) eq_refl)).
Defined.


Lemma Update_in_place_cannot_fail_witness :
  HasError (gotDiags (reqGet examples.shopState)) = false /\
  ValueBool (ForceRecreate (gotData (reqGet examples.shopState))) = false /\
  respDiagnostics
    (Update engine.serve examples.noFile examples.loadShop examples.plainDigest
       rangeInOrder rangeServicesInOrder rangeServicesInOrder rangeServicesInOrder
       examples.shopState (engine.start examples.mixedEngine)).1 = [].
Proof.
  split; [reflexivity|]. split; [reflexivity|].
  exact (proj1 (Update_in_place_cannot_fail engine.serve examples.noFile
                  examples.loadShop examples.plainDigest rangeInOrder
                  rangeServicesInOrder rangeServicesInOrder rangeServicesInOrder
                  examples.shopState (engine.start examples.mixedEngine)
                  app_db_cache eq_refl eq_refl eq_refl)).
Defined.

(** ** getServiceOrder and names that only occur in depends_on *)

Section dangling_facts.

Variable mapRange : string -> list string -> list string.
Variable mapRangeServices : list string -> list string.
Variable project : Project.

Hypothesis mapRange_perm : forall name keys, mapRange name keys ≡ₚ keys.
Hypothesis mapRangeServices_perm : forall keys, mapRangeServices keys ≡ₚ keys.

Lemma visit_closed fuel : forall n st st',
  Inv st -> closed project st -> visit mapRange project fuel n st = Some st' ->
  closed project st'.
Proof.
  induction fuel as [|fuel IH]; intros n st st' HI HC Hv; [done|].
  simpl in Hv. destruct (decide (n ∈ visited st)) as [Hin|Hnin].
  { by inversion Hv; subst. }
  set (st1 := {| visited := {[n]} ∪ visited st; order := order st |}) in *.
  destruct (foldl _ _ _) as [st2|] eqn:Hf; [|done]. inversion Hv; subst; clear Hv.
  assert (HI1 : Inv st1).
  { destruct HI as [Hsub Hnd]. split; [|done]. intros x Hx. simpl. set_solver. }
  assert (HC1 : closed project st1).
  { intros x d Hx Hd. simpl. apply elem_of_union. right. by eapply HC. }
  destruct (visitLoop_ind (visit mapRange project fuel)
              (fun s => Inv s /\ closed project s) (fun d s => d ∈ visited s)
              (mapRange n (dependsOn project n))) with (s := st1) (s' := st2)
    as ((HI2 & HC2) & Hdeps & _); [|done|done|].
  { intros d s s' _ [Hs Hc] Hd.
    destruct (visit_spec mapRange mapRangeServices project mapRange_perm
                mapRangeServices_perm fuel d s s' Hs Hd)
      as (Hs' & (Hsub & _ & _) & Hdv).
    split; [split; [done|exact (IH d s s' Hs Hc Hd)]|]. split; [done|].
    intros e He. by apply Hsub. }
  intros x d Hx Hd. simpl in *.
  apply elem_of_app in Hx as [Hx| ->%list_elem_of_singleton].
  - by eapply HC2.
  - apply Hdeps. by apply (elem_of_range mapRange project mapRange_perm).
Qed.

(** The order lists exactly the names [visit] can be called with. *)
Lemma getServiceOrder_universe n :
  n ∈ getServiceOrder mapRange mapRangeServices project <-> n ∈ universe project.
Proof.
  split.
  { apply (getServiceOrder_spec mapRange mapRangeServices project
             mapRange_perm mapRangeServices_perm). }
  destruct (getServiceOrder_run mapRange mapRangeServices project
              mapRange_perm mapRangeServices_perm) as (st & Hst & Ho).
  rewrite Ho.
  assert (HI0 : Inv initialState) by (split; simpl; [set_solver|constructor]).
  destruct (visitLoop_ind (visit mapRange project (S (size (universe project))))
              (fun s => Inv s /\ extends initialState s /\ closed project s)
              (fun d s => d ∈ visited s)
              (serviceNames mapRangeServices project))
    with (s := initialState) (s' := st)
    as ((HI & (_ & _ & HG) & HC) & Hall & _); [| |done|].
  { intros d s s' _ (Hs & He & Hc) Hvd.
    destruct (visit_spec mapRange mapRangeServices project mapRange_perm
                mapRangeServices_perm _ d s s' Hs Hvd) as (Hs' & He' & Hdv).
    split; [split; [done|split]|].
    - by eapply (extends_trans mapRange mapRangeServices mapRange_perm
                   mapRangeServices_perm).
    - exact (visit_closed _ d s s' Hs Hc Hvd).
    - split; [done|]. intros e He0. destruct He' as (Hsub & _ & _).
      by apply Hsub. }
  { split; [done|]. split; [apply extends_refl|]. intros x d Hx. simpl in Hx.
    by apply elem_of_nil in Hx. }
  assert (Hdone : forall x, x ∈ visited st -> x ∈ order st).
  { intros x Hx. destruct (decide (x ∈ order st)) as [|Hno]; [done|exfalso].
    assert (Hg : grey st x) by done. apply HG in Hg as [Hg _].
    simpl in Hg. set_solver. }
  unfold universe. rewrite elem_of_union, elem_of_union_list.
  intros [Hn|(X & HX & Hn)].
  - apply Hdone, Hall.
    by apply (elem_of_serviceNames mapRangeServices project mapRangeServices_perm).
  - apply list_elem_of_fmap in HX as ([name svc] & -> & Hsvc).
    apply elem_of_map_to_list in Hsvc. simpl in Hn.
    apply Hdone. apply (HC name n).
    + apply Hdone, Hall.
      apply (elem_of_serviceNames mapRangeServices project mapRangeServices_perm).
      by apply elem_of_dom.
    + unfold edge, serviceOf. by rewrite Hsvc.
Qed.

End dangling_facts.

Lemma Forall2_elem_of_l {A B} (P : A -> B -> Prop) (xs : list A) (ys : list B) x :
  Forall2 P xs ys -> x ∈ xs ->
  exists ys1 y ys2, ys = ys1 ++ y :: ys2 /\ P x y.
Proof.
  induction 1 as [|a b xs ys Hab _ IH]; intros Hx.
  { by apply elem_of_nil in Hx. }
  apply elem_of_cons in Hx as [->|Hx].
  - by exists [], b, ys.
  - destruct (IH Hx) as (ys1 & y & ys2 & -> & Hy). by exists (b :: ys1), y, ys2.
Qed.

Section dangling_Create.

Context {W : Type}.
Variable serve : Daemon W.
Variable ReadFile : string -> Result string.
Variable loadProject : string -> string -> Result Project.
Variable Sum256 : string -> string.
Variable mapRange : string -> list string -> list string.
Variable mapRangeServices : list string -> list string.
Variable mapRangeNetworks : list string -> list string.
Variable mapRangeVolumes : list string -> list string.

Hypothesis mapRange_perm : forall name keys, mapRange name keys ≡ₚ keys.
Hypothesis mapRangeServices_perm : forall keys, mapRangeServices keys ≡ₚ keys.

(** X14.  A name that only occurs in a [depends_on] is treated as a
    service.  [getServiceOrder] lists exactly the services and the names
    services depend on.  For a name [d] that a service depends on and
    that the project does not define, the service looked up is the zero
    value, and a [Create] that succeeds has inspected the container
    [<project>-<d>-1] and started it, creating it first, with an empty
    image, when it did not exist. *)
Theorem Create_treats_an_undefined_dependency_as_a_service
    (req : ResourceRequest ComposeResourceModel) (s : Sys W) project n d :
  let data := gotData (reqGet req) in
  let projectName := ValueString (ProjectName data) in
  let name := containerName projectName d in
  parseComposeFile ReadFile loadProject data = inr project ->
  n ∈ dom (pServices project) ->
  edge project n d ->
  d ∉ dom (pServices project) ->
  let run := Create serve ReadFile loadProject Sum256 mapRange mapRangeServices
               mapRangeNetworks mapRangeVolumes req s in
  (forall x, x ∈ getServiceOrder mapRange mapRangeServices project <->
             x ∈ universe project) /\
  d ∈ getServiceOrder mapRange mapRangeServices project /\
  serviceOf project d = zeroServiceConfig /\
  (HasError (respDiagnostics run.1) = false ->
   exists before rs after,
     trace run.2 = before ++ rs ++ after /\
     (rs = [ContainerInspect name; ContainerStart name] \/
      exists spec id,
        rs = [ContainerInspect name; ContainerCreate name spec; ContainerStart id] /\
        sImage spec = "" /\
        sLabels spec = {[ projectLabel := projectName;
                          "com.docker.compose.service" := d ]})).
Proof.
  intros data projectName name Hparse Hn Hedge Hd run.
  assert (Horder : d ∈ getServiceOrder mapRange mapRangeServices project).
  { apply getServiceOrder_universe; [done|done|]. by eapply universe_edge. }
  assert (Hzero : serviceOf project d = zeroServiceConfig).
  { unfold serviceOf. apply not_elem_of_dom in Hd. by rewrite Hd. }
  split; [by apply getServiceOrder_universe|]. split; [done|]. split; [done|].
  intros Hok. destruct run as [resp s'] eqn:Hrun. subst run. simpl in *.
  destruct (Create_trace serve ReadFile loadProject Sum256 mapRange
              mapRangeServices mapRangeNetworks mapRangeVolumes
              req project s resp s' Hparse Hrun)
    as (pre & k & blocks & post & Htrace & _ & _ & _ & Hsucc).
  destruct (Hsucc Hok) as (Hcalls & _ & _).
  destruct (Forall2_elem_of_l _ _ _ d Hcalls Horder)
    as (b1 & rs & b2 & -> & Hrs).
  exists (trace s ++ pre ++ concat b1), rs, (concat b2 ++ post). split.
  - rewrite Htrace, concat_app. simpl. by rewrite <- !app_assoc.
  - destruct Hrs as [->|(id & ->)]; [by left|right].
    eexists _, id. split; [reflexivity|]. rewrite Hzero. done.
Qed.

End dangling_Create.

Lemma Create_treats_an_undefined_dependency_as_a_service_witness :
  "b" ∈ dom (pServices examples.dangling) /\
  edge examples.dangling "b" "ghost" /\
  ("ghost" ∉ dom (pServices examples.dangling)) /\
  "ghost" ∈ getServiceOrder rangeInOrder rangeServicesInOrder examples.dangling /\
  serviceOf examples.dangling "ghost" = zeroServiceConfig.
Proof.
  assert (Hn : "b" ∈ dom (pServices examples.dangling)) by (by vm_compute).
  assert (He : edge examples.dangling "b" "ghost").
  { unfold edge. vm_compute. set_solver. }
  assert (Hd : "ghost" ∉ dom (pServices examples.dangling)) by (by vm_compute).
  split; [exact Hn|]. split; [exact He|]. split; [exact Hd|].
  destruct (Create_treats_an_undefined_dependency_as_a_service
              engine.serve examples.noFile orderExamples.loadDangling
              examples.plainDigest rangeInOrder rangeServicesInOrder
              rangeServicesInOrder rangeServicesInOrder
              rangeInOrder_perm rangeServicesInOrder_perm
              orderExamples.danglingRequest (engine.start examples.emptyEngine)
              examples.dangling "b" "ghost" eq_refl Hn He Hd)
    as (_ & Ho & Hz & _).
  split; [exact Ho|exact Hz].
Defined.

(** ** OrgTeamMemberResource.Read *)

Section team_member_facts.

Context {H : Type}.
Variable transport : dockerhub.Transport H.
Variable NewRequestWithContext : string -> string -> option Error.
Variable json : dockerhub.JSON.
Variable PathEscape : string -> string.

Lemma existsb_member (user : string) (ms : list dockerhub.Member) :
  existsb (fun m => bool_decide (dockerhub.mUsername m = user)) ms = true <->
  user ∈ dockerhub.mUsername <$> ms.
Proof.
  rewrite existsb_exists, list_elem_of_fmap. split.
  - intros (m & Hin & Hm). apply bool_decide_eq_true in Hm.
    exists m. split; [done|]. by apply list_elem_of_In.
  - intros (m & -> & Hin). exists m. split; [by apply list_elem_of_In|].
    by apply bool_decide_eq_true.
Qed.

(** X15.  [OrgTeamMemberResource.Read] sends one request, for the first
    hundred members of the team, and looks for the user among them only:
    when that request can be built and Docker Hub answers it with the
    first page of the team's members, the resource stays in the state if
    the user is among the first hundred and is removed from the state,
    without a diagnostic, otherwise, whoever the later members are. *)
Theorem Read_team_member_looks_at_the_first_page_only
    (req : ResourceRequest OrgTeamMemberResource.Model)
    (s : dockerhub.HubSys H) (client : dockerhub.Client)
    (members : list dockerhub.Member) (resp : dockerhub.HTTPResponse) (h' : H) :
  let data := gotData (reqGet req) in
  let user := ValueString (OrgTeamMemberResource.Username data) in
  let firstPage :=
    getRequest client
      (teamMembersURL PathEscape
         (ValueString (OrgTeamMemberResource.OrgName data))
         (ValueString (OrgTeamMemberResource.TeamName data)) 1) in
  HasError (gotDiags (reqGet req)) = false ->
  NewRequestWithContext "GET" (dockerhub.URL firstPage) = None ->
  transport firstPage (world s) = (inr resp, h') ->
  (dockerhub.StatusCode resp < 400)%Z ->
  dockerhub.StatusCode resp <> 204%Z ->
  dockerhub.decodeMembers json (dockerhub.RespBody resp)
    = inr (pageOf 100 members 1) ->
  let run := OrgTeamMemberResource.Read transport NewRequestWithContext json
               PathEscape (Some client) req s in
  run.2 = {| world := h'; trace := trace s ++ [firstPage] |} /\
  respDiagnostics run.1 = gotDiags (reqGet req) /\
  (user ∈ dockerhub.mUsername <$> take 100 members ->
   respState run.1 = Some data) /\
  (user ∉ dockerhub.mUsername <$> take 100 members ->
   respState run.1 = None).
Proof.
  intros data user firstPage Hdiags Hbuilt Hsend Hstatus H204 Hdecode run.
  subst run.
  unfold OrgTeamMemberResource.Read. fold data. rewrite Hdiags.
  unfold dockerhub.IsTeamMember, dockerhub.ListTeamMembers, dockerhub.get,
    dockerhub.doRequest, bind, dockerhub.Do.
  change (NewRequestWithContext "GET" _)
    with (NewRequestWithContext "GET" (dockerhub.URL firstPage)).
  rewrite Hbuilt.
  change (dockerhub.Build_HTTPRequest "GET" _ None _ None) with firstPage.
  rewrite Hsend. cbn [fst snd ret].
  destruct (decide (400 <= dockerhub.StatusCode resp)%Z) as [|_]; [lia|].
  destruct (decide (dockerhub.StatusCode resp <> 204%Z)) as [_|]; [|done].
  rewrite Hdecode. unfold pageOf. cbn [ret default fst snd Nat.sub Nat.mul].
  rewrite ?Nat.mul_0_r, ?drop_0. fold user.
  change (id (take 100 members)) with (take 100 members).
  destruct (existsb (fun m => bool_decide (dockerhub.mUsername m = user))
              (take 100 members)) eqn:Hex; cbn [negb fst snd];
    unfold ret; cbn [fst snd respState respDiagnostics].
  - apply existsb_member in Hex. split; [done|]. split; [done|]. by split.
  - split; [done|]. split; [done|]. split; [|done].
    intros Hin. apply existsb_member in Hin. congruence.
Qed.

End team_member_facts.

Lemma Read_team_member_looks_at_the_first_page_only_witness :
  "u150" ∈ dockerhub.mUsername <$> teamExamples.members /\
  respState
    (OrgTeamMemberResource.Read teamExamples.okHub hubExamples.strictURL
       teamExamples.firstPageJSON id (Some teamExamples.client)
       teamExamples.lastMember examples.hubStart).1 = None.
Proof.
  split; [by vm_compute; set_solver|].
  refine (proj2 (proj2 (proj2
    (Read_team_member_looks_at_the_first_page_only
       teamExamples.okHub hubExamples.strictURL teamExamples.firstPageJSON id
       teamExamples.lastMember examples.hubStart teamExamples.client
       teamExamples.members _ tt eq_refl eq_refl eq_refl _ _ eq_refl))) _).
  - simpl. lia.
  - simpl. lia.
  - vm_compute. set_solver.
Defined.

(** ** ServiceResource.waitForConvergence without a timeout *)

Section no_timeout_facts.

Context {W : Type}.
Variable serve : Daemon W.
Variable Now : W -> Z.
Variable Sleep : Z -> W -> W.
Variable ParseDuration : string -> Result Z.

(** X16.  The error of [time.ParseDuration] is dropped: with a timeout
    that does not parse, or that is not positive, [waitForConvergence]
    neither inspects the service nor sleeps, and adds the warning that
    the service did not converge, whatever the state of the service. *)
Theorem waitForConvergence_without_timeout_only_warns
    (serviceID : string) (cfg : Got (list ConvergeConfigModel))
    (config : ConvergeConfigModel) (diags : Diagnostics)
    (fuel : nat) (s : Sys W) :
  head (gotData cfg) = Some config ->
  HasError (diags ++ gotDiags cfg) = false ->
  noDuration (ParseDuration (ValueString (Timeout config))) ->
  waitForConvergence serve Now Sleep ParseDuration (S fuel) serviceID cfg diags s
  = (Some (AddWarning (diags ++ gotDiags cfg) "Service Convergence Timeout"
             ("Service " +:+ serviceID +:+
              " did not converge within the timeout period")), s).
Proof.
  intros Hhead Hdiags Htimeout. unfold waitForConvergence. rewrite Hdiags.
  destruct (gotData cfg) as [|c rest] eqn:Hcfg; [done|].
  simpl in Hhead. injection Hhead as ->.
  cbn [length Nat.eqb orb head default].
  unfold bind at 1, timeNow at 1. cbn beta iota.
  cbn [convergeLoop]. unfold bind at 1, timeNow at 1. cbn beta iota.
  change (id config) with config.
  assert (Hle : (parsedDuration ParseDuration (Timeout config) <= 0)%Z).
  { unfold parsedDuration, noDuration in *.
    destruct (ParseDuration (ValueString (Timeout config))); [done|lia]. }
  destruct (Z.ltb_spec (Now (world s))
              (Now (world s) + parsedDuration ParseDuration (Timeout config))%Z);
    [lia|done].
Qed.

End no_timeout_facts.

Lemma waitForConvergence_without_timeout_only_warns_witness :
  noDuration (examples.parseExampleDuration "soon") /\
  waitForConvergence engine.serve engine.Now engine.Sleep
    examples.parseExampleDuration 1 "svc1" teamExamples.untilSoon []
    (engine.start examples.rolloutEngine)
  = (Some (timeoutWarning [] "svc1"), engine.start examples.rolloutEngine).
Proof.
  split; [exact I|].
  exact (waitForConvergence_without_timeout_only_warns engine.serve engine.Now
           engine.Sleep examples.parseExampleDuration "svc1"
           teamExamples.untilSoon _ [] 0%nat
           (engine.start examples.rolloutEngine) eq_refl eq_refl I).
Defined.

(** ** DockerProvider.Configure *)

Section Configure_more_facts.

Context {H : Type}.
Variable transport : dockerhub.Transport H.
Variable NewRequestWithContext : string -> string -> option Error.
Variable json : dockerhub.JSON.
Variable sdk : docker.SDK.
Variable Getenv : string -> string.

Import DockerProvider.

Lemma eqb_empty (x : string) : String.eqb x "" = false <-> x <> "".
Proof. by destruct (String.eqb_spec x ""). Qed.

(** X17.  [Configure] hands the same provider data to data sources and
    to resources, and it hands out provider data exactly when it reports
    no error.  The Docker client it hands out was built from the
    configuration merged with the environment, and when that asks for
    TLS verification it names a certificate directory or carries a CA
    certificate, a certificate and a key. *)
Theorem Configure_publishes_a_client_or_reports_an_error
    (req : Got DockerProviderModel) (s : dockerhub.HubSys H) :
  let cfg := clientConfig Getenv (gotData req) in
  let run := Configure transport json sdk Getenv req s in
  DataSourceData run.1 = ResourceData run.1 /\
  (ResourceData run.1 = None <-> HasError (Diagnostics' run.1) = true) /\
  (forall data,
     ResourceData run.1 = Some data ->
     docker.NewClient sdk cfg = inr (DockerClient data) /\
     docker.config (DockerClient data) = cfg /\
     (docker.TLSVerify cfg = true ->
      docker.CertPath cfg <> "" \/
      (docker.CACert cfg <> "" /\ docker.Cert cfg <> "" /\ docker.Key cfg <> ""))).
Proof.
  intros cfg run. subst run. unfold Configure. fold cfg.
  destruct (HasError (gotDiags req)) eqn:Hdiags; [by cbn|].
  destruct (docker.TLSVerify cfg && _ && _) eqn:Htls.
  { unfold ret; cbn [fst snd Diagnostics' DataSourceData ResourceData].
    rewrite HasError_AddError. by split. }
  destruct (docker.NewClient sdk cfg) as [err|dockerClient] eqn:Hnew.
  { unfold ret; cbn [fst snd Diagnostics' DataSourceData ResourceData].
    rewrite HasError_AddError. by split. }
  assert (Hcerts : docker.TLSVerify cfg = true ->
            docker.CertPath cfg <> "" \/
            (docker.CACert cfg <> "" /\ docker.Cert cfg <> "" /\
             docker.Key cfg <> "")).
  { intros Hverify. rewrite Hverify in Htls. cbn [andb] in Htls.
    destruct (String.eqb (docker.CertPath cfg) "") eqn:Hp;
      [|left; by apply eqb_empty].
    right. cbn [negb andb] in Htls. apply negb_false_iff in Htls.
    apply andb_true_iff in Htls as [Htls Hk].
    apply andb_true_iff in Htls as [Ha Hc].
    apply negb_true_iff in Ha, Hc, Hk. by rewrite <- !eqb_empty. }
  assert (Hconfig : docker.config dockerClient = cfg).
  { unfold docker.NewClient in Hnew.
    destruct (if docker.TLSVerify cfg then _ else _); [done|].
    destruct (docker.NewClientWithOpts sdk cfg); [done|].
    destruct (docker.Ping sdk cfg); [done|]. by injection Hnew as <-. }
  unfold bind.
  destruct (hubCredentials Getenv (gotData req)).
  - unfold bind.
    destruct (dockerhub.NewClient transport json _ s) as [[err|c] s'];
      unfold ret; cbn [fst snd Diagnostics' DataSourceData ResourceData].
    + rewrite HasError_AddWarning, Hdiags. split; [done|]. split; [done|].
      by intros data [= <-].
    + rewrite Hdiags. split; [done|]. split; [done|]. by intros data [= <-].
  - unfold ret; cbn [fst snd Diagnostics' DataSourceData ResourceData].
    rewrite Hdiags. split; [done|]. split; [done|]. by intros data [= <-].
Qed.

(** X18.  A hub token is used as it is: with a hub user name and a hub
    token, whether or not a password is given as well, [Configure]
    sends nothing to Docker Hub, adds no diagnostic, and hands out a
    hub client that carries the token and the user name. *)
Theorem Configure_with_a_hub_token_does_not_log_in
    (req : Got DockerProviderModel) (s : dockerhub.HubSys H)
    (dockerClient : docker.Client) :
  let config := gotData req in
  HasError (gotDiags req) = false ->
  docker.NewClient sdk (clientConfig Getenv config) = inr dockerClient ->
  hubUsername Getenv config <> "" ->
  hubToken Getenv config <> "" ->
  let data :=
    {| DockerClient := dockerClient;
       HubClient := Some {| dockerhub.baseURL := dockerhub.DefaultBaseURL;
                            dockerhub.token := hubToken Getenv config;
                            dockerhub.username := hubUsername Getenv config |} |} in
  Configure transport json sdk Getenv req s =
  ({| Diagnostics' := gotDiags req;
      DataSourceData := Some data;
      ResourceData := Some data |}, s).
Proof.
  intros config Hdiags Hnew Huser Htoken data.
  unfold Configure. fold config.
  rewrite Hdiags, (NewClient_has_certificates _ _ _ Hnew), Hnew.
  assert (Hcred : hubCredentials Getenv config = true).
  { unfold hubCredentials. apply eqb_empty in Huser, Htoken.
    rewrite Huser, Htoken. cbn. by rewrite orb_true_r. }
  rewrite Hcred. unfold bind, dockerhub.NewClient.
  cbn [hubConfig dockerhub.Token dockerhub.Username].
  destruct (decide (hubToken Getenv config <> "")) as [_|]; [|done].
  done.
Qed.

End Configure_more_facts.

Lemma Configure_with_a_hub_token_does_not_log_in_witness :
  DockerProvider.hubUsername examples.noEnv (gotData teamExamples.aliceWithAll) <> "" /\
  DockerProvider.hubToken examples.noEnv (gotData teamExamples.aliceWithAll) <> "" /\
  (DockerProvider.Configure examples.rejectingHub examples.eofJSON
     examples.plainSDK examples.noEnv teamExamples.aliceWithAll
     examples.hubStart).2 = examples.hubStart.
Proof.
  split; [discriminate|]. split; [discriminate|].
  exact (f_equal snd
           (Configure_with_a_hub_token_does_not_log_in
              examples.rejectingHub examples.eofJSON examples.plainSDK
              examples.noEnv teamExamples.aliceWithAll examples.hubStart _
              eq_refl eq_refl
              ltac:(discriminate) ltac:(discriminate))).
Defined.

(** ** The networks and volumes of a compose stack *)

Lemma append_inj_l (a x y : string) : a +:+ x = a +:+ y -> x = y.
Proof.
  induction a as [|c a IH]; [done|].
  intros Heq. apply IH.
  change (String c (a +:+ x) = String c (a +:+ y)) in Heq. by injection Heq.
Qed.

Ltac on_declared_networks :=
  repeat (apply Forall_cons_2;
          [unfold onDeclared; cbn [networkRequested volumeRequested];
           split; intros ? ?; simplify_eq; try done|]);
  apply Forall_nil_2.

Section network_facts.

Context {W : Type}.
Variable serve : Daemon W.
Variable ReadFile : string -> Result string.
Variable loadProject : string -> string -> Result Project.
Variable Sum256 : string -> string.
Variable mapRange : string -> list string -> list string.
Variable mapRangeServices : list string -> list string.
Variable mapRangeNetworks : list string -> list string.
Variable mapRangeVolumes : list string -> list string.

Lemma createNetwork_declared projectName project name cfg (s : Sys W) e s' :
  pNetworks project !! name = Some cfg ->
  createNetwork serve projectName name cfg s = (e, s') ->
  exists rs, trace s' = trace s ++ rs /\
             Forall (onDeclared projectName project) rs.
Proof.
  intros Hcfg. unfold createNetwork. intros Hrun.
  destruct (nExternal cfg) eqn:Hext.
  { injection Hrun as <- <-. exists []. by rewrite app_nil_r. }
  assert (Hdecl : declaredNetwork projectName project
                    (projectName +:+ "_" +:+ name)) by (by exists name, cfg).
  next_call Hrun. destruct a.
  - next_call Hrun. eexists [_; _]. split.
    + destruct a; injection Hrun as <- <-; rewrite Hcall0, Hcall;
        by rewrite <- app_assoc.
    + on_declared_networks.
  - injection Hrun as <- <-. eexists [_]. split; [exact Hcall|].
    on_declared_networks.
Qed.

Lemma createVolume_declared projectName project name cfg (s : Sys W) e s' :
  pVolumes project !! name = Some cfg ->
  createVolume serve projectName name cfg s = (e, s') ->
  exists rs, trace s' = trace s ++ rs /\
             Forall (onDeclared projectName project) rs.
Proof.
  intros Hcfg. unfold createVolume. intros Hrun.
  destruct (vExternal cfg) eqn:Hext.
  { injection Hrun as <- <-. exists []. by rewrite app_nil_r. }
  assert (Hdecl : declaredVolume projectName project
                    (projectName +:+ "_" +:+ name)) by (by exists name, cfg).
  next_call Hrun. destruct a.
  - next_call Hrun. eexists [_; _]. split.
    + destruct a; injection Hrun as <- <-; rewrite Hcall0, Hcall;
        by rewrite <- app_assoc.
    + on_declared_networks.
  - injection Hrun as <- <-. eexists [_]. split; [exact Hcall|].
    on_declared_networks.
Qed.

Lemma createService_declared projectName serviceName service project
    (s : Sys W) e s' :
  createService serve projectName serviceName service project s = (e, s') ->
  exists rs, trace s' = trace s ++ rs /\
             Forall (onDeclared projectName project) rs.
Proof.
  unfold createService. intros Hrun. next_call Hrun. destruct a as [err|c].
  - next_call Hrun. destruct a as [err'|id].
    + injection Hrun as <- <-. eexists [_; _]. split.
      * rewrite Hcall0, Hcall. by rewrite <- app_assoc.
      * on_declared_networks.
    + next_call Hrun. eexists [_; _; _]. split.
      * destruct a; injection Hrun as <- <-; rewrite Hcall1, Hcall0, Hcall;
          by rewrite <- !app_assoc.
      * on_declared_networks.
  - destruct (call serve _ s0) as [a s1] eqn:Hcall0.
    apply call_trace in Hcall0. injection Hrun as <- <-.
    eexists [_; _]. split.
    + rewrite Hcall0, Hcall. by rewrite <- app_assoc.
    + on_declared_networks.
Qed.

Lemma loop_declared {A} (f : A -> M W (option Error)) projectName project :
  (forall x s e s', f x s = (e, s') ->
     exists rs, trace s' = trace s ++ rs /\
                Forall (onDeclared projectName project) rs) ->
  forall xs s r s', forEachUntilError f xs s = (r, s') ->
    exists rs, trace s' = trace s ++ rs /\
               Forall (onDeclared projectName project) rs.
Proof.
  intros Hf xs s r s' Hrun.
  eapply (forEachUntilError_trace _
            (fun _ rs => Forall (onDeclared projectName project) rs)
            (fun _ rs => Forall (onDeclared projectName project) rs))
    in Hrun as (k & blocks & Ht & Hb & _).
  - exists (concat blocks). split; [done|]. by eapply Forall_concat_blocks.
  - intros x s0 e s0' Hx. destruct (Hf x s0 e s0' Hx) as (rs & ? & ?).
    by exists rs.
Qed.

Lemma Create_declared_run (req : ResourceRequest ComposeResourceModel)
    (s : Sys W) project resp s' :
  let data := gotData (reqGet req) in
  let projectName := ValueString (ProjectName data) in
  parseComposeFile ReadFile loadProject data = inr project ->
  Create serve ReadFile loadProject Sum256 mapRange mapRangeServices
    mapRangeNetworks mapRangeVolumes req s = (resp, s') ->
  exists rs, trace s' = trace s ++ rs /\
             Forall (onDeclared projectName project) rs.
Proof.
  intros data projectName Hparse Hrun. unfold Create in Hrun.
  fold data projectName in Hrun.
  assert (Hnil : exists rs, trace s = trace s ++ rs /\
                   Forall (onDeclared projectName project) rs).
  { exists []. by rewrite app_nil_r. }
  destruct (HasError (gotDiags (reqGet req))).
  { by injection Hrun as <- <-. }
  destruct (IsNull (ComposeFile data) && IsNull (ComposeContent data)).
  { by injection Hrun as <- <-. }
  rewrite Hparse in Hrun.
  unfold bind at 1 in Hrun.
  destruct (createNetworks _ _ _ _ s) as [n s1] eqn:Hnets.
  unfold createNetworks in Hnets.
  apply (loop_declared _ projectName project) in Hnets as (r1 & Ht1 & Hp1).
  2:{ intros x s0 e s0' Hx. destruct (pNetworks project !! x) eqn:Hcfg.
      - by eapply createNetwork_declared.
      - injection Hx as <- <-. exists []. by rewrite app_nil_r. }
  destruct n as [[name err]|].
  { injection Hrun as <- <-. by exists r1. }
  unfold bind at 1 in Hrun.
  destruct (createVolumes _ _ _ _ s1) as [v s2] eqn:Hvols.
  unfold createVolumes in Hvols.
  apply (loop_declared _ projectName project) in Hvols as (r2 & Ht2 & Hp2).
  2:{ intros x s0 e s0' Hx. destruct (pVolumes project !! x) eqn:Hcfg.
      - by eapply createVolume_declared.
      - injection Hx as <- <-. exists []. by rewrite app_nil_r. }
  assert (H12 : exists rs, trace s2 = trace s ++ rs /\
                  Forall (onDeclared projectName project) rs).
  { exists (r1 ++ r2). split; [by rewrite Ht2, Ht1, app_assoc|].
    by apply Forall_app. }
  destruct v as [[name err]|].
  { by injection Hrun as <- <-. }
  unfold bind at 1 in Hrun.
  destruct (createServices _ _ _ _ _ s2) as [sv s3] eqn:Hsvcs.
  unfold createServices in Hsvcs.
  apply (loop_declared _ projectName project) in Hsvcs as (r3 & Ht3 & Hp3).
  2:{ intros x s0 e s0' Hx. by eapply createService_declared. }
  destruct H12 as (r12 & Ht12 & Hf12).
  assert (H123 : exists rs, trace s3 = trace s ++ rs /\
                   Forall (onDeclared projectName project) rs).
  { exists (r12 ++ r3). split; [by rewrite Ht3, Ht12, app_assoc|].
    by apply Forall_app. }
  destruct sv as [[name err]|].
  { by injection Hrun as <- <-. }
  unfold bind in Hrun.
  destruct (refreshStackInfo _ _ _ _ s3) as [d s4] eqn:Hrefresh.
  apply refreshStackInfo_trace in Hrefresh.
  injection Hrun as <- <-. destruct H123 as (r123 & Ht123 & Hf123).
  eexists (r123 ++ [_]). split.
  - rewrite Hrefresh, Ht123. by rewrite <- app_assoc.
  - apply Forall_app. split; [done|]. on_declared_networks.
Qed.

(** X19.  [Create] provisions the networks the compose file declares and
    no other: every network it inspects or creates is a declared network
    that is not external, under the name [<project>_<name>].  A service that names no network is attached to
    [<project>_default]; unless the compose file declares a network
    [default], no request of [Create] creates that network. *)
Theorem Create_provisions_only_declared_networks
    (req : ResourceRequest ComposeResourceModel) (s : Sys W) project :
  let data := gotData (reqGet req) in
  let projectName := ValueString (ProjectName data) in
  parseComposeFile ReadFile loadProject data = inr project ->
  let run := Create serve ReadFile loadProject Sum256 mapRange mapRangeServices
               mapRangeNetworks mapRangeVolumes req s in
  (forall name service,
     pServices project !! name = Some service ->
     Networks service = ∅ ->
     sEndpoints (containerSpec projectName name service project)
       = {[ projectName +:+ "_default" ]}) /\
  exists rs,
    trace run.2 = trace s ++ rs /\
    (forall r n, r ∈ rs -> networkRequested r = Some n ->
       declaredNetwork projectName project n) /\
    (pNetworks project !! "default" = None ->
     forall r, r ∈ rs ->
       networkRequested r <> Some (projectName +:+ "_default")).
Proof.
  intros data projectName Hparse run. split.
  { intros name service _ Hnone. unfold containerSpec. cbn [sEndpoints].
    by destruct (decide (Networks service = ∅)). }
  destruct run as [resp s'] eqn:Hrun. subst run.
  apply (Create_declared_run req s project) in Hrun as (rs & Ht & Hrs);
    [|done].
  exists rs. split; [done|]. rewrite Forall_forall in Hrs. split.
  - intros r n Hr Hn. by apply (proj1 (Hrs r Hr)).
  - intros Hdefault r Hr Hn.
    destruct (proj1 (Hrs r Hr) _ Hn) as (name & cfg & Hcfg & _ & Heq).
    apply append_inj_l in Heq.
    change (String "_" "default" = String "_" name) in Heq.
    injection Heq as <-. congruence.
Qed.

(** X20.  [Create] provisions the volumes the compose file declares and
    that are not external, under the name [<project>_<name>], and no
    other.  A container that mounts a declared volume mounts it under
    that name, whether the volume is external or not: for an external
    volume [Create] sends no request that names [<project>_<name>], yet
    the container is created with a mount of that source. *)
Theorem Create_mounts_declared_volumes_under_the_project_name
    (req : ResourceRequest ComposeResourceModel) (s : Sys W) project :
  let data := gotData (reqGet req) in
  let projectName := ValueString (ProjectName data) in
  parseComposeFile ReadFile loadProject data = inr project ->
  let run := Create serve ReadFile loadProject Sum256 mapRange mapRangeServices
               mapRangeNetworks mapRangeVolumes req s in
  (forall serviceName service v cfg,
     v ∈ Volumes service ->
     vType v = "volume" \/ vType v = "" ->
     Target v <> "" ->
     pVolumes project !! Source v = Some cfg ->
     {| mType := TypeVolume; mSource := projectName +:+ "_" +:+ Source v;
        mTarget := Target v; mReadOnly := ReadOnly v |}
     ∈ sMounts (containerSpec projectName serviceName service project)) /\
  exists rs,
    trace run.2 = trace s ++ rs /\
    (forall r n, r ∈ rs -> volumeRequested r = Some n ->
       declaredVolume projectName project n) /\
    (forall name cfg,
       pVolumes project !! name = Some cfg ->
       vExternal cfg = true ->
       forall r, r ∈ rs ->
         volumeRequested r <> Some (projectName +:+ "_" +:+ name)).
Proof.
  intros data projectName Hparse run. split.
  { intros serviceName service v cfg Hv Htype Htarget Hcfg.
    unfold containerSpec. cbn [sMounts].
    apply list_elem_of_filter. split.
    - by cbn [mTarget].
    - apply list_elem_of_fmap. exists v. split; [|done].
      unfold mountOf. rewrite Hcfg.
      by destruct (decide (vType v = "volume" \/ vType v = "")). }
  destruct run as [resp s'] eqn:Hrun. subst run.
  apply (Create_declared_run req s project) in Hrun as (rs & Ht & Hrs);
    [|done].
  exists rs. split; [done|]. rewrite Forall_forall in Hrs. split.
  - intros r n Hr Hn. by apply (proj2 (Hrs r Hr)).
  - intros name cfg Hcfg Hext r Hr Hn.
    destruct (proj2 (Hrs r Hr) _ Hn) as (name' & cfg' & Hcfg' & Hext' & Heq).
    apply append_inj_l in Heq.
    change (String "_" name = String "_" name') in Heq.
    injection Heq as <-. congruence.
Qed.

End network_facts.

Lemma Create_provisions_only_declared_networks_witness :
  pNetworks app_db_cache !! "default" = None /\
  exists rs,
    trace examples.shopCreate.2 = rs /\
    forall r, r ∈ rs -> networkRequested r <> Some "shop_default".
Proof.
  split; [reflexivity|].
  destruct (Create_provisions_only_declared_networks engine.serve
              examples.noFile examples.loadShop examples.plainDigest
              rangeInOrder rangeServicesInOrder rangeServicesInOrder
              rangeServicesInOrder examples.shopRequest
              (engine.start examples.emptyEngine) app_db_cache eq_refl)
    as (_ & rs & Ht & _ & Hdefault).
  exists rs. split; [exact Ht|]. exact (Hdefault eq_refl).
Defined.

Lemma Create_mounts_declared_volumes_under_the_project_name_witness :
  pVolumes volumeExamples.sharedData !! "data" = Some volumeExamples.externalData /\
  {| mType := TypeVolume; mSource := "shop_data"; mTarget := "/var/lib/db";
     mReadOnly := false |}
  ∈ sMounts (containerSpec "shop" "db" volumeExamples.db
               volumeExamples.sharedData) /\
  forall r,
    r ∈ trace (Create engine.serve examples.noFile volumeExamples.loadShared
                 examples.plainDigest rangeInOrder rangeServicesInOrder
                 rangeServicesInOrder rangeServicesInOrder
                 volumeExamples.sharedRequest
                 (engine.start examples.emptyEngine)).2 ->
    volumeRequested r <> Some "shop_data".
Proof.
  destruct (Create_mounts_declared_volumes_under_the_project_name engine.serve
              examples.noFile volumeExamples.loadShared examples.plainDigest
              rangeInOrder rangeServicesInOrder rangeServicesInOrder
              rangeServicesInOrder volumeExamples.sharedRequest
              (engine.start examples.emptyEngine) volumeExamples.sharedData
              eq_refl)
    as (Hmount & rs & Ht & _ & Hexternal).
  split; [reflexivity|]. split.
  - refine (Hmount "db" volumeExamples.db volumeExamples.dataMount
              volumeExamples.externalData _ (or_introl eq_refl) _ eq_refl).
    + apply list_elem_of_singleton. reflexivity.
    + discriminate.
  - intros r Hr. rewrite Ht in Hr.
    exact (Hexternal "data" volumeExamples.externalData eq_refl eq_refl r Hr).
Defined.

(** ** parseService *)

Lemma stringsOf_Str (names : list string) : stringsOf (yaml.Str <$> names) = names.
Proof.
  induction names as [|n names IH]; [done|].
  change (stringsOf (yaml.Str <$> n :: names))
    with (n :: stringsOf (yaml.Str <$> names)).
  by rewrite IH.
Qed.

Lemma mountOf_target projectName project v :
  mTarget (mountOf projectName project v) <> "" ->
  mTarget (mountOf projectName project v) = Target v.
Proof.
  unfold mountOf.
  destruct (decide (vType v = "volume" \/ vType v = "")); [done|].
  by destruct (decide (vType v = "bind")).
Qed.

(** X21.  A volume of a service is mounted only when it is written as a
    mapping with a target that is not empty.  A volume in the short
    syntax, a string, is stored with the whole string as its source and
    no target, and [createService] leaves it out: a service all of whose
    volumes are strings gets no mount. *)
Theorem short_syntax_volumes_are_not_mounted
    (projectName name : string) (cfg : gmap string yaml.Value)
    (items : list yaml.Value) (project : Project)
    (service : composetypes'.ServiceConfig) :
  parseService name (yaml.Map cfg) = inr service ->
  cfg !! "volumes" = Some (yaml.Seq items) ->
  let mounts :=
    sMounts (containerSpec projectName name (composetypes'.base service) project) in
  (forall m, m ∈ mounts ->
     mTarget m <> "" /\
     exists vol, yaml.Map vol ∈ items /\
                 yaml.asString (vol !! "target") = Some (mTarget m)) /\
  ((forall item, item ∈ items -> exists s, item = yaml.Str s) -> mounts = []).
Proof.
  intros Hparse Hvolumes mounts.
  assert (Hmounts : forall m, m ∈ mounts ->
            mTarget m <> "" /\
            exists vol, yaml.Map vol ∈ items /\
                        yaml.asString (vol !! "target") = Some (mTarget m)).
  { intros m Hm. subst mounts. injection Hparse as <-.
    unfold containerSpec in Hm. cbn [sMounts composetypes'.base Volumes] in Hm.
    rewrite Hvolumes in Hm. cbn [yaml.asSeq] in Hm.
    apply list_elem_of_filter in Hm as [Htarget Hm]. split; [done|].
    apply list_elem_of_fmap in Hm as (v & -> & Hv).
    apply list_elem_of_omap in Hv as (item & Hitem & Hv).
    pose proof (mountOf_target _ _ _ Htarget) as Heq.
    rewrite Heq in Htarget. rewrite Heq. clear Heq.
    destruct item as [| |n|b|l|vol|]; try discriminate Hv.
    - injection Hv as <-. done.
    - injection Hv as <-. exists vol. split; [done|].
      cbn [Target] in *.
      by destruct (yaml.asString (vol !! "target")). }
  split; [done|].
  intros Hshort. apply elem_of_nil_inv. intros m Hm.
  destruct (Hmounts m Hm) as (_ & vol & Hvol & _).
  by destruct (Hshort _ Hvol).
Qed.

Lemma short_syntax_volumes_are_not_mounted_witness :
  sMounts (containerSpec "shop" "web"
             (serviceFrom "web" (yaml.Map parseExamples.web)) app_db_cache) = [].
Proof.
  refine (proj2 (short_syntax_volumes_are_not_mounted "shop" "web"
                   parseExamples.web _ app_db_cache _ eq_refl eq_refl) _).
  intros item Hitem. apply list_elem_of_singleton in Hitem as ->. by eexists.
Defined.

Ltac other_keys :=
  repeat match goal with
         | |- context [<[?k := ?v]> ?m !! ?j] =>
             rewrite (lookup_insert_ne m k j v) by done
         end.

(** X22.  [depends_on] and [networks] may be a list of names or a
    mapping: a mapping counts for its keys only.  The service parsed
    from the list of names is the service parsed from any mapping with
    those keys, whatever the mapping says under them. *)
Theorem list_and_mapping_of_names_agree
    (name key : string) (cfg : gmap string yaml.Value)
    (names : list string) (entries : gmap string yaml.Value) :
  key = "depends_on" \/ key = "networks" ->
  dom entries = list_to_set names ->
  parseService name (yaml.Map (<[key := yaml.Seq (yaml.Str <$> names)]> cfg)) =
  parseService name (yaml.Map (<[key := yaml.Map entries]> cfg)).
Proof.
  intros [-> | ->] Hdom; unfold parseService; other_keys;
    rewrite !lookup_insert_eq; unfold parseNames;
    by rewrite stringsOf_Str, Hdom.
Qed.

Lemma list_and_mapping_of_names_agree_witness :
  parseService "web" (yaml.Map (<["depends_on" := yaml.Seq [yaml.Str "db"]]>
                                  parseExamples.web)) =
  parseService "web" (yaml.Map (<["depends_on" := yaml.Map parseExamples.healthy]>
                                  parseExamples.web)).
Proof.
  apply (list_and_mapping_of_names_agree "web" "depends_on" parseExamples.web
           ["db"] parseExamples.healthy (or_introl eq_refl)).
  unfold parseExamples.healthy. rewrite dom_singleton_L. set_solver.
Defined.

Lemma SplitN2_assignment (k v : string) :
  Count k "=" = 0%nat -> SplitN2 (k +:+ "=" +:+ v) "=" = [k; v].
Proof.
  induction k as [|c k IH]; [done|].
  cbn [Count]. change (String c k +:+ "=" +:+ v) with (String c (k +:+ "=" +:+ v)).
  cbn [SplitN2]. destruct (Ascii.eqb c "="); [done|].
  intros Hk. by rewrite IH.
Qed.

Lemma parseEnvironment_assignments (kvs : list (string * string)) :
  forall env : gmap string string,
    Forall (fun kv => Count kv.1 "=" = 0%nat) kvs ->
    foldl (fun (env : gmap string string) (item : yaml.Value) =>
             match item with
             | yaml.Str s =>
                 match SplitN2 s "=" with
                 | [k; val] => <[k := val]> env
                 | _ => env
                 end
             | _ => env
             end) env (assignment <$> kvs)
    = list_to_map (reverse kvs) ∪ env.
Proof.
  induction kvs as [|[k v] kvs IH]; intros env Hkvs.
  { cbn. by rewrite (left_id_L ∅ (∪)). }
  apply Forall_cons in Hkvs as [Hk Hkvs].
  cbn [fmap list_fmap foldl assignment fst snd].
  rewrite (SplitN2_assignment k v Hk), (IH _ Hkvs).
  rewrite reverse_cons, list_to_map_app. cbn [list_to_map foldr].
  rewrite <- (assoc_L (∪)). f_equal.
  by rewrite insert_union_singleton_l, insert_empty.
Qed.

(** X23.  [environment] may be a list of [k=v] items or a mapping.  For
    distinct names that contain no [=], the service parsed from the list
    is the service parsed from the mapping of the names to the values. *)
Theorem list_and_mapping_of_environment_agree
    (name : string) (cfg : gmap string yaml.Value)
    (kvs : list (string * string)) :
  NoDup kvs.*1 ->
  Forall (fun kv => Count kv.1 "=" = 0%nat) kvs ->
  parseService name
    (yaml.Map (<["environment" := yaml.Seq (assignment <$> kvs)]> cfg)) =
  parseService name
    (yaml.Map (<["environment" := yaml.Map (yaml.Str <$> list_to_map kvs)]> cfg)).
Proof.
  intros Hdup Hkvs. unfold parseService. other_keys.
  rewrite !lookup_insert_eq. unfold parseEnvironment.
  rewrite (parseEnvironment_assignments kvs ∅ Hkvs), (right_id_L ∅ (∪)).
  do 2 f_equal.
  rewrite <- (list_to_map_proper kvs (reverse kvs) Hdup)
    by (by rewrite reverse_Permutation).
  apply map_eq. intros k. rewrite lookup_omap, lookup_fmap.
  by destruct (list_to_map kvs !! k).
Qed.

Lemma list_and_mapping_of_environment_agree_witness :
  parseService "web"
    (yaml.Map (<["environment" := yaml.Seq [yaml.Str "MODE=fast"; yaml.Str "OPTS=a=b"]]>
                 parseExamples.web)) =
  parseService "web"
    (yaml.Map (<["environment" :=
                   yaml.Map (yaml.Str <$> list_to_map [("MODE", "fast"); ("OPTS", "a=b")])]>
                 parseExamples.web)).
Proof.
  apply (list_and_mapping_of_environment_agree "web" parseExamples.web
           [("MODE", "fast"); ("OPTS", "a=b")]).
  - cbn. repeat constructor; set_solver.
  - by repeat constructor.
Defined.

(** ** parseComposeFile *)

Section loadProject_facts.

Variable Unmarshal : string -> Result (gmap string yaml.Value).
Variable mapRangeConfig :
  list (string * yaml.Value) -> list (string * yaml.Value).
Hypothesis mapRangeConfig_perm : forall entries, mapRangeConfig entries ≡ₚ entries.

Lemma parseServices_run (entries : list (string * yaml.Value)) :
  forall services,
    parseServices entries services =
    inr (foldl (fun m e => <[e.1 := serviceFrom e.1 e.2]> m) services entries).
Proof.
  induction entries as [|[n v] entries IH]; intros services; [done|].
  cbn [parseServices foldl fst snd]. unfold serviceFrom at 2.
  destruct (parseService n v) as [err|service] eqn:Hparse.
  { exfalso. unfold parseService in Hparse. by destruct v. }
  apply IH.
Qed.

Lemma stored_services (entries : list (string * yaml.Value)) :
  forall (services : gmap string composetypes.ServiceConfig) (k : string),
    NoDup entries.*1 ->
    foldl (fun m e => <[e.1 := serviceFrom e.1 e.2]> m) services entries !! k =
    match (list_to_map entries : gmap string yaml.Value) !! k with
    | Some v => Some (serviceFrom k v)
    | None => services !! k
    end.
Proof.
  induction entries as [|[n v] entries IH]; intros services k Hdup; [done|].
  apply NoDup_cons in Hdup as [Hn Hdup].
  cbn [foldl fst snd list_to_map foldr]. rewrite (IH _ _ Hdup).
  destruct (decide (n = k)) as [->|Hne].
  - rewrite (not_elem_of_list_to_map_1 _ _ Hn). by rewrite !lookup_insert_eq.
  - by rewrite !lookup_insert_ne.
Qed.

(** X24.  Once the YAML is decoded, the conversion into a project cannot
    fail, and its result does not depend on the order in which the
    services are visited: the project has one service for each entry
    of [services], one network for each entry of [networks] and one
    volume for each entry of [volumes]; a section that is missing, or
    that is not a mapping, counts as empty.  The conversion fails only
    with the error of [yaml.Unmarshal]. *)
Theorem loadProject_converts_every_decoded_document (name content : string) :
  match Unmarshal content with
  | inl err =>
      loadProject Unmarshal mapRangeConfig name content
      = inl ("failed to parse YAML: " +:+ err)
  | inr rawConfig =>
      loadProject Unmarshal mapRangeConfig name content
      = inr {| pName := name;
               pServices := map_imap (fun n v => Some (serviceFrom n v))
                                     (section rawConfig "services");
               pNetworks := parseNetwork <$> section rawConfig "networks";
               pVolumes := parseVolume <$> section rawConfig "volumes" |}
  end.
Proof.
  unfold loadProject, section.
  destruct (Unmarshal content) as [err|rawConfig]; [done|].
  assert (Hservices :
    match yaml.asMap (rawConfig !! "services") with
    | Some services => parseServices (mapRangeConfig (map_to_list services)) ∅
    | None => inr ∅
    end = inr (map_imap (fun n v => Some (serviceFrom n v))
                 (default ∅ (yaml.asMap (rawConfig !! "services"))))).
  { destruct (yaml.asMap (rawConfig !! "services")) as [services|]; cbn [default].
    - rewrite parseServices_run. f_equal. apply map_eq. intros k.
      assert (Hdup : NoDup (mapRangeConfig (map_to_list services)).*1).
      { rewrite mapRangeConfig_perm. apply NoDup_fst_map_to_list. }
      rewrite (stored_services _ _ _ Hdup), map_lookup_imap.
      rewrite (list_to_map_proper _ (map_to_list services) Hdup)
        by apply mapRangeConfig_perm.
      rewrite list_to_map_to_list, lookup_empty. change (id services) with services.
      by destruct (services !! k).
    - reflexivity. }
  rewrite Hservices. do 2 f_equal.
  - destruct (yaml.asMap (rawConfig !! "networks")); [done|].
    cbn [default]. by rewrite fmap_empty.
  - destruct (yaml.asMap (rawConfig !! "volumes")); [done|].
    cbn [default]. by rewrite fmap_empty.
Qed.

End loadProject_facts.

Lemma loadProject_converts_every_decoded_document_witness :
  (forall entries, parseExamples.rangeConfigReversed entries ≡ₚ entries) /\
  exists project,
    loadProject parseExamples.decoded parseExamples.rangeConfigReversed "shop" ""
    = inr project /\
    pNetworks project = ∅ /\
    dom (pServices project) = {[ "web"; "db" ]}.
Proof.
  assert (Hperm : forall entries,
            parseExamples.rangeConfigReversed entries ≡ₚ entries).
  { intros entries. apply reverse_Permutation. }
  split; [exact Hperm|].
  pose proof (loadProject_converts_every_decoded_document parseExamples.decoded
                parseExamples.rangeConfigReversed Hperm "shop" "") as Hload.
  cbn [parseExamples.decoded] in Hload.
  eexists. split; [exact Hload|]. cbn [pNetworks pServices].
  split; by vm_compute.
Defined.

(** ** The ports of a service *)

(** X25.  A port in the short syntax is a string that [createService]
    splits at its colons.  A string [<host>:<container>] with one colon
    exposes the port [<container>/tcp] and binds it to the host port
    [<host>], whatever [<container>] is (a protocol suffix stays in
    front of [/tcp]); a string with no colon, or with more than one, is
    ignored: nothing is exposed and nothing is bound. *)
Theorem short_syntax_ports_need_one_colon (s : string) :
  let maps := portMaps (omap parsePort [yaml.Str s]) in
  (forall host container,
     Count host ":" = 0%nat -> Count container ":" = 0%nat ->
     s = host +:+ ":" +:+ container ->
     maps = ({[ container +:+ "/tcp" ]},
             {[ container +:+ "/tcp" := [{| HostIP := ""; HostPort := host |}] ]})) /\
  (Count s ":" <> 1%nat -> maps = (∅, ∅)).
Proof.
  intros maps. subst maps. unfold portMaps.
  cbn [omap list_omap parsePort foldl portStep
       composetypes'.Target composetypes'.Published composetypes'.Protocol
       Z.ltb Z.compare].
  split.
  - intros host container Hhost Hcontainer ->.
    destruct (decide (host +:+ ":" +:+ container <> "")) as [_|Hempty].
    + change (host +:+ ":" +:+ container) with (host +:+ String ":" container).
      rewrite (Split_cons _ _ _ Hhost), (Split_part _ _ Hcontainer).
      by rewrite (right_id_L ∅ (∪)), insert_empty.
    + exfalso. apply Hempty. by destruct host.
  - intros Hcolons. destruct (decide (s <> "")); [|done].
    pose proof (Split_length s ":") as Hlen.
    destruct (Split s ":") as [|a [|b [|c l]]]; try done.
    simpl in Hlen. congruence.
Qed.

Lemma short_syntax_ports_need_one_colon_witness :
  portMaps (omap parsePort [yaml.Str "8080:80/udp"])
  = ({[ "80/udp/tcp" ]},
     {[ "80/udp/tcp" := [{| HostIP := ""; HostPort := "8080" |}] ]}) /\
  portMaps (omap parsePort [yaml.Str "127.0.0.1:8080:80"]) = (∅, ∅).
Proof.
  split.
  - exact (proj1 (short_syntax_ports_need_one_colon "8080:80/udp")
             "8080" "80/udp" eq_refl eq_refl eq_refl).
  - apply (proj2 (short_syntax_ports_need_one_colon "127.0.0.1:8080:80")).
    discriminate.
Defined.
